(* ===== verification/_CoqProject ===== *)
-Q . S2P
Prelude.v
JSNumber.v
Binary64.v
Nearest.v
Rates.v
JSString.v
Amounts.v
JSObject.v
JSArray.v
JSDate.v
GroupBy.v
Upsert.v
Ledger.v
Effects.v
VDom.v
AlertBox.v
Async.v
Row.v
Hourly.v
Guards.v
Locations.v
Hours.v
Compliance.v
Alerts.v
Accuracy.v
Members.v
ExactRates.v
AlertApp.v
ComplianceApp.v
SpecProperties.v
AlertView.v
ComplianceView.v
