(* ===== verification/Prelude.v ===== *)
(** * Security-guard dashboard: a verified model of the aggregation code

    ** The program

    The repository is a React single-page dashboard.  Two variants of its one
    component [App] exist:

    - [src/src/App.js], the alert dashboard: hourly activity and alert
      counts, per-location coverage, per-guard punctuality and alert rates;
    - [src/unnamed/part_001], the compliance dashboard: hourly buckets
      with on-time / location-accurate / delayed counts, per-guard performance
      scores, per-location coverage and punctuality rates and a compliance
      evaluation of both against fixed thresholds;
    - [src/unnamed/part_000] is the presentational [Alert] box.

    Both variants fetch two CSV exports, decode them with papaparse into
    arrays of row objects (column name to string) and run pure aggregation
    functions whose results are stored in React state and rendered.

    A load is one run of [loadData]: two fetches, two decodings, the
    aggregations, and the [setState] calls that store their results; an
    exception anywhere is caught and stored as the error of the component.
    The component then shows one of three screens: loading, error, or the
    dashboard with its date picker, tabs and search box.

    ** The language under the code

    The aggregations are short, and what they compute is decided by the
    language as much as by their text.  The first group of files is an
    account of the ECMAScript operations the sources call.  It is written
    from the language standard, not from the repository.

    - [Prelude] (this file): exceptions as values ([res], with the
      [TypeError] of a property read on [undefined] and the failure of a
      fetch), [foldM] for a [forEach] or [reduce] whose body may throw,
      counting ([count_if]), shared list lemmas and tactics.
    - [JSNumber]: numbers are IEEE-754 binary64 values, [spec_float] of the
      Standard Library at [prec = 53], [emax = 1024], with [+ - * /], the
      comparisons, [===], [Math.round] and [Math.min].
    - [Binary64]: the theory the Standard Library does not give for
      [spec_float]: the value of a number as a real, faithful rounding of
      [binary_round_aux] ([round_aux_faithful]) and from it of [+], [*] and
      [/] on non-negative operands, exactness on the integers up to [2^53],
      [Math.round] as the floor of [x + 1/2].  It ends in lemmas that do
      not mention the reals ([bounded], [percent_round], [of_nat_inj], ...),
      which is all the component files use.
    - [Nearest]: the operations round to nearest.  The result of [*] and
      [/] is a closest number of the format ([mul_nearest], [div_nearest]),
      within one part in [2^52] of the exact value ([faithful_error]) and
      determined by it except at the midpoint of two neighbours
      ([nearest_unique]); a quotient of two counters is never such a
      midpoint, so it depends on the ratio only ([div_ratio]).
    - [Rates]: the value of [Math.round((part / total) * 100)].  It is the
      integer [rounded_percent part total]: the percentage rounded half up,
      except for the four ratios [29/200], [57/200], [113/200] and [115/200]
      whose quotient is rounded below the half ([percent_reference]); and
      the comparison of the unrounded value with a whole number of per
      cent is the comparison of [100 * part] with [b * total]
      ([percent_geb]).  The two tables [down_ties] and [below_itself] are
      computed, one case per fraction of denominator 200 or 100.
    - [JSString]: a cell is [option string]; truthiness, [===] with a
      literal, [includes], [toLowerCase], [parseInt], [parseFloat].
    - [Amounts]: the numbers a sum of hours is made of, which have no
      bound: a non-negative number or [+Infinity] stays one under [+],
      under [*] and [/] by a positive counter and under [Math.round], and
      [parseFloat] of a text without a minus sign is such a number or
      [NaN] ([parseFloat_unsigned]).
    - [JSObject]: a plain object is the list of its own properties in
      creation order; a read continues in [Object.prototype] ([Obj.get]
      answers [Own], [Inherited] or [Undefined]); [Object.values] lists
      integer keys first; a [Set] is the list of its elements.
    - [JSArray]: [find] and the stable [sort] with a comparator.
    - [JSDate]: [new Date(s).getHours()] as the interface [DateLib] (a result
      is [NaN] or an hour from 0 to 23), with the instance [clock_date] for
      examples.
    - [Effects]: the monad of component state and exceptions in which the
      loaders are written, [try_catch_finally], what a fetch gives
      ([fetched]), the text of [err.message] and the choice of the screen.
    - [Row]: a decoded CSV row, a finite map from column names to cells.

    ** Two patterns, proved once

    - [GroupBy]: the reducer [find an element with this key, update it in
      place or push a new one] of both [processActivityData].  Keys are
      pairwise different under [===], every counted row has its bucket, and
      a counter of a bucket counts the rows of its key ([group_counter]).
    - [Upsert]: the [forEach] over rows that creates or updates the entry
      [obj[key]] of a plain object, of [processGuardData],
      [processLocationCoverage] and [processGuardStatistics].  The pass
      throws exactly on a key that names a member of [Object.prototype]
      ([foldM_upsert], [poison_exists]); otherwise it is a pure fold whose
      keys, counters and entry invariants are characterised.
    - [Ledger]: the specification of such a pass, a finite map ([gmap])
      from keys to entries in which the entry of a key is made from the
      rows of that key alone, in their order ([ledger_lookup]); the object
      of a pass implements it ([upsert_refines], [update_refines]).  Each
      aggregation has its ledger and its refinement theorem
      ([processGuardData_refines], [processLocationCoverage_refines],
      [guard_statistics_refines], [coverage_refines]), and respects the
      equivalence [same_rows] of exports that differ in the interleaving
      of the keys ([Proper] instances, up to the order of ties).

    ** The components

    Compliance dashboard, [src/unnamed/part_001]:
    - [Hourly]: [processActivityData] (lines 37-71).  Theorems: what each
      counter of a bucket counts, conservation of the total, order and
      distinctness of the hours, and two departures from the specification:
      [complianceRate] is the rate of the first row of the hour, and a date
      that does not parse makes a bucket of its own.
    - [Guards]: [processGuardData] (74-174), its two passes as
      [attendance_step] and [activity_step].  Theorems: when it throws, what
      the counters count, which guards appear, the three rates as integers
      from 0 to 100 in binary64 arithmetic, the order of the result, the
      worked example of the specification, and the order of ties.
    - [Locations]: [processLocationCoverage] (177-229).  Theorems: as for
      the guards.  [guardCount] is read as the [length] of a [Set]: it is
      [undefined] in every profile, by the definition of
      [location_metrics].
    - [Hours]: the [Duty Hours] both aggregations add up (113-118,
      208-213) and the average per covered shift (225-226).  Theorems: the
      hours of a guard and of a post are the sum of the cells that count,
      over the rows of that guard or post alone ([guard_hours],
      [location_hours]); without a minus sign in any cell the sums and
      averages are numbers, never [NaN] ([hours_are_numbers]), and with
      cells of at most [hmax] hours the average is a number of tenths
      from 0 to [hmax] ([average_hours_in_range]).
    - [Members]: the [Set] each aggregation of both dashboards keeps in
      an entry.  The array made of it has no element twice and holds the
      values of the rows of the key, all of them and nothing else
      ([guard_posts], [location_guards], [statistics_posts],
      [coverage_guards]); the post of a shift that names none is
      [undefined], and counts ([unnamed_post_is_covered]).
    - [Compliance]: [calculateComplianceMetrics] (232-296), with the
      parameter [activities] it never reads.  Theorems: the checks issued
      and passed, the scores as one of 0, 33, 67, 100, the overall score
      as a percentage or [NaN] on empty input, and that the staffing check
      can never pass.
    - [ComplianceApp]: the [useState] cells (17-34), [loadData] and its
      effect (299-354), the screens (357-371).  Theorems: a load stores all
      four results or only the error; the status of a response is ignored;
      the error is never cleared; the invariant of the reachable states;
      and the well-formedness of the data ([well_formed]: consistent
      counters, no guard and no location twice, metrics that belong to the
      profiles on display), which holds initially and which every event
      preserves ([compliance_well_formed]).  [loaded] is the part of the
      [try] block that computes: it returns the compliance metrics with
      the three aggregations, where the source calls
      [calculateComplianceMetrics] after the first three stores; the call
      is pure and cannot throw, so the states are the same.
    - [SpecProperties]: the testable properties the specification lists,
      stated of one day's computation ([ComplianceApp.loaded]): every rate
      in range and 0 on a zero denominator ([day_rates_in_range]), the
      three orders ([day_ordered]) and the worked examples that the code
      can run ([specification_examples]).
    - [ExactRates]: every rate the aggregations of both dashboards return
      is [rounded_percent] of its two counters ([location_rates_exact],
      [guard_rates_exact], [overall_exact], [guard_statistics_rates_exact]),
      which is the percentage rounded half up except at four fractions,
      where it is one less ([rates_depart_at_four_fractions]).

    Alert dashboard, [src/src/App.js]:
    - [Alerts], module [App]: [processActivityData] (42-67),
      [processLocationCoverage] (69-92), [processAttendanceData] (94-108),
      [processGuardStatistics] (110-167), [calculatePerformanceMetrics]
      (169-185).  Theorems: counters, rates and order as above; the coverage
      score is a percentage, or [NaN] when no post is named.
    - [AlertApp]: the [useState] cells (16-39), [processData] (187-198),
      [loadData] (201-239) and its effect (241-243), the screens (314-328)
      and the guard filter (331-334).  Theorems: what a successful load
      stores, what a failing one leaves behind (the stores of [processData]
      are interleaved with the aggregations), which screen follows, that the
      selected date is not read, the invariant of the reachable states, and
      the well-formedness of each cell, which also a load that stops
      half-way preserves ([alert_well_formed]).
    - [Accuracy]: the fields of a guard of [processGuardStatistics] that
      are no counters (119-141, 159-161): the name is that of the first
      row of the guard, the last activity that of its last row, the array
      of accuracies what [parseInt] reads in its rows
      ([guard_statistics_fields]), and their rounded mean a whole number
      from 0 to [amax] when the cells are ([average_accuracy_in_range]).

    [AlertBox] is [Alert] of [src/unnamed/part_000]: the class lookup with
    its fall-back and the element around the children.

    ** The page

    What a render returns is a tree of elements.  [VDom] has the type of
    such trees ([El tag attrs children], text, a value between braces, the
    array a [map] returns), the calls a handler makes ([action]) and one
    traversal [collect] of which the queries [handlers], [texts],
    [select], [class_names] and [datasets] are instances.

    - [AlertView]: [App] of [src/src/App.js] from its first early return
      on (245-618).  One definition per component of the file
      ([AlertStatusCard], [PerformanceChart], [SearchBar]), per callback
      of a [map] ([tab_button], [guard_row], [location_row]) and per tab
      panel; [dashboard] is the returned element and [render] the
      function with its two early returns and [filteredGuards].
    - [ComplianceView]: the same for [src/unnamed/part_001] (356-959),
      with [KPICard] and four panels; the compliance panel reads
      [complianceMetrics.byGuard] and throws when it is [undefined].

    Each JSX element of the source is one [El] with its attributes and
    children in source order, and each expression between braces is the
    model's translation of that expression on the state of [AlertApp] or
    [ComplianceApp]; the definitions are as long as the markup.  The
    theorems say which calls a page offers ([render_offers],
    [compliance_render_offers]: none on the loading and error screens);
    that the states a user reaches through the controls on the page
    ([visited]) are states of the step functions, with every offered call
    enabled ([visited_reachable]); that exactly one panel is on the page;
    what the rows of the tables and the data of the charts are in terms of
    the aggregates; what a coverage cell shows and in which colour, as a
    function of the counters ([coverage_cell]); when a page cannot be
    built ([render_unnamed], [labelled_rows_render],
    [visited_render_throws]); and that every array of elements on a page
    the user reaches has a key on each item and no key twice
    ([visited_well_keyed], [compliance_visited_well_keyed]), which rests on
    the well-formedness of the state.

    ** Loads in flight

    [loadData] is an [async] function.  [Async] is the machine in which a
    load is two atomic steps, the part before the first [await] and the
    part after it, with events in between; both components are instances
    of its interface [Dashboard].  A load starts by setting [loading], the
    loading screen holds no control, and only a control starts a load:
    hence at most one load is in flight ([pending_at_most_one]), and the
    states with no load in flight are exactly those of the functions [step]
    of [AlertApp] and [ComplianceApp], which run a load to its end
    ([quiescent_reachable], [reachable_quiescent]).  The theorems about
    [step] therefore speak about the component as it runs.  A load in
    flight always ends: the machine can resume it, nothing else can happen
    first, and the step leaves no load in flight ([load_completes],
    [compliance_load_completes], [alert_load_completes]); resumptions
    alone cannot go on for ever ([resumes_terminate]).  That a promise is
    settled at all is the environment's part and is not claimed.

    The main theorems that have hypotheses are followed, at the end of
    their file, by an instance on a small export ([sample_day],
    [sample_attendance], [sample_activity]) where the hypotheses are
    computed.

    ** Assumptions and bounds

    - Counters are natural numbers.  The source increments binary64 numbers
      by 0 or 1 at most once per row, and an array has fewer than [2^32]
      elements, so these additions are exact; the theorems about rates take
      the bound as the hypothesis [array_size] on the input arrays and spend
      it through [small] (at most [2^53]) in [Binary64].  The exact value
      of a rate ([percent_reference]) asks for a denominator below [2^42]:
      then the error of the two roundings is smaller than the distance of
      an exact percentage that is not a half from the next half.  [2^32]
      rows are well within it.
    - Every function of the development is structurally recursive: there is
      no fuel.  The source has no loop other than the array methods, so
      that the aggregations return is by construction and no theorem of
      termination is stated of them; what is proved of a load is that it
      ends once its promises are settled ([compliance_load_completes]).
    - The hours of a shift are not bounded by the code.  The theorem on
      the range of the average takes the bound as its parameter [hmax], at
      most [2^20], which with fewer than [2^32] rows keeps every sum below
      [2^53].
    - A date is read through [DateLib]; theorems of the hourly series hold
      for every instance.
    - The text of a [TypeError] is the one V8 gives.
    - The effect of a render has run before the next event is handled, and
      it runs once per mount and per change of the selected date.
    - An entry read through [Object.prototype] is the built-in member; the
      writes the source then makes to that member are not modelled, since
      the values written are [NaN] and no later read takes them for an
      entry.

    ** Not modelled

    - The CSV decoder (papaparse) and the network: the decoder is a
      parameter [parse] of the loader sections, and what the two fetches
      give is an argument of [loadData].
    - What the components of recharts and lucide-react draw: in the trees
      they are elements with their attributes, and the theorems speak of
      the data and the attributes they receive.
    - The conversion of a number to its decimal text, which React does
      when it writes a value between braces into the document: a tree
      holds the number.
    - The choice of the base URL from [NODE_ENV] and the calls of
      [console.log] in [loadData] of [App.js]: they do not change what is
      computed or shown.
    - The sources have no pair of inverse functions (the decoder is the
      library's and nothing is encoded), so the development has no
      round-trip theorem about them.
*)

From Stdlib Require Export ZArith Lia.
From stdpp Require Export base tactics option list strings gmap.

(** ** Thrown exceptions as values

    The only exception the aggregation code can raise is the [TypeError] of
    reading a property of [undefined]; [loadData] adds the failure of a
    fetch.  A computation that may throw returns [res A]. *)

Inductive js_error : Type :=
| TypeError (reading : string)
| FetchError (message : string).

Inductive res (A : Type) : Type :=
| Ok (a : A)
| Throw (e : js_error).
Arguments Ok {A} a.
Arguments Throw {A} e.

#[export] Instance js_error_eq_dec : EqDecision js_error.
Proof. solve_decision. Defined.

#[export] Instance res_eq_dec `{EqDecision A} : EqDecision (res A).
Proof. solve_decision. Defined.

#[export] Instance res_ret : MRet res := @Ok.
#[export] Instance res_bind : MBind res := λ A B f m,
  match m with Ok a => f a | Throw e => Throw e end.
#[export] Instance res_fmap : FMap res := λ A B f m,
  match m with Ok a => Ok (f a) | Throw e => Throw e end.

Definition is_ok {A} (m : res A) : bool :=
  match m with Ok _ => true | Throw _ => false end.

(** Two outcomes agree up to a relation on results: the same exception,
    or related values. *)
Definition res_rel {A} (R : relation A) : relation (res A) := λ x y,
  match x, y with
  | Ok a, Ok b => R a b
  | Throw e, Throw e' => e = e'
  | _, _ => False
  end.

#[export] Instance res_rel_equiv {A} (R : relation A) :
  Equivalence R → Equivalence (res_rel R).
Proof.
  intros HR. split.
  - intros [a|e]; simpl; reflexivity.
  - intros [a|e] [b|e']; simpl; try done; intros ?; by symmetry.
  - intros [a|e] [b|e'] [c|e'']; simpl; try done; intros ??; by etrans.
Qed.

(** [forEach] with a body that may throw: the first exception aborts the
    loop, as in the source. *)
Fixpoint foldM {A B} (f : A → B → res A) (l : list B) (a : A) : res A :=
  match l with
  | [] => Ok a
  | x :: l' => a' ← f a x; foldM f l' a'
  end.

(** ** Shared tactics *)

(** Case analysis on the scrutinee of the first [match] or [if] of the goal,
    keeping the equation. *)
Ltac case_scrut :=
  match goal with
  | |- context [match ?x with _ => _ end] =>
      lazymatch x with
      | context [match _ with _ => _ end] => fail
      | _ => destruct x eqn:?
      end
  end.

Ltac res_simpl :=
  repeat match goal with
  | H : Ok _ = Ok _ |- _ => injection H as H; try subst
  | H : Throw _ = Ok _ |- _ => discriminate H
  | H : Ok _ = Throw _ |- _ => discriminate H
  | H : Throw _ = Throw _ |- _ => injection H as H; try subst
  | H : mbind _ ?m = Ok _ |- _ =>
      let E := fresh "E" in destruct m eqn:E; simpl in H
  | H : mret _ = Ok _ |- _ => injection H as H; try subst
  end.

Create HintDb js discriminated.
Create Rewrite HintDb js_rw.

(** ** Laws of the error monad and of [foldM] *)

Lemma res_bind_ok {A B} (f : A → res B) (a : A) : (Ok a ≫= f) = f a.
Proof. reflexivity. Qed.

Lemma res_bind_throw {A B} (f : A → res B) e : (Throw e ≫= f) = Throw e.
Proof. reflexivity. Qed.

Lemma res_bind_ret {A} (m : res A) : (m ≫= mret) = m.
Proof. by destruct m. Qed.

Lemma res_bind_assoc {A B C} (m : res A) (f : A → res B) (g : B → res C) :
  ((m ≫= f) ≫= g) = (m ≫= λ a, f a ≫= g).
Proof. by destruct m. Qed.

Lemma res_bind_inv {A B} (m : res A) (f : A → res B) b :
  (m ≫= f) = Ok b → ∃ a, m = Ok a ∧ f a = Ok b.
Proof. destruct m; [eauto | discriminate]. Qed.

Section FoldM.
Context {A B : Type}.

Lemma foldM_app (f : A → B → res A) l1 l2 a :
  foldM f (l1 ++ l2) a = (foldM f l1 a ≫= foldM f l2).
Proof.
  revert a; induction l1 as [|x l1 IH]; intros a; simpl; [done|].
  destruct (f a x); simpl; [apply IH | done].
Qed.

(** A loop whose body never throws is a plain left fold. *)
Lemma foldM_pure (f : A → B → res A) (g : A → B → A) l a :
  (∀ a x, x ∈ l → f a x = Ok (g a x)) →
  foldM f l a = Ok (fold_left g l a).
Proof.
  revert a; induction l as [|x l IH]; intros a Hf; simpl; [done|].
  rewrite Hf by left. simpl. apply IH. intros; apply Hf. by right.
Qed.

(** Invariant rule: what every successful step preserves holds at the end. *)
Lemma foldM_inv (P : A → Prop) (f : A → B → res A) l a a' :
  (∀ a x a', x ∈ l → P a → f a x = Ok a' → P a') →
  P a → foldM f l a = Ok a' → P a'.
Proof.
  revert a; induction l as [|x l IH]; intros a Hstep Ha Hf; simpl in Hf.
  - by simplify_eq.
  - apply res_bind_inv in Hf as (a1 & H1 & H2).
    eapply (IH a1); [| |done].
    + intros ??? Hin; apply Hstep; by right.
    + eapply Hstep; [by left|done..].
Qed.

(** The loop throws exactly when some step throws on the state reached. *)
Lemma foldM_throw (f : A → B → res A) l a e :
  foldM f l a = Throw e →
  ∃ l1 x l2 a1, l = l1 ++ x :: l2 ∧ foldM f l1 a = Ok a1 ∧ f a1 x = Throw e.
Proof.
  revert a; induction l as [|x l IH]; intros a Hf; simpl in Hf; [done|].
  destruct (f a x) as [a1|e1] eqn:E; simpl in Hf.
  - destruct (IH _ Hf) as (l1 & y & l2 & a2 & -> & H1 & H2).
    exists (x :: l1), y, l2, a2. simpl. rewrite E. simpl. done.
  - simplify_eq. exists [], x, l, a. done.
Qed.

(** A loop whose body fails on the elements [bad], and only there, with
    one error: it fails when the list has such an element and is the fold of
    the body's pure part otherwise.  The body only has to behave under an
    invariant of the state. *)
Lemma foldM_fails_on (I : A → Prop) (f : A → B → res A) (g : A → B → A)
    (bad : B → bool) (e : js_error) l a :
  (∀ a x, I a → f a x = if bad x then Throw e else Ok (g a x)) →
  (∀ a x, I a → bad x = false → I (g a x)) →
  I a →
  foldM f l a = if existsb bad l then Throw e else Ok (fold_left g l a).
Proof.
  intros Hf Hg. revert a; induction l as [|x l IH]; intros a Ha; simpl; [done|].
  rewrite Hf by done. destruct (bad x) eqn:E; simpl; [done|]. by apply IH, Hg.
Qed.

Lemma foldM_ext (f g : A → B → res A) l a :
  (∀ a x, f a x = g a x) → foldM f l a = foldM g l a.
Proof.
  intros Hfg. revert a; induction l as [|x l IH]; intros a; simpl; [done|].
  rewrite Hfg. destruct (g a x); simpl; [apply IH|done].
Qed.
End FoldM.

#[export] Hint Rewrite @res_bind_ok @res_bind_throw @res_bind_ret : js_rw.

(** ** Left folds and counting *)

Section Folds.
Context {A B : Type}.

Lemma fold_left_inv (P : A → Prop) (g : A → B → A) l a :
  (∀ a x, x ∈ l → P a → P (g a x)) → P a → P (fold_left g l a).
Proof.
  revert a; induction l as [|x l IH]; intros a Hstep Ha; simpl; [done|].
  apply IH; [intros; apply Hstep; [by right|done] | apply Hstep; [by left|done]].
Qed.

Lemma fold_left_snoc (g : A → B → A) l x a :
  fold_left g (l ++ [x]) a = g (fold_left g l a) x.
Proof. by rewrite fold_left_app. Qed.

(** A measure that every step changes by a function of the element alone
    is, at the end, the initial measure plus the sum over the list. *)
Lemma fold_left_measure (μ : A → nat) (w : B → nat) (g : A → B → A) l a :
  (∀ a x, μ (g a x) = μ a + w x) →
  μ (fold_left g l a) = μ a + sum_list (w <$> l).
Proof.
  intros Hg. revert a; induction l as [|x l IH]; intros a; csimpl; [lia|].
  rewrite IH, Hg. lia.
Qed.

(** The same when the steps are only known under an invariant. *)
Lemma fold_left_measure_inv (I : A → Prop) (μ : A → nat) (w : B → nat)
    (g : A → B → A) l a :
  (∀ a x, I a → I (g a x) ∧ μ (g a x) = μ a + w x) →
  I a → μ (fold_left g l a) = μ a + sum_list (w <$> l).
Proof.
  intros Hg. revert a; induction l as [|x l IH]; intros a Ha; csimpl; [lia|].
  destruct (Hg a x Ha) as [HI Hμ]. rewrite IH, Hμ by done. lia.
Qed.
End Folds.

Definition count_if {A} (p : A → bool) (l : list A) : nat :=
  length (filter (λ x, p x = true) l).

Lemma count_if_cons {A} (p : A → bool) x l :
  count_if p (x :: l) = (if p x then 1 else 0) + count_if p l.
Proof.
  unfold count_if. rewrite filter_cons. destruct (p x) eqn:E; case_decide; simpl; congruence.
Qed.

Lemma count_if_sum {A} (p : A → bool) l :
  count_if p l = sum_list ((λ x, if p x then 1 else 0) <$> l).
Proof.
  induction l as [|x l IH]; [done|]. rewrite count_if_cons, IH. done.
Qed.

Lemma count_if_ext {A} (p q : A → bool) l :
  (∀ x, p x = q x) → count_if p l = count_if q l.
Proof.
  intros Hpq. induction l as [|x l IH]; [done|].
  by rewrite !count_if_cons, IH, Hpq.
Qed.

Lemma count_if_le_length {A} (p : A → bool) l : count_if p l ≤ length l.
Proof. apply length_filter. Qed.

(** A test and its negation split a list. *)
Lemma count_if_negb {A} (p : A → bool) l :
  count_if p l + count_if (λ x, negb (p x)) l = length l.
Proof.
  induction l as [|x l IH]; [done|]. rewrite !count_if_cons. simpl.
  destruct (p x); simpl; lia.
Qed.

Lemma count_if_mono {A} (p q : A → bool) l :
  (∀ x, p x = true → q x = true) → count_if p l ≤ count_if q l.
Proof.
  intros Hpq. induction l as [|x l IH]; [done|]. rewrite !count_if_cons.
  specialize (Hpq x). destruct (p x), (q x); lia.
Qed.

(** Counting in the rows a first test keeps. *)
Lemma count_if_filter {A} (p q : A → bool) l :
  count_if q (filter (λ x, p x = true) l) = count_if (λ x, p x && q x) l.
Proof.
  induction l as [|x l IH]; [done|]. rewrite count_if_cons, filter_cons.
  destruct (p x) eqn:E; case_decide; try congruence; simpl;
    by rewrite ?count_if_cons, IH.
Qed.

Lemma Forall_within {A} (P : A → Prop) (l l' : list A) :
  l' ⊆ l → Forall P l → Forall P l'.
Proof. rewrite !Forall_forall. intros Hsub Hl x Hx. apply Hl, Hsub, Hx. Qed.

Lemma filter_within {A} (P : A → Prop) `{∀ x, Decision (P x)} (l : list A) :
  filter P l ⊆ l.
Proof. by intros x (_ & Hx)%list_elem_of_filter. Qed.

Lemma length_omap_le {A B} (f : A → option B) l : length (omap f l) ≤ length l.
Proof. induction l as [|x l IH]; csimpl; [done|]. destruct (f x); simpl; lia. Qed.

(** ** Sums over a list that is updated in place *)

Lemma sum_list_fmap_alter {A} (f : A → nat) (g : A → A) (l : list A) i x :
  l !! i = Some x →
  sum_list (f <$> alter g i l) + f x = sum_list (f <$> l) + f (g x).
Proof.
  revert i; induction l as [|y l IH]; intros [|i] Hi; simplify_eq/=; [lia|].
  specialize (IH _ Hi). lia.
Qed.

Lemma sum_list_fmap_app {A} (f : A → nat) (l1 l2 : list A) :
  sum_list (f <$> (l1 ++ l2)) = sum_list (f <$> l1) + sum_list (f <$> l2).
Proof.
  induction l1 as [|x l1 IH]; csimpl; [done|]. rewrite IH. lia.
Qed.

Lemma Forall_alter_strong {A} (P : A → Prop) (g : A → A) (l : list A) i :
  Forall P l → (∀ x, l !! i = Some x → P x → P (g x)) → Forall P (alter g i l).
Proof.
  intros Hl Hg. apply Forall_lookup. intros j y Hj.
  destruct (decide (i = j)) as [->|Hne].
  - rewrite list_lookup_alter_eq in Hj.
    destruct (l !! j) as [x|] eqn:E; simplify_eq/=.
    apply Hg; [done|]. by eapply Forall_lookup_1.
  - rewrite list_lookup_alter_ne in Hj by done. by eapply Forall_lookup_1.
Qed.

Lemma fmap_alter_id {A B} (f : A → B) (g : A → A) (l : list A) i :
  (∀ x, f (g x) = f x) → f <$> alter g i l = f <$> l.
Proof.
  intros Hfg. revert i; induction l as [|x l IH]; intros [|i]; csimpl; [done..| |].
  - by rewrite Hfg.
  - by rewrite IH.
Qed.

(** ** [find] after an update in place or a push *)

Section ListFind.
Context {A : Type} (P : A → Prop) `{!∀ x, Decision (P x)}.

Lemma list_find_ext (Q : A → Prop) `{!∀ x, Decision (Q x)} l :
  (∀ x, P x ↔ Q x) → list_find P l = list_find Q l.
Proof.
  intros Hpq. induction l as [|x l IH]; simpl; [done|].
  rewrite IH. destruct (decide (P x)), (decide (Q x)); naive_solver.
Qed.

Lemma list_find_alter_key (f : A → A) l i :
  (∀ x, P (f x) ↔ P x) →
  list_find P (alter f i l) =
  (λ '(j, x), (j, if decide (j = i) then f x else x)) <$> list_find P l.
Proof.
  intros Hf. revert i. induction l as [|x l IH]; intros [|i]; simpl; [done..| |].
  - destruct (decide (P x)) as [Hx|Hx].
    + by rewrite decide_True by (by apply Hf).
    + rewrite decide_False by (by rewrite Hf).
      destruct (list_find P l) as [[j y]|]; simpl; [|done].
      by destruct (decide (S j = 0)).
  - destruct (decide (P x)); simpl; [done|].
    change (list_alter f i l) with (alter f i l). rewrite IH. destruct (list_find P l) as [[j y]|]; simpl; [|done].
    destruct (decide (j = i)), (decide (S j = S i)); done || lia.
Qed.

Lemma list_find_snoc l y :
  list_find P (l ++ [y]) =
  match list_find P l with
  | Some r => Some r
  | None => if decide (P y) then Some (length l, y) else None
  end.
Proof.
  induction l as [|x l IH]; simpl.
  - by destruct (decide (P y)).
  - destruct (decide (P x)); [done|]. rewrite IH.
    destruct (list_find P l) as [[j z]|]; simpl; [done|]. by destruct (decide (P y)).
Qed.
End ListFind.

Lemma list_lookup_alter_Some_key {A C} (f : A → C) (g : A → A) (l : list A) i j y :
  (∀ x, f (g x) = f x) →
  alter g i l !! j = Some y → ∃ x, l !! j = Some x ∧ f y = f x.
Proof.
  intros Hfg Hy. destruct (decide (j = i)) as [->|Hne].
  - rewrite list_lookup_alter_eq in Hy.
    destruct (l !! i) as [x|]; simplify_eq/=. eauto.
  - rewrite list_lookup_alter_ne in Hy by done. eauto.
Qed.

Lemma count_if_false_r {A} (p : A → bool) l : count_if (λ x, p x && false) l = 0.
Proof.
  induction l as [|x l IH]; [done|]. by rewrite count_if_cons, IH, andb_false_r.
Qed.
