(* ===== verification/JSNumber.v ===== *)
(** * ECMAScript numbers

    Every number of the dashboard is an IEEE-754 binary64 value.  The model
    is [spec_float] of the Standard Library with [prec = 53] and
    [emax = 1024]: the operations below are the library's correctly rounded
    [SFadd], [SFsub], [SFmul] and [SFdiv] (round to nearest, ties to even),
    so that a rate such as [Math.round((23 / 40) * 100)] evaluates to the
    value the browser computes (57, not the 58 of exact arithmetic).

    This file holds the operations the source uses ([+], [-], [*], [/],
    [<=], [>=], [===], [isNaN], [Math.round], [Math.min], the conversion of a
    counter to a number); their theory is in [Binary64]. *)

From Stdlib Require Export SpecFloat.
From S2P Require Import Prelude.

Abbreviation number := spec_float.

#[export] Instance number_eq_dec : EqDecision number.
Proof. solve_decision. Defined.

Module Num.

Definition prec : Z := 53.
Definition emax : Z := 1024.

Definition NaN : number := S754_nan.
Definition zero : number := S754_zero false.

Definition add : number → number → number := SFadd prec emax.
Definition sub : number → number → number := SFsub prec emax.
Definition mul : number → number → number := SFmul prec emax.
Definition div : number → number → number := SFdiv prec emax.

(** The number nearest to an integer: exact below [2^53]. *)
Definition of_Z (z : Z) : number := binary_normalize prec emax z 0 false.
Definition of_nat (n : nat) : number := of_Z (Z.of_nat n).

Definition isNaN (x : number) : bool :=
  match x with S754_nan => true | _ => false end.

Definition is_finite (x : number) : bool :=
  match x with S754_zero _ | S754_finite _ _ _ => true | _ => false end.

(** [x === y], [x < y], [x <= y], [x >= y], [x > y] on numbers: every
    comparison with [NaN] is false, and [+0 === -0]. *)
Definition eqb (x y : number) : bool := SFeqb x y.
Definition ltb (x y : number) : bool := SFltb x y.
Definition leb (x y : number) : bool := SFleb x y.
Definition geb (x y : number) : bool := SFleb y x.
Definition gtb (x y : number) : bool := SFltb y x.

(** ToBoolean of a number: [0], [-0] and [NaN] are falsy. *)
Definition truthy (x : number) : bool :=
  match x with S754_zero _ | S754_nan => false | _ => true end.

(** [Math.abs(x)] *)
Definition abs (x : number) : number := SFabs x.

(** [Math.min(x, y)]: [NaN] if either is; [-0] is below [+0]. *)
Definition min (x y : number) : number :=
  match x, y with
  | S754_nan, _ | _, S754_nan => S754_nan
  | S754_zero sx, S754_zero sy => S754_zero (sx || sy)
  | _, _ => if SFltb y x then y else x
  end.

(** [Math.round(x)]: the nearest integer, a tie going towards [+∞];
    [NaN], the infinities, the zeros and integers are unchanged, and a
    result of zero keeps the sign of [x].  For a finite [x = ±m·2^e] with
    [e < 0] the integer is [⌊(±2m + 2^-e) / 2^(1-e)⌋]. *)
Definition round_Z (s : bool) (m : positive) (e : Z) : Z :=
  (cond_Zopp s (2 * Z.pos m) + 2 ^ (- e)) / 2 ^ (1 - e).

Definition round (x : number) : number :=
  match x with
  | S754_finite s m e =>
      if (0 <=? e)%Z then x
      else match round_Z s m e with
           | Z0 => S754_zero s
           | k => of_Z k
           end
  | _ => x
  end.

End Num.

Declare Scope num_scope.
Delimit Scope num_scope with num.
Bind Scope num_scope with spec_float.
Infix "+" := Num.add : num_scope.
Infix "-" := Num.sub : num_scope.
Infix "*" := Num.mul : num_scope.
Infix "/" := Num.div : num_scope.
Notation "# n" := (Num.of_nat n) (at level 9, n at level 9, format "# n") : num_scope.

#[local] Set Warnings "-clear-no-such-hyp".

(** ** Strict equality

    [x === y] holds when neither is [NaN] and they are the same value once
    [-0] is read as [+0]; it is an equivalence on the numbers other than
    [NaN]. *)

Definition unsigned_zero (x : number) : number :=
  match x with S754_zero _ => S754_zero false | _ => x end.

Definition same_value (x y : number) : Prop :=
  x ≠ S754_nan ∧ y ≠ S754_nan ∧ unsigned_zero x = unsigned_zero y.

Lemma finite_compare_eq (m1 m2 : positive) (e1 e2 : Z) (c1 c2 : comparison) :
  c1 ≠ Eq → c2 ≠ Eq →
  match (e1 ?= e2)%Z with
  | Lt => c1 | Gt => c2 | Eq => Pos.compare_cont Eq m1 m2
  end = Eq ↔ m1 = m2 ∧ e1 = e2.
Proof.
  intros H1 H2. change (Pos.compare_cont Eq m1 m2) with (m1 ?= m2)%positive.
  destruct (Z.compare_spec e1 e2); [|split; [by intros ?|lia]..].
  rewrite Pos.compare_eq_iff. naive_solver.
Qed.

Lemma eqb_true_iff x y : Num.eqb x y = true ↔ same_value x y.
Proof.
  unfold Num.eqb, SFeqb, same_value.
  destruct x as [[]|[]| |[] mx ex], y as [[]|[]| |[] my ey]; cbn;
    try (by split; [|intros (?&?&?)]); try (by split; [intros _; split_and!|]).
  - pose proof (finite_compare_eq mx my ex ey Gt Lt) as Hc.
    destruct (ex ?= ey)%Z, (Pos.compare_cont Eq mx my); naive_solver.
  - pose proof (finite_compare_eq mx my ex ey Lt Gt) as Hc.
    destruct (ex ?= ey)%Z, (Pos.compare_cont Eq mx my); naive_solver.
Qed.

Lemma eqb_sym x y : Num.eqb x y = Num.eqb y x.
Proof.
  apply Bool.eq_iff_eq_true. rewrite !eqb_true_iff. unfold same_value.
  intuition congruence.
Qed.

Lemma eqb_congr_r x y z : Num.eqb y z = true → Num.eqb x y = Num.eqb x z.
Proof.
  intros H. apply eqb_true_iff in H. apply Bool.eq_iff_eq_true.
  rewrite !eqb_true_iff. unfold same_value in *. destruct H as (Hy & Hz & E).
  split; intros (Hx & _ & E'); split_and!; try assumption; congruence.
Qed.

Lemma eqb_congr_l x y z : Num.eqb x y = true → Num.eqb x z = Num.eqb y z.
Proof. intros H. rewrite (eqb_sym x z), (eqb_sym y z). by apply eqb_congr_r. Qed.

Lemma eqb_refl_l x y : Num.eqb x y = true → Num.eqb x x = true.
Proof.
  intros H. rewrite <- H. symmetry. apply eqb_congr_r. by rewrite eqb_sym.
Qed.

Lemma eqb_NaN_r x : Num.eqb x Num.NaN = false.
Proof. by destruct x as [[]|[]| |[]]. Qed.

Lemma eqb_NaN_l x : Num.eqb Num.NaN x = false.
Proof. by rewrite eqb_sym, eqb_NaN_r. Qed.
