(* ===== verification/Binary64.v ===== *)
(** * Rounding of binary64 operations

    The operations of [JSNumber] are those of the Standard Library's
    [SpecFloat] at [prec = 53], [emax = 1024].  The library defines them and
    proves nothing about them; this file proves what the dashboard's
    arithmetic needs, over the real numbers:

    - the value [B2R] of a number and the canonical form of a finite one;
    - [binary_round_aux], through which every operation rounds, returns a
      canonical number that is faithful to the real it is given: no
      canonical number lies strictly between the real and the result
      ([round_aux_faithful]);
    - hence bounds are preserved: if the exact result is at most (at least)
      a representable bound, so is the rounded one.

    Only non-negative operands are treated, which is all the dashboard's
    rates and scores are built from. *)

From Stdlib Require Import ZArith Reals Lra Lia SpecFloat.
From S2P Require Import JSNumber.

Local Open Scope Z_scope.

(** ** Powers of two *)

Definition bpow (e : Z) : R := powerRZ 2 e.

Lemma bpow_pos e : (0 < bpow e)%R.
Proof. apply powerRZ_lt. lra. Qed.

Lemma bpow_add a b : bpow (a + b) = (bpow a * bpow b)%R.
Proof. apply powerRZ_add. lra. Qed.

Lemma bpow_0 : bpow 0 = 1%R.
Proof. reflexivity. Qed.

Lemma bpow_1 : bpow 1 = 2%R.
Proof. unfold bpow. simpl. lra. Qed.

Lemma bpow_succ e : bpow (e + 1) = (2 * bpow e)%R.
Proof. rewrite bpow_add, bpow_1. lra. Qed.

Lemma bpow_neg e : bpow (- e) = (/ bpow e)%R.
Proof. apply powerRZ_neg'. Qed.

Lemma bpow_IZR e : 0 <= e -> bpow e = IZR (2 ^ e).
Proof.
  intros He. unfold bpow. destruct e as [|p|p]; [reflexivity| |lia].
  symmetry. apply (Zpower_pos_powerRZ 2 p).
Qed.

Lemma bpow_ge_1 e : 0 <= e -> (1 <= bpow e)%R.
Proof.
  intros He. rewrite bpow_IZR by assumption. apply IZR_le.
  pose proof (Z.pow_pos_nonneg 2 e). lia.
Qed.

Lemma bpow_le a b : a <= b -> (bpow a <= bpow b)%R.
Proof.
  intros H. replace b with (a + (b - a)) by lia. rewrite bpow_add.
  pose proof (bpow_pos a). pose proof (bpow_ge_1 (b - a) ltac:(lia)). nra.
Qed.

Lemma bpow_lt a b : a < b -> (bpow a < bpow b)%R.
Proof.
  intros H. replace b with ((a + 1) + (b - a - 1)) by lia.
  rewrite bpow_add, bpow_succ.
  pose proof (bpow_pos a). pose proof (bpow_ge_1 (b - a - 1) ltac:(lia)). nra.
Qed.

Lemma bpow_lt_inv a b : (bpow a < bpow b)%R -> a < b.
Proof.
  intros H. destruct (Z_lt_le_dec a b) as [|Hle]; [assumption|].
  apply bpow_le in Hle. lra.
Qed.

Lemma bpow_le_inv a b : (bpow a <= bpow b)%R -> a <= b.
Proof.
  intros H. destruct (Z_lt_le_dec b a) as [Hlt|]; [|assumption].
  apply bpow_lt in Hlt. lra.
Qed.

(** ** Mantissa and exponent *)

Definition F2R (m e : Z) : R := (IZR m * bpow e)%R.

Lemma F2R_0 e : F2R 0 e = 0%R.
Proof. unfold F2R. lra. Qed.

Lemma F2R_le m1 m2 e : m1 <= m2 -> (F2R m1 e <= F2R m2 e)%R.
Proof.
  intros H. unfold F2R. apply IZR_le in H. pose proof (bpow_pos e). nra.
Qed.

Lemma F2R_lt m1 m2 e : m1 < m2 -> (F2R m1 e < F2R m2 e)%R.
Proof.
  intros H. unfold F2R. apply IZR_lt in H. pose proof (bpow_pos e). nra.
Qed.

Lemma F2R_lt_inv m1 m2 e : (F2R m1 e < F2R m2 e)%R -> m1 < m2.
Proof.
  intros H. destruct (Z_lt_le_dec m1 m2) as [|Hle]; [assumption|].
  apply (F2R_le _ _ e) in Hle. lra.
Qed.

Lemma F2R_succ m e : F2R (m + 1) e = (F2R m e + bpow e)%R.
Proof. unfold F2R. rewrite plus_IZR. lra. Qed.

(** Moving a power of two between mantissa and exponent keeps the value. *)
Lemma F2R_shift m e k : 0 <= k -> F2R (m * 2 ^ k) (e - k) = F2R m e.
Proof.
  intros Hk. unfold F2R. rewrite mult_IZR, <- bpow_IZR by assumption.
  replace e with ((e - k) + k) at 2 by lia. rewrite bpow_add. lra.
Qed.

(** ** Number of binary digits *)

Lemma digits2_pos_bounds p :
  2 ^ (Z.pos (digits2_pos p) - 1) <= Z.pos p < 2 ^ Z.pos (digits2_pos p).
Proof.
  induction p as [p IH|p IH|]; simpl digits2_pos.
  - rewrite Pos2Z.inj_succ.
    replace (Z.succ (Z.pos (digits2_pos p)) - 1) with (Z.succ (Z.pos (digits2_pos p) - 1)) by lia.
    rewrite !Z.pow_succ_r by lia. lia.
  - rewrite Pos2Z.inj_succ.
    replace (Z.succ (Z.pos (digits2_pos p)) - 1) with (Z.succ (Z.pos (digits2_pos p) - 1)) by lia.
    rewrite !Z.pow_succ_r by lia. lia.
  - simpl. lia.
Qed.

Lemma Zdigits2_bounds m :
  0 < m -> 2 ^ (Zdigits2 m - 1) <= m < 2 ^ Zdigits2 m.
Proof. destruct m as [|p|p]; [lia| |lia]. intros _. apply digits2_pos_bounds. Qed.

Lemma Zdigits2_nonneg m : 0 <= Zdigits2 m.
Proof. destruct m; simpl; lia. Qed.

Lemma Zdigits2_pos m : 0 < m -> 0 < Zdigits2 m.
Proof. destruct m; simpl; lia. Qed.

(** The digit count is the unique [d] with [2^(d-1) <= m < 2^d]. *)
Lemma Zdigits2_unique m d :
  0 < m -> 2 ^ (d - 1) <= m < 2 ^ d -> Zdigits2 m = d.
Proof.
  intros Hm [H1 H2]. pose proof (Zdigits2_bounds m Hm) as [H3 H4].
  pose proof (Zdigits2_pos m Hm).
  assert (0 < d).
  { destruct (Z_lt_le_dec 0 d) as [|Hd]; [assumption|].
    assert (2 ^ d <= 1); [|lia].
    destruct (Z.eq_dec d 0) as [->|]; [simpl; lia|rewrite Z.pow_neg_r; lia]. }
  destruct (Z.lt_trichotomy (Zdigits2 m) d) as [Hlt|[Heq|Hgt]]; [|assumption|].
  - assert (2 ^ Zdigits2 m <= 2 ^ (d - 1)) by (apply Z.pow_le_mono_r; lia). lia.
  - assert (2 ^ d <= 2 ^ (Zdigits2 m - 1)) by (apply Z.pow_le_mono_r; lia). lia.
Qed.

Lemma Zdigits2_le m1 m2 : 0 < m1 -> m1 <= m2 -> Zdigits2 m1 <= Zdigits2 m2.
Proof.
  intros H1 H12.
  pose proof (Zdigits2_bounds m1 H1) as [Ha _].
  pose proof (Zdigits2_bounds m2 ltac:(lia)) as [_ Hb].
  destruct (Z_lt_le_dec (Zdigits2 m2) (Zdigits2 m1)) as [Hlt|]; [|assumption].
  assert (2 ^ Zdigits2 m2 <= 2 ^ (Zdigits2 m1 - 1)) by (apply Z.pow_le_mono_r; lia).
  lia.
Qed.

Lemma Zdigits2_mul_pow m k :
  0 < m -> 0 <= k -> Zdigits2 (m * 2 ^ k) = Zdigits2 m + k.
Proof.
  intros Hm Hk. pose proof (Zdigits2_bounds m Hm) as [H1 H2].
  pose proof (Zdigits2_pos m Hm).
  assert (0 < 2 ^ k) by (apply Z.pow_pos_nonneg; lia).
  apply Zdigits2_unique; [nia|].
  replace (Zdigits2 m + k - 1) with ((Zdigits2 m - 1) + k) by lia.
  rewrite !Z.pow_add_r by lia. nia.
Qed.

(** The magnitude of a positive value in reals. *)
Lemma F2R_digits_bounds m e :
  0 < m -> (bpow (Zdigits2 m + e - 1) <= F2R m e < bpow (Zdigits2 m + e))%R.
Proof.
  intros Hm. pose proof (Zdigits2_bounds m Hm) as [H1 H2].
  pose proof (Zdigits2_pos m Hm). unfold F2R.
  replace (Zdigits2 m + e - 1) with ((Zdigits2 m - 1) + e) by lia.
  rewrite !bpow_add, (bpow_IZR (Zdigits2 m - 1)), (bpow_IZR (Zdigits2 m)) by lia.
  apply IZR_le in H1. apply IZR_lt in H2. pose proof (bpow_pos e). split.
  - apply Rmult_le_compat_r; [lra|assumption].
  - apply Rmult_lt_compat_r; assumption.
Qed.

(** ** The format *)

Definition fexp (e : Z) : Z := SpecFloat.fexp Num.prec Num.emax e.

Lemma fexp_eq e : fexp e = Z.max (e - 53) (-1074).
Proof. reflexivity. Qed.

Lemma fexp_mono a b : a <= b -> fexp a <= fexp b.
Proof. rewrite !fexp_eq. lia. Qed.

Lemma fexp_ge_emin e : -1074 <= fexp e.
Proof. rewrite fexp_eq. lia. Qed.

(** An argument at most its own exponent is in the subnormal range. *)
Lemma fexp_small z : z <= fexp z -> fexp z = -1074.
Proof. rewrite fexp_eq. lia. Qed.

Definition canonical (m e : Z) : Prop := fexp (Zdigits2 m + e) = e.

(** ** Position of a real on the grid of an exponent

    [located x m e l]: the real [x] lies in [[m·2^e, (m+1)·2^e)], at the
    place the location [l] says: on [m·2^e], in the lower half, on the middle
    or in the upper half of the interval. *)

Definition located (x : R) (m e : Z) (l : location) : Prop :=
  match l with
  | loc_Exact => x = F2R m e
  | loc_Inexact Lt => (F2R m e < x < F2R m e + bpow e / 2)%R
  | loc_Inexact Eq => x = (F2R m e + bpow e / 2)%R
  | loc_Inexact Gt => (F2R m e + bpow e / 2 < x < F2R m e + bpow e)%R
  end.

Definition located_rec (x : R) (mrs : shr_record) (e : Z) : Prop :=
  located x (shr_m mrs) e (loc_of_shr_record mrs).

Lemma located_rec_of_loc x m e l :
  located x m e l -> located_rec x (shr_record_of_loc m l) e.
Proof. unfold located_rec. destruct l as [|[]]; simpl; auto. Qed.

Lemma located_bounds x m e l :
  located x m e l -> (F2R m e <= x < F2R (m + 1) e)%R.
Proof.
  rewrite F2R_succ. pose proof (bpow_pos e).
  destruct l as [|[]]; simpl; intros; lra.
Qed.

Lemma located_exact_or_above x m e l :
  located x m e l -> l = loc_Exact \/ (F2R m e < x)%R.
Proof.
  pose proof (bpow_pos e). destruct l as [|[]]; simpl; intros; [left|right..]; try reflexivity; lra.
Qed.

Lemma IZR_xO p : IZR (Z.pos p~0) = (2 * IZR (Z.pos p))%R.
Proof. rewrite Pos2Z.inj_xO, mult_IZR. reflexivity. Qed.

Lemma IZR_xI p : IZR (Z.pos p~1) = (2 * IZR (Z.pos p) + 1)%R.
Proof. rewrite Pos2Z.inj_xI, plus_IZR, mult_IZR. reflexivity. Qed.

(** One step of the right shift keeps the position. *)
Lemma shr_1_located x mrs e :
  0 <= shr_m mrs -> located_rec x mrs e -> located_rec x (shr_1 mrs) (e + 1).
Proof.
  destruct mrs as [m r s]. unfold located_rec, located, F2R. simpl shr_m.
  rewrite bpow_succ. generalize (bpow_pos e). generalize (bpow e). intros u Hu Hm.
  destruct m as [|[p|p|]|p]; [| | | |lia];
    destruct r, s; cbn [shr_1 shr_m loc_of_shr_record orb];
    try rewrite (IZR_xO p); try rewrite (IZR_xI p);
    try generalize (IZR (Z.pos p)); intros; nra.
Qed.

Lemma shr_1_m mrs : 0 <= shr_m mrs -> shr_m (shr_1 mrs) = shr_m mrs / 2.
Proof.
  destruct mrs as [m r s]. simpl. intros Hm.
  destruct m as [|[p|p|]|p]; cbn [shr_1 shr_m]; [reflexivity| | |reflexivity|lia].
  - apply Z.div_unique with 1; lia.
  - apply Z.div_unique with 0; lia.
Qed.

Lemma shr_1_nonneg mrs : 0 <= shr_m mrs -> 0 <= shr_m (shr_1 mrs).
Proof. intros H. rewrite shr_1_m by assumption. apply Z.div_pos; lia. Qed.

Lemma div_pow2_add m a b : 0 <= a -> 0 <= b -> m / 2 ^ a / 2 ^ b = m / 2 ^ (a + b).
Proof.
  intros. rewrite Z.pow_add_r by assumption.
  apply Z.div_div; [apply Z.pow_nonzero; lia|apply Z.pow_pos_nonneg; lia].
Qed.

Lemma div_pow2_nonneg m k : 0 <= m -> 0 <= k -> 0 <= m / 2 ^ k.
Proof. intros. apply Z.div_pos; [assumption|apply Z.pow_pos_nonneg; lia]. Qed.

(** The state of a right shift of [m0] by [k] bits: the record holds
    [m0 / 2^k] and the position of [x] on the grid of [e]. *)
Definition shifted (x : R) (m0 k : Z) (mrs : shr_record) (e : Z) : Prop :=
  located_rec x mrs e /\ shr_m mrs = m0 / 2 ^ k.

Lemma shifted_step x m0 k mrs e :
  0 <= m0 -> 0 <= k ->
  shifted x m0 k mrs e -> shifted x m0 (k + 1) (shr_1 mrs) (e + 1).
Proof.
  intros Hm Hk [Hl E].
  assert (0 <= shr_m mrs) by (rewrite E; apply div_pow2_nonneg; assumption).
  split; [apply shr_1_located; assumption|].
  rewrite shr_1_m, E by assumption. change 2 with (2 ^ 1) at 2.
  apply div_pow2_add; lia.
Qed.

(** [n] steps of the right shift. *)
Lemma shifted_iter x m0 p :
  0 <= m0 -> forall k mrs e, 0 <= k ->
  shifted x m0 k mrs e ->
  shifted x m0 (k + Z.pos p) (iter_pos shr_1 p mrs) (e + Z.pos p).
Proof.
  intros Hm. induction p as [p IH|p IH|]; intros k mrs e Hk H; simpl iter_pos.
  - apply shifted_step in H; [|assumption..].
    apply IH in H; [|lia]. apply IH in H; [|lia].
    replace (k + Z.pos p~1) with (k + 1 + Z.pos p + Z.pos p) by lia.
    replace (e + Z.pos p~1) with (e + 1 + Z.pos p + Z.pos p) by lia. exact H.
  - apply IH in H; [|lia]. apply IH in H; [|lia].
    replace (k + Z.pos p~0) with (k + Z.pos p + Z.pos p) by lia.
    replace (e + Z.pos p~0) with (e + Z.pos p + Z.pos p) by lia. exact H.
  - apply shifted_step; assumption.
Qed.

Lemma shr_m_of_loc m l : shr_m (shr_record_of_loc m l) = m.
Proof. destruct l as [|[]]; reflexivity. Qed.

(** ** The first shift of [binary_round_aux]

    A mantissa has enough digits for its exponent when the exponent is at
    most the canonical one for its magnitude, so that rounding can only
    drop bits. *)

Definition enough_digits (m e : Z) : Prop := e <= fexp (Zdigits2 m + e).

Lemma shr_fexp_spec x m e l :
  0 <= m -> located x m e l -> enough_digits m e ->
  exists mrs,
    shr_fexp Num.prec Num.emax m e l = (mrs, fexp (Zdigits2 m + e)) /\
    shifted x m (fexp (Zdigits2 m + e) - e) mrs (fexp (Zdigits2 m + e)).
Proof.
  intros Hm Hl He. unfold shr_fexp, shr. fold (fexp (Zdigits2 m + e)).
  unfold enough_digits in He.
  assert (shifted x m 0 (shr_record_of_loc m l) e) as H0.
  { split; [apply located_rec_of_loc; assumption|].
    rewrite shr_m_of_loc. simpl. symmetry. apply Z.div_1_r. }
  destruct (fexp (Zdigits2 m + e) - e) as [|p|p] eqn:E; [| |lia].
  - exists (shr_record_of_loc m l). replace (fexp (Zdigits2 m + e)) with e by lia.
    split; [reflexivity|assumption].
  - exists (iter_pos shr_1 p (shr_record_of_loc m l)).
    replace (fexp (Zdigits2 m + e)) with (e + Z.pos p) by lia.
    split; [reflexivity|]. apply (shifted_iter x m p Hm 0); [lia|assumption].
Qed.

Lemma digits_shift m n :
  0 <= n -> 0 < m / 2 ^ n -> Zdigits2 (m / 2 ^ n) = Zdigits2 m - n.
Proof.
  intros Hn Hq. assert (0 < 2 ^ n) as Hp by (apply Z.pow_pos_nonneg; lia).
  assert (0 < m) as Hm.
  { destruct (Z_lt_le_dec 0 m); [assumption|].
    assert (m / 2 ^ n <= 0) by (apply Z.div_le_upper_bound; lia). lia. }
  pose proof (Zdigits2_bounds m Hm) as [H1 H2].
  assert (2 ^ n <= m) as Hge.
  { destruct (Z_lt_le_dec m (2 ^ n)); [|assumption].
    rewrite Z.div_small in Hq by lia. lia. }
  assert (n < Zdigits2 m) as Hd.
  { destruct (Z_lt_le_dec n (Zdigits2 m)); [assumption|].
    assert (2 ^ Zdigits2 m <= 2 ^ n) by (apply Z.pow_le_mono_r; lia). lia. }
  apply Zdigits2_unique; [assumption|]. split.
  - apply Z.div_le_lower_bound; [assumption|].
    rewrite <- Z.pow_add_r by lia. replace (n + (Zdigits2 m - n - 1)) with (Zdigits2 m - 1) by lia.
    assumption.
  - apply Z.div_lt_upper_bound; [assumption|].
    rewrite <- Z.pow_add_r by lia. replace (n + (Zdigits2 m - n)) with (Zdigits2 m) by lia.
    assumption.
Qed.

(** A mantissa and exponent as the first shift leaves them: the canonical
    exponent of the magnitude, or the least exponent with a zero mantissa. *)
Definition on_grid (m e : Z) : Prop :=
  0 <= m /\ (0 < m -> canonical m e) /\ (m = 0 -> e = -1074).

Lemma on_grid_digits m e : on_grid m e -> Zdigits2 m <= 53.
Proof.
  intros (Hm & Hc & _). destruct (Z.eq_dec m 0) as [->|]; [simpl; lia|].
  specialize (Hc ltac:(lia)). unfold canonical in Hc. rewrite fexp_eq in Hc. lia.
Qed.

Lemma on_grid_emin m e : on_grid m e -> -1074 <= e.
Proof.
  intros (Hm & Hc & Hz). destruct (Z.eq_dec m 0) as [->|]; [lia|].
  specialize (Hc ltac:(lia)). unfold canonical in Hc. rewrite fexp_eq in Hc. lia.
Qed.

Lemma shifted_on_grid x m e mrs :
  0 <= m -> enough_digits m e ->
  shifted x m (fexp (Zdigits2 m + e) - e) mrs (fexp (Zdigits2 m + e)) ->
  on_grid (shr_m mrs) (fexp (Zdigits2 m + e)).
Proof.
  intros Hm He [_ E]. unfold enough_digits in He.
  set (n := fexp (Zdigits2 m + e) - e) in *. assert (0 <= n) by lia.
  rewrite E. split; [apply div_pow2_nonneg; assumption|]. split.
  - intros Hq. unfold canonical. rewrite digits_shift by assumption.
    f_equal. lia.
  - intros Hq. apply fexp_small.
    assert (0 < 2 ^ n) as Hp by (apply Z.pow_pos_nonneg; lia).
    destruct (Z.eq_dec m 0) as [->|Hne]; [unfold n in *; simpl in *; lia|].
    pose proof (Zdigits2_bounds m ltac:(lia)) as [H1 H2].
    assert (m < 2 ^ n) as Hlt.
    { destruct (Z_lt_le_dec m (2 ^ n)); [assumption|].
      assert (1 <= m / 2 ^ n) by (apply Z.div_le_lower_bound; lia). lia. }
    assert (Zdigits2 m - 1 < n); [|lia].
    destruct (Z_lt_le_dec (Zdigits2 m - 1) n); [assumption|].
    assert (2 ^ n <= 2 ^ (Zdigits2 m - 1)) by (apply Z.pow_le_mono_r; lia). lia.
Qed.

(** ** Rounding the mantissa *)

Lemma round_nearest_even_cases x m e l :
  located x m e l ->
  (round_nearest_even m l = m /\ (F2R m e <= x < F2R (m + 1) e)%R) \/
  (round_nearest_even m l = m + 1 /\ (F2R m e < x < F2R (m + 1) e)%R).
Proof.
  rewrite F2R_succ. pose proof (bpow_pos e).
  destruct l as [|[]]; simpl; intros Hl.
  - left. split; [reflexivity|lra].
  - destruct (Z.even m); [left|right]; (split; [reflexivity|lra]).
  - left. split; [reflexivity|lra].
  - right. split; [reflexivity|lra].
Qed.

Lemma digits_succ m :
  0 < m -> Zdigits2 (m + 1) = Zdigits2 m \/
           (m + 1 = 2 ^ Zdigits2 m /\ Zdigits2 (m + 1) = Zdigits2 m + 1).
Proof.
  intros Hm. pose proof (Zdigits2_bounds m Hm) as [H1 H2].
  pose proof (Zdigits2_pos m Hm).
  destruct (Z_lt_le_dec (m + 1) (2 ^ Zdigits2 m)).
  - left. apply Zdigits2_unique; lia.
  - right. assert (m + 1 = 2 ^ Zdigits2 m) as E by lia. split; [assumption|].
    apply Zdigits2_unique; [lia|]. rewrite E.
    replace (Zdigits2 m + 1 - 1) with (Zdigits2 m) by lia.
    split; [lia|]. apply Z.pow_lt_mono_r; lia.
Qed.

(** After rounding the mantissa is canonical for its exponent, or it is
    [2^53], one bit too long. *)
Lemma round_on_grid m e m1 :
  on_grid m e -> m1 = m \/ m1 = m + 1 -> 0 < m1 ->
  canonical m1 e \/ m1 = 2 ^ 53.
Proof.
  intros Hg Hm1 Hpos. pose proof (on_grid_digits m e Hg) as Hd.
  destruct Hg as (Hm & Hc & Hz).
  destruct Hm1 as [->| ->]; [left; apply Hc; assumption|].
  destruct (Z.eq_dec m 0) as [->|Hne].
  - left. rewrite (Hz eq_refl). reflexivity.
  - specialize (Hc ltac:(lia)). unfold canonical in *.
    destruct (digits_succ m ltac:(lia)) as [E|[E1 E2]].
    + left. rewrite E. assumption.
    + destruct (Z.eq_dec (Zdigits2 m) 53) as [E53|].
      * right. rewrite E1, E53. reflexivity.
      * left. rewrite E2. rewrite fexp_eq in *. lia.
Qed.

(** ** Values *)

(** The real a number stands for; zero for the values that stand for none. *)
Definition B2R (x : number) : R :=
  match x with
  | S754_finite s m e => F2R (cond_Zopp s (Z.pos m)) e
  | _ => 0%R
  end.

(** The non-negative finite numbers in canonical form; [-0] is left out,
    the operations below never produce it from such operands. *)
Definition good (x : number) : Prop :=
  match x with
  | S754_zero false => True
  | S754_finite false m e => canonical (Z.pos m) e /\ e <= 971
  | _ => False
  end.

Definition pos_inf : number := S754_infinity false.

(** [x] rounded gives [r]: [r] is a good number or overflowed, and no good
    number lies strictly between [x] and [r]. *)
Definition faithful (x : R) (r : number) : Prop :=
  (r = pos_inf \/ good r) /\
  (forall c, good c -> (x <= B2R c)%R -> good r /\ (B2R r <= B2R c)%R) /\
  (forall c, good c -> (B2R c <= x)%R -> r = pos_inf \/ (B2R c <= B2R r)%R).

(** The second half of [binary_round_aux]: renormalise the rounded mantissa
    and test for overflow. *)
Definition pack (m1 e1 : Z) : number :=
  let '(mrs, e2) := shr_fexp Num.prec Num.emax m1 e1 loc_Exact in
  match shr_m mrs with
  | Z0 => S754_zero false
  | Zpos m =>
      if e2 <=? Num.emax - Num.prec then S754_finite false m e2 else pos_inf
  | Zneg _ => S754_nan
  end.

Lemma binary_round_aux_pack m e l :
  binary_round_aux Num.prec Num.emax false m e l =
  let '(mrs, e1) := shr_fexp Num.prec Num.emax m e l in
  pack (round_nearest_even (shr_m mrs) (loc_of_shr_record mrs)) e1.
Proof. reflexivity. Qed.

Lemma good_nonneg c : good c -> (0 <= B2R c)%R.
Proof.
  destruct c as [[]|[]| |[] m e]; cbn [good B2R cond_Zopp]; try tauto; intros _; [lra|].
  unfold F2R. pose proof (bpow_pos e). pose proof (IZR_lt 0 (Z.pos m) eq_refl). nra.
Qed.

Lemma good_lt_max c : good c -> (B2R c < bpow 1024)%R.
Proof.
  destruct c as [[]|[]| |[] m e]; cbn [good B2R cond_Zopp]; try tauto; try (intros _; apply bpow_pos).
  intros [Hc He]. unfold canonical in Hc. rewrite fexp_eq in Hc.
  pose proof (F2R_digits_bounds (Z.pos m) e eq_refl) as [_ H].
  eapply Rlt_le_trans; [exact H|]. apply bpow_le. lia.
Qed.

Lemma good_pos_inv c :
  good c -> (0 < B2R c)%R ->
  exists m e, c = S754_finite false m e /\ canonical (Z.pos m) e /\ e <= 971.
Proof.
  destruct c as [[]|[]| |[] m e]; cbn [good B2R cond_Zopp]; try tauto; try lra.
  intros H _. exists m, e. tauto.
Qed.

Lemma F2R_digits_mono m1 e1 m2 e2 :
  0 < m1 -> 0 < m2 -> (F2R m1 e1 <= F2R m2 e2)%R ->
  Zdigits2 m1 + e1 <= Zdigits2 m2 + e2.
Proof.
  intros H1 H2 H. pose proof (F2R_digits_bounds m1 e1 H1) as [Ha _].
  pose proof (F2R_digits_bounds m2 e2 H2) as [_ Hb].
  assert (bpow (Zdigits2 m1 + e1 - 1) < bpow (Zdigits2 m2 + e2))%R as Hlt by lra.
  apply bpow_lt_inv in Hlt. lia.
Qed.

(** ** The grid: good numbers near a grid point are grid points *)

Lemma grid_exponent m e mc ec :
  on_grid m e -> canonical (Z.pos mc) ec ->
  (F2R m e <= F2R (Z.pos mc) ec)%R -> e <= ec.
Proof.
  intros (Hm & Hc & Hz) Hcc Hle.
  assert (-1074 <= ec) by (unfold canonical in Hcc; rewrite fexp_eq in Hcc; lia).
  destruct (Z.eq_dec m 0) as [E|]; [rewrite (Hz E); assumption|].
  specialize (Hc ltac:(lia)). unfold canonical in *.
  rewrite <- Hc, <- Hcc. apply fexp_mono.
  apply F2R_digits_mono; [lia|reflexivity|assumption].
Qed.

Lemma grid_above m e c :
  on_grid m e -> good c -> (F2R m e < B2R c)%R -> (F2R (m + 1) e <= B2R c)%R.
Proof.
  intros Hg Hc Hlt.
  assert (0 <= F2R m e)%R as H0.
  { destruct Hg as (Hm & _). rewrite <- (F2R_0 e). apply F2R_le. assumption. }
  destruct (good_pos_inv c Hc ltac:(lra)) as (mc & ec & -> & Hcan & _).
  simpl in *. pose proof (grid_exponent m e mc ec Hg Hcan ltac:(lra)) as He.
  rewrite <- (F2R_shift (Z.pos mc) ec (ec - e)) in * by lia.
  replace (ec - (ec - e)) with e in * by lia.
  apply F2R_le. apply F2R_lt_inv in Hlt. lia.
Qed.

Lemma grid_below m e c :
  on_grid m e -> good c -> (B2R c < F2R (m + 1) e)%R -> (B2R c <= F2R m e)%R.
Proof.
  intros Hg Hc Hlt. destruct (Rle_lt_dec (B2R c) (F2R m e)) as [|H]; [assumption|].
  pose proof (grid_above m e c Hg Hc H). lra.
Qed.

(** ** Renormalisation *)

Lemma pack_zero : pack 0 (-1074) = S754_zero false.
Proof. reflexivity. Qed.

Lemma pack_canonical m1 e1 :
  0 < m1 -> canonical m1 e1 ->
  pack m1 e1 =
  if e1 <=? 971 then S754_finite false (Z.to_pos m1) e1 else pos_inf.
Proof.
  intros Hm Hc. unfold pack, shr_fexp. fold (fexp (Zdigits2 m1 + e1)).
  rewrite Hc, Z.sub_diag. unfold shr. cbn [shr_record_of_loc shr_m].
  destruct m1 as [|p|p]; try lia. reflexivity.
Qed.

Lemma pack_carry e1 :
  -1074 <= e1 ->
  pack (2 ^ 53) e1 =
  if e1 + 1 <=? 971 then S754_finite false (Z.to_pos (2 ^ 52)) (e1 + 1) else pos_inf.
Proof.
  intros He. unfold pack, shr_fexp.
  change (Zdigits2 (2 ^ 53)) with 54. fold (fexp (54 + e1)).
  replace (fexp (54 + e1)) with (e1 + 1) by (rewrite fexp_eq; lia).
  replace (e1 + 1 - e1) with 1 by lia. reflexivity.
Qed.

(** What [pack] returns for a rounded grid point: its value, or infinity
    when the value is [2^1024] or more. *)
Lemma pack_value m e m1 :
  on_grid m e -> m1 = m \/ m1 = m + 1 ->
  (pack m1 e = pos_inf /\ (bpow 1024 <= F2R m1 e)%R) \/
  (good (pack m1 e) /\ B2R (pack m1 e) = F2R m1 e).
Proof.
  intros Hg Hm1. pose proof (on_grid_emin m e Hg) as Hemin.
  destruct (Z.eq_dec m1 0) as [E0|Hne].
  { right. destruct Hg as (Hm & _ & Hz). assert (m = 0) as Em by lia.
    rewrite E0, (Hz Em), pack_zero, F2R_0. split; [exact I|reflexivity]. }
  assert (0 < m1) as Hpos by (destruct Hg as (Hm & _); lia).
  destruct (round_on_grid m e m1 Hg Hm1 Hpos) as [Hc| ->].
  - rewrite pack_canonical by assumption. destruct (Z.leb_spec e 971) as [Hle|Hgt].
    + right. cbn [good B2R cond_Zopp]. rewrite Z2Pos.id by assumption. tauto.
    + left. split; [reflexivity|]. unfold canonical in Hc. rewrite fexp_eq in Hc.
      pose proof (F2R_digits_bounds m1 e Hpos) as [H _].
      eapply Rle_trans; [|exact H]. apply bpow_le. lia.
  - rewrite pack_carry by assumption. destruct (Z.leb_spec (e + 1) 971) as [Hle|Hgt].
    + right. cbn [good B2R cond_Zopp]. rewrite Z2Pos.id by reflexivity.
      split; [split; [|assumption]|].
      * unfold canonical. change (Zdigits2 (2 ^ 52)) with 53. rewrite fexp_eq. lia.
      * rewrite <- (F2R_shift (2 ^ 52) (e + 1) 1) by lia.
        f_equal. lia.
    + left. split; [reflexivity|].
      pose proof (F2R_digits_bounds (2 ^ 53) e eq_refl) as [H _].
      eapply Rle_trans; [|exact H]. apply bpow_le.
      change (Zdigits2 (2 ^ 53)) with 54. lia.
Qed.

(** Rounding a real that lies in the cell of a grid point to one of the
    cell's ends (to the lower end only if the real is below the upper end,
    to the upper end only if it is above the lower end) is faithful. *)
Lemma pack_faithful x m e m1 :
  on_grid m e ->
  (m1 = m /\ (F2R m e <= x < F2R (m + 1) e)%R) \/
  (m1 = m + 1 /\ (F2R m e < x < F2R (m + 1) e)%R) ->
  faithful x (pack m1 e).
Proof.
  intros Hg Hx.
  assert (m1 = m \/ m1 = m + 1) as Hm1 by tauto.
  pose proof (pack_value m e m1 Hg Hm1) as Hv.
  assert (forall c, good c -> (x <= B2R c)%R -> (F2R m1 e <= B2R c)%R) as Hup.
  { intros c Hc Hle. destruct Hx as [[-> Hx]|[-> Hx]]; [lra|].
    apply grid_above; [assumption..|lra]. }
  assert (forall c, good c -> (B2R c <= x)%R -> (B2R c <= F2R m1 e)%R) as Hdown.
  { intros c Hc Hle. destruct Hx as [[-> Hx]|[-> Hx]]; [|lra].
    apply grid_below; [assumption..|lra]. }
  split; [tauto|]. split.
  - intros c Hc Hle. specialize (Hup c Hc Hle). pose proof (good_lt_max c Hc).
    destruct Hv as [[_ Hbig]|[Hgood ->]]; [lra|tauto].
  - intros c Hc Hle. specialize (Hdown c Hc Hle).
    destruct Hv as [[-> _]|[_ ->]]; [left; reflexivity|right; assumption].
Qed.

(** ** Faithful rounding

    [binary_round_aux], the rounding step of every arithmetic operation,
    applied to a real located at a mantissa with enough digits. *)
Lemma round_aux_faithful x m e l :
  0 <= m -> located x m e l -> enough_digits m e ->
  faithful x (binary_round_aux Num.prec Num.emax false m e l).
Proof.
  intros Hm Hl He. rewrite binary_round_aux_pack.
  destruct (shr_fexp_spec x m e l Hm Hl He) as (mrs & -> & Hs).
  pose proof (shifted_on_grid x m e mrs Hm He Hs) as Hg.
  destruct Hs as [Hloc _].
  apply (pack_faithful x (shr_m mrs)); [assumption|].
  apply round_nearest_even_cases. exact Hloc.
Qed.

(** A faithful rounding of a real between two good numbers is a good
    number between them. *)
Lemma faithful_between x r lo hi :
  faithful x r -> good lo -> good hi -> (B2R lo <= x <= B2R hi)%R ->
  good r /\ (B2R lo <= B2R r <= B2R hi)%R.
Proof.
  intros (_ & Hup & Hdown) Hlo Hhi [H1 H2].
  destruct (Hup hi Hhi H2) as [Hg Hle]. split; [assumption|]. split; [|assumption].
  destruct (Hdown lo Hlo H1) as [->|]; [destruct Hg|assumption].
Qed.

(** A good number rounds to itself. *)
Lemma faithful_exact c r : good c -> faithful (B2R c) r -> good r /\ B2R r = B2R c.
Proof.
  intros Hc Hf.
  destruct (faithful_between (B2R c) r c c Hf Hc Hc ltac:(lra)) as [Hg ?].
  split; [assumption|lra].
Qed.

(** ** Canonical forms are unique, and comparison reads them in order *)

Lemma canonical_exp_lt m1 e1 m2 e2 :
  0 < m1 -> 0 < m2 -> canonical m1 e1 -> canonical m2 e2 -> e1 < e2 ->
  (F2R m1 e1 < F2R m2 e2)%R.
Proof.
  intros H1 H2 Hc1 Hc2 Hlt. destruct (Rlt_le_dec (F2R m1 e1) (F2R m2 e2)) as [|Hle]; [assumption|].
  pose proof (F2R_digits_mono m2 e2 m1 e1 H2 H1 Hle) as Hd.
  apply fexp_mono in Hd. unfold canonical in *. lia.
Qed.

Lemma F2R_inj m1 m2 e : F2R m1 e = F2R m2 e -> m1 = m2.
Proof.
  intros H. destruct (Z.lt_total m1 m2) as [Hlt|[E|Hlt]]; [|assumption|];
    apply (F2R_lt _ _ e) in Hlt; lra.
Qed.

Lemma zero_lt_finite m e : (0 < F2R (Z.pos m) e)%R.
Proof. rewrite <- (F2R_0 e). apply F2R_lt. reflexivity. Qed.

Lemma SFcompare_good a b :
  good a -> good b ->
  match SFcompare a b with
  | Some Lt => (B2R a < B2R b)%R
  | Some Eq => a = b
  | Some Gt => (B2R b < B2R a)%R
  | None => False
  end.
Proof.
  destruct a as [[]|[]| |[] m1 e1], b as [[]|[]| |[] m2 e2];
    cbn [good B2R cond_Zopp SFcompare]; try tauto;
    try (intros; apply zero_lt_finite).
  intros [Hc1 _] [Hc2 _]. destruct (Z.compare_spec e1 e2) as [->|Hlt|Hlt].
  - change (Pos.compare_cont Eq m1 m2) with (Pos.compare m1 m2).
    destruct (Pos.compare_spec m1 m2) as [->|H|H]; [reflexivity|apply F2R_lt; lia..].
  - apply canonical_exp_lt; auto; reflexivity.
  - apply canonical_exp_lt; auto; reflexivity.
Qed.

Lemma good_inj a b : good a -> good b -> B2R a = B2R b -> a = b.
Proof.
  intros Ha Hb E. pose proof (SFcompare_good a b Ha Hb) as H.
  destruct (SFcompare a b) as [[]|]; [assumption|lra..|destruct H].
Qed.

Lemma ltb_good a b : good a -> good b -> Num.ltb a b = true <-> (B2R a < B2R b)%R.
Proof.
  intros Ha Hb. pose proof (SFcompare_good a b Ha Hb) as H.
  unfold Num.ltb, SFltb. destruct (SFcompare a b) as [[]|]; subst;
    split; (reflexivity || discriminate || assumption || lra || tauto).
Qed.

Lemma leb_good a b : good a -> good b -> Num.leb a b = true <-> (B2R a <= B2R b)%R.
Proof.
  intros Ha Hb. pose proof (SFcompare_good a b Ha Hb) as H.
  unfold Num.leb, SFleb. destruct (SFcompare a b) as [[]|]; subst;
    split; (reflexivity || discriminate || lra || tauto).
Qed.

Lemma eqb_good a b : good a -> good b -> Num.eqb a b = true <-> a = b.
Proof.
  intros Ha Hb. pose proof (SFcompare_good a b Ha Hb) as H.
  unfold Num.eqb, SFeqb. destruct (SFcompare a b) as [[]|] eqn:E;
    split; try (reflexivity || discriminate || assumption || tauto);
    intros ->; lra.
Qed.

(** ** Representable reals *)

(** A mantissa of at most 53 bits with an exponent in range is the value
    of a good number. *)
Lemma good_of_F2R m e :
  0 <= m -> Zdigits2 m <= 53 -> -1074 <= e -> Zdigits2 m + e <= 1024 ->
  exists c, good c /\ B2R c = F2R m e.
Proof.
  intros Hm Hd He Hmax. destruct (Z.eq_dec m 0) as [->|Hne].
  { exists (S754_zero false). rewrite F2R_0. split; [exact I|reflexivity]. }
  set (e' := fexp (Zdigits2 m + e)).
  assert (e' <= e /\ e' <= 971) as [Hle H971] by (unfold e'; rewrite fexp_eq; lia).
  exists (S754_finite false (Z.to_pos (m * 2 ^ (e - e'))) e').
  assert (0 < m * 2 ^ (e - e')) as Hpos.
  { apply Z.mul_pos_pos; [lia|]. apply Z.pow_pos_nonneg; lia. }
  cbn [good B2R cond_Zopp]. rewrite Z2Pos.id by assumption. split; [split; [|assumption]|].
  - unfold canonical. rewrite Zdigits2_mul_pow by lia.
    replace (Zdigits2 m + (e - e') + e') with (Zdigits2 m + e) by lia. reflexivity.
  - rewrite <- (F2R_shift m e (e - e')) by lia. f_equal. lia.
Qed.

Lemma good_of_int z : 0 <= z <= 2 ^ 53 -> exists c, good c /\ B2R c = IZR z.
Proof.
  intros Hz. destruct (Z.eq_dec z (2 ^ 53)) as [->|Hne].
  - destruct (good_of_F2R 1 53) as (c & Hc & E); try (simpl; lia).
    exists c. split; [assumption|]. rewrite E. unfold F2R. rewrite bpow_IZR by lia. lra.
  - destruct (good_of_F2R z 0) as (c & Hc & E); try lia.
    + destruct (Z.eq_dec z 0) as [->|]; [simpl; lia|].
      pose proof (Zdigits2_bounds z ltac:(lia)) as [H1 _].
      destruct (Z_lt_le_dec 53 (Zdigits2 z)); [|lia].
      assert (2 ^ 53 <= 2 ^ (Zdigits2 z - 1)) by (apply Z.pow_le_mono_r; lia). lia.
    + destruct (Z.eq_dec z 0) as [->|]; [simpl; lia|].
      pose proof (Zdigits2_bounds z ltac:(lia)) as [H1 _].
      destruct (Z_lt_le_dec 1024 (Zdigits2 z)); [|lia].
      assert (2 ^ 1023 <= 2 ^ (Zdigits2 z - 1)) by (apply Z.pow_le_mono_r; lia).
      assert (2 ^ 53 < 2 ^ 1023) by (apply Z.pow_lt_mono_r; lia). lia.
    + exists c. split; [assumption|]. rewrite E. unfold F2R. rewrite bpow_0. lra.
Qed.

(** ** Rounding an integer mantissa: [binary_round], [binary_normalize] *)

Lemma faithful_good c : good c -> faithful (B2R c) c.
Proof.
  intros Hc. split; [right; assumption|]. split; intros c' _ H; [split|right]; assumption.
Qed.

Lemma faithful_zero x : x = 0%R -> faithful x (S754_zero false).
Proof. intros ->. apply (faithful_good (S754_zero false)). exact I. Qed.

Lemma shl_align_exp mx ex ex' : snd (shl_align mx ex ex') = Z.min ex ex'.
Proof. unfold shl_align. destruct (ex' - ex) eqn:E; simpl; lia. Qed.

Lemma shl_align_value mx ex ex' :
  F2R (Z.pos (fst (shl_align mx ex ex'))) (Z.min ex ex') = F2R (Z.pos mx) ex.
Proof.
  unfold shl_align. destruct (ex' - ex) as [|d|d] eqn:E; cbn [fst].
  - f_equal. lia.
  - f_equal. lia.
  - change (Pos.iter xO mx d) with (shift_pos d mx).
    rewrite shift_pos_correct. change (Z.pow_pos 2 d) with (2 ^ Z.pos d).
    rewrite Z.mul_comm. rewrite <- (F2R_shift (Z.pos mx) ex (Z.pos d)) by lia.
    f_equal. lia.
Qed.

Lemma same_value_enough m1 e1 m2 e2 :
  0 < m1 -> 0 < m2 -> F2R m1 e1 = F2R m2 e2 -> e1 <= fexp (Zdigits2 m2 + e2) ->
  enough_digits m1 e1.
Proof.
  intros H1 H2 E Hle. unfold enough_digits.
  pose proof (F2R_digits_mono m1 e1 m2 e2 H1 H2 ltac:(lra)).
  pose proof (F2R_digits_mono m2 e2 m1 e1 H2 H1 ltac:(lra)).
  replace (Zdigits2 m1 + e1) with (Zdigits2 m2 + e2) by lia. assumption.
Qed.

Lemma binary_round_faithful mx ex :
  faithful (F2R (Z.pos mx) ex) (binary_round Num.prec Num.emax false mx ex).
Proof.
  unfold binary_round.
  fold (fexp (Z.pos (digits2_pos mx) + ex)).
  pose proof (shl_align_exp mx ex (fexp (Z.pos (digits2_pos mx) + ex))) as He.
  pose proof (shl_align_value mx ex (fexp (Z.pos (digits2_pos mx) + ex))) as Hv.
  destruct (shl_align mx ex _) as [mz ez]. cbn [fst snd] in *. subst ez.
  apply round_aux_faithful; [lia|symmetry; exact Hv|].
  apply (same_value_enough _ _ (Z.pos mx) ex); [reflexivity|reflexivity|exact Hv|].
  simpl Zdigits2. lia.
Qed.

Lemma normalize_faithful z e :
  0 <= z -> faithful (F2R z e) (binary_normalize Num.prec Num.emax z e false).
Proof.
  intros Hz. destruct z as [|p|p]; [|apply binary_round_faithful|lia].
  apply faithful_zero, F2R_0.
Qed.

(** The conversion of an integer up to [2^53] is exact. *)
Lemma of_Z_exact z :
  0 <= z <= 2 ^ 53 -> good (Num.of_Z z) /\ B2R (Num.of_Z z) = IZR z.
Proof.
  intros Hz. destruct (good_of_int z Hz) as (c & Hc & E). rewrite <- E.
  apply faithful_exact; [assumption|]. rewrite E.
  replace (IZR z) with (F2R z 0) by (unfold F2R; rewrite bpow_0; lra).
  apply normalize_faithful. lia.
Qed.

Lemma of_Z_inj a b :
  0 <= a <= 2 ^ 53 -> 0 <= b <= 2 ^ 53 -> Num.of_Z a = Num.of_Z b -> a = b.
Proof.
  intros Ha Hb E. apply eq_IZR.
  rewrite <- (proj2 (of_Z_exact a Ha)), <- (proj2 (of_Z_exact b Hb)), E. reflexivity.
Qed.

(** ** Multiplication *)

Lemma Zdigits2_mul_ge a b :
  0 < a -> 0 < b -> Zdigits2 a + Zdigits2 b - 1 <= Zdigits2 (a * b).
Proof.
  intros Ha Hb. pose proof (Zdigits2_bounds a Ha) as [Ha1 _].
  pose proof (Zdigits2_bounds b Hb) as [Hb1 _].
  pose proof (Zdigits2_bounds (a * b) ltac:(nia)) as [_ Hab].
  pose proof (Zdigits2_pos a Ha). pose proof (Zdigits2_pos b Hb).
  assert (2 ^ (Zdigits2 a - 1 + (Zdigits2 b - 1)) <= a * b) as Hpow.
  { rewrite Z.pow_add_r by lia. apply Z.mul_le_mono_nonneg; try assumption;
      apply Z.pow_nonneg; lia. }
  destruct (Z_lt_le_dec (Zdigits2 a - 1 + (Zdigits2 b - 1)) (Zdigits2 (a * b))); [lia|].
  assert (2 ^ Zdigits2 (a * b) <= 2 ^ (Zdigits2 a - 1 + (Zdigits2 b - 1)))
    by (apply Z.pow_le_mono_r; lia). lia.
Qed.

Lemma mul_faithful a b :
  good a -> good b -> faithful (B2R a * B2R b) (Num.mul a b).
Proof.
  destruct a as [[]|[]| |[] m1 e1], b as [[]|[]| |[] m2 e2];
    cbn [good B2R cond_Zopp]; try tauto; intros Ha Hb;
    try (apply faithful_zero; lra).
  destruct Ha as [Ha _], Hb as [Hb _]. unfold Num.mul. cbn [SFmul xorb].
  apply round_aux_faithful; [lia| |].
  - cbn [located]. unfold F2R. rewrite Pos2Z.inj_mul, mult_IZR, bpow_add. lra.
  - unfold enough_digits, canonical in *. rewrite Pos2Z.inj_mul.
    pose proof (Zdigits2_mul_ge (Z.pos m1) (Z.pos m2) eq_refl eq_refl).
    pose proof (Zdigits2_pos (Z.pos m1) eq_refl).
    pose proof (Zdigits2_pos (Z.pos m2) eq_refl).
    rewrite fexp_eq in *. lia.
Qed.

(** ** Division *)

Lemma Zdigits2_div_ge a b :
  0 < a -> 0 < b -> Zdigits2 a - Zdigits2 b <= Zdigits2 (a / b).
Proof.
  intros Ha Hb. destruct (Z_lt_le_dec a b) as [Hlt|Hle].
  - rewrite Z.div_small by lia. pose proof (Zdigits2_le a b Ha ltac:(lia)). simpl. lia.
  - assert (0 < a / b) as Hq by (apply Z.div_str_pos; lia).
    pose proof (Zdigits2_bounds a Ha) as [Ha1 _].
    pose proof (Zdigits2_bounds b Hb) as [_ Hb2].
    pose proof (Zdigits2_bounds (a / b) Hq) as [_ Hq2].
    pose proof (Zdigits2_pos b Hb). pose proof (Zdigits2_pos (a / b) Hq).
    destruct (Z_lt_le_dec (Zdigits2 (a / b) + Zdigits2 b) (Zdigits2 a)) as [Hd|]; [|lia].
    assert (2 ^ (Zdigits2 (a / b) + Zdigits2 b) <= 2 ^ (Zdigits2 a - 1)) as Hp
      by (apply Z.pow_le_mono_r; lia).
    rewrite Z.pow_add_r in Hp by lia.
    pose proof (Z.mul_succ_div_gt a b Hb). nia.
Qed.

Lemma odd_gt_half r m : Z.even m = false -> 2 * r + 1 > m -> 2 * r > m.
Proof.
  intros E H. rewrite <- Z.negb_odd in E. apply Bool.negb_false_iff, Z.odd_spec in E.
  destruct E as [k ->]. lia.
Qed.

Lemma new_location_cases m r :
  0 < m -> 0 <= r < m ->
  match new_location m r with
  | loc_Exact => r = 0
  | loc_Inexact Lt => 0 < r /\ 2 * r < m
  | loc_Inexact Eq => 2 * r = m
  | loc_Inexact Gt => m < 2 * r
  end.
Proof.
  intros Hm Hr. unfold new_location, new_location_even, new_location_odd.
  destruct (Z.even m) eqn:Ev; destruct (Z.eqb_spec r 0) as [E0|Hne]; try assumption.
  - destruct (Z.compare_spec (2 * r) m); lia.
  - destruct (Z.compare_spec (2 * r + 1) m) as [E|Hlt|Hgt]; try lia.
    pose proof (odd_gt_half r m Ev ltac:(lia)). lia.
Qed.

(** The position of a quotient with remainder between its two
    neighbours on the grid. *)
Lemma new_location_spec m r q e (t := (IZR r / IZR m)%R) :
  0 < m -> 0 <= r < m ->
  located ((IZR q + t) * bpow e) q e (new_location m r).
Proof.
  intros Hm Hr. pose proof (bpow_pos e) as Hb.
  pose proof (new_location_cases m r Hm Hr) as Hc.
  assert (0 < IZR m)%R as Hm' by (apply IZR_lt; assumption).
  assert (IZR r = t * IZR m)%R as Et by (unfold t; field; lra).
  assert (IZR r < IZR m)%R as Hr' by (apply IZR_lt; lia).
  assert (t < 1)%R as Ht1 by (apply (Rmult_lt_reg_r (IZR m)); lra).
  destruct (new_location m r) as [|[]]; cbn [located]; unfold F2R.
  - subst r. replace t with 0%R by (unfold t; field; lra). lra.
  - apply (f_equal IZR) in Hc. rewrite mult_IZR in Hc.
    assert (t = 1 / 2)%R as -> by (apply (Rmult_eq_reg_r (IZR m)); lra). lra.
  - destruct Hc as [H0 Hc]. apply IZR_lt in H0, Hc. rewrite mult_IZR in Hc.
    assert (0 < t)%R by (apply (Rmult_lt_reg_r (IZR m)); lra).
    assert (t < 1 / 2)%R by (apply (Rmult_lt_reg_r (IZR m)); lra). nra.
  - apply IZR_lt in Hc. rewrite mult_IZR in Hc.
    assert (1 / 2 < t)%R by (apply (Rmult_lt_reg_r (IZR m)); lra). nra.
Qed.

Lemma div_core_spec m1 e1 m2 e2 (x := (F2R m1 e1 / F2R m2 e2)%R) :
  0 < m1 -> 0 < m2 ->
  exists q e l,
    SFdiv_core_binary Num.prec Num.emax m1 e1 m2 e2 = (q, e, l) /\
    0 <= q /\ located x q e l /\ enough_digits q e.
Proof.
  intros H1 H2. unfold SFdiv_core_binary.
  fold (fexp (Zdigits2 m1 + e1 - (Zdigits2 m2 + e2))).
  set (e := Z.min (fexp (Zdigits2 m1 + e1 - (Zdigits2 m2 + e2))) (e1 - e2)).
  set (s := e1 - e2 - e). assert (0 <= s) as Hs by (unfold s, e; lia).
  assert (match s with Z.pos _ => Z.shiftl m1 s | 0 => m1 | Z.neg _ => 0 end
          = m1 * 2 ^ s) as ->.
  { destruct s; [simpl; lia|apply Z.shiftl_mul_pow2; lia|lia]. }
  assert (0 < m1 * 2 ^ s) as Hm' by (apply Z.mul_pos_pos; [|apply Z.pow_pos_nonneg]; lia).
  pose proof (Z_div_mod (m1 * 2 ^ s) m2 ltac:(lia)) as Hdiv.
  pose proof (Zdigits2_div_ge (m1 * 2 ^ s) m2 Hm' H2) as Hd.
  unfold Z.div in Hd. destruct (Z.div_eucl (m1 * 2 ^ s) m2) as [q r].
  destruct Hdiv as [Eq Hr]. cbn [fst] in Hd.
  exists q, e, (new_location m2 r). split; [reflexivity|]. split; [nia|]. split.
  - replace x with ((IZR q + IZR r / IZR m2) * bpow e)%R;
      [apply new_location_spec; assumption|].
    unfold x. rewrite <- (F2R_shift m1 e1 s) by lia. unfold F2R.
    replace (e1 - s) with (e2 + e) by (unfold s; lia).
    rewrite Eq, plus_IZR, mult_IZR, bpow_add.
    pose proof (bpow_pos e2). pose proof (IZR_lt 0 m2 H2). field. lra.
  - unfold enough_digits. rewrite Zdigits2_mul_pow in Hd by lia.
    apply Z.le_trans with (fexp (Zdigits2 m1 + e1 - (Zdigits2 m2 + e2)));
      [unfold e; lia|]. apply fexp_mono. unfold s in Hd. lia.
Qed.

Lemma div_faithful a b :
  good a -> good b -> (0 < B2R b)%R -> faithful (B2R a / B2R b) (Num.div a b).
Proof.
  intros Ha Hb Hpos. destruct (good_pos_inv b Hb Hpos) as (m2 & e2 & -> & _).
  destruct a as [[]|[]| |[] m1 e1]; cbn [good] in Ha; try tauto.
  - apply faithful_zero. cbn [B2R]. lra.
  - unfold Num.div. cbn [SFdiv xorb B2R cond_Zopp].
    destruct (div_core_spec (Z.pos m1) e1 (Z.pos m2) e2 eq_refl eq_refl)
      as (q & e & l & -> & Hq & Hl & He).
    apply round_aux_faithful; assumption.
Qed.

(** ** Addition *)

Lemma add_faithful a b :
  good a -> good b -> faithful (B2R a + B2R b) (Num.add a b).
Proof.
  destruct a as [[]|[]| |[] m1 e1], b as [[]|[]| |[] m2 e2];
    cbn [good]; try tauto; intros Ha Hb.
  - apply faithful_zero. cbn [B2R]. lra.
  - replace (B2R (S754_zero false) + _)%R with (B2R (S754_finite false m2 e2))
      by (cbn [B2R]; lra). apply faithful_good. exact Hb.
  - replace (_ + B2R (S754_zero false))%R with (B2R (S754_finite false m1 e1))
      by (cbn [B2R]; lra). apply faithful_good. exact Ha.
  - unfold Num.add. cbn [SFadd B2R cond_Zopp].
    rewrite <- (shl_align_value m1 e1 (Z.min e1 e2)).
    rewrite <- (shl_align_value m2 e2 (Z.min e1 e2)).
    replace (Z.min e1 (Z.min e1 e2)) with (Z.min e1 e2) by lia.
    replace (Z.min e2 (Z.min e1 e2)) with (Z.min e1 e2) by lia.
    unfold F2R at 1 2. rewrite <- Rmult_plus_distr_r, <- plus_IZR.
    apply normalize_faithful. lia.
Qed.

(** ** The sign of a difference

    A comparator [(a, b) => a - b] is read by [sort] through the sign of
    its result only. *)

Lemma round_aux_neg_not_pos m e l :
  SFltb (S754_zero false) (binary_round_aux Num.prec Num.emax true m e l) = false.
Proof.
  unfold binary_round_aux. destruct (shr_fexp _ _ m e l) as [mrs e1].
  destruct (shr_fexp _ _ _ e1 loc_Exact) as [mrs2 e2].
  destruct (shr_m mrs2); [reflexivity| |reflexivity].
  destruct (e2 <=? Num.emax - Num.prec); reflexivity.
Qed.

Lemma round_neg_not_pos p e :
  SFltb (S754_zero false) (binary_round Num.prec Num.emax true p e) = false.
Proof.
  unfold binary_round. destruct (shl_align p e _) as [mz ez].
  apply round_aux_neg_not_pos.
Qed.

Lemma ltb_zero_pos r :
  r = pos_inf \/ good r -> r = pos_inf \/ (0 < B2R r)%R ->
  SFltb (S754_zero false) r = true.
Proof.
  intros [->|Hg] Hp; [reflexivity|]. destruct Hp as [->|Hp]; [reflexivity|].
  destruct (good_pos_inv r Hg Hp) as (m & e & -> & _). reflexivity.
Qed.

Lemma min_subnormal_good : good (S754_finite false 1 (-1074)).
Proof. split; [reflexivity|lia]. Qed.

Lemma round_pos_gt_zero p e :
  -1074 <= e -> SFltb (S754_zero false) (binary_round Num.prec Num.emax false p e) = true.
Proof.
  intros He. destruct (binary_round_faithful p e) as (Hg & _ & Hdown).
  apply ltb_zero_pos; [assumption|].
  pose proof (bpow_pos (-1074)) as Hb.
  destruct (Hdown _ min_subnormal_good) as [|H]; [|left; assumption|right].
  - cbn [B2R cond_Zopp]. unfold F2R. pose proof (bpow_le _ _ He).
    pose proof (IZR_le 1 (Z.pos p) ltac:(lia)). pose proof (bpow_pos e). nra.
  - cbn [B2R cond_Zopp] in H. unfold F2R in H. lra.
Qed.

Lemma canonical_emin m e : canonical m e -> -1074 <= e.
Proof. unfold canonical. rewrite fexp_eq. lia. Qed.

Lemma sub_gtb_zero a b :
  good a -> good b ->
  Num.gtb (Num.sub a b) Num.zero = true <-> (B2R b < B2R a)%R.
Proof.
  unfold Num.gtb, Num.sub, Num.zero.
  destruct a as [[]|[]| |[] m1 e1], b as [[]|[]| |[] m2 e2];
    cbn [good B2R cond_Zopp SFsub negb]; try tauto; intros Ha Hb.
  - split; [discriminate|lra].
  - pose proof (zero_lt_finite m2 e2). split; [discriminate|lra].
  - pose proof (zero_lt_finite m1 e1). split; [intros _; assumption|reflexivity].
  - rewrite <- (shl_align_value m1 e1 (Z.min e1 e2)).
    rewrite <- (shl_align_value m2 e2 (Z.min e1 e2)).
    replace (Z.min e1 (Z.min e1 e2)) with (Z.min e1 e2) by lia.
    replace (Z.min e2 (Z.min e1 e2)) with (Z.min e1 e2) by lia.
    pose proof (canonical_emin _ _ (proj1 Ha)). pose proof (canonical_emin _ _ (proj1 Hb)).
    set (z1 := Z.pos (fst (shl_align m1 e1 (Z.min e1 e2)))).
    set (z2 := Z.pos (fst (shl_align m2 e2 (Z.min e1 e2)))).
    destruct (z1 - z2) as [|p|p] eqn:E; cbn [binary_normalize].
    + split; [discriminate|]. intros Hlt%F2R_lt_inv. lia.
    + rewrite round_pos_gt_zero by lia. split; [intros _; apply F2R_lt; lia|reflexivity].
    + rewrite round_neg_not_pos. split; [discriminate|].
      intros Hlt%F2R_lt_inv. lia.
Qed.

(** ** [Math.min] *)

Lemma min_good a b :
  good a -> good b ->
  good (Num.min a b) /\ B2R (Num.min a b) = Rmin (B2R a) (B2R b).
Proof.
  intros Ha Hb. pose proof (ltb_good b a Hb Ha) as Hlt. unfold Num.ltb in Hlt.
  assert (Num.min a b = if SFltb b a then b else a) as ->.
  { destruct a as [[]|[]| |[] m1 e1], b as [[]|[]| |[] m2 e2];
      cbn [good] in *; try tauto; reflexivity. }
  destruct (SFltb b a).
  - split; [assumption|]. rewrite Rmin_right; [reflexivity|]. apply Rlt_le, Hlt. reflexivity.
  - split; [assumption|]. rewrite Rmin_left; [reflexivity|].
    destruct (Rle_lt_dec (B2R a) (B2R b)) as [|H]; [assumption|].
    apply Hlt in H. discriminate.
Qed.

(** ** [Math.round] *)

Lemma of_Z_of_good m e :
  0 <= e -> good (S754_finite false m e) ->
  Num.of_Z (Z.pos m * 2 ^ e) = S754_finite false m e.
Proof.
  intros He Hg. pose proof (normalize_faithful (Z.pos m * 2 ^ e) 0) as Hf.
  rewrite <- (Z.sub_diag e) in Hf at 2. rewrite F2R_shift in Hf by assumption.
  assert (0 <= Z.pos m * 2 ^ e) as H0 by (apply Z.mul_nonneg_nonneg; [|apply Z.pow_nonneg]; lia).
  destruct (faithful_exact (S754_finite false m e) _ Hg (Hf H0)) as [Hg' E].
  apply good_inj; assumption.
Qed.

Lemma round_Z_bounds m e (k := Num.round_Z false m e) :
  e < 0 -> 0 <= k /\ (IZR k <= F2R (Z.pos m) e + 1 / 2 < IZR k + 1)%R.
Proof.
  intros He. unfold k, Num.round_Z. cbn [cond_Zopp].
  replace (1 - e) with (1 + - e) by lia. rewrite Z.pow_add_r by lia.
  change (2 ^ 1) with 2. set (h := 2 ^ (- e)).
  assert (0 < h) as Hh by (apply Z.pow_pos_nonneg; lia).
  pose proof (Z.mul_div_le (2 * Z.pos m + h) (2 * h) ltac:(lia)) as H1.
  pose proof (Z.mul_succ_div_gt (2 * Z.pos m + h) (2 * h) ltac:(lia)) as H2.
  set (q := (2 * Z.pos m + h) / (2 * h)) in *.
  unfold Z.succ in H2. split; [nia|].
  assert (bpow e = / IZR h)%R as Eb.
  { unfold h. rewrite <- bpow_IZR by lia. rewrite <- (Z.opp_involutive e) at 1.
    apply bpow_neg. }
  apply IZR_le in H1. apply IZR_lt in H2. apply IZR_lt in Hh.
  rewrite ?mult_IZR, ?plus_IZR in H1, H2.
  change (2 * Z.pos m) with (Z.pos m~0) in H1, H2. rewrite (IZR_xO m) in H1, H2.
  rewrite (plus_IZR q 1) in H2. unfold F2R. rewrite Eb. split.
  - apply (Rmult_le_reg_r (IZR h)); [assumption|].
    replace ((IZR (Z.pos m) * / IZR h + 1 / 2) * IZR h)%R
      with (IZR (Z.pos m) + IZR h / 2)%R by (field; lra). lra.
  - apply (Rmult_lt_reg_r (IZR h)); [assumption|].
    replace ((IZR (Z.pos m) * / IZR h + 1 / 2) * IZR h)%R
      with (IZR (Z.pos m) + IZR h / 2)%R by (field; lra). lra.
Qed.

(** [Math.round] of a good number is the conversion of the integer
    [⌊x + 1/2⌋]. *)
Lemma round_spec p :
  good p ->
  exists k, 0 <= k /\ (IZR k <= B2R p + 1 / 2 < IZR k + 1)%R /\
            Num.round p = Num.of_Z k.
Proof.
  destruct p as [[]|[]| |[] m e]; cbn [good]; try tauto; intros Hg.
  - exists 0. cbn [B2R]. split; [lia|]. split; [lra|reflexivity].
  - unfold Num.round. cbn [B2R cond_Zopp]. destruct (Z.leb_spec 0 e) as [He|He].
    + exists (Z.pos m * 2 ^ e). split; [apply Z.mul_nonneg_nonneg; [|apply Z.pow_nonneg]; lia|].
      rewrite of_Z_of_good by assumption. split; [|reflexivity].
      rewrite <- (F2R_shift (Z.pos m) e e) by assumption. rewrite Z.sub_diag.
      unfold F2R. rewrite bpow_0. lra.
    + destruct (round_Z_bounds m e He) as [H0 Hb].
      exists (Num.round_Z false m e). split; [assumption|]. split; [assumption|].
      destruct (Num.round_Z false m e); reflexivity.
Qed.

Lemma round_bounded p (n : nat) :
  good p -> (B2R p <= IZR (Z.of_nat n))%R ->
  exists k : nat, (k <= n)%nat /\ Num.round p = Num.of_nat k.
Proof.
  intros Hg Hle. destruct (round_spec p Hg) as (k & H0 & [Hk _] & E).
  exists (Z.to_nat k). unfold Num.of_nat. rewrite Z2Nat.id by assumption.
  split; [|assumption].
  assert (IZR k < IZR (Z.of_nat n + 1))%R as Hlt by (rewrite plus_IZR; lra).
  apply lt_IZR in Hlt. lia.
Qed.

(** ** Counters as numbers, ratios and percentages *)

Definition small (n : nat) : Prop := Z.of_nat n <= 2 ^ 53.

Lemma of_nat_exact n :
  small n -> good (Num.of_nat n) /\ B2R (Num.of_nat n) = IZR (Z.of_nat n).
Proof. intros Hn. apply of_Z_exact. unfold small in Hn. lia. Qed.

Lemma of_nat_inj a b : small a -> small b -> Num.of_nat a = Num.of_nat b -> a = b.
Proof.
  unfold small. intros Ha Hb E. apply Nat2Z.inj. apply of_Z_inj; [lia..|exact E].
Qed.

Lemma geb_of_nat a b :
  small a -> small b -> Num.geb (Num.of_nat a) (Num.of_nat b) = (b <=? a)%nat.
Proof.
  intros Ha Hb. destruct (of_nat_exact a Ha) as [Ga Ea], (of_nat_exact b Hb) as [Gb Eb].
  unfold Num.geb. change SFleb with Num.leb.
  apply Bool.eq_iff_eq_true. rewrite leb_good, Ea, Eb, Nat.leb_le by assumption.
  split; [intros H%le_IZR; lia|intros H; apply IZR_le; lia].
Qed.

Lemma sub_of_nat_after a b :
  small a -> small b ->
  Num.gtb (Num.sub (Num.of_nat a) (Num.of_nat b)) Num.zero = true <-> (b < a)%nat.
Proof.
  intros Ha Hb. destruct (of_nat_exact a Ha) as [Ga Ea], (of_nat_exact b Hb) as [Gb Eb].
  rewrite sub_gtb_zero, Ea, Eb by assumption.
  split; [intros H%lt_IZR; lia|intros H; apply IZR_lt; lia].
Qed.

(** [(part / total) * w] for counters [part <= total]: a good number
    between [0] and [w]. *)
Lemma scaled_ratio_bounds (part total w : nat) :
  (part <= total)%nat -> (0 < total)%nat -> small total -> small w ->
  let p := Num.mul (Num.div (Num.of_nat part) (Num.of_nat total)) (Num.of_nat w) in
  good p /\ (B2R p <= IZR (Z.of_nat w))%R.
Proof.
  intros Hle Hpos Ht Hw p.
  assert (small part) as Hp by (unfold small in *; lia).
  assert (small 0 /\ small 1) as [S0 S1] by (unfold small; simpl; lia).
  destruct (of_nat_exact part Hp) as [Gp Ep], (of_nat_exact total Ht) as [Gt Et].
  destruct (of_nat_exact w Hw) as [Gw Ew].
  destruct (of_nat_exact 0 S0) as [G0 E0], (of_nat_exact 1 S1) as [G1 E1].
  change (IZR (Z.of_nat 0)) with 0%R in E0. change (IZR (Z.of_nat 1)) with 1%R in E1.
  assert (0 < IZR (Z.of_nat total))%R as Hpos' by (apply IZR_lt; lia).
  pose proof (IZR_le 0 (Z.of_nat part) ltac:(lia)) as Hp0.
  pose proof (IZR_le (Z.of_nat part) (Z.of_nat total) ltac:(lia)) as Hpt.
  pose proof (IZR_le 0 (Z.of_nat w) ltac:(lia)) as Hw0.
  destruct (faithful_between _ _ (Num.of_nat 0) (Num.of_nat 1)
              (div_faithful _ _ Gp Gt ltac:(lra)) G0 G1) as [Gq [Hq0 Hq1]].
  { rewrite E0, E1, Ep, Et. split.
    - apply Rmult_le_pos; [lra|]. apply Rlt_le, Rinv_0_lt_compat. lra.
    - apply (Rmult_le_reg_r (IZR (Z.of_nat total))); [lra|].
      unfold Rdiv. rewrite Rmult_assoc, Rinv_l by lra. lra. }
  rewrite E0 in Hq0. rewrite E1 in Hq1.
  destruct (faithful_between _ _ (Num.of_nat 0) (Num.of_nat w)
              (mul_faithful _ _ Gq Gw) G0 Gw) as [Gr [_ Hr]].
  { rewrite E0, Ew. split; nra. }
  rewrite Ew in Hr. split; assumption.
Qed.

(** ** Numbers bounded by a counter

    [bounded x n]: [x] is a good number and at most [n].  The clients reason
    with this predicate and the lemmas below, never with the reals. *)

Definition bounded (x : number) (n : nat) : Prop :=
  good x /\ (B2R x <= IZR (Z.of_nat n))%R.

Lemma bounded_of_nat k n : (k <= n)%nat -> small k -> bounded (Num.of_nat k) n.
Proof.
  intros Hle Hk. destruct (of_nat_exact k Hk) as [G E].
  split; [assumption|]. rewrite E. apply IZR_le. lia.
Qed.

Lemma bounded_zero n : bounded Num.zero n.
Proof. split; [exact I|]. cbn [B2R Num.zero]. apply (IZR_le 0). lia. Qed.

Lemma bounded_weaken x n m : (n <= m)%nat -> bounded x n -> bounded x m.
Proof.
  intros Hle [G H]. split; [assumption|].
  eapply Rle_trans; [exact H|]. apply IZR_le. lia.
Qed.

Lemma bounded_scaled (part total w : nat) :
  (part <= total)%nat -> (0 < total)%nat -> small total -> small w ->
  bounded (Num.mul (Num.div (Num.of_nat part) (Num.of_nat total)) (Num.of_nat w)) w.
Proof. intros. apply scaled_ratio_bounds; assumption. Qed.

Lemma bounded_add a b n m :
  bounded a n -> bounded b m -> small (n + m) -> bounded (Num.add a b) (n + m).
Proof.
  intros [Ga Ha] [Gb Hb] Hs. destruct (of_nat_exact (n + m) Hs) as [Gs Es].
  pose proof (good_nonneg a Ga). pose proof (good_nonneg b Gb).
  destruct (faithful_between _ _ Num.zero (Num.of_nat (n + m))
              (add_faithful a b Ga Gb) I Gs) as [G [_ H']].
  - rewrite Es, Nat2Z.inj_add, plus_IZR. cbn [B2R Num.zero]. lra.
  - split; [assumption|]. rewrite <- Es. assumption.
Qed.

Lemma bounded_min a n : good a -> small n -> bounded (Num.min a (Num.of_nat n)) n.
Proof.
  intros Ga Hn. destruct (of_nat_exact n Hn) as [Gn En].
  destruct (min_good a (Num.of_nat n) Ga Gn) as [G E].
  split; [assumption|]. rewrite E, <- En. apply Rmin_r.
Qed.

Lemma bounded_good x n : bounded x n -> good x.
Proof. intros [G _]. exact G. Qed.

Lemma bounded_round p n :
  bounded p n -> exists k : nat, (k <= n)%nat /\ Num.round p = Num.of_nat k.
Proof. intros [G H]. apply round_bounded; assumption. Qed.

(** [Math.round((part / total) * w)] is one of the integers [0 .. w]. *)
Lemma percent_round (part total w : nat) :
  (part <= total)%nat -> (0 < total)%nat -> small total -> small w ->
  exists k : nat, (k <= w)%nat /\
    Num.round (Num.mul (Num.div (Num.of_nat part) (Num.of_nat total))
                       (Num.of_nat w)) = Num.of_nat k.
Proof. intros. apply bounded_round, bounded_scaled; assumption. Qed.

Lemma small_le a b : (a <= b)%nat -> small b -> small a.
Proof. unfold small. lia. Qed.

Lemma small_100 : small 100.
Proof. unfold small. simpl. lia. Qed.

(** [x / n] is at most [1] when [x] is at most [n]. *)
Lemma bounded_div x n :
  bounded x n -> (0 < n)%nat -> small n -> bounded (Num.div x (Num.of_nat n)) 1.
Proof.
  intros [Gx Hx] Hpos Hn. destruct (of_nat_exact n Hn) as [Gn En].
  assert (small 1) as S1 by (unfold small; simpl; lia).
  destruct (of_nat_exact 1 S1) as [G1 E1].
  change (IZR (Z.of_nat 1)) with 1%R in E1.
  pose proof (good_nonneg x Gx) as H0.
  assert (0 < IZR (Z.of_nat n))%R as Hpos' by (apply IZR_lt; lia).
  destruct (faithful_between _ _ Num.zero (Num.of_nat 1)
              (div_faithful x _ Gx Gn ltac:(lra)) I G1) as [G [_ H']].
  - rewrite E1, En. cbn [B2R Num.zero]. split.
    + apply Rmult_le_pos; [lra|]. apply Rlt_le, Rinv_0_lt_compat. lra.
    + apply (Rmult_le_reg_r (IZR (Z.of_nat n))); [lra|].
      unfold Rdiv. rewrite Rmult_assoc, Rinv_l by lra. lra.
  - split; [assumption|]. rewrite E1 in H'. exact H'.
Qed.

(** [a / b] is at most [1] for counters [a <= b]. *)
Lemma bounded_ratio (a b : nat) :
  (a <= b)%nat -> (0 < b)%nat -> small b ->
  bounded (Num.div (Num.of_nat a) (Num.of_nat b)) 1.
Proof.
  intros Hle Hpos Hb. apply bounded_div; [|assumption..].
  apply bounded_of_nat; [assumption|]. exact (small_le a b Hle Hb).
Qed.

(** [x * w] is at most [n * w] when [x] is at most [n]. *)
Lemma bounded_mul x n w :
  bounded x n -> small w -> small (n * w) ->
  bounded (Num.mul x (Num.of_nat w)) (n * w).
Proof.
  intros [Gx Hx] Hw Hs. destruct (of_nat_exact w Hw) as [Gw Ew].
  destruct (of_nat_exact (n * w) Hs) as [Gs Es].
  pose proof (good_nonneg x Gx) as H0.
  pose proof (IZR_le 0 (Z.of_nat w) ltac:(lia)) as Hw0.
  destruct (faithful_between _ _ Num.zero (Num.of_nat (n * w))
              (mul_faithful _ _ Gx Gw) I Gs) as [G [_ H']].
  - rewrite Es, Ew, Nat2Z.inj_mul, mult_IZR. cbn [B2R Num.zero]. split; nra.
  - split; [assumption|]. rewrite <- Es. assumption.
Qed.

(** ** Reading a counter back *)

(** The integer part of a number (towards zero); [0] for the values that
    have none. *)
Definition to_Z (x : number) : Z :=
  match x with
  | S754_finite s m e =>
      cond_Zopp s (if 0 <=? e then Z.pos m * 2 ^ e else Z.pos m / 2 ^ (- e))
  | _ => 0
  end.

Lemma to_Z_good_int x z : good x -> B2R x = IZR z -> to_Z x = z.
Proof.
  destruct x as [[]|[]| |[] m e]; cbn [good B2R cond_Zopp to_Z]; try tauto; intros Hg E.
  - apply eq_IZR. exact E.
  - destruct (Z.leb_spec 0 e) as [He|He].
    + apply eq_IZR. rewrite <- E, <- (F2R_shift (Z.pos m) e e) by assumption.
      rewrite Z.sub_diag. unfold F2R. rewrite bpow_0. lra.
    + assert (Z.pos m = z * 2 ^ (- e)) as ->.
      { apply (F2R_inj _ _ e). rewrite E.
        replace e with (0 - - e) at 2 by lia. rewrite F2R_shift by lia.
        unfold F2R. rewrite bpow_0. lra. }
      apply Z.div_mul. apply Z.pow_nonzero; lia.
Qed.

Lemma to_Z_of_nat n : small n -> to_Z (Num.of_nat n) = Z.of_nat n.
Proof. intros Hn. destruct (of_nat_exact n Hn). apply to_Z_good_int; assumption. Qed.

Lemma eqb_of_nat a b :
  small a -> small b -> Num.eqb (Num.of_nat a) (Num.of_nat b) = true <-> a = b.
Proof.
  intros Ha Hb. destruct (of_nat_exact a Ha) as [Ga _], (of_nat_exact b Hb) as [Gb _].
  rewrite eqb_good by assumption. split; [apply of_nat_inj; assumption|congruence].
Qed.

Lemma of_nat_not_NaN n : small n -> Num.of_nat n <> Num.NaN.
Proof. intros Hn E. destruct (of_nat_exact n Hn) as [G _]. rewrite E in G. exact G. Qed.

Lemma small_lt n : Z.of_nat n < 2 ^ 53 -> small n.
Proof. unfold small. lia. Qed.

(** [(a / b) * c] for counters is a good number, whatever its size. *)
Lemma scaled_ratio_good (a b c : nat) :
  small a -> small b -> small c -> (0 < b)%nat ->
  good (Num.mul (Num.div (Num.of_nat a) (Num.of_nat b)) (Num.of_nat c)).
Proof.
  intros Ha Hb Hc Hpos.
  destruct (of_nat_exact a Ha) as [Ga Ea], (of_nat_exact b Hb) as [Gb Eb].
  destruct (of_nat_exact c Hc) as [Gc Ec].
  destruct (of_Z_exact (2 ^ 53) ltac:(lia)) as [Gm Em].
  destruct (good_of_F2R 1 106) as (top & Gtop & Etop); try (simpl; lia).
  assert (1 <= IZR (Z.of_nat b))%R as Hb1 by (apply (IZR_le 1); lia).
  pose proof (IZR_le 0 (Z.of_nat a) ltac:(lia)) as Ha0.
  pose proof (IZR_le (Z.of_nat a) (2 ^ 53) Ha) as Ha1.
  pose proof (IZR_le 0 (Z.of_nat c) ltac:(lia)) as Hc0.
  pose proof (IZR_le (Z.of_nat c) (2 ^ 53) Hc) as Hc1.
  assert (F2R 1 106 = IZR (2 ^ 53) * IZR (2 ^ 53))%R as Etop'.
  { unfold F2R. rewrite (bpow_IZR 106) by lia. rewrite <- !mult_IZR. reflexivity. }
  destruct (faithful_between _ _ Num.zero (Num.of_Z (2 ^ 53))
              (div_faithful _ _ Ga Gb ltac:(lra)) I Gm) as [Gq [Hq0 Hq1]].
  { rewrite Em, Ea, Eb. cbn [B2R Num.zero]. split.
    - apply Rmult_le_pos; [lra|]. apply Rlt_le, Rinv_0_lt_compat. lra.
    - apply (Rmult_le_reg_r (IZR (Z.of_nat b))); [lra|].
      unfold Rdiv. rewrite Rmult_assoc, Rinv_l by lra. nra. }
  cbn [B2R Num.zero] in Hq0. rewrite Em in Hq1.
  destruct (faithful_between _ _ Num.zero top
              (mul_faithful _ _ Gq Gc) I Gtop) as [Gr _]; [|exact Gr].
  rewrite Etop, Etop', Ec. cbn [B2R Num.zero]. split; nra.
Qed.
