(* ===== verification/Nearest.v ===== *)
(** * Round to nearest: the quotient of two counters

    [Binary64] shows that the operations of [JSNumber] round faithfully,
    which bounds their results.  This file adds what is needed to say
    which number a division returns:

    - the result of [binary_round_aux] is a closest number to the real it
      is given ([round_aux_closest]), hence so are products and quotients
      of good numbers ([mul_nearest], [div_nearest]);
    - every real of the normal range lies in a cell of the grid whose two
      ends are good numbers ([binade]), so a faithful rounding is within
      one unit in the last place ([faithful_error]);
    - two closest roundings of a real differ only when the real is the
      midpoint of a cell ([nearest_unique]), and the ratio of two counters
      is never such a midpoint ([ratio_not_midpoint]): the quotient of two
      counters depends on their ratio only ([div_ratio]).

    The source computes every rate as [(part / total) * 100]; [Rates]
    draws the consequences for the rates and for the thresholds they are
    compared with. *)

From Stdlib Require Import ZArith Znumtheory Reals Lra Lia SpecFloat.
From S2P Require Import JSNumber Binary64.

Local Open Scope Z_scope.

(** No good number is closer to [x] than [r]. *)
Definition closest (x : R) (r : number) : Prop :=
  forall c, good c -> (Rabs (B2R r - x) <= Rabs (B2R c - x))%R.

(** [x] rounded to nearest gives [r]. *)
Definition nearest (x : R) (r : number) : Prop :=
  faithful x r /\ (good r -> closest x r).

Lemma Rabs_le_iff a b : (Rabs a <= b)%R <-> (- b <= a <= b)%R.
Proof. unfold Rabs. destruct (Rcase_abs a); lra. Qed.

Lemma bpow_opp_l e : (bpow (- e) * bpow e = 1)%R.
Proof. rewrite <- bpow_add, Z.add_opp_diag_l. apply bpow_0. Qed.

(** ** The rounding step *)

Lemma round_nearest_even_half x m e l :
  located x m e l ->
  (Rabs (F2R (round_nearest_even m l) e - x) <= bpow e / 2)%R.
Proof.
  pose proof (bpow_pos e).
  destruct l as [|[]]; cbn [located round_nearest_even]; intros Hl;
    try destruct (Z.even m); rewrite ?F2R_succ; apply Rabs_le; lra.
Qed.

Lemma good_not_inf : ~ good pos_inf.
Proof. intros []. Qed.

(** Of the two ends of a cell, the one within half a cell of [x] is a
    closest good number. *)
Lemma pack_closest x m e m1 :
  on_grid m e -> (F2R m e <= x < F2R (m + 1) e)%R -> m1 = m \/ m1 = m + 1 ->
  (Rabs (F2R m1 e - x) <= bpow e / 2)%R ->
  good (pack m1 e) -> closest x (pack m1 e).
Proof.
  intros Hg Hx Hm1 Hhalf Hgood c Hc.
  destruct (pack_value m e m1 Hg Hm1) as [[E _]|[_ ->]];
    [rewrite E in Hgood; destruct Hgood|].
  rewrite F2R_succ in Hx.
  assert (B2R c <= F2R m e \/ F2R m e + bpow e <= B2R c)%R as Hcell.
  { destruct (Rle_lt_dec (B2R c) (F2R m e)) as [|Hlt]; [left; assumption|].
    right. rewrite <- F2R_succ. apply grid_above; assumption. }
  apply Rabs_le_iff in Hhalf.
  destruct Hm1 as [-> | ->]; rewrite ?F2R_succ in *;
    unfold Rabs; repeat destruct Rcase_abs; lra.
Qed.

Lemma round_aux_closest x m e l (r := binary_round_aux Num.prec Num.emax false m e l) :
  0 <= m -> located x m e l -> enough_digits m e -> nearest x r.
Proof.
  intros Hm Hl He. split; [apply round_aux_faithful; assumption|].
  unfold r. rewrite binary_round_aux_pack.
  destruct (shr_fexp_spec x m e l Hm Hl He) as (mrs & -> & Hs).
  pose proof (shifted_on_grid x m e mrs Hm He Hs) as Hg.
  destruct Hs as [Hloc _].
  pose proof (round_nearest_even_cases _ _ _ _ Hloc) as Hcases.
  apply (pack_closest x (shr_m mrs)); [assumption| | |].
  - destruct Hcases as [[_ ?]|[_ ?]]; lra.
  - destruct Hcases as [[-> _]|[-> _]]; [left|right]; reflexivity.
  - apply round_nearest_even_half. exact Hloc.
Qed.

Lemma nearest_zero x : x = 0%R -> nearest x (S754_zero false).
Proof.
  intros ->. split; [apply faithful_zero; reflexivity|].
  intros _ c Hc. cbn [B2R]. rewrite Rminus_0_r, Rabs_R0. apply Rabs_pos.
Qed.

(** ** Products and quotients *)

Lemma mul_nearest a b :
  good a -> good b -> nearest (B2R a * B2R b) (Num.mul a b).
Proof.
  intros Ha Hb. split; [apply mul_faithful; assumption|].
  destruct a as [[]|[]| |[] m1 e1], b as [[]|[]| |[] m2 e2];
    cbn [good B2R cond_Zopp] in *; try tauto;
    try (apply nearest_zero; lra).
  destruct Ha as [Ha _], Hb as [Hb _]. unfold Num.mul. cbn [SFmul xorb].
  apply round_aux_closest; [lia| |].
  - cbn [located]. unfold F2R. rewrite Pos2Z.inj_mul, mult_IZR, bpow_add. lra.
  - unfold enough_digits, canonical in *. rewrite Pos2Z.inj_mul.
    pose proof (Zdigits2_mul_ge (Z.pos m1) (Z.pos m2) eq_refl eq_refl).
    pose proof (Zdigits2_pos (Z.pos m1) eq_refl).
    pose proof (Zdigits2_pos (Z.pos m2) eq_refl).
    rewrite fexp_eq in *. lia.
Qed.

Lemma div_nearest a b :
  good a -> good b -> (0 < B2R b)%R -> nearest (B2R a / B2R b) (Num.div a b).
Proof.
  intros Ha Hb Hpos. destruct (good_pos_inv b Hb Hpos) as (m2 & e2 & -> & _).
  destruct a as [[]|[]| |[] m1 e1]; cbn [good] in Ha; try tauto.
  - apply nearest_zero. cbn [B2R]. lra.
  - unfold Num.div. cbn [SFdiv xorb B2R cond_Zopp].
    destruct (div_core_spec (Z.pos m1) e1 (Z.pos m2) e2 eq_refl eq_refl)
      as (q & e & l & -> & Hq & Hl & He).
    apply round_aux_closest; assumption.
Qed.

(** ** The cell of a real

    A real of the normal range lies between two neighbours of the grid
    whose mantissa has 53 bits. *)

Lemma Int_part_bounds y lo hi (n := Int_part y) :
  (IZR lo <= y < IZR hi)%R -> lo <= n < hi /\ (IZR n <= y < IZR (n + 1))%R.
Proof.
  intros [H1 H2]. destruct (base_Int_part y) as [Hn1 Hn2]. fold n in Hn1, Hn2.
  rewrite plus_IZR. split; [|lra].
  assert (IZR lo < IZR (n + 1))%R as Ha by (rewrite plus_IZR; lra).
  assert (IZR n < IZR hi)%R as Hb by lra.
  apply lt_IZR in Ha, Hb. lia.
Qed.

Lemma binade_exponent x :
  (bpow (-1022) <= x < bpow 1023)%R ->
  exists e, -1074 <= e <= 970 /\ (bpow (e + 52) <= x < bpow (e + 53))%R.
Proof.
  intros [Hlo Hhi]. pose proof (bpow_pos 1074) as Hp.
  assert (IZR (2 ^ 52) <= x * bpow 1074 < IZR (2 ^ 2097))%R as Hy.
  { rewrite <- !bpow_IZR by lia.
    change 52 with (-1022 + 1074). change 2097 with (1023 + 1074).
    rewrite !bpow_add. split; [apply Rmult_le_compat_r|apply Rmult_lt_compat_r]; lra. }
  destruct (Int_part_bounds _ _ _ Hy) as [Hn [Hn1 Hn2]].
  set (n := Int_part (x * bpow 1074)) in *.
  pose proof (Z.log2_spec n ltac:(lia)) as [HL1 HL2].
  assert (52 <= Z.log2 n) as HL by (apply Z.log2_le_pow2; lia).
  set (L := Z.log2 n) in *. exists (L - 1126).
  assert (L <= 2096) as HLmax.
  { destruct (Z_lt_le_dec 2096 L) as [Hgt|]; [|lia].
    assert (2 ^ 2097 <= 2 ^ L) by (apply Z.pow_le_mono_r; lia). lia. }
  split; [lia|].
  rewrite <- Z.add_1_r in HL2. apply IZR_le in HL1.
  assert (IZR (n + 1) <= IZR (2 ^ (L + 1)))%R as HL3 by (apply IZR_le; lia).
  rewrite <- !bpow_IZR in * by lia.
  replace (L - 1126 + 52) with (L + - 1074) by lia.
  replace (L - 1126 + 53) with (L + 1 + - 1074) by lia.
  rewrite !bpow_add. rewrite bpow_add in HL3. pose proof (bpow_pos (- 1074)) as Hq.
  assert (bpow 1074 * bpow (- 1074) = 1)%R as Hinv
    by (rewrite <- bpow_add; apply bpow_0).
  replace x with (x * bpow 1074 * bpow (- 1074))%R
    by (rewrite Rmult_assoc, Hinv; lra).
  split; [apply Rmult_le_compat_r|apply Rmult_lt_compat_r]; lra.
Qed.

Lemma binade x :
  (bpow (-1022) <= x < bpow 1023)%R ->
  exists m e, 2 ^ 52 <= m < 2 ^ 53 /\ -1074 <= e <= 970 /\
              (F2R m e <= x < F2R (m + 1) e)%R.
Proof.
  intros Hx. destruct (binade_exponent x Hx) as (e & He & Hb).
  pose proof (bpow_pos (- e)) as Hp. pose proof (bpow_pos e) as Hq.
  pose proof (bpow_opp_l e) as Hinv.
  assert (IZR (2 ^ 52) <= x * bpow (- e) < IZR (2 ^ 53))%R as Hz.
  { rewrite <- !bpow_IZR by lia.
    replace 52 with (e + 52 + - e) by lia. replace 53 with (e + 53 + - e) by lia.
    rewrite !(bpow_add _ (- e)).
    split; [apply Rmult_le_compat_r|apply Rmult_lt_compat_r]; lra. }
  destruct (Int_part_bounds _ _ _ Hz) as [Hm [Hm1 Hm2]].
  exists (Int_part (x * bpow (- e))), e. split; [assumption|]. split; [assumption|].
  unfold F2R. replace x with (x * bpow (- e) * bpow e)%R at 2 3
    by (rewrite Rmult_assoc, Hinv; lra).
  split; [apply Rmult_le_compat_r|apply Rmult_lt_compat_r]; lra.
Qed.

(** The two ends of such a cell are good numbers. *)
Lemma binade_good m e :
  2 ^ 52 <= m < 2 ^ 53 -> -1074 <= e <= 970 ->
  on_grid m e /\
  (exists lo, good lo /\ B2R lo = F2R m e) /\
  (exists hi, good hi /\ B2R hi = F2R (m + 1) e).
Proof.
  intros Hm He.
  assert (Zdigits2 m = 53) as Hd by (apply Zdigits2_unique; simpl; lia).
  split; [|split].
  - split; [lia|]. split; [|lia]. intros _. unfold canonical.
    rewrite Hd, fexp_eq. lia.
  - apply good_of_F2R; lia.
  - destruct (Z.eq_dec (m + 1) (2 ^ 53)) as [E|Hne].
    + rewrite E. change (2 ^ 53) with (2 ^ 52 * 2 ^ 1).
      replace e with (e + 1 - 1) by lia. rewrite F2R_shift by lia.
      apply good_of_F2R; simpl; lia.
    + assert (Zdigits2 (m + 1) = 53) as Hd' by (apply Zdigits2_unique; simpl; lia).
      apply good_of_F2R; lia.
Qed.

(** A faithful rounding lies in the cell of the real, ends included. *)
Lemma faithful_cell x r m e :
  2 ^ 52 <= m < 2 ^ 53 -> -1074 <= e <= 970 ->
  (F2R m e <= x < F2R (m + 1) e)%R -> faithful x r ->
  good r /\ (B2R r = F2R m e \/ B2R r = F2R (m + 1) e).
Proof.
  intros Hm He Hx Hf.
  destruct (binade_good m e Hm He) as (Hg & (lo & Glo & Elo) & (hi & Ghi & Ehi)).
  destruct (faithful_between x r lo hi Hf Glo Ghi) as [Gr Hr];
    [rewrite Elo, Ehi; lra|].
  split; [assumption|]. rewrite Elo, Ehi in Hr.
  destruct (Rle_lt_dec (B2R r) (F2R m e)) as [|Hlt]; [left; lra|].
  right. pose proof (grid_above m e r Hg Gr Hlt). lra.
Qed.

(** A faithful rounding is within one unit in the last place. *)
Lemma faithful_error x r :
  (bpow (-1022) <= x < bpow 1023)%R -> faithful x r ->
  good r /\ (Rabs (B2R r - x) <= x * bpow (-52))%R.
Proof.
  intros Hx Hf. destruct (binade x Hx) as (m & e & Hm & He & Hc).
  destruct (faithful_cell x r m e Hm He Hc Hf) as [Gr Hr].
  split; [assumption|]. rewrite F2R_succ in *.
  assert (bpow e <= x * bpow (-52))%R as Hulp.
  { pose proof (bpow_pos (-52)). pose proof (bpow_pos e).
    destruct Hm as [Hm _]. apply IZR_le in Hm.
    rewrite <- bpow_IZR in Hm by lia. unfold F2R in Hc.
    replace (bpow e) with (bpow 52 * bpow e * bpow (-52))%R at 1
      by (rewrite (Rmult_comm (bpow 52)), Rmult_assoc, <- bpow_add;
          change (52 + -52) with 0; rewrite bpow_0; lra).
    apply Rmult_le_compat_r; [lra|]. apply Rle_trans with (IZR m * bpow e)%R; [|lra].
    apply Rmult_le_compat_r; lra. }
  apply Rabs_le_iff. destruct Hr as [-> | ->]; lra.
Qed.

(** ** Uniqueness

    Two roundings to nearest of one real are the same number unless the
    real is the midpoint of its cell. *)

Lemma midpoint m e : (F2R m e + bpow e / 2 = F2R (2 * m + 1) (e - 1))%R.
Proof.
  unfold F2R. rewrite plus_IZR, mult_IZR.
  replace e with (e - 1 + 1) at 1 2 by lia. rewrite bpow_succ. lra.
Qed.

Lemma closest_both x r r' :
  closest x r -> closest x r' -> good r -> good r' ->
  Rabs (B2R r - x) = Rabs (B2R r' - x).
Proof.
  intros Hr Hr' Gr Gr'. apply Rle_antisym; [apply Hr|apply Hr']; assumption.
Qed.

Lemma nearest_unique x r r' :
  (bpow (-1022) <= x < bpow 1023)%R -> nearest x r -> nearest x r' ->
  r = r' \/ exists m e, 2 ^ 52 <= m /\ x = F2R (2 * m + 1) (e - 1).
Proof.
  intros Hx [Hf Hc] [Hf' Hc']. destruct (binade x Hx) as (m & e & Hm & He & Hcell).
  destruct (faithful_cell x r m e Hm He Hcell Hf) as [Gr Hr].
  destruct (faithful_cell x r' m e Hm He Hcell Hf') as [Gr' Hr'].
  pose proof (closest_both x r r' (Hc Gr) (Hc' Gr') Gr Gr') as Habs.
  destruct (Req_dec (B2R r) (B2R r')) as [E|Hne];
    [left; apply good_inj; assumption|].
  right. exists m, e. split; [lia|]. rewrite <- midpoint.
  rewrite F2R_succ in *. pose proof (bpow_pos e).
  destruct Hr as [Er|Er], Hr' as [Er'|Er']; rewrite Er, Er' in *;
    try (exfalso; apply Hne; reflexivity);
    unfold Rabs in Habs; repeat destruct Rcase_abs in Habs; lra.
Qed.

(** ** Ratios of counters *)

(** An odd number that divides [a * 2^k] divides [a]. *)
Lemma odd_mul_pow2 n k :
  0 <= k -> forall a b, (2 * n + 1) * b = a * 2 ^ k ->
  exists b', b = b' * 2 ^ k /\ a = (2 * n + 1) * b'.
Proof.
  intros Hk. pattern k. apply natlike_ind; [| |assumption]; clear k Hk.
  - intros a b E. exists b. rewrite Z.pow_0_r in *. lia.
  - intros k Hk IH a b E. rewrite Z.pow_succ_r in * by assumption.
    destruct (IH (2 * a) b ltac:(lia)) as (b1 & -> & E1).
    destruct (Z.Even_or_Odd b1) as [[b2 ->]|[b2 ->]]; [|lia].
    exists b2. split; lia.
Qed.

(** The ratio of a counter to a counter is not the midpoint of a cell: the
    odd mantissa of a midpoint has 54 bits. *)
Lemma ratio_not_midpoint (a b m e : Z) :
  0 < a <= 2 ^ 53 -> 0 < b -> 2 ^ 52 <= m ->
  (IZR a / IZR b)%R <> F2R (2 * m + 1) (e - 1).
Proof.
  intros Ha Hb Hm E. assert (0 < IZR b)%R as Hb' by (apply IZR_lt; assumption).
  apply (f_equal (fun y => (y * IZR b)%R)) in E.
  unfold Rdiv, F2R in E. rewrite Rmult_assoc, Rinv_l, Rmult_1_r in E by lra.
  destruct (Z_le_gt_dec 0 (e - 1)) as [He|He].
  - rewrite bpow_IZR, <- !mult_IZR in E by assumption. apply eq_IZR in E.
    assert (0 < 2 ^ (e - 1)) by (apply Z.pow_pos_nonneg; lia). nia.
  - replace (e - 1) with (- (1 - e)) in E by lia.
    rewrite bpow_neg, bpow_IZR in E by lia.
    assert (0 < 2 ^ (1 - e)) as Hp by (apply Z.pow_pos_nonneg; lia).
    pose proof (IZR_lt _ _ Hp) as Hp'.
    apply (f_equal (fun y => (y * IZR (2 ^ (1 - e)))%R)) in E.
    replace (IZR (2 * m + 1) * / IZR (2 ^ (1 - e)) * IZR b * IZR (2 ^ (1 - e)))%R
      with (IZR (2 * m + 1) * IZR b)%R in E by (field; lra).
    rewrite <- !mult_IZR in E. apply eq_IZR in E. symmetry in E.
    destruct (odd_mul_pow2 m (1 - e) ltac:(lia) a b E) as (b' & -> & ->).
    assert (1 <= b') by nia.
    assert (2 * m + 1 <= (2 * m + 1) * b') by nia. lia.
Qed.

(** The ratio of two positive counters is between [2^-53] and [2^53],
    well inside the normal range. *)
Lemma ratio_bounds (a b : nat) :
  small a -> small b -> (0 < a)%nat -> (0 < b)%nat ->
  (bpow (-53) <= IZR (Z.of_nat a) / IZR (Z.of_nat b) <= bpow 53)%R.
Proof.
  unfold small. intros Sa Sb Ha Hb.
  apply IZR_le in Sa, Sb. rewrite <- bpow_IZR in Sa, Sb by lia.
  pose proof (IZR_le 1 (Z.of_nat a) ltac:(lia)) as Ha1.
  pose proof (IZR_le 1 (Z.of_nat b) ltac:(lia)) as Hb1.
  set (A := IZR (Z.of_nat a)) in *. set (B := IZR (Z.of_nat b)) in *.
  pose proof (bpow_pos 53) as HT. split.
  - replace (bpow (- 53)) with (/ bpow 53)%R by (symmetry; apply (bpow_neg 53)).
    apply (Rmult_le_reg_r (bpow 53 * B)); [nra|].
    replace (/ bpow 53 * (bpow 53 * B))%R with B by (field; lra).
    replace (A / B * (bpow 53 * B))%R with (A * bpow 53)%R by (field; lra). nra.
  - apply (Rmult_le_reg_r B); [lra|].
    replace (A / B * B)%R with A by (field; lra). nra.
Qed.

Lemma ratio_normal (a b : nat) :
  small a -> small b -> (0 < a)%nat -> (0 < b)%nat ->
  (bpow (-1022) <= IZR (Z.of_nat a) / IZR (Z.of_nat b) < bpow 1023)%R.
Proof.
  intros Sa Sb Ha Hb. destruct (ratio_bounds a b Sa Sb Ha Hb) as [H1 H2].
  pose proof (bpow_le (-1022) (-53) ltac:(lia)).
  pose proof (bpow_lt 53 1023 ltac:(lia)). lra.
Qed.

(** The quotient of two counters is a function of their ratio. *)
Lemma div_ratio (a b a' b' : nat) :
  small a -> small b -> small a' -> small b' -> (0 < b)%nat -> (0 < b')%nat ->
  (a * b' = a' * b)%nat ->
  Num.div (Num.of_nat a) (Num.of_nat b) = Num.div (Num.of_nat a') (Num.of_nat b').
Proof.
  intros Sa Sb Sa' Sb' Hb Hb' E.
  destruct (of_nat_exact a Sa) as [Ga Ea], (of_nat_exact b Sb) as [Gb Eb].
  destruct (of_nat_exact a' Sa') as [Ga' Ea'], (of_nat_exact b' Sb') as [Gb' Eb'].
  assert (0 < IZR (Z.of_nat b))%R as Pb by (apply IZR_lt; lia).
  assert (0 < IZR (Z.of_nat b'))%R as Pb' by (apply IZR_lt; lia).
  pose proof (div_nearest _ _ Ga Gb ltac:(lra)) as Hn.
  pose proof (div_nearest _ _ Ga' Gb' ltac:(lra)) as Hn'.
  rewrite Ea, Eb in Hn. rewrite Ea', Eb' in Hn'.
  assert (IZR (Z.of_nat a') / IZR (Z.of_nat b') =
          IZR (Z.of_nat a) / IZR (Z.of_nat b))%R as Ex.
  { apply (f_equal Z.of_nat) in E. rewrite !Nat2Z.inj_mul in E.
    apply (f_equal IZR) in E. rewrite !mult_IZR in E. field_simplify_eq; lra. }
  rewrite Ex in Hn'. destruct (Nat.eq_dec a 0) as [->|Ha].
  - assert (a' = 0)%nat as -> by nia.
    destruct Hn as [Hf _], Hn' as [Hf' _]. change (IZR (Z.of_nat 0)) with 0%R in *.
    unfold Rdiv in Hf, Hf'. rewrite Rmult_0_l in Hf, Hf'.
    destruct (faithful_exact Num.zero _ I Hf) as [G Ev].
    destruct (faithful_exact Num.zero _ I Hf') as [G' Ev'].
    apply good_inj; [assumption..|]. rewrite Ev, Ev'. reflexivity.
  - destruct (nearest_unique _ _ _ (ratio_normal a b Sa Sb ltac:(lia) Hb) Hn Hn')
      as [|(m & e & Hm & Emid)]; [assumption|].
    exfalso. apply (ratio_not_midpoint (Z.of_nat a) (Z.of_nat b) m e); try assumption.
    + unfold small in Sa. lia.
    + lia.
Qed.
