(* ===== verification/Rates.v ===== *)
(** * Rates: what [(part / total) * w] computes

    Every rate of the two dashboards is [Math.round((part / total) * 100)]
    for two counters, and the coverage cell of the alert dashboard compares
    [(part / total) * 100] with 90 and 75.  Two roundings happen before
    [Math.round] or the comparison sees the number.  This file says what
    comes out, in terms of the integers [part], [total] and [w]:

    - [scaled part total w] is within [w * 2^-50] of the exact value
      ([scaled_error]);
    - hence [Math.round] of it is the integer nearest to
      [w * part / total] whenever that value is not half-way between two
      integers ([round_scaled]), and a comparison with an integer [b]
      agrees with the comparison of [w * part] with [b * total] whenever
      the two differ ([scaled_geb]);
    - in the two remaining cases the ratio [part / total] is [(2k+1) / 2w]
      or [b / w], and because the quotient of two counters depends on
      their ratio only ([div_ratio]) the result is the one computed for
      that fraction ([scaled_ratio]).

    For [w = 100] the hundred half-way cases are computed:
    [rounded_percent] is the integer function the source's rates
    implement, rounding half up except for the fractions of
    [down_ties]. *)

From Stdlib Require Import ZArith Reals Lra Lia SpecFloat List.
From S2P Require Import JSNumber Binary64 Nearest.
Import ListNotations.

Local Open Scope Z_scope.

(** ** Definitions *)

(** [(part / total) * w], as the source writes it. *)
Definition scaled (part total w : nat) : number :=
  Num.mul (Num.div (Num.of_nat part) (Num.of_nat total)) (Num.of_nat w).

(** The integer nearest to [a / b], a half rounding up. *)
Definition round_div (a b : Z) : Z := (2 * a + b) / (2 * b).

(** The fractions [(2j+1)/200] whose percentage the two roundings bring
    below the half: 14.5, 28.5, 56.5 and 57.5 are shown as 14, 28, 56
    and 57. *)
Definition down_ties : list nat := [14; 28; 56; 57]%nat.

Definition rounds_down (j : nat) : bool := existsb (Nat.eqb j) down_ties.

(** The integer that [Math.round((part / total) * 100)] is: the
    percentage rounded to the nearest integer, a half rounding up except
    for the four fractions above. *)
Definition rounded_percent (part total : nat) : nat :=
  let n := (200 * part + total)%nat in
  let k := (n / (2 * total))%nat in
  if ((n mod (2 * total) =? 0)%nat && rounds_down (k - 1))%bool then (k - 1)%nat else k.

(** The percentages [b] for which [(b / 100) * 100] is below [b]. *)
Definition below_itself : list nat := [29; 57; 58]%nat.

(** ** The error of the two roundings *)

(** Two roundings of relative error [u], of a ratio and of its product. *)
Lemma two_roundings (x q p w u : R) :
  (0 <= x <= 1)%R -> (0 <= w)%R -> (0 <= u <= 1)%R ->
  (Rabs (q - x) <= x * u)%R -> (Rabs (p - q * w) <= q * w * u)%R ->
  (Rabs (p - w * x) <= 4 * w * u)%R.
Proof.
  intros Hx Hw Hu Hq%Rabs_le_iff Hp%Rabs_le_iff. apply Rabs_le_iff.
  assert (0 <= x * u <= u)%R as H1 by nra.
  assert (0 <= w * u)%R as H2 by nra.
  assert (0 <= q <= 2)%R as H3 by nra.
  assert (q * w * u <= 2 * (w * u))%R as H4 by nra.
  assert (- (w * u) <= w * (q - x) <= w * u)%R as H5 by nra.
  nra.
Qed.

Lemma exact_zero x r : x = 0%R -> faithful x r -> good r /\ B2R r = 0%R.
Proof. intros -> Hf. exact (faithful_exact Num.zero r I Hf). Qed.

(** The quotient of two counters: a good number within one unit in the
    last place of the ratio. *)
Lemma ratio_error (part total : nat) (x := (IZR (Z.of_nat part) / IZR (Z.of_nat total))%R) :
  (part <= total)%nat -> (0 < total)%nat -> small total ->
  let q := Num.div (Num.of_nat part) (Num.of_nat total) in
  good q /\ (0 <= x <= 1)%R /\ (Rabs (B2R q - x) <= x * bpow (-52))%R.
Proof.
  intros Hle Hpos St q. assert (small part) as Sp by (unfold small in *; lia).
  destruct (of_nat_exact part Sp) as [Gp Ep], (of_nat_exact total St) as [Gt Et].
  assert (0 < IZR (Z.of_nat total))%R as Pt by (apply IZR_lt; lia).
  pose proof (div_faithful _ _ Gp Gt ltac:(lra)) as Hf. rewrite Ep, Et in Hf.
  fold x in Hf. destruct (Nat.eq_dec part 0) as [E0|Hne].
  - assert (x = 0%R) as Ex by (unfold x, Rdiv; rewrite E0; apply Rmult_0_l).
    destruct (exact_zero x _ Ex Hf) as [G Ev]. fold q in G, Ev.
    rewrite Ev, Ex, Rminus_0_r, Rabs_R0. split; [assumption|]. lra.
  - pose proof (ratio_normal part total Sp St ltac:(lia) Hpos) as Hn.
    destruct (faithful_error x _ Hn Hf) as [G He]. split; [assumption|].
    split; [|assumption]. pose proof (bpow_pos (-1022)). split; [unfold x in *; lra|].
    apply (Rmult_le_reg_r (IZR (Z.of_nat total))); [assumption|].
    unfold x, Rdiv. rewrite Rmult_assoc, Rinv_l, Rmult_1_r, Rmult_1_l by lra.
    apply IZR_le. lia.
Qed.

Lemma ulp_small : (0 < bpow (-52) <= / 2)%R.
Proof.
  pose proof (bpow_pos (-52)). pose proof (bpow_le (-52) (-1) ltac:(lia)) as H1.
  replace (bpow (-1)) with (/ 2)%R in H1; [lra|].
  rewrite <- bpow_1. symmetry. apply (bpow_neg 1).
Qed.

(** [(part / total) * w] is a good number within [w * 2^-50] of the exact
    value. *)
Lemma scaled_error (part total w : nat)
    (x := (IZR (Z.of_nat part) / IZR (Z.of_nat total))%R) :
  (part <= total)%nat -> (0 < total)%nat -> small total -> small w ->
  good (scaled part total w) /\
  (Rabs (B2R (scaled part total w) - IZR (Z.of_nat w) * x)
   <= 4 * IZR (Z.of_nat w) * bpow (-52))%R.
Proof.
  intros Hle Hpos St Sw. unfold scaled.
  destruct (ratio_error part total Hle Hpos St) as (Gq & Hx & Hq). fold x in Hx, Hq.
  destruct (of_nat_exact w Sw) as [Gw Ew].
  pose proof (mul_faithful _ _ Gq Gw) as Hf. rewrite Ew in Hf.
  set (q := Num.div (Num.of_nat part) (Num.of_nat total)) in *.
  pose proof (good_nonneg q Gq) as Hq0. pose proof ulp_small as Hu.
  pose proof (IZR_le 0 (Z.of_nat w) ltac:(lia)) as Hw0.
  assert (good (Num.mul q (Num.of_nat w)) /\
          (Rabs (B2R (Num.mul q (Num.of_nat w)) - B2R q * IZR (Z.of_nat w))
           <= B2R q * IZR (Z.of_nat w) * bpow (-52))%R) as [Gp Hp].
  { destruct (Req_dec (B2R q * IZR (Z.of_nat w)) 0) as [E0|Hne].
    - destruct (exact_zero _ _ E0 Hf) as [G Ev]. split; [assumption|].
      rewrite Ev, E0, Rminus_0_r, Rabs_R0. lra.
    - apply faithful_error; [|assumption].
      assert (part <> 0)%nat as Hp0.
      { intros ->. apply Hne. apply Rabs_le_iff in Hq. unfold x, Rdiv in Hq.
        change (IZR (Z.of_nat 0)) with 0%R in Hq. rewrite !Rmult_0_l in Hq.
        replace (B2R q) with 0%R by lra. apply Rmult_0_l. }
      assert (w <> 0)%nat as Hw1 by (intros ->; apply Hne, Rmult_0_r).
      pose proof (IZR_le 1 (Z.of_nat w) ltac:(lia)) as Hw2.
      pose proof (IZR_le _ _ Sw) as Hw3. rewrite <- bpow_IZR in Hw3 by lia.
      destruct (ratio_bounds part total ltac:(unfold small in *; lia) St
                  ltac:(lia) Hpos) as [Hx1 _]. fold x in Hx1.
      apply Rabs_le_iff in Hq.
      pose proof (bpow_le (-1022) (-54) ltac:(lia)).
      pose proof (bpow_lt 54 1023 ltac:(lia)).
      pose proof (bpow_succ (-54)) as E1. change (-54 + 1) with (-53) in E1.
      pose proof (bpow_succ 53) as E2. change (53 + 1) with 54 in E2.
      pose proof (bpow_pos (-54)). pose proof (bpow_pos 53).
      assert (x * bpow (-52) <= x / 2)%R by nra.
      assert (bpow (-54) <= B2R q <= 2)%R by lra. split; nra. }
  split; [assumption|]. apply (two_roundings x (B2R q)); try assumption; lra.
Qed.

(** ** [Math.round] of a number near a fraction *)

(** [Math.round] of a number within [1 / 2b] of [a / b] is one of the
    integers next to [a / b + 1/2]. *)
Lemma round_window p a b :
  good p -> 0 < b -> (Rabs (B2R p - IZR a / IZR b) < / (2 * IZR b))%R ->
  exists k, Num.round p = Num.of_Z k /\
            2 * b * k <= 2 * a + b <= 2 * b * (k + 1).
Proof.
  intros Gp Hb Hnear. destruct (round_spec p Gp) as (k & _ & [Hk1 Hk2] & E).
  exists k. split; [assumption|]. apply IZR_lt in Hb.
  set (B := IZR b) in *. set (A := IZR a) in *. set (P := B2R p) in *.
  assert (- 1 < 2 * B * P - 2 * A < 1)%R as Hd.
  { assert (2 * B * / (2 * B) = 1)%R as E1 by (field; lra).
    assert (2 * B * (A / B) = 2 * A)%R as E2 by (field; lra).
    unfold Rabs in Hnear. destruct Rcase_abs in Hnear; nra. }
  assert (IZR (2 * b * k) < IZR (2 * a + b + 1))%R as H1
    by (rewrite !plus_IZR, !mult_IZR; fold A B; nra).
  assert (IZR (2 * a + b - 1) < IZR (2 * b * (k + 1)))%R as H2
    by (rewrite minus_IZR, !plus_IZR, !mult_IZR, plus_IZR; fold A B; nra).
  apply lt_IZR in H1, H2. lia.
Qed.

Lemma round_near p a b :
  good p -> 0 < b -> (Rabs (B2R p - IZR a / IZR b) < / (2 * IZR b))%R ->
  (2 * a + b) mod (2 * b) <> 0 -> Num.round p = Num.of_Z (round_div a b).
Proof.
  intros Gp Hb Hnear Hmod.
  destruct (round_window p a b Gp Hb Hnear) as (k & -> & Hk1 & Hk2).
  f_equal. unfold round_div. apply Z.div_unique with (2 * a + b - 2 * b * k); [|lia].
  left. split; [lia|].
  destruct (Z.eq_dec (2 * a + b) (2 * b * (k + 1))) as [E|]; [|lia].
  exfalso. apply Hmod. rewrite E, Z.mul_comm. apply Z.mod_mul. lia.
Qed.

(** ** The rates *)

Lemma small_factors (total w : nat) :
  (0 < total)%nat -> (0 < w)%nat -> Z.of_nat w * Z.of_nat total < 2 ^ 49 ->
  small total /\ small w.
Proof.
  unfold small. intros Ht Hw H.
  assert (2 ^ 49 < 2 ^ 53) by (apply Z.pow_lt_mono_r; lia).
  assert (Z.of_nat total <= Z.of_nat w * Z.of_nat total) by nia.
  assert (Z.of_nat w <= Z.of_nat w * Z.of_nat total) by nia. lia.
Qed.

(** The error of [scaled] is less than half the distance between two
    fractions of denominator [total]. *)
Lemma scaled_near (part total w : nat) :
  (part <= total)%nat -> (0 < total)%nat -> (0 < w)%nat ->
  Z.of_nat w * Z.of_nat total < 2 ^ 49 ->
  good (scaled part total w) /\
  (Rabs (B2R (scaled part total w) - IZR (Z.of_nat (w * part)) / IZR (Z.of_nat total))
   < / (2 * IZR (Z.of_nat total)))%R.
Proof.
  intros Hle Hpos Hw Hsize. destruct (small_factors total w Hpos Hw Hsize) as [St Sw].
  destruct (scaled_error part total w Hle Hpos St Sw) as [G He].
  split; [assumption|]. eapply Rle_lt_trans.
  { rewrite Nat2Z.inj_mul, mult_IZR. unfold Rdiv in *. rewrite Rmult_assoc. exact He. }
  apply IZR_lt in Hsize. rewrite mult_IZR, <- bpow_IZR in Hsize by lia.
  pose proof (IZR_lt 0 (Z.of_nat total) ltac:(lia)) as Ht.
  pose proof (IZR_lt 0 (Z.of_nat w) ltac:(lia)) as Hw'.
  set (T := IZR (Z.of_nat total)) in *. set (W := IZR (Z.of_nat w)) in *.
  assert (bpow 49 * bpow (-52) = / 8)%R as Eu.
  { rewrite <- bpow_add. change (49 + -52) with (- (3)). rewrite bpow_neg.
    change 3 with (1 + 1 + 1). rewrite !bpow_add, bpow_1. lra. }
  pose proof (bpow_pos (-52)).
  apply (Rmult_lt_reg_r (2 * T)); [lra|]. rewrite Rinv_l by lra. nra.
Qed.

(** [Math.round((part / total) * w)] is [w * part / total] rounded to the
    nearest integer, when that value is not half-way between two. *)
Lemma round_scaled (part total w : nat) :
  (part <= total)%nat -> (0 < total)%nat -> (0 < w)%nat ->
  Z.of_nat w * Z.of_nat total < 2 ^ 49 ->
  ((2 * (w * part) + total) mod (2 * total) <> 0)%nat ->
  Num.round (scaled part total w) =
  Num.of_nat ((2 * (w * part) + total) / (2 * total)).
Proof.
  intros Hle Hpos Hw Hsize Hmod.
  destruct (scaled_near part total w Hle Hpos Hw Hsize) as [G Hn].
  rewrite (round_near _ _ (Z.of_nat total) G ltac:(lia) Hn).
  - unfold round_div, Num.of_nat. f_equal.
    rewrite Nat2Z.inj_div, Nat2Z.inj_add, !Nat2Z.inj_mul. reflexivity.
  - intros E. apply Hmod. apply Nat2Z.inj.
    rewrite Nat2Z.inj_mod, Nat2Z.inj_add, !Nat2Z.inj_mul.
    rewrite Nat2Z.inj_mul in E. exact E.
Qed.

(** [scaled] depends on the ratio of its two counters only. *)
Lemma scaled_ratio (part total part' total' w : nat) :
  small part -> small total -> small part' -> small total' ->
  (0 < total)%nat -> (0 < total')%nat -> (part * total' = part' * total)%nat ->
  scaled part total w = scaled part' total' w.
Proof. intros. unfold scaled. f_equal. apply div_ratio; assumption. Qed.

(** A comparison of [scaled] with an integer is the comparison of the
    exact values, when they differ. *)
Lemma scaled_geb (part total w b : nat) :
  (part <= total)%nat -> (0 < total)%nat -> (0 < w)%nat ->
  Z.of_nat w * Z.of_nat total < 2 ^ 49 -> small b ->
  (w * part <> b * total)%nat ->
  Num.geb (scaled part total w) (Num.of_nat b) = (b * total <=? w * part)%nat.
Proof.
  intros Hle Hpos Hw Hsize Sb Hne.
  destruct (scaled_near part total w Hle Hpos Hw Hsize) as [G Hn].
  destruct (of_nat_exact b Sb) as [Gb Eb].
  pose proof (IZR_lt 0 (Z.of_nat total) ltac:(lia)) as Ht.
  apply Bool.eq_iff_eq_true. unfold Num.geb. change SFleb with Num.leb.
  rewrite leb_good, Eb, Nat.leb_le by assumption.
  set (T := IZR (Z.of_nat total)) in *. set (P := B2R (scaled part total w)) in *.
  assert (- 1 < 2 * T * P - 2 * IZR (Z.of_nat (w * part)) < 1)%R as Hd.
  { assert (2 * T * / (2 * T) = 1)%R as E1 by (field; lra).
    assert (2 * T * (IZR (Z.of_nat (w * part)) / T) = 2 * IZR (Z.of_nat (w * part)))%R
      as E2 by (field; lra).
    unfold Rabs in Hn. destruct Rcase_abs in Hn; nra. }
  split; intros H.
  - destruct (Nat.le_gt_cases (b * total) (w * part)) as [|Hlt]; [assumption|].
    exfalso. assert (Z.of_nat (w * part) + 1 <= Z.of_nat (b * total)) as Hz by lia.
    apply IZR_le in Hz. rewrite plus_IZR, (Nat2Z.inj_mul b total), mult_IZR in Hz.
    fold T in Hz. nra.
  - assert (Z.of_nat (b * total) + 1 <= Z.of_nat (w * part)) as Hz by lia.
    apply IZR_le in Hz. rewrite plus_IZR, (Nat2Z.inj_mul b total), mult_IZR in Hz.
    fold T in Hz. nra.
Qed.

(** ** Percentages *)

Lemma half_percent (j : nat) :
  (j < 100)%nat ->
  Num.round (scaled (2 * j + 1) 200 100) =
  Num.of_nat (if rounds_down j then j else j + 1).
Proof.
  intros Hj. do 100 (destruct j as [|j]; [vm_compute; reflexivity|]). lia.
Qed.

Lemma whole_percent (b : nat) :
  (b <= 100)%nat -> existsb (Nat.eqb b) below_itself = false ->
  Num.geb (scaled b 100 100) (Num.of_nat b) = true.
Proof.
  intros Hb. do 101 (destruct b as [|b]; [vm_compute; intros; congruence|]). lia.
Qed.

Lemma percent_size (total : nat) :
  Z.of_nat total < 2 ^ 42 -> Z.of_nat 100 * Z.of_nat total < 2 ^ 49.
Proof. change (2 ^ 49) with (128 * 2 ^ 42). lia. Qed.

Lemma small_42 (n : nat) : Z.of_nat n < 2 ^ 42 -> small n.
Proof.
  unfold small. intros H.
  assert (2 ^ 42 < 2 ^ 53) by (apply Z.pow_lt_mono_r; lia). lia.
Qed.

(** [Math.round((part / total) * 100)] is [rounded_percent]. *)
Lemma percent_reference (part total : nat) :
  (part <= total)%nat -> (0 < total)%nat -> Z.of_nat total < 2 ^ 42 ->
  Num.round (scaled part total 100) = Num.of_nat (rounded_percent part total).
Proof.
  intros Hle Hpos Hsize. unfold rounded_percent.
  pose proof (Nat.div_mod_eq (200 * part + total) (2 * total)) as Hdiv.
  set (k := ((200 * part + total) / (2 * total))%nat) in *.
  destruct (Nat.eqb_spec ((200 * part + total) mod (2 * total)) 0) as [E|Hne];
    cbn [andb].
  - rewrite E in Hdiv. assert (1 <= k <= 100)%nat as Hk by nia.
    rewrite (scaled_ratio part total (2 * (k - 1) + 1) 200 100);
      try apply small_42; try (simpl; lia); try nia.
    rewrite half_percent by lia. destruct (rounds_down (k - 1)); f_equal; lia.
  - subst k. replace (200 * part)%nat with (2 * (100 * part))%nat in * by lia.
    apply round_scaled; try assumption; [lia|]. apply percent_size, Hsize.
Qed.

(** [(part / total) * 100 >= b] for a percentage [b] that is not one of
    [below_itself]: the comparison of [100 * part] with [b * total]. *)
Lemma percent_geb (part total b : nat) :
  (part <= total)%nat -> (0 < total)%nat -> Z.of_nat total < 2 ^ 42 ->
  (b <= 100)%nat -> existsb (Nat.eqb b) below_itself = false ->
  Num.geb (scaled part total 100) (Num.of_nat b) = (b * total <=? 100 * part)%nat.
Proof.
  intros Hle Hpos Hsize Hb Hbelow.
  destruct (Nat.eq_dec (100 * part) (b * total)) as [E|Hne].
  - rewrite (scaled_ratio part total b 100 100);
      try apply small_42; try (simpl; lia); try nia.
    rewrite whole_percent by assumption. symmetry. apply Nat.leb_le. lia.
  - apply scaled_geb; try assumption; [lia|apply percent_size, Hsize|].
    unfold small. simpl. lia.
Qed.
