(* ===== verification/JSString.v ===== *)
(** * ECMAScript strings and the built-ins the dashboard calls on them

    A CSV cell read from a row object is [undefined] or a string: the type
    [option string].  Strings are the byte strings of the Standard Library;
    the source only tests them for emptiness, equality and containment and
    parses numbers out of them, all of which agree on UTF-8 bytes and UTF-16
    code units for the ASCII syntax involved.

    [parseInt] and [parseFloat] follow ECMA-262 (sections 19.2.5 and 19.2.4)
    for a call with one argument: leading white space is skipped, the longest
    prefix that is a number is converted, and [NaN] is returned when there is
    none.  White space is the ASCII subset (TAB, LF, VT, FF, CR, SP). *)

From Stdlib Require Import Ascii.
From S2P Require Import Prelude JSNumber.

Local Open Scope string_scope.

Module Str.

(** ToBoolean of a cell: [undefined] and [""] are falsy. *)
Definition truthy (v : option string) : bool :=
  match v with
  | Some s => negb (String.eqb s "")
  | None => false
  end.

(** [v === lit] for a cell and a string literal. *)
Definition eqb (v : option string) (lit : string) : bool :=
  match v with
  | Some s => String.eqb s lit
  | None => false
  end.

(** [s.includes(sub)]. *)
Fixpoint includes (s sub : string) : bool :=
  String.prefix sub s ||
  match s with
  | EmptyString => false
  | String _ s' => includes s' sub
  end.

(** [v?.includes(sub)] in a condition: [undefined] is falsy. *)
Definition opt_includes (v : option string) (sub : string) : bool :=
  match v with
  | Some s => includes s sub
  | None => false
  end.

Definition lower_ascii (c : ascii) : ascii :=
  let n := nat_of_ascii c in
  if (65 <=? n)%nat && (n <=? 90)%nat then ascii_of_nat (n + 32) else c.

(** [s.toLowerCase()] on the ASCII letters. *)
Fixpoint toLowerCase (s : string) : string :=
  match s with
  | EmptyString => EmptyString
  | String c s' => String (lower_ascii c) (toLowerCase s')
  end.

Definition is_ws (c : ascii) : bool :=
  let n := nat_of_ascii c in
  ((9 <=? n)%nat && (n <=? 13)%nat) || (n =? 32)%nat.

Fixpoint trim_start (s : string) : string :=
  match s with
  | String c s' => if is_ws c then trim_start s' else s
  | EmptyString => s
  end.

(** The value of a digit in a radix up to 16. *)
Definition digit_val (radix : Z) (c : ascii) : option Z :=
  let n := Z.of_nat (nat_of_ascii c) in
  let d := if (48 <=? n)%Z && (n <=? 57)%Z then Some (n - 48)%Z
           else if (97 <=? n)%Z && (n <=? 102)%Z then Some (n - 87)%Z
           else if (65 <=? n)%Z && (n <=? 70)%Z then Some (n - 55)%Z
           else None in
  match d with
  | Some v => if (v <? radix)%Z then Some v else None
  | None => None
  end.

(** The longest prefix of digits: its value continuing [acc], how many
    digits it has, and what follows it. *)
Fixpoint digits (radix : Z) (s : string) (acc : Z) (n : nat) : Z * nat * string :=
  match s with
  | String c s' =>
      match digit_val radix c with
      | Some d => digits radix s' (acc * radix + d)%Z (S n)
      | None => (acc, n, s)
      end
  | EmptyString => (acc, n, s)
  end.

Definition sign_of (s : string) : bool * string :=
  match s with
  | String "-" s' => (true, s')
  | String "+" s' => (false, s')
  | _ => (false, s)
  end.

Definition signed (neg : bool) (z : Z) : number :=
  if (z =? 0)%Z then S754_zero neg else Num.of_Z (cond_Zopp neg z).

(** [parseInt(s)] with no radix argument. *)
Definition parseInt (s : string) : number :=
  let '(neg, s1) := sign_of (trim_start s) in
  let '(radix, s2) :=
    match s1 with
    | String "0" (String "x" r) | String "0" (String "X" r) => (16%Z, r)
    | _ => (10%Z, s1)
    end in
  let '(v, n, _) := digits radix s2 0 0 in
  match n with
  | O => Num.NaN
  | S _ => signed neg v
  end.

(** The correctly rounded quotient of two positive integers. *)
Definition ratio (neg : bool) (n d : positive) : number :=
  Num.div (S754_finite neg n 0) (S754_finite false d 0).

(** The number nearest to [± v · 10^k]. *)
Definition decimal (neg : bool) (v k : Z) : number :=
  match v with
  | Zpos p =>
      if (0 <=? k)%Z then Num.of_Z (cond_Zopp neg (v * 10 ^ k))
      else ratio neg p (Z.to_pos (10 ^ (- k)))
  | _ => S754_zero neg
  end.

(** An exponent part [e±ddd], taken only when it has a digit. *)
Definition exponent (s : string) : Z :=
  match s with
  | String c s' =>
      if Ascii.eqb c "e" || Ascii.eqb c "E" then
        let '(eneg, s'') := sign_of s' in
        let '(v, n, _) := digits 10 s'' 0 0 in
        match n with O => 0%Z | S _ => cond_Zopp eneg v end
      else 0%Z
  | EmptyString => 0%Z
  end.

(** [parseFloat(s)]. *)
Definition parseFloat (s : string) : number :=
  let '(neg, s1) := sign_of (trim_start s) in
  if String.prefix "Infinity" s1 then S754_infinity neg else
  let '(ip, ni, s2) := digits 10 s1 0 0 in
  let '(v, nf, s3) :=
    match s2 with
    | String "." r => digits 10 r ip 0
    | _ => (ip, O, s2)
    end in
  match (ni + nf)%nat with
  | O => Num.NaN
  | S _ => decimal neg v (exponent s3 - Z.of_nat nf)
  end.

End Str.
