(* ===== verification/Amounts.v ===== *)
(** * Amounts: sums and averages of non-negative numbers

    The duty hours of a day are added up in binary64 arithmetic and
    divided by a counter.  The numbers involved are not bounded by the
    code: a cell can hold any decimal, and [parseFloat] reads [Infinity].
    This file gives what holds of them all the same.

    - An [amount] is a non-negative number or [+Infinity].  Amounts are
      closed under addition, under division and multiplication by a
      positive counter and under [Math.round], and none is [NaN]
      ([add_amount], [div_amount], [mul_amount], [round_amount]).
    - [parseFloat] and [parseInt] of a text with no minus sign are [NaN]
      or an amount ([parseFloat_unsigned], [parseInt_unsigned]); an
      amount that compares below a counter is bounded by it
      ([amount_leb_bounded]).
    - A sum of amounts is an amount, and a sum of numbers of at most
      [hmax] each is at most [hmax] times their number
      ([fold_add_amount], [fold_add_bounded]); a number of at most
      [n * c] divided by the counter [c] is at most [n]
      ([bounded_div_by]). *)

From Stdlib Require Import ZArith Reals Lra Lia SpecFloat String Ascii List.
From S2P Require Import JSNumber Binary64 JSString.

Local Open Scope Z_scope.

(** A non-negative number or [+Infinity]. *)
Definition amount (x : number) : Prop := x = pos_inf \/ good x.

(** No minus sign after the leading white space. *)
Definition unsigned (s : string) : bool := negb (fst (Str.sign_of (Str.trim_start s))).

Lemma faithful_amount x r : faithful x r -> amount r.
Proof. intros (H & _). exact H. Qed.

Lemma amount_not_NaN x : amount x -> Num.isNaN x = false.
Proof. intros [->|Hg]; [reflexivity|]. destruct x as [| | |]; try reflexivity. destruct Hg. Qed.

Lemma amount_zero : amount Num.zero.
Proof. right. exact I. Qed.

(** ** Closure *)

Lemma add_amount a b : amount a -> amount b -> amount (Num.add a b).
Proof.
  intros [->|Ha] [->|Hb]; try (left; reflexivity).
  - destruct b as [[]|[]| |[] m e]; cbn [good] in Hb; try tauto; left; reflexivity.
  - destruct a as [[]|[]| |[] m e]; cbn [good] in Ha; try tauto; left; reflexivity.
  - exact (faithful_amount _ _ (add_faithful a b Ha Hb)).
Qed.

(** A positive counter is a positive finite number. *)
Lemma of_nat_pos n :
  (0 < n)%nat -> small n ->
  good (Num.of_nat n) /\ (0 < B2R (Num.of_nat n))%R /\
  exists m e, Num.of_nat n = S754_finite false m e.
Proof.
  intros Hpos Hn. destruct (of_nat_exact n Hn) as [G E].
  assert (0 < B2R (Num.of_nat n))%R as Hp by (rewrite E; apply IZR_lt; lia).
  destruct (good_pos_inv _ G Hp) as (m & e & Hm & _). eauto.
Qed.

Lemma div_amount a n :
  amount a -> (0 < n)%nat -> small n -> amount (Num.div a (Num.of_nat n)).
Proof.
  intros Ha Hpos Hn. destruct (of_nat_pos n Hpos Hn) as (G & Hp & m & e & E).
  destruct Ha as [->|Ha]; [rewrite E; left; reflexivity|].
  exact (faithful_amount _ _ (div_faithful a _ Ha G Hp)).
Qed.

Lemma mul_amount a n :
  amount a -> (0 < n)%nat -> small n -> amount (Num.mul a (Num.of_nat n)).
Proof.
  intros Ha Hpos Hn. destruct (of_nat_pos n Hpos Hn) as (G & Hp & m & e & E).
  destruct Ha as [->|Ha]; [rewrite E; left; reflexivity|].
  exact (faithful_amount _ _ (mul_faithful a _ Ha G)).
Qed.

Lemma of_Z_amount z : 0 <= z -> amount (Num.of_Z z).
Proof. intros Hz. exact (faithful_amount _ _ (normalize_faithful z 0 Hz)). Qed.

Lemma round_amount a : amount a -> amount (Num.round a).
Proof.
  intros [->|Ha]; [left; reflexivity|].
  destruct (round_spec a Ha) as (k & Hk & _ & ->). apply of_Z_amount, Hk.
Qed.

(** ** Sums *)

Lemma fold_add_amount hs acc :
  amount acc -> Forall amount hs -> amount (fold_left Num.add hs acc).
Proof.
  intros Ha Hs. revert acc Ha.
  induction Hs as [|h hs Hh _ IH]; intros acc Ha; cbn [fold_left]; [exact Ha|].
  apply IH, add_amount; assumption.
Qed.

Lemma fold_add_bounded hmax hs acc n :
  Forall (fun h => bounded h hmax) hs -> bounded acc n ->
  small (n + hmax * length hs) ->
  bounded (fold_left Num.add hs acc) (n + hmax * length hs).
Proof.
  intros Hs. revert acc n.
  induction Hs as [|h hs Hh _ IH]; intros acc n Ha Hn; cbn [fold_left length] in *.
  - rewrite Nat.mul_0_r, Nat.add_0_r. exact Ha.
  - replace (n + hmax * S (length hs))%nat
      with (n + hmax + hmax * length hs)%nat in * by lia.
    apply IH; [|exact Hn]. apply bounded_add; [assumption..|].
    eapply small_le; [|exact Hn]. lia.
Qed.

(** ** Bounds *)

(** An amount that compares below a counter is a number of at most that
    counter: the comparison rules out [+Infinity]. *)
Lemma amount_leb_bounded h n :
  small n -> amount h -> Num.leb h (Num.of_nat n) = true -> bounded h n.
Proof.
  intros Hn Ha Hle. destruct (of_nat_exact n Hn) as [G E]. destruct Ha as [->|Hg].
  - destruct (Num.of_nat n) as [[]|[]| |[] m e]; cbn [good] in G; try tauto; discriminate.
  - split; [assumption|]. rewrite <- E. apply leb_good; assumption.
Qed.

Lemma bounded_div_by x n c :
  bounded x (n * c) -> (0 < c)%nat -> small c -> small n ->
  bounded (Num.div x (Num.of_nat c)) n.
Proof.
  intros [Gx Hx] Hpos Hc Hn. destruct (of_nat_pos c Hpos Hc) as (Gc & Hp & _).
  destruct (of_nat_exact c Hc) as [_ Ec]. destruct (of_nat_exact n Hn) as [Gn En].
  pose proof (good_nonneg x Gx) as H0. rewrite Ec in Hp.
  rewrite Nat2Z.inj_mul, mult_IZR in Hx.
  destruct (faithful_between _ _ Num.zero (Num.of_nat n)
              (div_faithful x _ Gx Gc ltac:(rewrite Ec; lra)) I Gn) as [G [_ H']].
  - rewrite En, Ec. cbn [B2R Num.zero]. split.
    + apply Rmult_le_pos; [lra|]. apply Rlt_le, Rinv_0_lt_compat. lra.
    + apply (Rmult_le_reg_r (IZR (Z.of_nat c))); [lra|].
      unfold Rdiv. rewrite Rmult_assoc, Rinv_l by lra. lra.
  - split; [assumption|]. rewrite En in H'. exact H'.
Qed.

(** ** What [parseFloat] returns *)

(** The quotient of two finite numbers, canonical or not. *)
Lemma div_finite_faithful m1 e1 m2 e2 :
  faithful (F2R (Z.pos m1) e1 / F2R (Z.pos m2) e2)
           (Num.div (S754_finite false m1 e1) (S754_finite false m2 e2)).
Proof.
  unfold Num.div. cbn [SFdiv xorb].
  destruct (div_core_spec (Z.pos m1) e1 (Z.pos m2) e2 eq_refl eq_refl)
    as (q & e & l & -> & Hq & Hl & He).
  apply round_aux_faithful; assumption.
Qed.

Lemma decimal_amount v k : amount (Str.decimal false v k).
Proof.
  unfold Str.decimal. destruct v as [|p|p]; try apply amount_zero.
  destruct (0 <=? k).
  - apply of_Z_amount. cbn [cond_Zopp].
    apply Z.mul_nonneg_nonneg; [lia|apply Z.pow_nonneg; lia].
  - exact (faithful_amount _ _ (div_finite_faithful _ _ _ _)).
Qed.

(** [parseFloat] returns an infinity, [NaN] or a decimal, with the sign
    of the text. *)
Lemma parseFloat_cases s (neg := fst (Str.sign_of (Str.trim_start s))) :
  Str.parseFloat s = S754_infinity neg \/ Str.parseFloat s = Num.NaN \/
  exists v k, Str.parseFloat s = Str.decimal neg v k.
Proof.
  subst neg. unfold Str.parseFloat.
  destruct (Str.sign_of (Str.trim_start s)) as [neg s1]. cbn [fst].
  destruct (String.prefix "Infinity" s1); [left; reflexivity|right].
  destruct (Str.digits 10 s1 0 0) as [[ip ni] s2].
  match goal with
  | |- context [match ?t with (_, _) => _ end] => destruct t as [[v nf] s3]
  end.
  destruct (ni + nf)%nat; [left; reflexivity|right; eauto].
Qed.

Lemma parseFloat_unsigned s :
  unsigned s = true -> Str.parseFloat s = Num.NaN \/ amount (Str.parseFloat s).
Proof.
  unfold unsigned. intros Hs. pose proof (parseFloat_cases s) as H.
  destruct (fst (Str.sign_of (Str.trim_start s))); [discriminate|].
  destruct H as [->|[->|(v & k & ->)]];
    [right; left; reflexivity|left; reflexivity|right; apply decimal_amount].
Qed.

(** ** What [parseInt] returns *)

Lemma digit_val_nonneg radix c d : Str.digit_val radix c = Some d -> 0 <= d.
Proof.
  unfold Str.digit_val. set (n := Z.of_nat (nat_of_ascii c)).
  destruct (Z.leb_spec 48 n), (Z.leb_spec n 57), (Z.leb_spec 97 n),
    (Z.leb_spec n 102), (Z.leb_spec 65 n), (Z.leb_spec n 70); cbn [andb];
    try discriminate;
    match goal with |- context [?v <? radix] => destruct (v <? radix) end;
    intros [= <-]; lia.
Qed.

Lemma digits_nonneg radix s acc n :
  0 <= radix -> 0 <= acc -> 0 <= fst (fst (Str.digits radix s acc n)).
Proof.
  intros Hr. revert acc n. induction s as [|c s IH]; intros acc n Hacc; [exact Hacc|].
  cbn [Str.digits]. destruct (Str.digit_val radix c) as [d|] eqn:E; [|exact Hacc].
  apply IH. pose proof (digit_val_nonneg radix c d E). nia.
Qed.

Lemma parseInt_unsigned s :
  unsigned s = true -> Str.parseInt s = Num.NaN \/ amount (Str.parseInt s).
Proof.
  unfold unsigned, Str.parseInt.
  destruct (Str.sign_of (Str.trim_start s)) as [neg s1]. cbn [fst].
  intros Hs. destruct neg; [discriminate|].
  match goal with
  | |- context [match ?t with (_, _) => _ end] => destruct t as [radix s2] eqn:Er
  end.
  assert (0 <= radix) as Hr.
  { revert Er. clear. destruct s1 as [|a s1]; [intros [= <- _]; lia|].
    destruct a as [[] [] [] [] [] [] [] []]; try (intros [= <- _]; lia).
    destruct s1 as [|b r]; [intros [= <- _]; lia|].
    destruct b as [[] [] [] [] [] [] [] []]; intros [= <- _]; lia. }
  pose proof (digits_nonneg radix s2 0 0 Hr ltac:(lia)) as Hv.
  destruct (Str.digits radix s2 0 0) as [[v n] s3]. cbn [fst] in Hv.
  destruct n; [left; reflexivity|right]. unfold Str.signed.
  destruct (v =? 0); [apply amount_zero|apply of_Z_amount; exact Hv].
Qed.
