(* ===== verification/JSObject.v ===== *)
(** * Plain objects used as dictionaries, and [Set]

    [processGuardData] and [processLocationCoverage] keep their accumulators
    in an object literal [{}] indexed by a CSV cell.  Three facts of the
    language matter for what they compute:

    - a read [o[k]] that finds no own property continues in
      [Object.prototype], so that [o["constructor"]] is a (truthy) function
      even on an empty object;
    - [Object.values] enumerates own properties with the keys that are
      array indices first, in ascending numeric order, and the other keys
      after them in the order of their creation (ECMA-262,
      OrdinaryOwnPropertyKeys);
    - a [Set] enumerates its elements in insertion order, and [add] of an
      element already present changes nothing.

    An object is therefore the list of its own properties in creation order,
    and a set the list of its elements in insertion order. *)

From Stdlib Require Import Ascii.
From S2P Require Import Prelude.

Local Open Scope string_scope.
#[local] Set Warnings "-clear-no-such-hyp".

Module Obj.

(** The properties every object inherits from [Object.prototype]. *)
Definition proto_names : list string :=
  [ "constructor"; "__proto__"; "hasOwnProperty"; "isPrototypeOf";
    "propertyIsEnumerable"; "toLocaleString"; "toString"; "valueOf";
    "__defineGetter__"; "__defineSetter__"; "__lookupGetter__";
    "__lookupSetter__" ].

Definition inherited (k : string) : bool := bool_decide (k ∈ proto_names).

(** A key is an array index when it is the canonical decimal form of an
    integer below [2^32 - 1]. *)
Fixpoint decimal_value (s : string) (acc : N) : option N :=
  match s with
  | EmptyString => Some acc
  | String c s' =>
      let n := N.of_nat (Ascii.nat_of_ascii c) in
      if (48 <=? n)%N && (n <=? 57)%N
      then decimal_value s' (acc * 10 + (n - 48))%N
      else None
  end.

Definition array_index (k : string) : option N :=
  match k with
  | EmptyString => None
  | String "0" EmptyString => Some 0%N
  | String "0" _ => None
  | _ =>
      match decimal_value k 0 with
      | Some n => if (n <? 4294967295)%N then Some n else None
      | None => None
      end
  end.

Local Close Scope string_scope.

Section WithValue.
Context {V : Type}.

(** Own properties, in creation order. *)
Definition t : Type := list (string * V).

Definition empty : t := [].

Fixpoint get_own (o : t) (k : string) : option V :=
  match o with
  | [] => None
  | (k', v) :: o' => if String.eqb k' k then Some v else get_own o' k
  end.

(** The result of the read [o[k]]. *)
Inductive lookup_result : Type :=
| Own (v : V)
| Inherited
| Undefined.

Definition get (o : t) (k : string) : lookup_result :=
  match get_own o k with
  | Some v => Own v
  | None => if inherited k then Inherited else Undefined
  end.

(** The write [o[k] = v] for a key that is not inherited: an existing
    property keeps its place, a new one is created last. *)
Fixpoint set (o : t) (k : string) (v : V) : t :=
  match o with
  | [] => [(k, v)]
  | (k', v') :: o' =>
      if String.eqb k' k then (k, v) :: o' else (k', v') :: set o' k v
  end.

Definition keys (o : t) : list string := o.*1.

(** Insertion of an indexed property among those already ordered. *)
Fixpoint insert_index (i : N) (v : V) (l : list (N * V)) : list (N * V) :=
  match l with
  | [] => [(i, v)]
  | (j, w) :: l' =>
      if (i <? j)%N then (i, v) :: l else (j, w) :: insert_index i v l'
  end.

(** The own properties split into the indexed ones, ordered by index,
    and the others, in creation order. *)
Fixpoint split_keys (o : t) : list (N * V) * list V :=
  match o with
  | [] => ([], [])
  | (k, v) :: o' =>
      let '(ix, rest) := split_keys o' in
      match array_index k with
      | Some i => (insert_index i v ix, rest)
      | None => (ix, v :: rest)
      end
  end.

(** [Object.values(o)]. *)
Definition values (o : t) : list V :=
  let '(ix, rest) := split_keys o in ix.*2 ++ rest.

End WithValue.
Arguments t : clear implicits.
Arguments lookup_result : clear implicits.

(** [Object.entries(o)]: the pairs of key and value in the order of
    [Object.values], that is, the values of the object that holds under
    each key its own pair. *)
Definition entries {V} (o : t V) : list (string * V) :=
  values ((λ kv, (kv.1, kv)) <$> o).

End Obj.

(** ** [Set] *)

Local Close Scope string_scope.

Module JSSet.
Section WithElem.
Context `{EqDecision A}.

Definition t : Type := list A.

Definition empty : t := [].

(** [s.add(x)] *)
Definition add (s : t) (x : A) : t :=
  if bool_decide (x ∈ s) then s else s ++ [x].

(** [s.size] *)
Definition size (s : t) : nat := length s.

(** [Array.from(s)] *)
Definition to_array (s : t) : list A := s.

(** [s.length]: a [Set] has [size] and no [length] property, so the read
    gives [undefined]. *)
Definition length_property (s : t) : option nat := None.
End WithElem.
Arguments t : clear implicits.
End JSSet.

(** ** Laws of objects *)

Section ObjLaws.
Context {V : Type}.
Implicit Types (o : Obj.t V) (k : string) (v : V).

Lemma get_own_set_eq o k v : Obj.get_own (Obj.set o k v) k = Some v.
Proof.
  induction o as [|[k' v'] o IH]; simpl.
  - by rewrite String.eqb_refl.
  - destruct (String.eqb k' k) eqn:E; simpl; [by rewrite String.eqb_refl|].
    by rewrite E.
Qed.

Lemma get_own_set_ne o k k' v :
  k ≠ k' → Obj.get_own (Obj.set o k v) k' = Obj.get_own o k'.
Proof.
  intros Hne. induction o as [|[k1 v1] o IH]; simpl.
  - destruct (String.eqb_spec k k'); done.
  - destruct (String.eqb_spec k1 k) as [->|]; simpl.
    + destruct (String.eqb_spec k k'); done.
    + by rewrite IH.
Qed.

Lemma get_own_Some_elem o k v : Obj.get_own o k = Some v → (k, v) ∈ o.
Proof.
  induction o as [|[k1 v1] o IH]; simpl; [done|].
  destruct (String.eqb_spec k1 k) as [->|]; intros H.
  - simplify_eq. left.
  - right. auto.
Qed.

Lemma get_own_None o k : Obj.get_own o k = None ↔ k ∉ Obj.keys o.
Proof.
  unfold Obj.keys. induction o as [|[k1 v1] o IH]; csimpl.
  - split; [intros _; apply not_elem_of_nil | done].
  - rewrite not_elem_of_cons.
    destruct (String.eqb_spec k1 k) as [->|]; [split; [done|tauto]|].
    rewrite IH. split; [by split|tauto].
Qed.

(** A write to an existing key keeps the keys and their order; a write to
    a new key appends it. *)
Lemma keys_set o k v :
  Obj.keys (Obj.set o k v) =
  if bool_decide (k ∈ Obj.keys o) then Obj.keys o else Obj.keys o ++ [k].
Proof.
  unfold Obj.keys. induction o as [|[k1 v1] o IH]; csimpl; [done|].
  destruct (String.eqb_spec k1 k) as [->|Hne]; csimpl.
  - rewrite bool_decide_eq_true_2 by left. done.
  - rewrite IH. destruct (decide (k ∈ o.*1)) as [Hin|Hin].
    + rewrite !bool_decide_eq_true_2; [done|by right|done].
    + rewrite !bool_decide_eq_false_2; [done| |done].
      rewrite elem_of_cons. intros [?|?]; congruence.
Qed.

Lemma keys_set_NoDup o k v : NoDup (Obj.keys o) → NoDup (Obj.keys (Obj.set o k v)).
Proof.
  intros Hnd. rewrite keys_set. case_bool_decide; [done|].
  apply NoDup_app. split_and!; [done| |apply NoDup_singleton].
  intros x Hx ->%list_elem_of_singleton. done.
Qed.

(** What holds of the entries and of the value written holds after the
    write. *)
Lemma set_Forall (P : string * V → Prop) o k v :
  Forall P o → P (k, v) → Forall P (Obj.set o k v).
Proof.
  intros Ho Hv. induction o as [|[k' v'] o IH]; simpl; [by constructor|].
  apply Forall_cons in Ho as [Hkv Ho].
  destruct (String.eqb k' k); constructor; auto.
Qed.

Lemma get_own_elem o k v :
  NoDup (Obj.keys o) → (k, v) ∈ o → Obj.get_own o k = Some v.
Proof.
  unfold Obj.keys. induction o as [|[k' v'] o IH]; simpl.
  - by intros _ ?%elem_of_nil.
  - intros [Hk' Hnd]%NoDup_cons [[= -> ->]|Hin]%elem_of_cons.
    + by rewrite String.eqb_refl.
    + destruct (String.eqb_spec k' k) as [->|]; [|by apply IH].
      destruct Hk'. apply list_elem_of_fmap. by exists (k, v).
Qed.

(** Abstraction to a finite map: the object implements a dictionary. *)
Definition obj_map (o : Obj.t V) : gmap string V := list_to_map o.

Lemma obj_map_get_own o k : obj_map o !! k = Obj.get_own o k.
Proof.
  unfold obj_map. induction o as [|[k1 v1] o IH]; simpl; [done|].
  destruct (String.eqb_spec k1 k) as [->|Hne].
  - by rewrite lookup_insert_eq.
  - by rewrite lookup_insert_ne.
Qed.

Lemma obj_map_set o k v : obj_map (Obj.set o k v) = <[k:=v]> (obj_map o).
Proof.
  apply map_eq; intros k'. rewrite obj_map_get_own.
  destruct (decide (k = k')) as [->|Hne].
  - by rewrite get_own_set_eq, lookup_insert_eq.
  - by rewrite get_own_set_ne, lookup_insert_ne, obj_map_get_own.
Qed.

(** [Object.values] is a rearrangement of the own values. *)
Lemma insert_index_perm i v (l : list (N * V)) :
  Obj.insert_index i v l ≡ₚ (i, v) :: l.
Proof.
  induction l as [|[j w] l IH]; simpl; [done|].
  case_match; [done|]. rewrite IH. apply Permutation_swap.
Qed.

Lemma split_keys_perm o :
  (Obj.split_keys o).1.*2 ++ (Obj.split_keys o).2 ≡ₚ o.*2.
Proof.
  induction o as [|[k v] o IH]; simpl; [done|].
  destruct (Obj.split_keys o) as [ix rest]; simpl in *.
  destruct (Obj.array_index k); simpl.
  - rewrite insert_index_perm. simpl. by rewrite IH.
  - rewrite <- Permutation_middle. by rewrite IH.
Qed.

Lemma values_perm o : Obj.values o ≡ₚ o.*2.
Proof.
  unfold Obj.values. pose proof (split_keys_perm o) as H.
  by destruct (Obj.split_keys o).
Qed.

Lemma elem_of_values o v : v ∈ Obj.values o ↔ ∃ k, (k, v) ∈ o.
Proof.
  rewrite values_perm, list_elem_of_fmap. split.
  - intros ([k v'] & -> & H). by exists k.
  - intros (k & H). by exists (k, v).
Qed.

(** [Object.values(o).length === Object.keys(o).length] *)
Lemma values_length o : length (Obj.values o) = length (Obj.keys o).
Proof. unfold Obj.keys. by rewrite values_perm, !length_fmap. Qed.

(** With no array-index key the enumeration is the creation order. *)
Lemma split_keys_no_index o :
  Forall (λ k, Obj.array_index k = None) (Obj.keys o) →
  Obj.split_keys o = ([], o.*2).
Proof.
  unfold Obj.keys. induction o as [|[k v] o IH]; simpl; [done|].
  intros [Hk Ho]%Forall_cons. simpl in Hk. by rewrite IH, Hk.
Qed.

Lemma values_no_index o :
  Forall (λ k, Obj.array_index k = None) (Obj.keys o) → Obj.values o = o.*2.
Proof. intros H. unfold Obj.values. by rewrite split_keys_no_index. Qed.

(** The enumeration of the indexed properties does not look at the values. *)
Lemma insert_index_fmap {W} (f : V → W) i v (l : list (N * V)) :
  Obj.insert_index i (f v) (prod_map id f <$> l) =
  prod_map id f <$> Obj.insert_index i v l.
Proof.
  induction l as [|[j w] l IH]; csimpl; [done|].
  case_match; csimpl; [done|]. by rewrite IH.
Qed.

Lemma split_keys_fmap {W} (f : V → W) o :
  Obj.split_keys (prod_map id f <$> o) =
  (prod_map id f <$> (Obj.split_keys o).1, f <$> (Obj.split_keys o).2).
Proof.
  induction o as [|[k v] o IH]; csimpl; [done|].
  rewrite IH. destruct (Obj.split_keys o) as [ix rest]; csimpl.
  destruct (Obj.array_index k); csimpl; by rewrite ?insert_index_fmap.
Qed.

Lemma values_fmap {W} (f : V → W) o :
  Obj.values (prod_map id f <$> o) = f <$> Obj.values o.
Proof.
  unfold Obj.values. rewrite split_keys_fmap.
  destruct (Obj.split_keys o) as [ix rest]; csimpl.
  by rewrite fmap_app, <- !list_fmap_compose.
Qed.
End ObjLaws.

Section Entries.
Context {V : Type}.
Implicit Types (o : Obj.t V) (k : string) (v : V).

(** [Object.entries] is a rearrangement of the own properties. *)
Lemma entries_perm o : Obj.entries o ≡ₚ o.
Proof.
  unfold Obj.entries. rewrite values_perm, <- list_fmap_compose.
  rewrite <- (list_fmap_id o) at 2. apply reflexive_eq.
  by apply list_fmap_ext; intros ? [??].
Qed.

Lemma elem_of_entries o k v : (k, v) ∈ Obj.entries o ↔ (k, v) ∈ o.
Proof. by rewrite entries_perm. Qed.

Lemma entries_length o : length (Obj.entries o) = length o.
Proof. by rewrite entries_perm. Qed.

(** The values of the entries are [Object.values]. *)
Lemma entries_values o : (Obj.entries o).*2 = Obj.values o.
Proof.
  unfold Obj.entries.
  rewrite <- (values_fmap snd), <- list_fmap_compose.
  f_equal. rewrite <- (list_fmap_id o) at 2.
  by apply list_fmap_ext; intros ? [??].
Qed.
End Entries.

(** ** Laws of [Set] *)

Section SetLaws.
Context `{EqDecision A}.
Implicit Types (s : JSSet.t A) (x y : A).

Lemma add_elem_of s x y : y ∈ JSSet.add s x ↔ y ∈ s ∨ y = x.
Proof.
  unfold JSSet.add. case_bool_decide; [naive_solver|].
  rewrite elem_of_app, list_elem_of_singleton. done.
Qed.

Lemma add_NoDup s x : NoDup s → NoDup (JSSet.add s x).
Proof.
  intros Hs. unfold JSSet.add. case_bool_decide; [done|].
  apply NoDup_app. split; [done|]. split; [|apply NoDup_singleton].
  by intros y Hy ->%list_elem_of_singleton.
Qed.

Lemma add_size s x :
  JSSet.size s ≤ JSSet.size (JSSet.add s x) ≤ JSSet.size s + 1 ∧
  1 ≤ JSSet.size (JSSet.add s x).
Proof.
  unfold JSSet.add, JSSet.size. case_bool_decide as Hx.
  - destruct s; [by apply elem_of_nil in Hx|simpl; lia].
  - rewrite length_app. simpl. lia.
Qed.

Lemma add_idempotent s x : JSSet.add (JSSet.add s x) x = JSSet.add s x.
Proof.
  unfold JSSet.add at 1. rewrite bool_decide_true; [done|].
  apply add_elem_of. by right.
Qed.

(** A loop that adds to a set the values [g] finds in the rows: the set
    then holds what it held and the values found. *)
Lemma fold_add_elem_of {R} (g : R → option A) (rs : list R) s y :
  y ∈ fold_left (λ s r, from_option (JSSet.add s) s (g r)) rs s ↔
  y ∈ s ∨ ∃ r, r ∈ rs ∧ g r = Some y.
Proof.
  revert s. induction rs as [|r rs IH]; intros s; simpl.
  - split; [by left|]. by intros [?|(r & []%elem_of_nil & _)].
  - rewrite IH. setoid_rewrite elem_of_cons. destruct (g r) as [x|] eqn:E; simpl.
    + rewrite add_elem_of. naive_solver.
    + naive_solver.
Qed.

End SetLaws.
