(* ===== verification/JSArray.v ===== *)
(** * Arrays: [Array.prototype.sort] with a comparator

    [arr.sort((a, b) => f(a, b))] orders the array so that [a] stays before
    [b] unless [f(a, b) > 0]; a comparator result of [NaN] counts as [+0],
    and since ES2019 the sort is stable.  For a consistent comparator
    (ECMA-262, 23.1.3.30) the result does not depend on the algorithm: it is
    the one stable arrangement of the elements in comparator order.  The
    model is the stable insertion sort.  The comparators of the dashboard
    are differences of a numeric field; [keyed] says that such a comparator
    orders by an integer key on the elements it is used on, and for a keyed
    comparator the result is sorted by the key ([sort_sorted]) and a
    permutation of the input ([sort_perm]).  For an inconsistent comparator
    the language leaves the order to the implementation, and no theorem
    below speaks about that case. *)

From Stdlib Require Import Sorting.Sorted.
From S2P Require Import Prelude JSNumber.

Module Arr.
Section Sort.
Context {A : Type} (cmp : A → A → number).

(** [cmp x y > 0]: [x] has to come after [y]. *)
Definition after (x y : A) : bool := Num.gtb (cmp x y) Num.zero.

Fixpoint insert (x : A) (l : list A) : list A :=
  match l with
  | [] => [x]
  | y :: l' => if after x y then y :: insert x l' else x :: l
  end.

Fixpoint sort (l : list A) : list A :=
  match l with
  | [] => []
  | x :: l' => insert x (sort l')
  end.
End Sort.

(** [l.join(sep)]: an element that is [undefined] gives the empty text. *)
Definition join (sep : string) (l : list (option string)) : string :=
  String.concat sep (default EmptyString <$> l).

(** [l.slice(0, n)] *)
Definition slice0 {A} (n : nat) (l : list A) : list A := take n l.
End Arr.
Arguments Arr.slice0 : simpl never.

(** ** Theory of the sort *)

Section SortTheory.
Context {A : Type} (cmp : A → A → number).
Implicit Types (x y : A) (l : list A).

Lemma insert_perm x l : Arr.insert cmp x l ≡ₚ x :: l.
Proof.
  induction l as [|y l IH]; simpl; [done|].
  case_match; [|done]. rewrite IH. apply Permutation_swap.
Qed.

Lemma sort_perm l : Arr.sort cmp l ≡ₚ l.
Proof.
  induction l as [|x l IH]; simpl; [done|]. by rewrite insert_perm, IH.
Qed.

Lemma sort_length l : length (Arr.sort cmp l) = length l.
Proof. by rewrite sort_perm. Qed.

Lemma sort_elem_of x l : x ∈ Arr.sort cmp l ↔ x ∈ l.
Proof. by rewrite sort_perm. Qed.

Lemma sort_Forall (P : A → Prop) l : Forall P l → Forall P (Arr.sort cmp l).
Proof. by rewrite sort_perm. Qed.

(** A comparator is consistent on a set of elements when it orders them
    like a key into the integers. *)
Definition keyed (P : A → Prop) (key : A → Z) : Prop :=
  ∀ x y, P x → P y → Arr.after cmp x y = true ↔ (key y < key x)%Z.

Section Keyed.
Context (P : A → Prop) (key : A → Z) (Hk : keyed P key).

Definition key_le (x y : A) : Prop := (key x ≤ key y)%Z.

Lemma insert_sorted x l :
  P x → Forall P l →
  StronglySorted key_le l → StronglySorted key_le (Arr.insert cmp x l).
Proof using Hk.
  intros Hx Hl Hs. induction l as [|y l IH]; simpl.
  - repeat constructor.
  - apply Forall_cons in Hl as [Hy Hl].
    apply StronglySorted_inv in Hs as [Hs Hall].
    destruct (Arr.after cmp x y) eqn:E.
    + apply Hk in E; [|done..]. constructor; [by apply IH|].
      rewrite insert_perm. constructor; [unfold key_le; lia|done].
    + constructor; [by constructor|].
      assert (key x ≤ key y)%Z as Hle.
      { destruct (Z.le_gt_cases (key x) (key y)) as [|Hlt]; [done|].
        apply Hk in Hlt; [congruence|done..]. }
      constructor; [done|].
      eapply Forall_impl; [exact Hall|]. unfold key_le. intros; lia.
Qed.

Lemma sort_sorted l : Forall P l → StronglySorted key_le (Arr.sort cmp l).
Proof using Hk.
  induction l as [|x l IH]; simpl; [constructor|].
  intros [Hx Hl]%Forall_cons. apply insert_sorted; [done| |by apply IH].
  by apply sort_Forall.
Qed.

(** Stability: the elements of one key keep their relative order. *)
Lemma insert_filter_key x l (k : Z) :
  P x → Forall P l → StronglySorted key_le l →
  filter (λ y, key y = k) (Arr.insert cmp x l) =
  filter (λ y, key y = k) (x :: l).
Proof using Hk.
  intros Hx Hl Hs. induction l as [|y l IH]; simpl; [done|].
  apply Forall_cons in Hl as [Hy Hl].
  apply StronglySorted_inv in Hs as [Hs Hall].
  destruct (Arr.after cmp x y) eqn:E; [|done].
  apply Hk in E; [|done..].
  rewrite (filter_cons _ y), IH by done. rewrite !filter_cons.
  repeat case_decide; try done; lia.
Qed.

Lemma sort_stable l (k : Z) :
  Forall P l →
  filter (λ y, key y = k) (Arr.sort cmp l) = filter (λ y, key y = k) l.
Proof using Hk.
  induction l as [|x l IH]; simpl; [done|].
  intros [Hx Hl]%Forall_cons.
  rewrite insert_filter_key; [|done|by apply sort_Forall|by apply sort_sorted].
  rewrite !filter_cons, IH by done. done.
Qed.
End Keyed.
End SortTheory.

(** Sorted without two equal keys is strictly sorted. *)
Lemma StronglySorted_strict {A} (key : A → Z) (l : list A) :
  StronglySorted (key_le key) l → NoDup (key <$> l) →
  StronglySorted (λ x y, (key x < key y)%Z) l.
Proof.
  induction 1 as [|x l Hs IH Hall]; csimpl; [constructor|].
  intros [Hx Hnd]%NoDup_cons. constructor; [by apply IH|].
  rewrite Forall_forall in Hall |- *. intros y Hy.
  specialize (Hall y Hy). unfold key_le in Hall.
  assert (key x ≠ key y); [|lia].
  intros E. apply Hx. rewrite E. by apply list_elem_of_fmap_2.
Qed.
