(* ===== verification/JSDate.v ===== *)
(** * [new Date(s).getHours()]

    The hourly aggregation reads the hour of a [Date/Time] cell with
    [new Date(cell).getHours()].  How a string that is not in the ISO format
    is parsed is left to the implementation by ECMA-262 (21.4.3.2), and the
    hour is the one of the browser's time zone, so the aggregation is
    modelled against an interface: any function from strings to numbers whose
    result is [NaN] (an invalid date) or an integer hour from 0 to 23.

    [clock_date] is one implementation, used to run the model on concrete
    rows: it reads [YYYY-MM-DD HH:MM...] and [YYYY-MM-DDTHH:MM...] as local
    time, as the browsers do, and takes every other string for invalid. *)

From Stdlib Require Import Ascii.
From S2P Require Import Prelude JSNumber JSString.

Class DateLib : Type := {
  getHours : string → number;
  getHours_range s :
    getHours s = Num.NaN ∨ ∃ h : nat, h < 24 ∧ getHours s = Num.of_nat h
}.

Module Clock.


Definition digit (c : ascii) : option nat :=
  let n := nat_of_ascii c in
  if (48 <=? n) && (n <=? 57) then Some (n - 48) else None.

Definition two_digits (a b : ascii) : option nat :=
  x ← digit a; y ← digit b; Some (10 * x + y).

Definition is_digit (c : ascii) : bool := bool_decide (is_Some (digit c)).

(** The hour of [YYYY-MM-DD?HH:MM...], where [?] is a space or [T]. *)
Definition hour_of (s : string) : option nat :=
  match s with
  | String y1 (String y2 (String y3 (String y4 (String "-"
    (String m1 (String m2 (String "-" (String d1 (String d2
    (String sep (String h1 (String h2 (String ":"
    (String n1 (String n2 _))))))))))))))) =>
      if forallb is_digit [y1; y2; y3; y4; m1; m2; d1; d2; n1; n2]
         && (Ascii.eqb sep " " || Ascii.eqb sep "T")
      then
        h ← two_digits h1 h2;
        mo ← two_digits m1 m2;
        d ← two_digits d1 d2;
        mi ← two_digits n1 n2;
        if (h <? 24) && (1 <=? mo) && (mo <=? 12) && (1 <=? d) && (d <=? 31)
           && (mi <? 60)
        then Some h else None
      else None
  | _ => None
  end.

Definition getHours (s : string) : number :=
  match hour_of s with
  | Some h => Num.of_nat h
  | None => Num.NaN
  end.

Lemma hour_of_lt s h : hour_of s = Some h → h < 24.
Proof.
  unfold hour_of. intros H.
  repeat (case_match; try discriminate); subst.
  repeat (apply bind_Some in H as (? & _ & H)).
  case_match eqn:E; [|discriminate]. simplify_eq.
  repeat (apply andb_prop in E as [E _]). by apply Nat.ltb_lt.
Qed.
End Clock.

#[export] Program Instance clock_date : DateLib := {| getHours := Clock.getHours |}.
Next Obligation.
  intros s. unfold Clock.getHours.
  destruct (Clock.hour_of s) as [h|] eqn:E; [right|by left].
  exists h. split; [by eapply Clock.hour_of_lt|done].
Qed.
