(* ===== verification/GroupBy.v ===== *)
(** * Grouping rows into buckets by a numeric key

    Both dashboards build their hourly series with the same reducer:

    [[
    data.reduce((acc, curr) => {
      if (!curr[col]) return acc;
      const k = key_of(curr);
      const existing = acc.find(item => item.key === k);
      if (existing) { update existing in place } else { acc.push(new bucket) }
      return acc;
    }, [])
    ]]

    [find_or_push] is that reducer over its four varying parts, and this file
    proves what it computes for any of them: buckets have pairwise different
    keys, every counted row has its bucket, and a counter of a bucket counts
    the rows of the bucket's key that raise it.  Keys are compared with
    [===], so a key of [NaN] equals no key, itself included. *)

From S2P Require Import Prelude JSNumber.

Section FindOrPush.
Context {A B : Type}.
Context (key : A → number) (active : B → bool) (key_of : B → number).
Context (upd : B → A → A) (mk : B → A).

(** [item.key === k] *)
Definition has_key (k : number) (a : A) : Prop := Is_true (Num.eqb (key a) k).

Definition find_or_push (acc : list A) (x : B) : list A :=
  if negb (active x) then acc
  else
    match list_find (has_key (key_of x)) acc with
    | Some (i, _) => alter (upd x) i acc
    | None => acc ++ [mk x]
    end.

Definition group (data : list B) : list A := fold_left find_or_push data [].

(** The three ways a row changes the accumulator. *)
Inductive step (acc : list A) (x : B) : list A → Prop :=
| step_skip : active x = false → step acc x acc
| step_update i a :
    active x = true → list_find (has_key (key_of x)) acc = Some (i, a) →
    step acc x (alter (upd x) i acc)
| step_push :
    active x = true → list_find (has_key (key_of x)) acc = None →
    step acc x (acc ++ [mk x]).

(** No two buckets have equal keys. *)
Definition unique_keys (acc : list A) : Prop :=
  ∀ i j a b, acc !! i = Some a → acc !! j = Some b →
    Num.eqb (key a) (key b) = true → i = j.

(** The rows that go to the bucket of key [k]. *)
Definition goes_to (k : number) (x : B) : bool :=
  active x && Num.eqb (key_of x) k.

(** The value of a counter in the bucket of key [k]; [0] without bucket. *)
Definition counter_at (μ : A → nat) (k : number) (acc : list A) : nat :=
  match list_find (has_key k) acc with
  | Some (_, a) => μ a
  | None => 0
  end.

Lemma find_or_push_step acc x : step acc x (find_or_push acc x).
Proof.
  unfold find_or_push. destruct (active x) eqn:E; simpl; [|by constructor].
  destruct (list_find _ acc) as [[i a]|] eqn:F; by econstructor.
Qed.

Lemma has_key_congr k k' a :
  Num.eqb k' k = true → has_key k a ↔ has_key k' a.
Proof.
  intros E. unfold has_key. by rewrite (eqb_congr_r (key a) k' k E).
Qed.

Lemma list_find_key_congr k k' acc :
  Num.eqb k' k = true →
  list_find (has_key k) acc = list_find (has_key k') acc.
Proof. intros E. apply list_find_ext. intros a. by apply has_key_congr. Qed.

Lemma has_key_refl k a : has_key k a → Num.eqb (key a) (key a) = true.
Proof. intros E%Is_true_true. by eapply eqb_refl_l. Qed.

Section WithKeyLaws.
Hypothesis key_upd : ∀ x a, key (upd x a) = key a.
Hypothesis key_mk : ∀ x, key (mk x) = key_of x.

Lemma has_key_upd k x a : has_key k (upd x a) ↔ has_key k a.
Proof using key_upd. unfold has_key. by rewrite key_upd. Qed.

Lemma find_or_push_unique acc x :
  unique_keys acc → unique_keys (find_or_push acc x).
Proof using key_upd key_mk.
  intros Hu. destruct (find_or_push_step acc x) as [|i a _ _|_ F]; [done| |].
  - intros j1 j2 b1 b2 H1 H2.
    apply (list_lookup_alter_Some_key key) in H1 as (c1 & H1 & ->); [|apply key_upd].
    apply (list_lookup_alter_Some_key key) in H2 as (c2 & H2 & ->); [|apply key_upd].
    by apply Hu.
  - apply list_find_None in F. rewrite Forall_forall in F.
    intros j1 j2 b1 b2 H1 H2 E.
    apply lookup_snoc_Some in H1 as [[Hl1 H1]|[-> <-]];
      apply lookup_snoc_Some in H2 as [[Hl2 H2]|[-> <-]]; [by eapply Hu| | |done].
    + rewrite key_mk in E. apply list_elem_of_lookup_2 in H1.
      destruct (F b1 H1). by apply Is_true_true.
    + rewrite key_mk, eqb_sym in E. apply list_elem_of_lookup_2 in H2.
      destruct (F b2 H2). by apply Is_true_true.
Qed.

Lemma group_unique data : unique_keys (group data).
Proof using key_upd key_mk.
  apply (fold_left_inv unique_keys); [intros; by apply find_or_push_unique|].
  intros i j a b Hi. by rewrite lookup_nil in Hi.
Qed.

(** A row that is counted has a bucket, from then on. *)
Lemma find_or_push_keeps k acc x :
  Exists (has_key k) acc → Exists (has_key k) (find_or_push acc x).
Proof using key_upd.
  intros He. destruct (find_or_push_step acc x) as [|i a _ _|_ _]; [done| |].
  - apply Exists_exists in He as (b & [j Hj]%list_elem_of_lookup_1 & Hb).
    apply Exists_exists. destruct (decide (j = i)) as [->|Hne].
    + exists (upd x b). split; [|by apply has_key_upd].
      apply (list_elem_of_lookup_2 _ i). by rewrite list_lookup_alter_eq, Hj.
    + exists b. split; [|done].
      apply (list_elem_of_lookup_2 _ j). by rewrite list_lookup_alter_ne.
  - apply Exists_app. by left.
Qed.

Lemma find_or_push_adds k acc x :
  goes_to k x = true → Exists (has_key k) (find_or_push acc x).
Proof using key_upd key_mk.
  intros [Ha E]%andb_prop. unfold find_or_push. rewrite Ha. simpl.
  destruct (list_find _ acc) as [[i a]|] eqn:F.
  - apply list_find_Some in F as (Hi & Hk & _). apply Exists_exists.
    exists (upd x a). split.
    + apply (list_elem_of_lookup_2 _ i). by rewrite list_lookup_alter_eq, Hi.
    + apply has_key_upd. by apply (has_key_congr k (key_of x)).
  - apply Exists_app. right. apply Exists_cons_hd.
    unfold has_key. rewrite key_mk. by apply Is_true_true.
Qed.

(** Every row that is counted has its bucket in the result. *)
Lemma group_complete data x k :
  x ∈ data → goes_to k x = true → Exists (has_key k) (group data).
Proof using key_upd key_mk.
  unfold group. intros Hx Hg. induction data as [|y data IH] using rev_ind.
  - by apply elem_of_nil in Hx.
  - rewrite fold_left_snoc. apply elem_of_app in Hx as [Hx|Hx%list_elem_of_singleton].
    + by apply find_or_push_keeps, IH.
    + subst y. by apply find_or_push_adds.
Qed.

(** ** Counters *)

Section Counter.
Context (μ : A → nat) (flag : B → bool).
Hypothesis μ_upd : ∀ x a, μ (upd x a) = μ a + (if flag x then 1 else 0).
Hypothesis μ_mk : ∀ x, μ (mk x) = if flag x then 1 else 0.

Lemma counter_at_step k acc x :
  counter_at μ k (find_or_push acc x) =
  counter_at μ k acc + (if goes_to k x && flag x then 1 else 0).
Proof using key_upd key_mk μ_upd μ_mk.
  unfold counter_at, goes_to.
  destruct (find_or_push_step acc x) as [->|i a -> F| -> F]; simpl; [lia| |].
  - rewrite (list_find_alter_key (has_key k)) by (intros; apply has_key_upd).
    destruct (Num.eqb (key_of x) k) eqn:E; simpl.
    + rewrite (list_find_key_congr k (key_of x)), F by done. simpl.
      rewrite decide_True, μ_upd by done. done.
    + destruct (list_find (has_key k) acc) as [[j b]|] eqn:F'; simpl; [|done].
      rewrite decide_False; [lia|]. intros ->.
      apply list_find_Some in F as (Hi & Hk & _).
      apply list_find_Some in F' as (Hi' & Hk' & _). simplify_eq.
      apply Is_true_true in Hk, Hk'.
      by rewrite <- (eqb_congr_l (key a) (key_of x) k Hk), Hk' in E.
  - rewrite list_find_snoc. destruct (Num.eqb (key_of x) k) eqn:E; simpl.
    + rewrite (list_find_key_congr k (key_of x)), F by done.
      rewrite decide_True; [by rewrite μ_mk|].
      unfold has_key. rewrite key_mk. by apply Is_true_true.
    + destruct (list_find (has_key k) acc) as [[j b]|]; [lia|].
      rewrite decide_False; [done|]. unfold has_key. rewrite key_mk, E.
      intros Hf. exact Hf.
Qed.

Lemma counter_at_group k data :
  counter_at μ k (group data) = count_if (λ x, goes_to k x && flag x) data.
Proof using key_upd key_mk μ_upd μ_mk.
  unfold group.
  rewrite (fold_left_measure (counter_at μ k)
             (λ x, if goes_to k x && flag x then 1 else 0));
    [|apply counter_at_step].
  by rewrite count_if_sum.
Qed.

Lemma counter_at_elem k acc a :
  unique_keys acc → a ∈ acc → has_key k a → counter_at μ k acc = μ a.
Proof.
  intros Hu [i Hi]%list_elem_of_lookup_1 Hk. unfold counter_at.
  destruct (list_find (has_key k) acc) as [[j b]|] eqn:F.
  - apply list_find_Some in F as (Hj & Hb & _).
    assert (j = i) as ->; [|by simplify_eq].
    apply (Hu j i b a Hj Hi). apply Is_true_true in Hk, Hb.
    by rewrite (eqb_congr_r (key b) (key a) k Hk).
  - apply list_find_None in F. rewrite Forall_forall in F.
    destruct (F a); [by eapply list_elem_of_lookup_2|done].
Qed.

(** A counter of a bucket of the result counts the rows of the bucket's key
    that raise it. *)
Lemma group_counter data a k :
  a ∈ group data → has_key k a →
  μ a = count_if (λ x, goes_to k x && flag x) data.
Proof using key_upd key_mk μ_upd μ_mk.
  intros Ha Hk. rewrite <- counter_at_group.
  symmetry. apply counter_at_elem; [apply group_unique|done..].
Qed.

End Counter.
End WithKeyLaws.
End FindOrPush.
