(* ===== verification/Upsert.v ===== *)
(** * Aggregating rows into an object keyed by a cell

    The per-guard and per-location aggregations keep their entries in a
    plain object indexed by a cell of the row:

    [[
    data.forEach(record => {
      const k = record[col]; if (!k) return;
      if (!obj[k]) obj[k] = { ...zero counters };     // creating pass only
      obj[k].counter++; ...
    })
    ]]

    [upsert] is the body of a creating pass and [update] the body of a pass
    that only touches existing entries, over the key of a row, the initial
    entry and the update.  A key that names a property of
    [Object.prototype] makes the body throw; this file shows that this is the
    only way a pass fails ([foldM_upsert], [foldM_update]), and what a pass
    that succeeds computes: which keys the object has, and what a counter of
    an entry counts. *)

From S2P Require Import Prelude JSString JSObject.

#[local] Set Warnings "-clear-no-such-hyp".

Section Upsert.
Context {V R : Type}.
Context (key_of : R → option string) (init : R → V) (upd : R → V → V).
Context (err : js_error).

Definition upsert (o : Obj.t V) (r : R) : res (Obj.t V) :=
  match key_of r with
  | None => Ok o
  | Some k =>
      match Obj.get o k with
      | Obj.Undefined => Ok (Obj.set o k (upd r (init r)))
      | Obj.Own v => Ok (Obj.set o k (upd r v))
      | Obj.Inherited => Throw err
      end
  end.

Definition update (o : Obj.t V) (r : R) : res (Obj.t V) :=
  match key_of r with
  | None => Ok o
  | Some k =>
      match Obj.get o k with
      | Obj.Undefined => Ok o
      | Obj.Own v => Ok (Obj.set o k (upd r v))
      | Obj.Inherited => Throw err
      end
  end.

(** The bodies without the failure. *)
Definition upsert_pure (o : Obj.t V) (r : R) : Obj.t V :=
  match key_of r with
  | None => o
  | Some k => Obj.set o k (upd r (default (init r) (Obj.get_own o k)))
  end.

Definition update_pure (o : Obj.t V) (r : R) : Obj.t V :=
  match key_of r with
  | None => o
  | Some k =>
      match Obj.get_own o k with
      | Some v => Obj.set o k (upd r v)
      | None => o
      end
  end.

(** A row whose key is a property every object inherits. *)
Definition poison (r : R) : bool :=
  match key_of r with
  | Some k => Obj.inherited k
  | None => false
  end.

(** No own property of the object hides an inherited one. *)
Definition own_ok (o : Obj.t V) : Prop :=
  Forall (λ k, Obj.inherited k = false) (Obj.keys o).

(** The rows that go to the entry of key [k]. *)
Definition hits (k : string) (r : R) : bool := bool_decide (key_of r = Some k).

(** The value of a counter in the entry of key [k]; [0] without entry. *)
Definition counter_at (μ : V → nat) (k : string) (o : Obj.t V) : nat :=
  from_option μ 0 (Obj.get_own o k).

Lemma own_ok_empty : own_ok Obj.empty.
Proof. constructor. Qed.

Lemma own_ok_get_own o k v :
  own_ok o → Obj.get_own o k = Some v → Obj.inherited k = false.
Proof.
  intros Ho Hk. unfold own_ok in Ho. rewrite Forall_forall in Ho. apply Ho.
  destruct (decide (k ∈ Obj.keys o)) as [|Hn]; [done|].
  apply get_own_None in Hn. congruence.
Qed.

Lemma own_ok_set o k v :
  own_ok o → Obj.inherited k = false → own_ok (Obj.set o k v).
Proof.
  intros Ho Hk. unfold own_ok. rewrite keys_set. case_bool_decide; [done|].
  apply Forall_app. split; [done|]. by apply Forall_singleton.
Qed.

Lemma upsert_eq o r :
  own_ok o → upsert o r = if poison r then Throw err else Ok (upsert_pure o r).
Proof.
  intros Ho. unfold upsert, upsert_pure, poison, Obj.get.
  destruct (key_of r) as [k|]; [|done].
  destruct (Obj.get_own o k) as [v|] eqn:E; simpl.
  - by rewrite (own_ok_get_own o k v).
  - by destruct (Obj.inherited k).
Qed.

Lemma update_eq o r :
  own_ok o → update o r = if poison r then Throw err else Ok (update_pure o r).
Proof.
  intros Ho. unfold update, update_pure, poison, Obj.get.
  destruct (key_of r) as [k|]; [|done].
  destruct (Obj.get_own o k) as [v|] eqn:E; simpl.
  - by rewrite (own_ok_get_own o k v).
  - by destruct (Obj.inherited k).
Qed.

Lemma upsert_pure_own_ok o r :
  own_ok o → poison r = false → own_ok (upsert_pure o r).
Proof.
  unfold upsert_pure, poison. destruct (key_of r); [|done].
  intros; by apply own_ok_set.
Qed.

Lemma update_pure_keys o r : Obj.keys (update_pure o r) = Obj.keys o.
Proof.
  unfold update_pure. destruct (key_of r) as [k|]; [|done].
  destruct (Obj.get_own o k) as [v|] eqn:E; [|done].
  rewrite keys_set, bool_decide_true; [done|].
  destruct (decide (k ∈ Obj.keys o)) as [|Hn]; [done|].
  apply get_own_None in Hn. congruence.
Qed.

Lemma update_pure_own_ok o r : own_ok o → own_ok (update_pure o r).
Proof. unfold own_ok. by rewrite update_pure_keys. Qed.

(** A creating pass fails exactly on a poisonous row, and otherwise is the
    fold of its pure body. *)
Lemma foldM_upsert l o :
  own_ok o →
  foldM upsert l o =
  if existsb poison l then Throw err else Ok (fold_left upsert_pure l o).
Proof.
  revert o. induction l as [|r l IH]; intros o Ho; simpl; [done|].
  rewrite upsert_eq by done. destruct (poison r) eqn:E; simpl; [done|].
  apply IH. by apply upsert_pure_own_ok.
Qed.

Lemma foldM_update l o :
  own_ok o →
  foldM update l o =
  if existsb poison l then Throw err else Ok (fold_left update_pure l o).
Proof.
  revert o. induction l as [|r l IH]; intros o Ho; simpl; [done|].
  rewrite update_eq by done. destruct (poison r) eqn:E; simpl; [done|].
  apply IH. by apply update_pure_own_ok.
Qed.

Lemma fold_upsert_own_ok l o :
  own_ok o → existsb poison l = false → own_ok (fold_left upsert_pure l o).
Proof.
  revert o. induction l as [|r l IH]; intros o Ho; simpl; [done|].
  intros [Hr Hl]%orb_false_elim. apply IH; [|done]. by apply upsert_pure_own_ok.
Qed.

Lemma fold_update_keys l o : Obj.keys (fold_left update_pure l o) = Obj.keys o.
Proof.
  revert o. induction l as [|r l IH]; intros o; simpl; [done|].
  by rewrite IH, update_pure_keys.
Qed.

Lemma poison_exists l :
  existsb poison l = true ↔
  ∃ r k, r ∈ l ∧ key_of r = Some k ∧ Obj.inherited k = true.
Proof.
  rewrite existsb_exists. unfold poison. split.
  - intros (r & Hr%list_elem_of_In & Hp). exists r.
    destruct (key_of r) as [k|]; [by exists k|done].
  - intros (r & k & Hr%list_elem_of_In & Hk & Hi). exists r. by rewrite Hk.
Qed.

(** ** The keys of the result *)

Lemma upsert_pure_keys o r k :
  k ∈ Obj.keys (upsert_pure o r) ↔ k ∈ Obj.keys o ∨ key_of r = Some k.
Proof.
  unfold upsert_pure. destruct (key_of r) as [k'|]; [|naive_solver].
  rewrite keys_set. case_bool_decide; [naive_solver|].
  rewrite elem_of_app, list_elem_of_singleton. naive_solver.
Qed.

Lemma fold_upsert_keys l o k :
  k ∈ Obj.keys (fold_left upsert_pure l o) ↔
  k ∈ Obj.keys o ∨ ∃ r, r ∈ l ∧ key_of r = Some k.
Proof.
  revert o. induction l as [|r l IH]; intros o; simpl.
  - split; [by left|]. intros [|(r & []%elem_of_nil & _)]; done.
  - rewrite IH, upsert_pure_keys. setoid_rewrite elem_of_cons. naive_solver.
Qed.

Lemma upsert_pure_NoDup o r :
  NoDup (Obj.keys o) → NoDup (Obj.keys (upsert_pure o r)).
Proof.
  unfold upsert_pure. destruct (key_of r); [|done]. apply keys_set_NoDup.
Qed.

Lemma fold_upsert_NoDup l o :
  NoDup (Obj.keys o) → NoDup (Obj.keys (fold_left upsert_pure l o)).
Proof. apply (fold_left_inv (λ o, NoDup (Obj.keys o))). intros; by apply upsert_pure_NoDup. Qed.

(** A pass creates at most one entry per row. *)
Lemma fold_upsert_size l o :
  length (Obj.keys (fold_left upsert_pure l o)) ≤ length (Obj.keys o) + length l.
Proof.
  revert o. induction l as [|r l IH]; intros o; simpl; [lia|].
  etrans; [apply IH|]. unfold upsert_pure. destruct (key_of r); [|lia].
  rewrite keys_set. case_bool_decide; rewrite ?length_app; simpl; lia.
Qed.

(** ** The entries carry their key *)

Section Identity.
Context (id : V → string).
Hypothesis id_upd : ∀ r v, id (upd r v) = id v.

(** Every entry records the key it is stored under. *)
Definition keyed_by (o : Obj.t V) : Prop :=
  ∀ k v, Obj.get_own o k = Some v → id v = k.

Lemma keyed_by_set o k v : keyed_by o → id v = k → keyed_by (Obj.set o k v).
Proof.
  intros Ho Hv k' v'. destruct (decide (k = k')) as [->|Hne].
  - rewrite get_own_set_eq. by intros [= <-].
  - rewrite get_own_set_ne by done. apply Ho.
Qed.

Lemma update_pure_keyed o r : keyed_by o → keyed_by (update_pure o r).
Proof using id_upd.
  intros Ho. unfold update_pure. destruct (key_of r) as [k|]; [|done].
  destruct (Obj.get_own o k) as [v|] eqn:E; [|done].
  apply keyed_by_set; [done|]. rewrite id_upd. by apply Ho.
Qed.

Lemma upsert_pure_keyed o r :
  (∀ k, key_of r = Some k → id (init r) = k) →
  keyed_by o → keyed_by (upsert_pure o r).
Proof using id_upd.
  intros Hinit Ho. unfold upsert_pure. destruct (key_of r) as [k|] eqn:K; [|done].
  apply keyed_by_set; [done|]. rewrite id_upd.
  destruct (Obj.get_own o k) as [v|] eqn:E; simpl; [by apply Ho|by apply Hinit].
Qed.

(** The keys the values record are the keys of the object. *)
Lemma keyed_values o :
  keyed_by o → NoDup (Obj.keys o) → id <$> Obj.values o ≡ₚ Obj.keys o.
Proof.
  intros Ho Hnd. rewrite values_perm. unfold Obj.keys.
  rewrite <- list_fmap_compose. apply reflexive_eq, list_fmap_ext.
  intros i [k v] Hi. simpl. apply Ho, get_own_elem; [done|].
  by eapply list_elem_of_lookup_2.
Qed.

(** The values of an object whose entries record their key record
    pairwise distinct keys. *)
Lemma keyed_values_NoDup o :
  keyed_by o → NoDup (Obj.keys o) → NoDup (id <$> Obj.values o).
Proof. intros Ho Hnd. by rewrite keyed_values. Qed.

End Identity.

(** ** Counters *)

Section Counter.
Context (μ : V → nat) (flag : R → bool).
Hypothesis μ_upd : ∀ r v, μ (upd r v) = μ v + (if flag r then 1 else 0).

Lemma counter_upsert_pure k o r :
  μ (init r) = 0 →
  counter_at μ k (upsert_pure o r) =
  counter_at μ k o + (if hits k r && flag r then 1 else 0).
Proof using μ_upd.
  intros Hinit. unfold counter_at, upsert_pure, hits.
  destruct (key_of r) as [k'|]; [|simpl; lia].
  destruct (decide (k' = k)) as [->|Hne].
  - rewrite get_own_set_eq, bool_decide_true by done. simpl. rewrite μ_upd.
    destruct (Obj.get_own o k); simpl; [done|]. by rewrite Hinit.
  - rewrite get_own_set_ne, bool_decide_false by congruence. simpl. lia.
Qed.

Lemma counter_update_pure k o r :
  is_Some (Obj.get_own o k) →
  counter_at μ k (update_pure o r) =
  counter_at μ k o + (if hits k r && flag r then 1 else 0).
Proof using μ_upd.
  intros [v Hv]. unfold counter_at, update_pure, hits.
  destruct (key_of r) as [k'|]; [|simpl; lia].
  destruct (decide (k' = k)) as [->|Hne].
  - rewrite Hv, get_own_set_eq, bool_decide_true by done. simpl. by rewrite μ_upd.
  - rewrite bool_decide_false by congruence.
    destruct (Obj.get_own o k'); [rewrite get_own_set_ne by done|]; simpl; lia.
Qed.

Lemma update_pure_is_Some k o r :
  is_Some (Obj.get_own o k) → is_Some (Obj.get_own (update_pure o r) k).
Proof.
  intros Hk. destruct (Obj.get_own (update_pure o r) k) eqn:E; [done|].
  apply get_own_None in E. rewrite update_pure_keys in E.
  apply get_own_None in E. rewrite E in Hk. by destruct Hk.
Qed.

(** After a creating pass a counter holds its old value plus the number of
    rows of its key that raise it. *)
Lemma counter_fold_upsert k l o :
  (∀ r, μ (init r) = 0) →
  counter_at μ k (fold_left upsert_pure l o) =
  counter_at μ k o + count_if (λ r, hits k r && flag r) l.
Proof using μ_upd.
  intros Hinit. rewrite count_if_sum. apply fold_left_measure.
  intros; by apply counter_upsert_pure.
Qed.

(** The same for a pass over the existing entries. *)
Lemma counter_fold_update k l o :
  is_Some (Obj.get_own o k) →
  counter_at μ k (fold_left update_pure l o) =
  counter_at μ k o + count_if (λ r, hits k r && flag r) l.
Proof using μ_upd.
  intros Hk. rewrite count_if_sum.
  apply (fold_left_measure_inv (λ o, is_Some (Obj.get_own o k))); [|done].
  intros o' r Ho'. split; [by apply update_pure_is_Some|by apply counter_update_pure].
Qed.

End Counter.

(** ** What holds of every entry *)

Section Entries.
Context (P : V → Prop).
Hypothesis P_upd : ∀ r v, P v → P (upd r v).

Definition all (o : Obj.t V) : Prop := Forall (λ kv, P kv.2) o.

Lemma all_get_own o k v : all o → Obj.get_own o k = Some v → P v.
Proof.
  intros Ho Hk%get_own_Some_elem. unfold all in Ho. rewrite Forall_forall in Ho.
  apply (Ho (k, v) Hk).
Qed.

Lemma all_values o : all o → Forall P (Obj.values o).
Proof.
  intros Ho. apply Forall_forall. intros v (k & Hk)%elem_of_values.
  unfold all in Ho. rewrite Forall_forall in Ho. apply (Ho (k, v) Hk).
Qed.

Lemma update_pure_all o r : all o → all (update_pure o r).
Proof using P_upd.
  intros Ho. unfold update_pure. destruct (key_of r) as [k|]; [|done].
  destruct (Obj.get_own o k) as [v|] eqn:E; [|done].
  apply set_Forall; [done|]. apply P_upd. by eapply all_get_own.
Qed.

Lemma upsert_pure_all o r : P (upd r (init r)) → all o → all (upsert_pure o r).
Proof using P_upd.
  intros Hinit Ho. unfold upsert_pure. destruct (key_of r) as [k|]; [|done].
  apply set_Forall; [done|]. simpl.
  destruct (Obj.get_own o k) as [v|] eqn:E; simpl; [|done].
  apply P_upd. by eapply all_get_own.
Qed.

Lemma fold_update_all l o : all o → all (fold_left update_pure l o).
Proof using P_upd. apply (fold_left_inv all). intros; by apply update_pure_all. Qed.

Lemma fold_upsert_all l o :
  (∀ r, P (upd r (init r))) → all o → all (fold_left upsert_pure l o).
Proof using P_upd.
  intros Hinit. apply (fold_left_inv all). intros; by apply upsert_pure_all.
Qed.

End Entries.

(** ** What holds of every entry when the rows that count are of a kind *)

Section EntriesOn.
Context (Q : R → Prop) (P : V → Prop).
Hypothesis P_upd : ∀ r v, Q r → P v → P (upd r v).
Hypothesis P_init : ∀ r, Q r → P (upd r (init r)).

Lemma upsert_pure_all_on o r :
  (is_Some (key_of r) → Q r) → all P o → all P (upsert_pure o r).
Proof using P_upd P_init.
  intros Hr Ho. unfold upsert_pure. destruct (key_of r) as [k|]; [|done].
  specialize (Hr (mk_is_Some _ _ eq_refl)).
  apply set_Forall; [done|]. simpl.
  destruct (Obj.get_own o k) as [v|] eqn:E; simpl; [|by apply P_init].
  apply P_upd; [done|]. by eapply all_get_own.
Qed.

Lemma fold_upsert_all_on l o :
  Forall (λ r, is_Some (key_of r) → Q r) l → all P o →
  all P (fold_left upsert_pure l o).
Proof using P_upd P_init.
  intros Hl. revert o. induction Hl as [|r l Hr _ IH]; intros o Ho; [done|].
  simpl. by apply IH, upsert_pure_all_on.
Qed.

End EntriesOn.
End Upsert.
