(* ===== verification/Ledger.v ===== *)
(** * Ledger: what a keyed pass promises

    The passes of [Upsert] walk the rows of an export in order and keep,
    in a plain object, one entry per key.  The rows of different keys are
    interleaved in the export, the object keeps its properties in creation
    order, and a read of it goes through [Object.prototype].

    What such a pass promises is simpler: a finite map from keys to
    entries ([ledger]) in which the entry of a key is made from the rows of
    that key alone, the first creating it and each of them updating it in
    the order of the export ([ledger_lookup]).  This file states that
    specification and proves that the object of a pass implements it
    ([upsert_refines], and [update_refines] for a second pass that only
    updates).

    Two exports with the same rows under every key give the same ledger
    ([ledger_proper]); when the updates count, any rearrangement of the
    rows gives the same counters ([counters_proper]).  A field
    that every update changes by the same function of the row is the fold
    of that function over the rows of the key ([tally_field]). *)

From stdpp Require Import base list strings gmap.
From S2P Require Import Prelude JSObject Upsert.

Section Pass.
Context {V R : Type}.
Context (key_of : R → option string) (init : R → V) (upd : R → V → V).

(** The rows of a key, in the order of the export. *)
Definition rows_of (k : string) (l : list R) : list R :=
  filter (λ r, key_of r = Some k) l.

(** An entry after the updates of some rows. *)
Definition tally (v : V) (rs : list R) : V := fold_left (λ v r, upd r v) rs v.

(** The entry the rows of one key make: none without a row; otherwise
    the first row creates it and every row updates it. *)
Definition entry_of (rs : list R) : option V :=
  match rs with
  | [] => None
  | r :: _ => Some (tally (init r) rs)
  end.

(** One row entered in the ledger. *)
Definition post (m : gmap string V) (r : R) : gmap string V :=
  match key_of r with
  | Some k => <[k := upd r (default (init r) (m !! k))]> m
  | None => m
  end.

Definition ledger (l : list R) : gmap string V := fold_left post l ∅.

(** One row of a pass that only updates. *)
Definition amend (m : gmap string V) (r : R) : gmap string V :=
  match key_of r with
  | Some k => alter (upd r) k m
  | None => m
  end.

(** Exports with the same rows under every key. *)
Definition same_rows (l l' : list R) : Prop := ∀ k, rows_of k l = rows_of k l'.

#[export] Instance same_rows_equiv : Equivalence same_rows.
Proof.
  split; [done|by intros l l' E k|].
  intros l1 l2 l3 E1 E2 k. by rewrite E1.
Qed.

Lemma rows_of_cons_hit k r l : key_of r = Some k → rows_of k (r :: l) = r :: rows_of k l.
Proof. intros Hk. unfold rows_of. by rewrite filter_cons_True. Qed.

Lemma rows_of_cons_miss k r l : key_of r ≠ Some k → rows_of k (r :: l) = rows_of k l.
Proof. intros Hk. unfold rows_of. by rewrite filter_cons_False. Qed.

Lemma rows_of_hits k l : rows_of k l = filter (λ r, hits key_of k r = true) l.
Proof.
  apply list_filter_iff. intros r. unfold hits. by rewrite bool_decide_eq_true.
Qed.

(** ** The entry of a key depends on its rows alone *)

Lemma post_lookup m r k :
  post m r !! k =
  if decide (key_of r = Some k) then Some (upd r (default (init r) (m !! k)))
  else m !! k.
Proof.
  unfold post. destruct (key_of r) as [k'|]; case_decide; simplify_eq.
  - by rewrite lookup_insert_eq.
  - rewrite lookup_insert_ne; [done|congruence].
  - done.
Qed.

Lemma fold_post_lookup l m k :
  fold_left post l m !! k =
  match m !! k with
  | Some v => Some (tally v (rows_of k l))
  | None => entry_of (rows_of k l)
  end.
Proof.
  revert m. induction l as [|r l IH]; intros m; simpl; [by destruct (m !! k)|].
  rewrite IH, post_lookup. case_decide as Hk.
  - rewrite (rows_of_cons_hit k r l Hk). by destruct (m !! k).
  - by rewrite (rows_of_cons_miss k r l Hk).
Qed.

Theorem ledger_lookup l k : ledger l !! k = entry_of (rows_of k l).
Proof. unfold ledger. by rewrite fold_post_lookup, lookup_empty. Qed.

Lemma amend_lookup m r k :
  amend m r !! k =
  if decide (key_of r = Some k) then upd r <$> m !! k else m !! k.
Proof.
  unfold amend. destruct (key_of r) as [k'|]; case_decide; simplify_eq.
  - by rewrite lookup_alter_eq.
  - rewrite lookup_alter_ne; [done|congruence].
  - done.
Qed.

Theorem fold_amend_lookup l m k :
  fold_left amend l m !! k = (λ v, tally v (rows_of k l)) <$> m !! k.
Proof.
  revert m. induction l as [|r l IH]; intros m; simpl; [by destruct (m !! k)|].
  rewrite IH, amend_lookup. case_decide as Hk.
  - rewrite (rows_of_cons_hit k r l Hk). by destruct (m !! k).
  - by rewrite (rows_of_cons_miss k r l Hk).
Qed.

(** The keys of the ledger are the keys of the rows. *)
Lemma ledger_dom l k : is_Some (ledger l !! k) ↔ ∃ r, r ∈ l ∧ key_of r = Some k.
Proof.
  rewrite ledger_lookup. unfold entry_of, rows_of. split.
  - destruct (filter _ l) as [|r rs] eqn:E; [by intros []|]. intros _.
    assert (r ∈ filter (λ r, key_of r = Some k) l) as Hr by (rewrite E; left).
    apply list_elem_of_filter in Hr as [Hk Hr]. eauto.
  - intros (r & Hr & Hk).
    assert (r ∈ filter (λ r, key_of r = Some k) l) as Hin
      by (by apply list_elem_of_filter).
    destruct (filter _ l); [by apply elem_of_nil in Hin|by eexists].
Qed.

(** ** The specification does not see the interleaving *)

#[export] Instance ledger_proper : Proper (same_rows ==> (=)) ledger.
Proof. intros l l' E. apply map_eq. intros k. by rewrite !ledger_lookup, E. Qed.

#[export] Instance fold_amend_proper :
  Proper (same_rows ==> (=) ==> (=)) (fold_left amend).
Proof.
  intros l l' E m ? <-. apply map_eq. intros k. by rewrite !fold_amend_lookup, E.
Qed.

(** ** The object of a pass implements the ledger *)

Lemma obj_map_upsert o r :
  obj_map (upsert_pure key_of init upd o r) = post (obj_map o) r.
Proof.
  unfold upsert_pure, post. destruct (key_of r) as [k|]; [|done].
  by rewrite obj_map_set, obj_map_get_own.
Qed.

Lemma obj_map_update o r :
  obj_map (update_pure key_of upd o r) = amend (obj_map o) r.
Proof.
  unfold update_pure, amend. destruct (key_of r) as [k|]; [|done].
  apply map_eq. intros k'. destruct (Obj.get_own o k) as [v|] eqn:E.
  - rewrite obj_map_set. destruct (decide (k = k')) as [<-|Hne].
    + by rewrite lookup_insert_eq, lookup_alter_eq, obj_map_get_own, E.
    + by rewrite lookup_insert_ne, lookup_alter_ne.
  - destruct (decide (k = k')) as [<-|Hne].
    + by rewrite lookup_alter_eq, obj_map_get_own, E.
    + by rewrite lookup_alter_ne.
Qed.

Theorem upsert_refines l :
  obj_map (fold_left (upsert_pure key_of init upd) l Obj.empty) = ledger l.
Proof.
  unfold ledger. change (∅ : gmap string V) with (obj_map (V:=V) Obj.empty).
  generalize (Obj.empty (V:=V)). induction l as [|r l IH]; intros o; simpl; [done|].
  by rewrite IH, obj_map_upsert.
Qed.

Theorem update_refines l o :
  obj_map (fold_left (update_pure key_of upd) l o) = fold_left amend l (obj_map o).
Proof.
  revert o. induction l as [|r l IH]; intros o; simpl; [done|].
  by rewrite IH, obj_map_update.
Qed.

(** The values of the object are the entries of the ledger. *)
Lemma values_obj_map (o : Obj.t V) :
  NoDup (Obj.keys o) → Obj.values o ≡ₚ (map_to_list (obj_map o)).*2.
Proof.
  intros Hnd. rewrite values_perm. unfold obj_map.
  by rewrite map_to_list_to_map.
Qed.

Lemma values_ledger l :
  Obj.values (fold_left (upsert_pure key_of init upd) l Obj.empty) ≡ₚ
  (map_to_list (ledger l)).*2.
Proof.
  rewrite <- upsert_refines. apply values_obj_map, fold_upsert_NoDup. constructor.
Qed.

(** A row is poisonous in one export exactly when it is in the other. *)
Lemma poison_same_rows l l' :
  same_rows l l' →
  existsb (poison key_of) l = existsb (poison key_of) l'.
Proof.
  assert (∀ l l', same_rows l l' →
            existsb (poison key_of) l = true → existsb (poison key_of) l' = true)
    as Hone.
  { clear. intros l l' E. rewrite !existsb_exists. intros (r & Hr & Hp).
    unfold poison in Hp. destruct (key_of r) as [k|] eqn:Hk; [|done].
    assert (r ∈ rows_of k l') as Hin.
    { rewrite <- E. apply list_elem_of_filter. split; [done|by apply list_elem_of_In]. }
    apply list_elem_of_filter in Hin as [Hk' Hin%list_elem_of_In].
    exists r. split; [done|]. unfold poison. by rewrite Hk. }
  intros E. apply eq_true_iff_eq. split; apply Hone; [done|by symmetry].
Qed.

(** ** Counters *)

Section Counters.
Context (μ : V → nat) (flag : R → bool).
Hypothesis μ_upd : ∀ r v, μ (upd r v) = μ v + (if flag r then 1 else 0).
Hypothesis μ_init : ∀ r, μ (init r) = 0.

Lemma tally_counter v rs : μ (tally v rs) = μ v + count_if flag rs.
Proof using μ_upd.
  revert v. induction rs as [|r rs IH]; intros v; simpl; [unfold count_if; simpl; lia|].
  rewrite IH, μ_upd, count_if_cons. lia.
Qed.

Lemma entry_counter rs : from_option μ 0 (entry_of rs) = count_if flag rs.
Proof using μ_upd μ_init.
  destruct rs as [|r rs]; [done|]. unfold entry_of. cbn [from_option].
  by rewrite tally_counter, μ_init.
Qed.

(** A counter of the ledger does not depend on the order of the rows. *)
Lemma counters_proper l l' k :
  l ≡ₚ l' → from_option μ 0 (ledger l !! k) = from_option μ 0 (ledger l' !! k).
Proof using μ_upd μ_init.
  intros E. rewrite !ledger_lookup, !entry_counter. unfold count_if, rows_of.
  by rewrite E.
Qed.

End Counters.

(** ** Accumulators *)

(** A field of the entry that every update changes by [f], whatever else
    the update does, is the fold of [f] over the rows. *)
Section Accumulator.
Context {A : Type} (μ : V → A) (f : R → A → A).
Hypothesis μ_upd : ∀ r v, μ (upd r v) = f r (μ v).

Lemma tally_field v rs : μ (tally v rs) = fold_left (λ a r, f r a) rs (μ v).
Proof using μ_upd.
  revert v. induction rs as [|r rs IH]; intros v; simpl; [done|].
  by rewrite IH, μ_upd.
Qed.

Lemma entry_field a0 rs v :
  (∀ r, μ (init r) = a0) → entry_of rs = Some v →
  μ v = fold_left (λ a r, f r a) rs a0.
Proof using μ_upd.
  intros Hinit. destruct rs as [|r rs]; [done|]. intros [= <-].
  simpl. by rewrite tally_field, μ_upd, Hinit.
Qed.

End Accumulator.

(** A field that no update touches is the one the entry had. *)
Lemma tally_kept {A} (μ : V → A) v rs :
  (∀ r v, μ (upd r v) = μ v) → μ (tally v rs) = μ v.
Proof.
  intros Hkept. rewrite (tally_field μ (λ _ a, a) Hkept).
  generalize (μ v). by induction rs.
Qed.

End Pass.
