(* ===== verification/Effects.v ===== *)
(** * Effects: component state threaded through code that may throw

    The body of [loadData] in both dashboards is a sequence of [setState]
    calls, awaited fetches and aggregation calls inside
    [try { .. } catch (err) { .. } finally { .. }].  This file holds the
    monad that sequence is written in: a computation takes the component
    state and gives the state after it together with its value or the
    exception it threw.  A [setState] call is [modify]; an aggregation that
    may throw enters with [lift]; [try_catch_finally] is the statement of the
    same name.  The file also holds what the loaders receive from the
    network ([fetched]), the text of [err.message] and the three screens
    the components choose between. *)

From stdpp Require Import base list strings pretty.
From S2P Require Import Prelude.

(** ** The monad *)

Record eff (S A : Type) : Type := Eff { run : S → S * res A }.
Arguments Eff {S A} run.
Arguments run {S A} e s.

(** The state a computation ends in. *)
Definition exec {S A} (m : eff S A) (s : S) : S := (run m s).1.

(** The value it gives, or the exception that leaves it. *)
Definition outcome {S A} (m : eff S A) (s : S) : res A := (run m s).2.

#[export] Instance eff_ret {S} : MRet (eff S) := λ A a, Eff (λ s, (s, Ok a)).

#[export] Instance eff_bind {S} : MBind (eff S) := λ A B k m,
  Eff (λ s, match run m s with
            | (s', Ok a) => run (k a) s'
            | (s', Throw e) => (s', Throw e)
            end).

(** A [setState] call. *)
Definition modify {S} (f : S → S) : eff S unit := Eff (λ s, (f s, Ok tt)).

(** A call that reads no state and may throw. *)
Definition lift {S A} (r : res A) : eff S A := Eff (λ s, (s, r)).

(** [try { body } catch (err) { handler(err) } finally { final }]: the
    handler runs in the state the body reached when it threw; [final] runs
    in every case, and an exception of the handler or of [final] leaves the
    statement. *)
Definition try_catch_finally {S} (body : eff S unit)
    (handler : js_error → eff S unit) (final : eff S unit) : eff S unit :=
  Eff (λ s,
    let '(s1, r1) := run body s in
    let '(s2, r2) := match r1 with
                     | Ok _ => (s1, Ok tt)
                     | Throw e => run (handler e) s1
                     end in
    let '(s3, r3) := run final s2 in
    (s3, match r3 with Ok _ => r2 | Throw e => Throw e end)).

(** ** What the network gives *)

(** The outcome of [await fetch(url)] followed by [await response.text()]:
    one of the two promises is rejected with an error of the given message,
    or the response arrives with its [ok] flag, its status and its body. *)
Inductive fetched : Type :=
| Rejected (message : string)
| Responded (ok : bool) (status : nat) (text : string).

(** [err.message]: the text V8 gives to the [TypeError] of a property read
    on [undefined], and the message an [Error] was made with. *)
Definition error_message (e : js_error) : string :=
  match e with
  | TypeError p => "Cannot read properties of undefined (reading '" +:+ p +:+ "')"
  | FetchError m => m
  end.

(** ** The events of a dashboard *)

(** The mount of the component and the three controls of the dashboard
    screen.  A mount and a change of date start a load; they come with what
    the two fetches of that load will give. *)
Inductive event : Type :=
| Mounted (activity attendance : fetched)
| DateChanged (date : string) (activity attendance : fetched)
| TabClicked (id : string)
| SearchTyped (value : string).

Definition is_mount (ev : event) : bool :=
  match ev with Mounted _ _ => true | _ => false end.

(** ** The screens *)

Inductive screen : Type :=
| LoadingScreen
| ErrorScreen (text : string)
| DashboardScreen.

#[export] Instance screen_eq_dec : EqDecision screen.
Proof. solve_decision. Defined.

(** [if (loading) return ..; if (error) return ..; return <dashboard>]:
    [null] and the empty string do not count as an error. *)
Definition screen_of (loading : bool) (error : option string) : screen :=
  if loading then LoadingScreen
  else match error with
       | Some e =>
           if String.eqb e "" then DashboardScreen
           else ErrorScreen ("Error loading dashboard: " +:+ e)
       | None => DashboardScreen
       end.

(** ** Laws *)

Section Laws.
Context {S : Type}.
Implicit Types (s : S) (f g : S → S).

Lemma run_ret {A} (a : A) s : run (mret a : eff S A) s = (s, Ok a).
Proof. reflexivity. Qed.

Lemma run_bind {A B} (m : eff S A) (k : A → eff S B) s :
  run (m ≫= k) s =
  match run m s with
  | (s', Ok a) => run (k a) s'
  | (s', Throw e) => (s', Throw e)
  end.
Proof. reflexivity. Qed.

Lemma run_modify_bind {B} f (k : unit → eff S B) s :
  run (modify f ≫= k) s = run (k tt) (f s).
Proof. reflexivity. Qed.

Lemma run_lift_bind {A B} (r : res A) (k : A → eff S B) s :
  run (lift r ≫= k) s =
  match r with Ok a => run (k a) s | Throw e => (s, Throw e) end.
Proof. unfold mbind, eff_bind; simpl. by destruct r. Qed.

(** A statement whose handler and final block only set state ends in the
    state the final block gives, and leaves no exception behind. *)
Lemma try_catch_finally_modify (body : eff S unit) (h : js_error → S → S) g s :
  run (try_catch_finally body (λ e, modify (h e)) (modify g)) s =
  match run body s with
  | (s1, Ok _) => (g s1, Ok tt)
  | (s1, Throw e) => (g (h e s1), Ok tt)
  end.
Proof.
  unfold try_catch_finally; simpl. destruct (run body s) as [s1 [[]|e]]; done.
Qed.

(** A [setState] call at the head of a [try] block can as well stand before
    the statement: it does not throw. *)
Lemma try_catch_finally_head (body : eff S unit) (h : js_error → eff S unit)
    (final : eff S unit) f s :
  run (try_catch_finally (modify f ≫= λ _, body) h final) s =
  run (try_catch_finally body h final) (f s).
Proof. reflexivity. Qed.

Lemma try_catch_finally_no_throw (body : eff S unit) (h : js_error → S → S) g s :
  outcome (try_catch_finally body (λ e, modify (h e)) (modify g)) s = Ok tt.
Proof.
  unfold outcome. rewrite try_catch_finally_modify.
  by destruct (run body s) as [s1 [[]|e]].
Qed.

End Laws.

Lemma error_message_nonempty e : String.eqb (error_message e) "" = false ∨
                                 ∃ m, e = FetchError m.
Proof. destruct e; [by left|right; by eexists]. Qed.

Lemma screen_of_loaded_error e :
  String.eqb e "" = false →
  screen_of false (Some e) = ErrorScreen ("Error loading dashboard: " +:+ e).
Proof. intros He. unfold screen_of. by rewrite He. Qed.
