(* ===== verification/VDom.v ===== *)
(** * VDom: the element tree a render returns

    Both dashboards end in a [return ( <div ...> ... </div> )]: an
    expression that builds a tree of React elements from the state.  This
    file holds the type of such trees and the questions the view files ask
    about them.

    - An element [<tag name="text" name={expr}> children </tag>] is
      [El tag attrs children]; text between the tags is [Txt]; a child
      [{expr}] whose value is a string, a number, a boolean or [undefined]
      is [Hole]; a child [{array.map(...)}] is [Arr], the array of the
      elements the callback returned, in order.
    - A value that reaches the tree is a [scalar], or a template literal
      [Tpl] kept as the list of its pieces: the conversion of a number to
      its decimal text is left to the browser.
    - [cond && ( <jsx> )] is [guarded cond jsx]: the element when [cond]
      holds and the value [false] otherwise, which React does not show.
    - A handler sits in an attribute: [AOnClick] holds the call the arrow
      function makes, [AOnChange] the call as a function of
      [e.target.value].
    - One traversal, [collect own t], lists what [own] finds at each node
      of [t] in document order.  The queries are instances of it:
      [handlers], [texts] (the text and the values between the tags),
      [select p] (the nodes that satisfy [p], as [by_tag] or [by_class]),
      [class_names] and [datasets] (the [data] of the charts).
      [offers t a] says that some control of [t] makes the call [a].
    - [key_lists t] lists, for each array of [t], the keys of its items;
      [well_keyed t] says that each item has one and that no two items of
      an array have the same ([keys_ok_fmap], [keys_ok_cells]).
    - [subnodes t] lists the nodes of [t]; [collect own t] is
      [subnodes t ≫= own] ([collect_subnodes]).  The tactic [vdom] pushes
      a query through the elements, the guards and the arrays of a tree.

    Components of the libraries (icons of [lucide-react], charts of
    [recharts]) are elements with the component's name as tag: what they
    draw from their attributes is outside the sources.  The type [D] is the
    type of the rows a chart receives in its [data] attribute. *)

From stdpp Require Import base list strings.
From S2P Require Import Prelude JSNumber.

#[local] Set Warnings "-register-all,-clear-no-such-hyp".

Module VDom.

(** ** Values *)

Inductive scalar : Type :=
| Str (s : string)
| Number (x : number)
| Count (n : nat)
| Bool (b : bool)
| Undefined.

Inductive value : Type :=
| Lit (v : scalar)
| Tpl (parts : list scalar).

(** The left operand of [&&] lets the right one through.  The text of an
    interpolated number, boolean or [undefined] is never empty. *)
Definition scalar_truthy (v : scalar) : bool :=
  match v with
  | Str s => negb (String.eqb s "")
  | Number x => Num.truthy x
  | Count n => negb (n =? 0)
  | Bool b => b
  | Undefined => false
  end.

Definition part_nonempty (v : scalar) : bool :=
  match v with
  | Str s => negb (String.eqb s "")
  | _ => true
  end.

Definition truthy (v : value) : bool :=
  match v with
  | Lit v => scalar_truthy v
  | Tpl parts => existsb part_nonempty parts
  end.

(** What React puts on the page for a child [{v}]: nothing for a boolean
    or [undefined]. *)
Definition rendered (v : value) : list scalar :=
  match v with
  | Lit (Bool _) | Lit Undefined => []
  | Lit v => [v]
  | Tpl parts => parts
  end.

(** A property that holds a string or is [undefined]. *)
Definition opt_str (v : option string) : scalar :=
  match v with
  | Some s => Str s
  | None => Undefined
  end.

(** A property that holds a count or is [undefined]. *)
Definition opt_count (v : option nat) : scalar :=
  match v with
  | Some n => Count n
  | None => Undefined
  end.

(** A property that holds a number or is [undefined]. *)
Definition opt_number (v : option number) : scalar :=
  match v with
  | Some x => Number x
  | None => Undefined
  end.

(** ** Calls a control makes *)

Inductive action : Type :=
| SetSelectedDate (v : string)
| SetActiveTab (id : string)
| SetSearchTerm (v : string).

Inductive handler : Type :=
| OnChange (h : string → action)
| OnClick (a : action).

(** The calls a handler can make: one per text the user may enter. *)
Definition fires (h : handler) (a : action) : Prop :=
  match h with
  | OnChange f => ∃ v, f v = a
  | OnClick a' => a' = a
  end.

(** ** Trees *)

Section Tree.
Context {D : Type}.

Inductive attr : Type :=
| AStr (s : string)
| AVal (v : value)
| AObj (fields : list (string * value))
| AData (rows : list D)
| AOnChange (h : string → action)
| AOnClick (a : action)
| AFormat (f : scalar → value).

Inductive node : Type :=
| El (tag : string) (attrs : list (string * attr)) (children : list node)
| Txt (s : string)
| Hole (v : value)
| Arr (items : list node).

(** [cond && ( jsx )] *)
Definition guarded (cond : bool) (jsx : node) : node :=
  if cond then jsx else Hole (Lit (Bool false)).

(** [v && ( jsx )] for a value [v]: the value itself when it is falsy. *)
Definition and_then (v : value) (jsx : node) : node :=
  if truthy v then jsx else Hole v.

(** [cond && ( jsx )] where evaluating [jsx] may throw: it is evaluated
    only when [cond] holds. *)
Definition guarded_res (cond : bool) (jsx : res node) : res node :=
  if cond then jsx else Ok (Hole (Lit (Bool false))).

Definition attrs_of (t : node) : list (string * attr) :=
  match t with
  | El _ attrs _ => attrs
  | _ => []
  end.

Definition children_of (t : node) : list node :=
  match t with
  | El _ _ children => children
  | Arr items => items
  | Txt _ | Hole _ => []
  end.

(** The attribute [name] of an element. *)
Fixpoint attribute (name : string) (attrs : list (string * attr)) : option attr :=
  match attrs with
  | [] => None
  | (n, a) :: attrs' => if String.eqb n name then Some a else attribute name attrs'
  end.

(** The tree itself and everything below it, parents first. *)
Fixpoint subnodes (t : node) : list node :=
  t :: match t with
       | El _ _ children => children ≫= subnodes
       | Arr items => items ≫= subnodes
       | Txt _ | Hole _ => []
       end.

(** ** Questions about a tree

    Each question is asked of every node, parents first, and the answers
    are put together in document order. *)
Fixpoint collect {X} (own : node → list X) (t : node) : list X :=
  own t ++ match t with
           | El _ _ children => children ≫= collect own
           | Arr items => items ≫= collect own
           | Txt _ | Hole _ => []
           end.

Definition attr_handler (a : string * attr) : list handler :=
  match a.2 with
  | AOnChange h => [OnChange h]
  | AOnClick c => [OnClick c]
  | _ => []
  end.

(** The handlers on an element. *)
Definition own_handlers (t : node) : list handler := attrs_of t ≫= attr_handler.

(** The text a leaf puts on the page. *)
Definition own_text (t : node) : list scalar :=
  match t with
  | Txt s => [Str s]
  | Hole v => rendered v
  | El _ _ _ | Arr _ => []
  end.

(** The element itself when it passes a test on its tag and attributes. *)
Definition pick (p : string → list (string * attr) → bool) (t : node)
  : list node :=
  match t with
  | El tag attrs _ => if p tag attrs then [t] else []
  | _ => []
  end.

(** The test for [<tag ...>]. *)
Definition by_tag (tag : string) (tag' : string) (attrs : list (string * attr))
  : bool :=
  String.eqb tag' tag.

(** The test for [className="c"]. *)
Definition by_class (c : string) (tag : string) (attrs : list (string * attr))
  : bool :=
  match attribute "className" attrs with
  | Some (AStr c') => String.eqb c' c
  | _ => false
  end.

(** The value of [className] on an element, when it has one. *)
Definition class_name (t : node) : list value :=
  match attribute "className" (attrs_of t) with
  | Some (AStr s) => [Lit (Str s)]
  | Some (AVal v) => [v]
  | _ => []
  end.

(** The rows a chart element receives in [data]. *)
Definition dataset (t : node) : list (list D) :=
  match attribute "data" (attrs_of t) with
  | Some (AData rows) => [rows]
  | _ => []
  end.

(** The [key] of an element. *)
Definition key_of (t : node) : option value :=
  match attribute "key" (attrs_of t) with
  | Some (AVal v) => Some v
  | Some (AStr s) => Some (Lit (Str s))
  | _ => None
  end.

(** The keys of the items of an array, one list per array. *)
Definition item_keys (t : node) : list (list (option value)) :=
  match t with
  | Arr items => [key_of <$> items]
  | _ => []
  end.

(** Induction with the hypothesis on every child. *)
Section Induction.
Context (P : node → Prop).
Context (HEl : ∀ tag attrs children, Forall P children → P (El tag attrs children)).
Context (HTxt : ∀ s, P (Txt s)) (HHole : ∀ v, P (Hole v)).
Context (HArr : ∀ items, Forall P items → P (Arr items)).

Fixpoint node_induction (t : node) : P t :=
  let all := fix all (l : list node) : Forall P l :=
    match l with
    | [] => Forall_nil_2 P
    | c :: l' => Forall_cons_2 P c l' (node_induction c) (all l')
    end in
  match t with
  | El tag attrs children => HEl tag attrs children (all children)
  | Txt s => HTxt s
  | Hole v => HHole v
  | Arr items => HArr items (all items)
  end.
End Induction.

End Tree.
Arguments attr : clear implicits.
Arguments node : clear implicits.

(** The handlers of a tree, the pieces of text it puts on the page, the
    elements that pass a test, the class names and the data of the charts,
    each in document order. *)
Abbreviation handlers := (collect own_handlers).
Abbreviation texts := (collect own_text).
Abbreviation select p := (collect (pick p)).
Abbreviation class_names := (collect class_name).
Abbreviation datasets := (collect dataset).
Abbreviation key_lists := (collect item_keys).

(** Some control of the tree makes the call [a]. *)
Definition offers {D} (t : node D) (a : action) : Prop :=
  ∃ h, h ∈ handlers t ∧ fires h a.

(** What React asks of the items of an array: each has a key, and no
    two have the same. *)
Definition keys_ok (ks : list (option value)) : Prop :=
  Forall is_Some ks ∧ NoDup ks.

(** Every array of the tree has well-chosen keys. *)
Definition well_keyed {D} (t : node D) : Prop := Forall keys_ok (key_lists t).

(** [`cell-${index}`] *)
Definition cell_key (index : nat) : value := Tpl [Str "cell-"; Count index].

End VDom.
Export VDom.

(** ** Theory *)

Section Lists.
Context {A B C : Type}.

Lemma bind_fmap_compose (f : A → B) (g : B → list C) (xs : list A) :
  (f <$> xs) ≫= g = xs ≫= g ∘ f.
Proof. induction xs as [|x xs IH]; csimpl; [done|]. by rewrite IH. Qed.

(** A callback that gives one answer per item gives the list of them. *)
Lemma bind_singleton (f : A → list B) (g : A → B) (xs : list A) :
  (∀ x, f x = [g x]) → xs ≫= f = g <$> xs.
Proof.
  intros Hf. induction xs as [|x xs IH]; csimpl; [done|]. by rewrite Hf, IH.
Qed.

Lemma bind_nil_Forall (f : A → list B) (xs : list A) :
  Forall (λ x, f x = []) xs → xs ≫= f = [].
Proof. induction 1 as [|x xs Hx _ IH]; csimpl; [done|]. by rewrite Hx, IH. Qed.

Lemma bind_nil (f : A → list B) (xs : list A) :
  (∀ x, f x = []) → xs ≫= f = [].
Proof. intros Hf. apply bind_nil_Forall, Forall_forall. auto. Qed.

(** The same for a callback that takes the index. *)
Lemma bind_imap_nil (f : nat → A → B) (g : B → list C) (xs : list A) :
  (∀ i x, g (f i x) = []) → imap f xs ≫= g = [].
Proof.
  revert f. induction xs as [|x xs IH]; intros f Hf; [done|].
  rewrite imap_cons, bind_cons, Hf. simpl. apply IH. intros i y. apply Hf.
Qed.

End Lists.

Section VDomTheory.
Context {D X : Type}.
Implicit Types (t c : node D) (l : list (node D)) (own : node D → list X).

Lemma collect_El own tag attrs l :
  collect own (El tag attrs l) = own (El tag attrs l) ++ (l ≫= collect own).
Proof. reflexivity. Qed.

Lemma collect_Arr own l : collect own (Arr l) = own (Arr l) ++ (l ≫= collect own).
Proof. reflexivity. Qed.

Lemma collect_guarded own (b : bool) t :
  collect own (guarded b t) =
  if b then collect own t else own (Hole (Lit (Bool false))) ++ [].
Proof. by destruct b. Qed.

Lemma collect_Arr_fmap {A} own (f : A → node D) (xs : list A) :
  collect own (Arr (f <$> xs)) = own (Arr (f <$> xs)) ++ (xs ≫= collect own ∘ f).
Proof. by rewrite collect_Arr, bind_fmap_compose. Qed.

Lemma subnodes_El tag attrs l :
  subnodes (El tag attrs l) = El tag attrs l :: (l ≫= subnodes).
Proof. reflexivity. Qed.

Lemma subnodes_Arr l : subnodes (Arr l) = Arr l :: (l ≫= subnodes).
Proof. reflexivity. Qed.

Lemma subnodes_self t : t ∈ subnodes t.
Proof. destruct t; left. Qed.

(** [subnodes] is closed under children. *)
Lemma subnodes_child t c n :
  c ∈ children_of t → n ∈ subnodes c → n ∈ subnodes t.
Proof.
  intros Hc Hn. destruct t; simpl in Hc; try by apply elem_of_nil in Hc.
  - rewrite subnodes_El. right. apply list_elem_of_bind; eauto.
  - rewrite subnodes_Arr. right. apply list_elem_of_bind; eauto.
Qed.

Lemma bind_collect_subnodes own l :
  Forall (λ c, collect own c = subnodes c ≫= own) l →
  l ≫= collect own = (l ≫= subnodes) ≫= own.
Proof.
  induction 1 as [|c l Hc _ IH]; csimpl; [done|]. by rewrite bind_app, Hc, IH.
Qed.

(** A question collects the answers of the nodes of the tree. *)
Lemma collect_subnodes own t : collect own t = subnodes t ≫= own.
Proof.
  induction t as [tag attrs l IH|s|v|l IH] using node_induction.
  - rewrite collect_El, subnodes_El, bind_cons. f_equal.
    by apply bind_collect_subnodes.
  - simpl. by rewrite !app_nil_r.
  - simpl. by rewrite !app_nil_r.
  - rewrite collect_Arr, subnodes_Arr, bind_cons. f_equal.
    by apply bind_collect_subnodes.
Qed.

End VDomTheory.

Section Offers.
Context {D : Type}.
Implicit Types (t c : node D) (a : action).

Lemma offers_no_handlers t a : handlers t = [] → ¬ offers t a.
Proof. intros Hnil (h & Hh & _). rewrite Hnil in Hh. by apply elem_of_nil in Hh. Qed.

(** A control of the tree sits on one of its nodes. *)
Lemma offers_subnodes t a :
  offers t a ↔ ∃ n h, n ∈ subnodes t ∧ h ∈ own_handlers n ∧ fires h a.
Proof.
  unfold offers. rewrite collect_subnodes. split.
  - intros (h & (n & Hh & Hn)%list_elem_of_bind & Hf). by exists n, h.
  - intros (n & h & Hn & Hh & Hf). exists h. split; [|done].
    apply list_elem_of_bind. by exists n.
Qed.

(** What [select] finds is a part of the tree and an element that passes
    the test. *)
Lemma select_subnodes p t n :
  n ∈ select p t →
  n ∈ subnodes t ∧ ∃ tag attrs l, n = El tag attrs l ∧ p tag attrs = true.
Proof.
  rewrite collect_subnodes, list_elem_of_bind. intros (m & Hn & Hm).
  destruct m as [tag attrs l| | |]; simpl in Hn; try by apply elem_of_nil in Hn.
  destruct (p tag attrs) eqn:Hp; [|by apply elem_of_nil in Hn].
  apply list_elem_of_singleton in Hn as ->. eauto 10.
Qed.

End Offers.

#[export] Instance cell_key_inj : Inj (=) (=) cell_key.
Proof. by intros i j [= ->]. Qed.

Section Keys.
Context {A : Type}.

(** Keys computed from an identifier that no two items share. *)
Lemma keys_ok_fmap {B} (k : A → value) (id : A → B) (xs : list A) :
  (∀ x y, k x = k y → id x = id y) → NoDup (id <$> xs) →
  keys_ok (Some ∘ k <$> xs).
Proof.
  intros Hk Hnd. split; [apply Forall_fmap, Forall_true; by eexists|].
  induction xs as [|x xs IH]; csimpl; [constructor|].
  apply NoDup_cons in Hnd as [Hx Hnd]. constructor; [|by apply IH].
  intros (y & [= Hxy] & Hy)%list_elem_of_fmap. apply Hx.
  apply list_elem_of_fmap. exists y. split; [by apply Hk|done].
Qed.

(** Keys computed from the index. *)
Lemma keys_ok_imap (k : nat → A → value) (xs : list A) :
  (∀ i j x y, k i x = k j y → i = j) →
  keys_ok (imap (λ i x, Some (k i x)) xs).
Proof.
  intros Hk. split.
  - apply Forall_lookup. intros i o. rewrite list_lookup_imap.
    destruct (xs !! i); intros [= <-]. by eexists.
  - apply NoDup_alt. intros i j o. rewrite !list_lookup_imap.
    destruct (xs !! i), (xs !! j); simpl; intros [= <-] [= E]. by eapply Hk.
Qed.

(** The items of [xs.map((entry, index) => ...)] whose key is computed
    from the index alone. *)
Lemma keys_ok_cells {D} (f : nat → A → node D) (k : nat → value) xs :
  (∀ i x, key_of (f i x) = Some (k i)) → Inj (=) (=) k →
  keys_ok (key_of <$> imap f xs).
Proof.
  intros Hf Hk. rewrite fmap_imap.
  rewrite (imap_ext _ (λ i x, Some (k i))) by (intros; apply Hf).
  apply (keys_ok_imap (λ i _, k i)). intros i j _ _. apply Hk.
Qed.

(** The items a filter keeps have distinct identifiers when all have. *)
Lemma NoDup_fmap_filter {B} (id : A → B) (P : A → Prop) `{∀ x, Decision (P x)} xs :
  NoDup (id <$> xs) → NoDup (id <$> filter P xs).
Proof.
  induction xs as [|x xs IH]; [done|]. csimpl. intros [Hx Hnd]%NoDup_cons.
  rewrite filter_cons. case_decide; [|by apply IH]. csimpl.
  apply NoDup_cons. split; [|by apply IH].
  intros (y & E & [_ Hy]%list_elem_of_filter)%list_elem_of_fmap.
  apply Hx, list_elem_of_fmap. by exists y.
Qed.

End Keys.

(** Rewriting a question through the constructors of a tree. *)
Ltac vdom :=
  repeat first
    [ rewrite collect_guarded | rewrite collect_Arr_fmap | rewrite collect_El
    | rewrite bind_fmap_compose | progress csimpl ].
