(* ===== verification/AlertBox.v ===== *)
(** * AlertBox: the class of the [Alert] component

    [Alert] of [src/unnamed/part_000] wraps its children in a [div] whose
    class depends on the [variant] property, through a lookup in an object
    literal with a fall-back to the class of ['info'].  The lookup goes
    through the prototype chain like every property read, so the names of
    [Object.prototype] find a member that is neither a class nor falsy.

    [Alert] is the element the component returns, a tree of [VDom]; the
    text the engine gives for a built-in member is a parameter of it. *)

From stdpp Require Import base list strings.
From S2P Require Import Prelude JSNumber JSString JSObject VDom.

Module AlertBox.

(** The object literal [variantClasses]. *)
Definition variantClasses : Obj.t string :=
  [ ("info", "bg-blue-50 text-blue-800");
    ("success", "bg-green-50 text-green-800");
    ("warning", "bg-yellow-50 text-yellow-800");
    ("destructive", "bg-red-50 text-red-800") ].

(** What the template literal interpolates: one of the four classes, or the
    text of the member of [Object.prototype] the variant names. *)
Inductive interpolated : Type :=
| ClassText (c : string)
| MemberText (name : string).

(** [variantClasses[variant] || variantClasses.info], with the default
    ['info'] of the parameter for [undefined]. *)
Definition variant_class (variant : option string) : interpolated :=
  let variant := default "info" variant in
  match Obj.get variantClasses variant with
  | Obj.Own c =>
      if String.eqb c "" then ClassText (default "" (Obj.get_own variantClasses "info"))
      else ClassText c
  | Obj.Inherited => MemberText variant
  | Obj.Undefined => ClassText (default "" (Obj.get_own variantClasses "info"))
  end.

(** The text of what the template literal interpolates;
    [member_text name] is the text of [Object.prototype[name]]. *)
Definition class_text (member_text : string → string) (c : interpolated)
  : scalar :=
  match c with
  | ClassText c => Str c
  | MemberText name => Str (member_text name)
  end.

(** The element [Alert] returns. *)
Definition Alert {D} (member_text : string → string) (variant : option string)
    (children : list (node D)) : node D :=
  El "div"
    [ ("className",
       AVal (Tpl [Str "p-4 rounded ";
                  class_text member_text (variant_class variant)])) ]
    children.

(** The four variants. *)
Definition known (variant : string) : bool :=
  bool_decide (variant ∈ Obj.keys variantClasses).

(** Each of the four variants gets its class, and no variant at
    all gets the class of ['info']. *)
Theorem variant_class_known :
  variant_class None = ClassText "bg-blue-50 text-blue-800" ∧
  variant_class (Some "info") = ClassText "bg-blue-50 text-blue-800" ∧
  variant_class (Some "success") = ClassText "bg-green-50 text-green-800" ∧
  variant_class (Some "warning") = ClassText "bg-yellow-50 text-yellow-800" ∧
  variant_class (Some "destructive") = ClassText "bg-red-50 text-red-800".
Proof. by vm_compute. Qed.

(** A variant that is none of the four falls back to the class
    of ['info'], unless it names a member of [Object.prototype]: then the
    text of that member is the class. *)
Theorem variant_class_unknown variant :
  known variant = false →
  variant_class (Some variant) =
  if Obj.inherited variant then MemberText variant
  else ClassText "bg-blue-50 text-blue-800".
Proof.
  unfold known. intros Hk%bool_decide_eq_false. unfold variant_class, Obj.get.
  simpl default. apply get_own_None in Hk. rewrite Hk.
  by destruct (Obj.inherited variant).
Qed.

Lemma variant_class_unknown_witness :
  variant_class (Some "toString") =
  if Obj.inherited "toString" then MemberText "toString"
  else ClassText "bg-blue-50 text-blue-800".
Proof. apply variant_class_unknown. by vm_compute. Defined.

(** The box adds nothing of its own to the page: its texts, its controls
    and its arrays are those of its children, and its class is ["p-4
    rounded "] followed by the class of the variant. *)
Theorem Alert_transparent {D} member_text variant (children : list (node D)) :
  texts (Alert member_text variant children) = children ≫= texts ∧
  handlers (Alert member_text variant children) = children ≫= handlers ∧
  key_lists (Alert member_text variant children) = children ≫= key_lists ∧
  class_name (Alert member_text variant children) =
    [Tpl [Str "p-4 rounded "; class_text member_text (variant_class variant)]].
Proof. done. Qed.

End AlertBox.
