(* ===== verification/Async.v ===== *)
(** * Async: loads suspended at their [await]s

    [loadData] is an [async] function: the call runs it up to the first
    [await] and returns; the rest runs later, when the awaited promises are
    settled.  Between the two parts the component renders and handles
    events, so the state the second part writes to need not be the state
    the first part left.  In both dashboards the first part is the
    [setState] calls before the first fetch, and the second part, from the
    first [await] on, has no state change between its [await]s: a load is
    two atomic steps, [start] and [resume].

    This file is the machine of those steps for any dashboard that provides
    them ([Dashboard]): a configuration is the component state and the loads
    in flight, each with the selected date of the render that started it.
    A load in flight may resume at any time; a control acts when the
    dashboard screen is shown.

    The result is that the controls and the loads exclude each other: a
    load starts by setting [loading], the loading screen has no control,
    and only a control starts a load.  So at most one load is in flight
    ([pending_at_most_one]), and the states between loads are exactly the
    states of the functions [step] that run a load to its end
    ([quiescent_reachable], [reachable_quiescent]).  A load in flight
    always ends: it can be resumed, nothing else can step before it, and
    the step leaves no load in flight and [loading] false
    ([load_completes]); the resumption steps alone form a well-founded
    relation ([resumes_terminate]).

    The effect of a render is taken to have run before the next event is
    handled, and once per mount and per change of the date. *)

From stdpp Require Import base list strings.
From S2P Require Import Prelude Effects.

Module Async.

(** What the machine needs of a dashboard: its state with the selected date
    and the screen, the handler of the date picker ([select]), the two parts
    of a load, the function [step] that handles one event with its load run
    to the end, and how [step] is made of the parts. *)
Class Dashboard (state : Type) : Type := {
  initial : state;
  is_loading : state → bool;
  shown : state → screen;
  selected : state → string;
  select : string → state → state;
  start : state → state;
  resume : string → fetched → fetched → state → state;
  step : state → event → state;
  shown_loading s : is_loading s = true → shown s = LoadingScreen;
  start_loading s : is_loading (start s) = true;
  resume_done d a b s : is_loading (resume d a b s) = false;
  step_mount s a b : step s (Mounted a b) = resume (selected s) a b (start s);
  step_date s d a b :
    step s (DateChanged d a b) =
    if String.eqb d (selected s) then s else resume d a b (start (select d s))
}.

(** The events that start a load. *)
Definition is_load (ev : event) : bool :=
  match ev with
  | Mounted _ _ | DateChanged _ _ _ => true
  | TabClicked _ | SearchTyped _ => false
  end.

Section Machine.
Context {state : Type} `{!Dashboard state}.

(** A load in flight: the date of the render that started it, and what its
    two fetches will give. *)
Definition load : Type := string * fetched * fetched.

Record config : Type := Config { now : state; pending : list load }.

(** One step of the component: a load in flight resumes and runs to its
    end; the date picker selects another date and the effect starts a load;
    another control is used. *)
Inductive astep : config → config → Prop :=
| astep_resume s l1 d a b l2 :
    astep (Config s (l1 ++ (d, a, b) :: l2)) (Config (resume d a b s) (l1 ++ l2))
| astep_date s l d a b :
    shown s = DashboardScreen → d ≠ selected s →
    astep (Config s l) (Config (start (select d s)) (l ++ [(d, a, b)]))
| astep_control s l ev :
    shown s = DashboardScreen → is_load ev = false →
    astep (Config s l) (Config (step s ev) l).

(** The steps that need no user: a load in flight resumes. *)
Inductive aresume : config → config → Prop :=
| aresume_load s l1 d a b l2 :
    aresume (Config s (l1 ++ (d, a, b) :: l2)) (Config (resume d a b s) (l1 ++ l2)).

(** The configuration after the mount: the effect has started the first
    load. *)
Definition mounted (a b : fetched) : config :=
  Config (start initial) [(selected initial, a, b)].

Inductive areachable : config → Prop :=
| areachable_mounted a b : areachable (mounted a b)
| areachable_step c c' : areachable c → astep c c' → areachable c'.

(** The states of the component when every load runs to its end at once. *)
Inductive reachable : state → Prop :=
| reachable_mount a b : reachable (step initial (Mounted a b))
| reachable_step s ev :
    reachable s → shown s = DashboardScreen → is_mount ev = false →
    reachable (step s ev).

(** No load in flight and a state of [reachable], or one load in flight,
    the loading screen, and a state of [reachable] once it resumes. *)
Definition coherent (c : config) : Prop :=
  (pending c = [] ∧ reachable (now c)) ∨
  (∃ d a b, pending c = [(d, a, b)] ∧ is_loading (now c) = true ∧
            reachable (resume d a b (now c))).

Lemma coherent_dashboard s l :
  coherent (Config s l) → shown s = DashboardScreen → l = [] ∧ reachable s.
Proof.
  unfold coherent; simpl. intros [[-> Hs]|(d & a & b & _ & Hl & _)] Hd; [done|].
  apply shown_loading in Hl. by rewrite Hl in Hd.
Qed.

Lemma coherent_mounted a b : coherent (mounted a b).
Proof.
  right. exists (selected initial), a, b. split_and!; [done|apply start_loading|].
  simpl. rewrite <- step_mount. constructor.
Qed.

Lemma step_date_other s d a b :
  d ≠ selected s → step s (DateChanged d a b) = resume d a b (start (select d s)).
Proof. intros Hd%String.eqb_neq. by rewrite step_date, Hd. Qed.

Lemma coherent_astep c c' : coherent c → astep c c' → coherent c'.
Proof.
  intros Hc Hstep. destruct Hstep as [s l1 d a b l2|s l d a b Hs Hd|s l ev Hs Hev].
  - destruct Hc as [[Hp _]|(d' & a' & b' & Hp & _ & Hr)]; simpl in *.
    + by destruct l1.
    + destruct l1 as [|x [|y l1]]; simplify_eq/=; [|by destruct l1..].
      left. by split.
  - destruct (coherent_dashboard _ _ Hc Hs) as [-> Hr].
    right. exists d, a, b. split_and!; [done|apply start_loading|]. simpl.
    rewrite <- step_date_other by done. by constructor.
  - destruct (coherent_dashboard _ _ Hc Hs) as [-> Hr].
    left. split; [done|]. simpl. constructor; [done..|]. by destruct ev.
Qed.

Lemma areachable_coherent c : areachable c → coherent c.
Proof.
  induction 1 as [a b|c c' _ IH Hstep]; [apply coherent_mounted|].
  by apply (coherent_astep c).
Qed.

(** At most one load is in flight. *)
Lemma pending_at_most_one c : areachable c → length (pending c) ≤ 1.
Proof.
  intros [[-> _]|(d & a & b & -> & _)]%areachable_coherent; simpl; lia.
Qed.

(** While a load is in flight the loading screen is shown. *)
Lemma pending_loading c :
  areachable c → pending c ≠ [] → shown (now c) = LoadingScreen.
Proof.
  intros [[-> _]|(d & a & b & _ & Hl & _)]%areachable_coherent Hp; [done|].
  by apply shown_loading.
Qed.

(** A state with no load in flight is a state of [reachable]. *)
Lemma quiescent_reachable c : areachable c → pending c = [] → reachable (now c).
Proof.
  intros [[_ Hr]|(d & a & b & Hp & _)]%areachable_coherent Hq; [done|].
  by rewrite Hp in Hq.
Qed.

(** Every state of [reachable] is reached with no load in flight. *)
Lemma reachable_quiescent s : reachable s → areachable (Config s []).
Proof.
  induction 1 as [a b|s ev _ IH Hs Hev].
  - rewrite step_mount. apply (areachable_step (mounted a b)); [constructor|].
    apply (astep_resume _ [] _ a b []).
  - destruct ev as [a b|d a b|id|value]; [done| |by apply (areachable_step _ _ IH),
      astep_control..].
    rewrite step_date. destruct (String.eqb_spec d (selected s)) as [_|Hd]; [done|].
    eapply areachable_step; [|apply (astep_resume _ [] d a b [])].
    apply (areachable_step _ _ IH). by apply (astep_date s [] d a b).
Qed.

(** ** Loads end

    Left alone, the component resumes the loads in flight and comes to
    rest: each resumption takes one load away. *)

Lemma aresume_astep c c' : aresume c c' → astep c c'.
Proof. intros [s l1 d a b l2]. constructor. Qed.

Lemma aresume_pending c c' : aresume c c' → length (pending c') < length (pending c).
Proof. intros [s l1 d a b l2]. simpl. rewrite !length_app. simpl. lia. Qed.

Theorem resumes_terminate : well_founded (λ c' c, aresume c c').
Proof.
  apply (well_founded_lt_compat _ (λ c, length (pending c))).
  intros c' c. apply aresume_pending.
Qed.

(** A configuration that is reached with a load in flight can step, and
    whatever step it takes ends the load: no control can come between,
    and afterwards the loading flag is down and the state is one of
    [reachable]. *)
Theorem load_completes c :
  areachable c → pending c ≠ [] →
  (∃ c', aresume c c') ∧
  ∀ c', astep c c' →
        pending c' = [] ∧ is_loading (now c') = false ∧ reachable (now c').
Proof.
  intros [[-> _]|(d & a & b & Hp & Hl & Hr)]%areachable_coherent Hne; [done|].
  destruct c as [s l]. simpl in *. subst l. split.
  - eexists. apply (aresume_load s [] d a b []).
  - intros c' Hstep. inversion Hstep as [s' l1 d' a' b' l2 E|s' l d' a' b' Hs|s' l ev Hs];
      subst; [|apply shown_loading in Hl; congruence..].
    destruct l1 as [|x [|y l1]]; simplify_eq/=; [|by destruct l1..].
    split_and!; [done|apply resume_done|done].
Qed.

End Machine.

End Async.
