(* ===== verification/Row.v ===== *)
(** * Decoded CSV rows

    papaparse with [header: true] turns each line of a CSV export into an
    object from column name to cell text.  A row is a finite map from
    strings to strings; reading a column the export does not have gives
    [undefined], here [None].  The column names are the ones the source
    indexes rows with. *)

From S2P Require Import Prelude JSString.

Local Open Scope string_scope.

Abbreviation row := (gmap string string).

Module Col.
Definition DateTime : string := "Date/Time".
Definition TimeAccuracy : string := "Time Accuracy".
Definition LocationAccuracy : string := "Location Accuracy".
Definition ServiceNumber : string := "Service Number".
Definition FullName : string := "Full Name".
Definition UserName : string := "User Name".
Definition PostName : string := "Post Name".
Definition LateHours : string := "Late Hours".
Definition DutyHours : string := "Duty Hours".
Definition Alert : string := "Alert".
Definition LoginDate : string := "Login Date".
End Col.

(** [r[col]] *)
Definition cell (r : row) (col : string) : option string := r !! col.

(** A row literal, for examples. *)
Definition mk_row (cells : list (string * string)) : row := list_to_map cells.

(** Rows of the two exports with the columns the aggregations read. *)
Definition activity_row (date_time time_accuracy location_accuracy
                         service_number : string) : row :=
  mk_row [(Col.DateTime, date_time); (Col.TimeAccuracy, time_accuracy);
          (Col.LocationAccuracy, location_accuracy);
          (Col.ServiceNumber, service_number)].

Definition attendance_row (login_date full_name service_number post_name
                           late_hours duty_hours : string) : row :=
  mk_row [(Col.LoginDate, login_date); (Col.FullName, full_name);
          (Col.ServiceNumber, service_number); (Col.PostName, post_name);
          (Col.LateHours, late_hours); (Col.DutyHours, duty_hours)].

Lemma cell_mk_row_nil col : cell (mk_row []) col = None.
Proof. apply lookup_empty. Qed.

Lemma cell_insert_eq (r : row) col v : cell (<[col:=v]> r) col = Some v.
Proof. apply lookup_insert_eq. Qed.

Lemma cell_insert_ne (r : row) col col' v :
  col ≠ col' → cell (<[col:=v]> r) col' = cell r col'.
Proof. apply lookup_insert_ne. Qed.
