(* ===== verification/Hourly.v ===== *)
(** * Hourly activity aggregation ([processActivityData], compliance dashboard)

    [data.reduce] walks the activity rows with an array of buckets as
    accumulator.  A row without a [Date/Time] cell is skipped; otherwise the
    bucket whose [hour] is strictly equal to the row's hour is updated in
    place, or a new bucket is pushed.  The result is the accumulator sorted
    by [a.hour - b.hour].

    The counters of a bucket are natural numbers: they start at 0 or 1 and
    grow by 0 or 1 for each row, and an array has fewer than [2^32] rows, so
    the binary64 additions of the source are exact.  [complianceRate] is a
    binary64 number. *)

From Stdlib Require Import Sorting.Sorted.
From S2P Require Import Prelude JSNumber Binary64 JSString JSArray JSDate GroupBy Row.

Module Bucket.
Record t : Type := mk {
  hour : number;
  total : nat;
  onTime : nat;
  locationAccurate : nat;
  delayed : nat;
  complianceRate : number
}.
End Bucket.

(** The [metrics] object built for one row. *)
Module Metrics.
Record t : Type := mk {
  total : nat;
  onTime : nat;
  locationAccurate : nat;
  delayed : nat
}.
End Metrics.

(** [v && parseInt(v) <= 20]: a cell that reports a position within 20 m. *)
Definition within_20m (v : option string) : bool :=
  match v with
  | Some s => negb (String.eqb s "") && Num.leb (Str.parseInt s) (Num.of_nat 20)
  | None => false
  end.

(** [curr['Time Accuracy'] === 'On Time'] *)
Definition on_time (curr : row) : bool :=
  Str.eqb (cell curr Col.TimeAccuracy) "On Time".

(** [curr['Location Accuracy'] && parseInt(curr['Location Accuracy']) <= 20] *)
Definition accurate (curr : row) : bool :=
  within_20m (cell curr Col.LocationAccuracy).

(** [curr['Time Accuracy']?.includes('Delay')] *)
Definition delayed (curr : row) : bool :=
  Str.opt_includes (cell curr Col.TimeAccuracy) "Delay".

Definition metrics_of (curr : row) : Metrics.t :=
  {| Metrics.total := 1;
     Metrics.onTime := if on_time curr then 1 else 0;
     Metrics.locationAccurate := if accurate curr then 1 else 0;
     Metrics.delayed := if delayed curr then 1 else 0 |}.

(** [Math.round(((onTime + locationAccurate) / (2 * total)) * 100)] *)
Definition compliance_rate (onTime locationAccurate total : nat) : number :=
  Num.round (Num.mul (Num.div (Num.of_nat (onTime + locationAccurate))
                              (Num.of_nat (2 * total)))
                     (Num.of_nat 100)).

Definition new_bucket (hour : number) (m : Metrics.t) : Bucket.t :=
  {| Bucket.hour := hour;
     Bucket.total := Metrics.total m;
     Bucket.onTime := Metrics.onTime m;
     Bucket.locationAccurate := Metrics.locationAccurate m;
     Bucket.delayed := Metrics.delayed m;
     Bucket.complianceRate :=
       compliance_rate (Metrics.onTime m) (Metrics.locationAccurate m)
                       (Metrics.total m) |}.

(** The four [+=] on the bucket found; [complianceRate] is not touched. *)
Definition add_metrics (m : Metrics.t) (existing : Bucket.t) : Bucket.t :=
  {| Bucket.hour := Bucket.hour existing;
     Bucket.total := Bucket.total existing + Metrics.total m;
     Bucket.onTime := Bucket.onTime existing + Metrics.onTime m;
     Bucket.locationAccurate :=
       Bucket.locationAccurate existing + Metrics.locationAccurate m;
     Bucket.delayed := Bucket.delayed existing + Metrics.delayed m;
     Bucket.complianceRate := Bucket.complianceRate existing |}.

Section Hourly.
Context `{DateLib}.

(** [new Date(curr['Date/Time']).getHours()] of a row that has the cell. *)
Definition hour_of_row (curr : row) : number :=
  getHours (default "" (cell curr Col.DateTime)).

Definition same_hour (hour : number) (item : Bucket.t) : Prop :=
  Is_true (Num.eqb (Bucket.hour item) hour).

(** The callback of [data.reduce]. *)
Definition hourly_step (acc : list Bucket.t) (curr : row) : list Bucket.t :=
  if negb (Str.truthy (cell curr Col.DateTime)) then acc
  else
    let hour := hour_of_row curr in
    let metrics := metrics_of curr in
    match list_find (same_hour hour) acc with
    | Some (i, _) => alter (add_metrics metrics) i acc
    | None => acc ++ [new_bucket hour metrics]
    end.

Definition hourlyData (data : list row) : list Bucket.t :=
  fold_left hourly_step data [].

Definition by_hour (a b : Bucket.t) : number :=
  Num.sub (Bucket.hour a) (Bucket.hour b).

Definition processActivityData (data : list row) : list Bucket.t :=
  Arr.sort by_hour (hourlyData data).

(** The reducer as a relation: the three ways one row changes the
    accumulator. *)
Inductive step_spec (acc : list Bucket.t) (curr : row) : list Bucket.t → Prop :=
| step_skip :
    Str.truthy (cell curr Col.DateTime) = false →
    step_spec acc curr acc
| step_update i existing :
    Str.truthy (cell curr Col.DateTime) = true →
    acc !! i = Some existing →
    same_hour (hour_of_row curr) existing →
    (∀ j b, acc !! j = Some b → j < i → ¬ same_hour (hour_of_row curr) b) →
    step_spec acc curr (alter (add_metrics (metrics_of curr)) i acc)
| step_push :
    Str.truthy (cell curr Col.DateTime) = true →
    Forall (λ b, ¬ same_hour (hour_of_row curr) b) acc →
    step_spec acc curr (acc ++ [new_bucket (hour_of_row curr) (metrics_of curr)]).

(** The rows counted in the bucket of hour [k]. *)
Definition in_hour (k : number) (r : row) : bool :=
  Str.truthy (cell r Col.DateTime) && Num.eqb (hour_of_row r) k.

(** A row whose [Date/Time] cell, if it has one, is a date the browser
    can parse. *)
Definition parseable (r : row) : Prop :=
  Str.truthy (cell r Col.DateTime) = true → hour_of_row r ≠ Num.NaN.

End Hourly.

(** A bucket for one of the hours [0 .. 23]. *)
Definition hour_ok (b : Bucket.t) : Prop :=
  ∃ h : nat, h < 24 ∧ Bucket.hour b = Num.of_nat h.

(** The hour of a bucket as an integer. *)
Definition hour_key (b : Bucket.t) : Z := to_Z (Bucket.hour b).

(** The rates a single row can give: both, one or none of its two checks
    passed. *)
Definition row_rates : list number := [Num.of_nat 0; Num.of_nat 50; Num.of_nat 100].

(** What the counters of a bucket satisfy. *)
Definition bucket_ok (b : Bucket.t) : Prop :=
  1 ≤ Bucket.total b ∧
  Bucket.onTime b ≤ Bucket.total b ∧
  Bucket.locationAccurate b ≤ Bucket.total b ∧
  Bucket.delayed b ≤ Bucket.total b.

(** Rows that take part in the aggregation. *)
Definition dated (r : row) : bool := Str.truthy (cell r Col.DateTime).

(** Pairwise distinct hours under [===]. *)
Definition distinct_hours (l : list Bucket.t) : Prop :=
  ∀ i j a b, l !! i = Some a → l !! j = Some b → i ≠ j →
    Num.eqb (Bucket.hour a) (Bucket.hour b) = false.

(** ** Properties *)

Section HourlyProps.
Context `{DateLib}.
Implicit Types (acc : list Bucket.t) (curr : row) (data : list row).

Lemma hourly_step_spec acc curr : step_spec acc curr (hourly_step acc curr).
Proof.
  unfold hourly_step.
  destruct (Str.truthy (cell curr Col.DateTime)) eqn:E; simpl; [|by constructor].
  destruct (list_find _ acc) as [[i b]|] eqn:F.
  - apply list_find_Some in F as (Hi & Hb & Hlt). by econstructor.
  - apply list_find_None in F. by constructor.
Qed.

Lemma metrics_of_bounds curr :
  Metrics.total (metrics_of curr) = 1 ∧
  Metrics.onTime (metrics_of curr) ≤ 1 ∧
  Metrics.locationAccurate (metrics_of curr) ≤ 1 ∧
  Metrics.delayed (metrics_of curr) ≤ 1.
Proof. unfold metrics_of; simpl. repeat case_match; lia. Qed.

Lemma hourly_step_ok acc curr :
  Forall bucket_ok acc → Forall bucket_ok (hourly_step acc curr).
Proof.
  intros Hacc. pose proof (metrics_of_bounds curr) as (Ht & Ho & Hl & Hd).
  destruct (hourly_step_spec acc curr) as [|i b _ Hi _ _|]; [done| |].
  - apply Forall_alter_strong; [done|]. unfold bucket_ok; cbn -[metrics_of]. intros; lia.
  - apply Forall_app; split; [done|]. apply Forall_singleton.
    unfold bucket_ok. cbn -[metrics_of]. lia.
Qed.

Lemma hourlyData_ok data : Forall bucket_ok (hourlyData data).
Proof.
  apply (fold_left_inv (Forall bucket_ok)); [|constructor].
  intros; by apply hourly_step_ok.
Qed.

(** In every bucket of the result the on-time, location-accurate
    and delayed counts are at most the total, and the total is at least one. *)
Theorem processActivityData_counts_bounded data :
  Forall bucket_ok (processActivityData data).
Proof. apply sort_Forall, hourlyData_ok. Qed.

Lemma hourly_step_total acc curr :
  sum_list (Bucket.total <$> hourly_step acc curr) =
  sum_list (Bucket.total <$> acc) + (if dated curr then 1 else 0).
Proof.
  unfold dated.
  destruct (hourly_step_spec acc curr) as [->|i b -> Hi _ _| ->]; [lia| |].
  - pose proof (sum_list_fmap_alter Bucket.total
      (add_metrics (metrics_of curr)) acc i b Hi) as Hs.
    pose proof (metrics_of_bounds curr). cbn -[metrics_of] in Hs. lia.
  - rewrite sum_list_fmap_app. pose proof (metrics_of_bounds curr).
    cbn -[metrics_of]. lia.
Qed.

(** C26: no activity is lost or counted twice: the totals of the
    buckets add up to the number of rows that have a [Date/Time] cell. *)
Theorem processActivityData_total_conserved data :
  sum_list (Bucket.total <$> processActivityData data) = count_if dated data.
Proof.
  unfold processActivityData. rewrite (sort_perm by_hour (hourlyData data)).
  unfold hourlyData.
  rewrite (fold_left_measure (λ acc, sum_list (Bucket.total <$> acc))
             (λ r, if dated r then 1 else 0)); [|apply hourly_step_total].
  by rewrite count_if_sum.
Qed.

(** *** Order and distinctness of the hours *)

Lemma small_hour h : h < 24 → small h.
Proof. intros Hh. apply small_lt. assert (24 < 2 ^ 53)%Z by done. lia. Qed.

Lemma hour_of_row_ok curr :
  parseable curr → dated curr = true →
  ∃ h : nat, h < 24 ∧ hour_of_row curr = Num.of_nat h.
Proof.
  intros Hp Hd. specialize (Hp Hd).
  destruct (getHours_range (default "" (cell curr Col.DateTime))) as [E|E]; done.
Qed.

Lemma hour_ok_add m b : hour_ok b → hour_ok (add_metrics m b).
Proof. done. Qed.

Lemma hourly_step_hours acc curr :
  parseable curr → Forall hour_ok acc → Forall hour_ok (hourly_step acc curr).
Proof.
  intros Hp Hacc.
  destruct (hourly_step_spec acc curr) as [|i b Hd Hi _ _|Hd _]; [done| |].
  - apply Forall_alter_strong; [done|]. intros; by apply hour_ok_add.
  - apply Forall_app; split; [done|]. apply Forall_singleton.
    by apply hour_of_row_ok.
Qed.

Lemma same_hour_refl h b : h < 24 → Bucket.hour b = Num.of_nat h →
  same_hour (Num.of_nat h) b.
Proof.
  intros Hh E. unfold same_hour. rewrite E. apply Is_true_true.
  apply eqb_of_nat; [by apply small_hour..|done].
Qed.

Lemma hourly_step_NoDup acc curr :
  parseable curr →
  NoDup (Bucket.hour <$> acc) → NoDup (Bucket.hour <$> hourly_step acc curr).
Proof.
  intros Hp Hnd.
  destruct (hourly_step_spec acc curr) as [|i b Hd Hi _ _|Hd Hall]; [done| |].
  - by rewrite fmap_alter_id.
  - rewrite fmap_app. apply NoDup_app. split; [done|]. split; [|apply NoDup_singleton].
    intros h [b [E1 Hb]]%list_elem_of_fmap E2%list_elem_of_singleton.
    destruct (hour_of_row_ok curr Hp Hd) as (n & Hn & E).
    rewrite Forall_forall in Hall. apply (Hall b Hb).
    rewrite E. apply same_hour_refl; [done|]. rewrite <- E1, E2. exact E.
Qed.

Lemma hourlyData_hours data :
  Forall parseable data →
  Forall hour_ok (hourlyData data) ∧ NoDup (Bucket.hour <$> hourlyData data).
Proof.
  intros Hp. rewrite Forall_forall in Hp.
  apply (fold_left_inv (λ acc, Forall hour_ok acc ∧ NoDup (Bucket.hour <$> acc)));
    [|split; constructor].
  intros acc r Hr [H1 H2].
  split; [apply hourly_step_hours|apply hourly_step_NoDup]; auto.
Qed.

Lemma by_hour_keyed : keyed by_hour hour_ok hour_key.
Proof.
  intros x y (hx & Hx & Ex) (hy & Hy & Ey). unfold Arr.after, by_hour, hour_key.
  rewrite Ex, Ey, !to_Z_of_nat by (by apply small_hour).
  rewrite sub_of_nat_after by (by apply small_hour). lia.
Qed.

(** If every dated row carries a date that parses, the result is in
    ascending order of the hour. *)
Theorem processActivityData_sorted data :
  Forall parseable data →
  StronglySorted (key_le hour_key) (processActivityData data).
Proof.
  intros Hp. apply (sort_sorted by_hour hour_ok hour_key by_hour_keyed).
  by apply hourlyData_hours.
Qed.

(** If every dated row carries a date that parses, no two buckets of the
    result have the same hour. *)
Theorem processActivityData_hours_distinct data :
  Forall parseable data → NoDup (Bucket.hour <$> processActivityData data).
Proof.
  intros Hp. unfold processActivityData.
  rewrite (sort_perm by_hour (hourlyData data)). by apply hourlyData_hours.
Qed.

Lemma hour_key_inj a b :
  hour_ok a → hour_ok b → hour_key a = hour_key b → Bucket.hour a = Bucket.hour b.
Proof.
  intros (ha & Ha & Ea) (hb & Hb & Eb). unfold hour_key.
  rewrite Ea, Eb, !to_Z_of_nat by (by apply small_hour). by intros ->%Nat2Z.inj.
Qed.

Lemma hour_keys_NoDup l :
  Forall hour_ok l → NoDup (Bucket.hour <$> l) → NoDup (hour_key <$> l).
Proof.
  induction 1 as [|a l Ha Hl IH]; csimpl; [constructor|].
  intros [Hx Hnd]%NoDup_cons. apply NoDup_cons. split; [|by apply IH].
  intros (b & E & Hb)%list_elem_of_fmap. apply Hx.
  rewrite (hour_key_inj a b Ha); [by apply list_elem_of_fmap_2| |done].
  by eapply Forall_forall in Hl.
Qed.

(** If every dated row carries a date that parses, the buckets of the
    result are for hours from 0 to 23 and in strictly ascending order of
    the hour: no hour has two buckets. *)
Theorem processActivityData_ascending data :
  Forall parseable data →
  Forall hour_ok (processActivityData data) ∧
  StronglySorted (λ a b, (hour_key a < hour_key b)%Z) (processActivityData data).
Proof.
  intros Hp.
  assert (Forall hour_ok (processActivityData data)) as Hok
    by (by apply sort_Forall, hourlyData_hours).
  split; [done|]. apply StronglySorted_strict; [by apply processActivityData_sorted|].
  by apply hour_keys_NoDup, processActivityData_hours_distinct.
Qed.

(** *** What a bucket counts *)

Lemma hourlyData_group data :
  hourlyData data =
  group Bucket.hour dated hour_of_row (λ r, add_metrics (metrics_of r))
        (λ r, new_bucket (hour_of_row r) (metrics_of r)) data.
Proof. reflexivity. Qed.

Lemma hourlyData_counter (μ : Bucket.t → nat) (ν : Metrics.t → nat)
    (flag : row → bool) data b k :
  (∀ r, ν (metrics_of r) = if flag r then 1 else 0) →
  (∀ m b, μ (add_metrics m b) = μ b + ν m) →
  (∀ h m, μ (new_bucket h m) = ν m) →
  b ∈ hourlyData data → Num.eqb (Bucket.hour b) k = true →
  μ b = count_if (λ r, in_hour k r && flag r) data.
Proof.
  intros Hν Hadd Hnew Hb Hk. rewrite hourlyData_group in Hb.
  apply (group_counter Bucket.hour dated hour_of_row
           (λ r, add_metrics (metrics_of r))
           (λ r, new_bucket (hour_of_row r) (metrics_of r))
           (λ _ _, eq_refl) (λ _, eq_refl) μ flag);
    [| |done|by apply Is_true_true].
  - intros r a. by rewrite Hadd, Hν.
  - intros r. by rewrite Hnew, Hν.
Qed.

(** C1: a bucket of the result counts the dated rows of its hour: all of
    them in [total], those on time in [onTime], those within 20 m in
    [locationAccurate], those with a delay in [delayed]. *)
Theorem processActivityData_bucket_counts data b k :
  b ∈ processActivityData data → Num.eqb (Bucket.hour b) k = true →
  Bucket.total b = count_if (in_hour k) data ∧
  Bucket.onTime b = count_if (λ r, in_hour k r && on_time r) data ∧
  Bucket.locationAccurate b = count_if (λ r, in_hour k r && accurate r) data ∧
  Bucket.delayed b = count_if (λ r, in_hour k r && delayed r) data.
Proof.
  intros Hb%sort_elem_of Hk. split_and!.
  - rewrite (hourlyData_counter Bucket.total Metrics.total (λ _, true) data b k);
      [|done..]. apply count_if_ext. intros r. apply andb_true_r.
  - by apply (hourlyData_counter Bucket.onTime Metrics.onTime).
  - by apply (hourlyData_counter Bucket.locationAccurate Metrics.locationAccurate).
  - by apply (hourlyData_counter Bucket.delayed Metrics.delayed).
Qed.

(** Every dated row is counted: the result has a bucket for its
    hour, unless the hour is [NaN]. *)
Theorem processActivityData_complete data r k :
  r ∈ data → in_hour k r = true →
  ∃ b, b ∈ processActivityData data ∧ Num.eqb (Bucket.hour b) k = true.
Proof.
  intros Hr Hk.
  apply (group_complete Bucket.hour dated hour_of_row
           (λ r, add_metrics (metrics_of r))
           (λ r, new_bucket (hour_of_row r) (metrics_of r))
           (λ _ _, eq_refl) (λ _, eq_refl) data) in Hk; [|done].
  apply Exists_exists in Hk as (b & Hb & Hk). exists b.
  split; [by apply sort_elem_of|by apply Is_true_true].
Qed.

(** *** The compliance rate of a bucket *)

Lemma compliance_rate_row curr :
  compliance_rate (Metrics.onTime (metrics_of curr))
                  (Metrics.locationAccurate (metrics_of curr))
                  (Metrics.total (metrics_of curr)) ∈ row_rates.
Proof.
  unfold metrics_of, row_rates; cbn [Metrics.onTime Metrics.locationAccurate Metrics.total].
  destruct (on_time curr), (accurate curr); vm_compute; set_solver.
Qed.

Lemma hourly_step_rates acc curr :
  Forall (λ b, Bucket.complianceRate b ∈ row_rates) acc →
  Forall (λ b, Bucket.complianceRate b ∈ row_rates) (hourly_step acc curr).
Proof.
  intros Hacc.
  destruct (hourly_step_spec acc curr) as [|i b Hd Hi _ _|Hd _]; [done| |].
  - apply Forall_alter_strong; [done|]. intros; done.
  - apply Forall_app; split; [done|]. apply Forall_singleton.
    apply compliance_rate_row.
Qed.

(** The compliance rate of a bucket is the rate of the row that
    created it, one of 0, 50 and 100, whatever rows the bucket absorbed
    afterwards. *)
Theorem processActivityData_rate_of_first_row data :
  Forall (λ b, Bucket.complianceRate b ∈ row_rates) (processActivityData data).
Proof.
  apply sort_Forall. apply (fold_left_inv (Forall _)); [|constructor].
  intros; by apply hourly_step_rates.
Qed.

End HourlyProps.

(** ** Concrete runs, with the dates read by [clock_date] *)

Local Open Scope string_scope.

(** Three activities of one day, two of them in the same hour. *)
Definition sample_day : list row :=
  [ activity_row "2024-10-19 14:05:00" "On Time" "12" "G-1";
    activity_row "2024-10-19 08:15:00" "Delayed by 10 min" "50" "G-2";
    activity_row "2024-10-19 08:40:00" "On Time" "5" "G-1" ].

(** Two activities whose date the browser cannot read. *)
Definition unreadable_day : list row :=
  [ activity_row "19/10/2024 08:15" "On Time" "5" "G-1";
    activity_row "19/10/2024 08:40" "On Time" "5" "G-1" ].

Lemma sample_day_parseable : Forall parseable sample_day.
Proof.
  unfold sample_day.
  repeat (apply Forall_cons; split; [intros _; vm_compute; discriminate|]).
  constructor.
Qed.

Lemma processActivityData_sorted_witness :
  StronglySorted (key_le hour_key) (processActivityData sample_day).
Proof. apply processActivityData_sorted, sample_day_parseable. Defined.

Lemma processActivityData_ascending_witness :
  Forall hour_ok (processActivityData sample_day) ∧
  StronglySorted (λ a b, (hour_key a < hour_key b)%Z) (processActivityData sample_day).
Proof. apply processActivityData_ascending, sample_day_parseable. Defined.

Lemma processActivityData_hours_distinct_witness :
  NoDup (Bucket.hour <$> processActivityData sample_day).
Proof. apply processActivityData_hours_distinct, sample_day_parseable. Defined.

(** The rate of a bucket is not the rate of its counters: in
    [sample_day] the bucket of 8 o'clock counts two activities, one on time
    and one within 20 m, a rate of 50, and reports the 0 of its first row. *)
Theorem complianceRate_stale :
  ∃ b, processActivityData sample_day !! 0 = Some b ∧
       Bucket.total b = 2 ∧
       compliance_rate (Bucket.onTime b) (Bucket.locationAccurate b)
                       (Bucket.total b) = Num.of_nat 50 ∧
       Bucket.complianceRate b = Num.of_nat 0.
Proof. eexists. split; [vm_compute; reflexivity|]. vm_compute. done. Qed.

(** Rows with an unreadable date are not skipped: each gets a bucket
    of its own, with [NaN] for hour. *)
Theorem unreadable_dates_make_buckets :
  Bucket.hour <$> processActivityData unreadable_day = [Num.NaN; Num.NaN] ∧
  Bucket.total <$> processActivityData unreadable_day = [1; 1].
Proof. vm_compute. done. Qed.

(** The bucket of 8 o'clock in [sample_day]. *)
Definition sample_bucket : Bucket.t :=
  {| Bucket.hour := Num.of_nat 8; Bucket.total := 2; Bucket.onTime := 1;
     Bucket.locationAccurate := 1; Bucket.delayed := 1;
     Bucket.complianceRate := Num.of_nat 0 |}.

Lemma sample_bucket_elem : sample_bucket ∈ processActivityData sample_day.
Proof. vm_compute. apply list_elem_of_here. Qed.

Lemma processActivityData_bucket_counts_witness :
  Bucket.total sample_bucket = count_if (in_hour (Num.of_nat 8)) sample_day ∧
  Bucket.onTime sample_bucket =
    count_if (λ r, in_hour (Num.of_nat 8) r && on_time r) sample_day ∧
  Bucket.locationAccurate sample_bucket =
    count_if (λ r, in_hour (Num.of_nat 8) r && accurate r) sample_day ∧
  Bucket.delayed sample_bucket =
    count_if (λ r, in_hour (Num.of_nat 8) r && delayed r) sample_day.
Proof.
  apply processActivityData_bucket_counts; [apply sample_bucket_elem|].
  vm_compute. reflexivity.
Defined.

Lemma processActivityData_complete_witness :
  ∃ b, b ∈ processActivityData sample_day ∧
       Num.eqb (Bucket.hour b) (Num.of_nat 14) = true.
Proof.
  apply (processActivityData_complete sample_day
           (activity_row "2024-10-19 14:05:00" "On Time" "12" "G-1")).
  - apply list_elem_of_here.
  - vm_compute. reflexivity.
Defined.
