(* ===== verification/Guards.v ===== *)
(** * Guard aggregation ([processGuardData], compliance dashboard)

    Two [forEach] passes fill the object [guardMetrics], keyed by the
    [Service Number] cell: the attendance pass creates a guard's entry and
    counts its shifts, covered posts and duty hours; the activity pass counts
    the activities of the guards that already have an entry.  Then
    [Object.values(guardMetrics)] is mapped to the final profiles with their
    rates and performance score and sorted by descending score.

    A [Service Number] that names a property of [Object.prototype] (such as
    [constructor]) is found by the read [guardMetrics[guardId]] although no
    entry was created, and the following [guardMetrics[guardId].shifts.total]
    throws a [TypeError]: both passes return [res].

    What the passes promise is the finite map [guard_ledger]: one entry per
    guard with a shift, made from the attendance rows and then the
    activity rows of that guard alone ([processGuardData_refines]). *)

From Stdlib Require Import Sorting.Sorted.
From S2P Require Import Prelude JSNumber Binary64 JSString JSObject JSArray.
From S2P Require Import Upsert Ledger Row Hourly.

Module Shifts.
Record t : Type := mk { total : nat; onTime : nat; late : nat }.
End Shifts.

Module Activities.
Record t : Type := mk { total : nat; onTime : nat; locationAccurate : nat }.
End Activities.

(** An entry of [guardMetrics] while the passes run. *)
Module Guard.
Record t : Type := mk {
  id : string;
  name : string;
  shifts : Shifts.t;
  activities : Activities.t;
  coverage : JSSet.t (option string);
  shiftHours : number
}.
End Guard.

Module GuardMetrics.
Record t : Type := mk {
  attendanceRate : number;
  activityComplianceRate : number;
  coverageCount : nat;
  performanceScore : number
}.
End GuardMetrics.

(** An element of the array [processGuardData] returns. *)
Module GuardProfile.
Record t : Type := mk {
  id : string;
  name : string;
  shifts : Shifts.t;
  activities : Activities.t;
  coverage : list (option string);
  shiftHours : number;
  metrics : GuardMetrics.t
}.
End GuardProfile.

(** The entry created for a guard seen for the first time. *)
Definition new_guard (guardId name : string) : Guard.t :=
  {| Guard.id := guardId;
     Guard.name := name;
     Guard.shifts := Shifts.mk 0 0 0;
     Guard.activities := Activities.mk 0 0 0;
     Guard.coverage := JSSet.empty;
     Guard.shiftHours := Num.zero |}.

(** [if (record['Duty Hours']) { hours = parseFloat(..); if (!isNaN(hours))
    acc += hours }] *)
Definition add_duty_hours (record : row) (acc : number) : number :=
  match cell record Col.DutyHours with
  | Some s =>
      if String.eqb s "" then acc
      else
        let hours := Str.parseFloat s in
        if Num.isNaN hours then acc else Num.add acc hours
  | None => acc
  end.

Definition count_shift (record : row) (s : Shifts.t) : Shifts.t :=
  if Str.eqb (cell record Col.LateHours) "On-time"
  then Shifts.mk (Shifts.total s + 1) (Shifts.onTime s + 1) (Shifts.late s)
  else Shifts.mk (Shifts.total s + 1) (Shifts.onTime s) (Shifts.late s + 1).

(** The updates of the attendance pass on the guard's entry. *)
Definition record_shift (record : row) (g : Guard.t) : Guard.t :=
  {| Guard.id := Guard.id g;
     Guard.name := Guard.name g;
     Guard.shifts := count_shift record (Guard.shifts g);
     Guard.activities := Guard.activities g;
     Guard.coverage := JSSet.add (Guard.coverage g) (cell record Col.PostName);
     Guard.shiftHours := add_duty_hours record (Guard.shiftHours g) |}.

(** [if (v) { accuracy = parseInt(v); if (!isNaN(accuracy) && accuracy <= 20) .. }] *)
Definition location_accurate (v : option string) : bool :=
  match v with
  | Some s =>
      negb (String.eqb s "") &&
      (let accuracy := Str.parseInt s in
       negb (Num.isNaN accuracy) && Num.leb accuracy (Num.of_nat 20))
  | None => false
  end.

Definition count_activity (record : row) (a : Activities.t) : Activities.t :=
  Activities.mk
    (Activities.total a + 1)
    (Activities.onTime a +
       if Str.eqb (cell record Col.TimeAccuracy) "On Time" then 1 else 0)
    (Activities.locationAccurate a +
       if location_accurate (cell record Col.LocationAccuracy) then 1 else 0).

(** The updates of the activity pass on the guard's entry. *)
Definition record_activity (record : row) (g : Guard.t) : Guard.t :=
  {| Guard.id := Guard.id g;
     Guard.name := Guard.name g;
     Guard.shifts := Guard.shifts g;
     Guard.activities := count_activity record (Guard.activities g);
     Guard.coverage := Guard.coverage g;
     Guard.shiftHours := Guard.shiftHours g |}.

(** The body of [attendanceData.forEach]. *)
Definition attendance_step (guardMetrics : Obj.t Guard.t) (record : row)
  : res (Obj.t Guard.t) :=
  match cell record Col.FullName, cell record Col.ServiceNumber with
  | Some name, Some guardId =>
      if String.eqb name "" || String.eqb guardId "" then Ok guardMetrics
      else
        match Obj.get guardMetrics guardId with
        | Obj.Undefined =>
            Ok (Obj.set guardMetrics guardId
                  (record_shift record (new_guard guardId name)))
        | Obj.Own g => Ok (Obj.set guardMetrics guardId (record_shift record g))
        | Obj.Inherited => Throw (TypeError "total")
        end
  | _, _ => Ok guardMetrics
  end.

(** The body of [activityData.forEach]. *)
Definition activity_step (guardMetrics : Obj.t Guard.t) (record : row)
  : res (Obj.t Guard.t) :=
  match cell record Col.ServiceNumber with
  | Some guardId =>
      if String.eqb guardId "" then Ok guardMetrics
      else
        match Obj.get guardMetrics guardId with
        | Obj.Undefined => Ok guardMetrics
        | Obj.Own g => Ok (Obj.set guardMetrics guardId (record_activity record g))
        | Obj.Inherited => Throw (TypeError "total")
        end
  | None => Ok guardMetrics
  end.

(** [total > 0 ? (part / total) * weight : 0] *)
Definition weighted (part total weight : nat) : number :=
  if 0 <? total
  then Num.mul (Num.div (Num.of_nat part) (Num.of_nat total)) (Num.of_nat weight)
  else Num.zero.

Definition attendanceScore (g : Guard.t) : number :=
  weighted (Shifts.onTime (Guard.shifts g)) (Shifts.total (Guard.shifts g)) 30.

Definition activityScore (g : Guard.t) : number :=
  weighted (Activities.onTime (Guard.activities g) +
            Activities.locationAccurate (Guard.activities g))
           (2 * Activities.total (Guard.activities g)) 40.

(** [Math.min((coverage.size / 3) * 30, 30)] *)
Definition coverageScore (g : Guard.t) : number :=
  Num.min (Num.mul (Num.div (Num.of_nat (JSSet.size (Guard.coverage g)))
                            (Num.of_nat 3))
                   (Num.of_nat 30))
          (Num.of_nat 30).

Definition performanceScore (g : Guard.t) : number :=
  Num.round (Num.add (Num.add (attendanceScore g) (activityScore g))
                     (coverageScore g)).

(** [total > 0 ? Math.round((part / total) * 100) : 0] *)
Definition rate (part total : nat) : number :=
  if 0 <? total
  then Num.round (Num.mul (Num.div (Num.of_nat part) (Num.of_nat total))
                          (Num.of_nat 100))
  else Num.zero.

Definition guard_metrics (g : Guard.t) : GuardMetrics.t :=
  {| GuardMetrics.attendanceRate :=
       rate (Shifts.onTime (Guard.shifts g)) (Shifts.total (Guard.shifts g));
     GuardMetrics.activityComplianceRate :=
       rate (Activities.onTime (Guard.activities g) +
             Activities.locationAccurate (Guard.activities g))
            (2 * Activities.total (Guard.activities g));
     GuardMetrics.coverageCount := JSSet.size (Guard.coverage g);
     GuardMetrics.performanceScore := performanceScore g |}.

(** The callback of [Object.values(guardMetrics).map]. *)
Definition guard_profile (g : Guard.t) : GuardProfile.t :=
  {| GuardProfile.id := Guard.id g;
     GuardProfile.name := Guard.name g;
     GuardProfile.shifts := Guard.shifts g;
     GuardProfile.activities := Guard.activities g;
     GuardProfile.coverage := JSSet.to_array (Guard.coverage g);
     GuardProfile.shiftHours := Guard.shiftHours g;
     GuardProfile.metrics := guard_metrics g |}.

(** [(a, b) => b.metrics.performanceScore - a.metrics.performanceScore] *)
Definition by_score_desc (a b : GuardProfile.t) : number :=
  Num.sub (GuardMetrics.performanceScore (GuardProfile.metrics b))
          (GuardMetrics.performanceScore (GuardProfile.metrics a)).

(** The object after both passes. *)
Definition guardMetrics (activityData attendanceData : list row)
  : res (Obj.t Guard.t) :=
  gm ← foldM attendance_step attendanceData Obj.empty;
  foldM activity_step activityData gm.

Definition processGuardData (activityData attendanceData : list row)
  : res (list GuardProfile.t) :=
  gm ← guardMetrics activityData attendanceData;
  Ok (Arr.sort by_score_desc (guard_profile <$> Obj.values gm)).

(** ** The two passes as keyed aggregations *)

(** The guard an attendance row is counted for: the row needs a name and a
    service number. *)
Definition attendance_key (record : row) : option string :=
  match cell record Col.FullName, cell record Col.ServiceNumber with
  | Some name, Some guardId =>
      if String.eqb name "" || String.eqb guardId "" then None else Some guardId
  | _, _ => None
  end.

(** The guard an activity row is counted for. *)
Definition activity_key (record : row) : option string :=
  match cell record Col.ServiceNumber with
  | Some guardId => if String.eqb guardId "" then None else Some guardId
  | None => None
  end.

(** The entry a row creates. *)
Definition seed (record : row) : Guard.t :=
  new_guard (default "" (cell record Col.ServiceNumber))
            (default "" (cell record Col.FullName)).

(** The object both passes build when neither throws. *)
Definition guards_of (activityData attendanceData : list row) : Obj.t Guard.t :=
  fold_left (update_pure activity_key record_activity) activityData
    (fold_left (upsert_pure attendance_key seed record_shift) attendanceData
       Obj.empty).

(** The abstract result of the two passes: the entry of each guard. *)
Definition guard_ledger (act att : list row) : gmap string Guard.t :=
  fold_left (amend activity_key record_activity) act
            (ledger attendance_key seed record_shift att).

(** Some counted row has a service number that every object inherits. *)
Definition poisoned (activityData attendanceData : list row) : bool :=
  existsb (poison attendance_key) attendanceData ||
  existsb (poison activity_key) activityData.

(** [record['Late Hours'] === 'On-time'] *)
Definition punctual (record : row) : bool :=
  Str.eqb (cell record Col.LateHours) "On-time".

(** What the counters and the set of a guard satisfy. *)
Definition guard_ok (g : Guard.t) : Prop :=
  Shifts.total (Guard.shifts g) =
    Shifts.onTime (Guard.shifts g) + Shifts.late (Guard.shifts g) ∧
  Activities.onTime (Guard.activities g) ≤ Activities.total (Guard.activities g) ∧
  Activities.locationAccurate (Guard.activities g)
    ≤ Activities.total (Guard.activities g) ∧
  1 ≤ JSSet.size (Guard.coverage g) ≤ Shifts.total (Guard.shifts g) ∧
  NoDup (Guard.coverage g).

(** An array has fewer than [2^32] elements. *)
Definition array_size {A} (l : list A) : Prop := (Z.of_nat (length l) < 2 ^ 32)%Z.

(** The counters of a guard are at most [n]. *)
Definition counters_le (n : nat) (g : Guard.t) : Prop :=
  Shifts.total (Guard.shifts g) ≤ n ∧ Activities.total (Guard.activities g) ≤ n.

(** The key that orders the profiles: the score, highest first. *)
Definition score_key (p : GuardProfile.t) : Z :=
  (- to_Z (GuardMetrics.performanceScore (GuardProfile.metrics p)))%Z.

(** One of the integers from 0 to 100. *)
Definition percentage (x : number) : Prop := ∃ k : nat, k ≤ 100 ∧ x = Num.of_nat k.

(** ** The passes fail on inherited keys only *)

Lemma attendance_step_upsert o r :
  attendance_step o r =
  upsert attendance_key seed record_shift (TypeError "total") o r.
Proof.
  unfold attendance_step, upsert, attendance_key, seed.
  destruct (cell r Col.FullName) as [name|],
    (cell r Col.ServiceNumber) as [guardId|]; try done.
  by destruct (String.eqb name "" || String.eqb guardId "").
Qed.

Lemma activity_step_update o r :
  activity_step o r = update activity_key record_activity (TypeError "total") o r.
Proof.
  unfold activity_step, update, activity_key.
  destruct (cell r Col.ServiceNumber) as [guardId|]; [|done].
  by destruct (String.eqb guardId "").
Qed.

Lemma guardMetrics_eq act att :
  guardMetrics act att =
  if poisoned act att then Throw (TypeError "total") else Ok (guards_of act att).
Proof.
  unfold guardMetrics, poisoned, guards_of.
  rewrite (foldM_ext _ _ _ _ attendance_step_upsert).
  rewrite foldM_upsert by apply own_ok_empty.
  destruct (existsb (poison attendance_key) att) eqn:E; simpl; [done|].
  rewrite (foldM_ext _ _ _ _ activity_step_update).
  rewrite foldM_update; [done|]. by apply fold_upsert_own_ok; [apply own_ok_empty|].
Qed.

Lemma processGuardData_unfold act att :
  processGuardData act att =
  if poisoned act att then Throw (TypeError "total")
  else Ok (Arr.sort by_score_desc
             (guard_profile <$> Obj.values (guards_of act att))).
Proof. unfold processGuardData. rewrite guardMetrics_eq. by destruct (poisoned act att). Qed.

(** C6: [processGuardData] throws, and what it throws is a [TypeError],
    exactly when a counted row carries a service number that names a
    property of [Object.prototype]: an attendance row with a name, or an
    activity row. *)
Theorem processGuardData_throws_iff act att :
  (∃ e, processGuardData act att = Throw e) ↔
  (∃ r k, r ∈ att ∧ attendance_key r = Some k ∧ Obj.inherited k = true) ∨
  (∃ r k, r ∈ act ∧ activity_key r = Some k ∧ Obj.inherited k = true).
Proof.
  rewrite processGuardData_unfold, <- !poison_exists.
  unfold poisoned. destruct (existsb _ att), (existsb _ act); simpl; split; intros H.
  all: try (by left); try (by right); try (by eexists).
  all: by destruct H as [e He] || by destruct H as [H|H].
Qed.

(** The error thrown is always the [TypeError] of reading [total]
    of [undefined]. *)
Theorem processGuardData_error act att e :
  processGuardData act att = Throw e → e = TypeError "total".
Proof.
  rewrite processGuardData_unfold. destruct (poisoned act att); [|done].
  by intros [= <-].
Qed.

(** ** The entries *)

Lemma record_shift_seed_ok r : guard_ok (record_shift r (seed r)).
Proof.
  unfold guard_ok, record_shift, count_shift, seed, new_guard; simpl.
  pose proof (add_size (@JSSet.empty (option string)) (cell r Col.PostName)).
  destruct (Str.eqb _ _); simpl; split_and!; try lia.
  all: apply add_NoDup; constructor.
Qed.

Lemma record_shift_ok r g : guard_ok g → guard_ok (record_shift r g).
Proof.
  unfold guard_ok, record_shift, count_shift; simpl.
  pose proof (add_size (Guard.coverage g) (cell r Col.PostName)).
  intros (? & ? & ? & ? & ?).
  destruct (Str.eqb _ _); simpl; split_and!; try lia; by apply add_NoDup.
Qed.

Lemma record_activity_ok r g : guard_ok g → guard_ok (record_activity r g).
Proof.
  unfold guard_ok, record_activity, count_activity; simpl.
  intros (? & ? & ? & ? & ?).
  destruct (Str.eqb _ _), (location_accurate _); simpl; split_and!; try done; lia.
Qed.

Lemma guards_of_ok act att : all guard_ok (guards_of act att).
Proof.
  apply fold_update_all; [apply record_activity_ok|].
  apply fold_upsert_all; [apply record_shift_ok|apply record_shift_seed_ok|constructor].
Qed.

Lemma guards_of_NoDup act att : NoDup (Obj.keys (guards_of act att)).
Proof.
  unfold guards_of. rewrite fold_update_keys. apply fold_upsert_NoDup. constructor.
Qed.

Lemma attendance_key_seed r k : attendance_key r = Some k → Guard.id (seed r) = k.
Proof.
  unfold attendance_key, seed.
  destruct (cell r Col.FullName), (cell r Col.ServiceNumber); try done.
  case_match; [done|]. by intros [= ->].
Qed.

Lemma guards_of_keyed act att : keyed_by Guard.id (guards_of act att).
Proof.
  apply (fold_left_inv (keyed_by Guard.id)).
  { intros; by apply update_pure_keyed. }
  apply (fold_left_inv (keyed_by Guard.id)); [|done].
  intros; apply upsert_pure_keyed; [done|apply attendance_key_seed|done].
Qed.

(** Every profile of the result is the profile of an entry, stored under
    its own id. *)
Lemma processGuardData_elem act att gs p :
  processGuardData act att = Ok gs → p ∈ gs →
  ∃ g, Obj.get_own (guards_of act att) (Guard.id g) = Some g ∧
       p = guard_profile g.
Proof.
  rewrite processGuardData_unfold. destruct (poisoned act att); [done|].
  intros [= <-] Hp%sort_elem_of.
  apply list_elem_of_fmap in Hp as (g & -> & (k & Hk)%elem_of_values).
  apply get_own_elem in Hk; [|apply guards_of_NoDup].
  exists g. by rewrite (guards_of_keyed act att k g Hk).
Qed.

(** The counters of every guard in the result are consistent:
    on-time and late shifts add up to the shifts, the activity counts are at
    most the activities, the guard covered between one post and as many as
    it has shifts, and no post is listed twice. *)
Theorem processGuardData_entries_ok act att gs :
  processGuardData act att = Ok gs →
  Forall (λ p, ∃ g, p = guard_profile g ∧ guard_ok g) gs.
Proof.
  intros Hgs. apply Forall_forall. intros p Hp.
  destruct (processGuardData_elem act att gs p Hgs Hp) as (g & Hg & ->).
  exists g. split; [done|]. by eapply all_get_own, Hg; apply guards_of_ok.
Qed.

(** There are at most as many profiles as attendance rows. *)
Lemma processGuardData_length act att gs :
  processGuardData act att = Ok gs → length gs ≤ length att.
Proof.
  rewrite processGuardData_unfold. case_match; [done|]. intros [= <-].
  rewrite sort_length, length_fmap, values_length. unfold guards_of.
  rewrite fold_update_keys. etrans; [apply fold_upsert_size|]. simpl. lia.
Qed.

(** No two profiles of the result have the same service number. *)
Lemma processGuardData_ids act att gs :
  processGuardData act att = Ok gs → NoDup (GuardProfile.id <$> gs).
Proof.
  rewrite processGuardData_unfold. case_match; [done|]. intros [= <-].
  rewrite sort_perm, <- list_fmap_compose.
  apply (keyed_values_NoDup Guard.id); [apply guards_of_keyed|apply guards_of_NoDup].
Qed.

(** ** The passes implement their specification *)

Lemma guards_of_refines act att : obj_map (guards_of act att) = guard_ledger act att.
Proof. unfold guards_of, guard_ledger. by rewrite update_refines, upsert_refines. Qed.

(** C9: The profiles of the result are those of the entries of the ledger.
    A guard has an entry when an attendance row names it; the entry is
    made from the attendance rows of the guard, then the activity rows of
    the guard, each in the order of its export. *)
Theorem processGuardData_refines act att gs :
  processGuardData act att = Ok gs →
  gs ≡ₚ guard_profile <$> (map_to_list (guard_ledger act att)).*2 ∧
  ∀ k, guard_ledger act att !! k =
       (λ g, tally record_activity g (rows_of activity_key k act)) <$>
       entry_of seed record_shift (rows_of attendance_key k att).
Proof.
  rewrite processGuardData_unfold. case_match; [done|]. intros [= <-]. split.
  - rewrite sort_perm, <- guards_of_refines.
    by rewrite (values_obj_map _ (guards_of_NoDup act att)).
  - intros k. unfold guard_ledger. by rewrite fold_amend_lookup, ledger_lookup.
Qed.

Lemma poisoned_same_rows act act' att att' :
  same_rows activity_key act act' → same_rows attendance_key att att' →
  poisoned act att = poisoned act' att'.
Proof.
  intros Ea Eb. unfold poisoned.
  by rewrite (poison_same_rows _ _ _ Ea), (poison_same_rows _ _ _ Eb).
Qed.

#[export] Instance guard_ledger_proper :
  Proper (same_rows activity_key ==> same_rows attendance_key ==> (=)) guard_ledger.
Proof. intros act act' Ea att att' Eb. unfold guard_ledger. by rewrite Ea, Eb. Qed.

(** Two pairs of exports with the same rows under every guard give the
    same exception or the same profiles, up to the order of equal scores. *)
#[export] Instance processGuardData_proper :
  Proper (same_rows activity_key ==> same_rows attendance_key ==> res_rel (≡ₚ))
         processGuardData.
Proof.
  intros act act' Ea att att' Eb. rewrite !processGuardData_unfold.
  rewrite (poisoned_same_rows _ _ _ _ Ea Eb). case_match; [done|]. simpl.
  rewrite !sort_perm, !(values_obj_map _ (guards_of_NoDup _ _)), !guards_of_refines.
  by rewrite Ea, Eb.
Qed.

(** ** What the counters count *)

Lemma guards_of_seeded act att k g :
  Obj.get_own (guards_of act att) k = Some g →
  is_Some (Obj.get_own
             (fold_left (upsert_pure attendance_key seed record_shift) att
                        Obj.empty) k).
Proof.
  intros Hg. destruct (Obj.get_own (fold_left _ att _) k) eqn:E; [done|].
  apply get_own_None in E. rewrite <- (fold_update_keys activity_key record_activity act) in E.
  apply get_own_None in E. unfold guards_of in Hg. congruence.
Qed.

(** A counter that the attendance pass raises on the rows [fa] and the
    activity pass on the rows [fb]. *)
Lemma guards_of_counter (μ : Guard.t → nat) (fa fb : row → bool) act att k g :
  (∀ r v, μ (record_shift r v) = μ v + (if fa r then 1 else 0)) →
  (∀ r v, μ (record_activity r v) = μ v + (if fb r then 1 else 0)) →
  (∀ r, μ (seed r) = 0) →
  Obj.get_own (guards_of act att) k = Some g →
  μ g = count_if (λ r, hits attendance_key k r && fa r) att +
        count_if (λ r, hits activity_key k r && fb r) act.
Proof.
  intros Ha Hb Hs Hg.
  assert (counter_at μ k (guards_of act att) = μ g) as <-
    by (unfold counter_at; by rewrite Hg).
  unfold guards_of.
  rewrite (counter_fold_update _ _ μ fb Hb) by (by eapply guards_of_seeded).
  by rewrite (counter_fold_upsert _ _ _ μ fa Ha).
Qed.

(** The side conditions of [guards_of_counter]: how one update changes a
    counter. *)
Ltac counter_side :=
  first
    [ assumption
    | intros;
      unfold record_shift, count_shift, record_activity, count_activity,
        punctual, on_time; simpl;
      repeat case_match; simpl; lia ].

(** C2: the counters of a guard in the result count the rows of its
    service number: the attendance rows with a name in [shifts], split
    into on time and late, and the activity rows in [activities], with
    those on time and those within 20 m. *)
Theorem processGuardData_counts act att gs p (k := GuardProfile.id p) :
  processGuardData act att = Ok gs → p ∈ gs →
  Shifts.total (GuardProfile.shifts p) = count_if (hits attendance_key k) att ∧
  Shifts.onTime (GuardProfile.shifts p) =
    count_if (λ r, hits attendance_key k r && punctual r) att ∧
  Shifts.late (GuardProfile.shifts p) =
    count_if (λ r, hits attendance_key k r && negb (punctual r)) att ∧
  Activities.total (GuardProfile.activities p) =
    count_if (hits activity_key k) act ∧
  Activities.onTime (GuardProfile.activities p) =
    count_if (λ r, hits activity_key k r && on_time r) act ∧
  Activities.locationAccurate (GuardProfile.activities p) =
    count_if (λ r, hits activity_key k r
                   && location_accurate (cell r Col.LocationAccuracy)) act.
Proof.
  intros Hgs Hp. destruct (processGuardData_elem act att gs p Hgs Hp) as (g & Hg & ->).
  subst k. cbn [guard_profile GuardProfile.id GuardProfile.shifts GuardProfile.activities].
  split_and!.
  - rewrite (guards_of_counter (λ g, Shifts.total (Guard.shifts g))
               (λ _, true) (λ _, false) act att (Guard.id g) g) by counter_side.
    rewrite count_if_false_r, Nat.add_0_r. apply count_if_ext. intros; apply andb_true_r.
  - rewrite (guards_of_counter (λ g, Shifts.onTime (Guard.shifts g))
               punctual (λ _, false) act att (Guard.id g) g) by counter_side.
    by rewrite count_if_false_r, Nat.add_0_r.
  - rewrite (guards_of_counter (λ g, Shifts.late (Guard.shifts g))
               (λ r, negb (punctual r)) (λ _, false) act att (Guard.id g) g)
      by counter_side.
    by rewrite count_if_false_r, Nat.add_0_r.
  - rewrite (guards_of_counter (λ g, Activities.total (Guard.activities g))
               (λ _, false) (λ _, true) act att (Guard.id g) g) by counter_side.
    rewrite count_if_false_r. apply count_if_ext. intros; apply andb_true_r.
  - rewrite (guards_of_counter (λ g, Activities.onTime (Guard.activities g))
               (λ _, false) on_time act att (Guard.id g) g) by counter_side.
    by rewrite count_if_false_r.
  - rewrite (guards_of_counter (λ g, Activities.locationAccurate (Guard.activities g))
               (λ _, false) (λ r, location_accurate (cell r Col.LocationAccuracy))
               act att (Guard.id g) g) by counter_side.
    by rewrite count_if_false_r.
Qed.

Lemma guards_of_keys act att k :
  k ∈ Obj.keys (guards_of act att) ↔ ∃ r, r ∈ att ∧ attendance_key r = Some k.
Proof.
  unfold guards_of. rewrite fold_update_keys, fold_upsert_keys.
  split; [intros [[]%elem_of_nil|]; done|by right].
Qed.

(** The guards of the result are the service numbers of the
    attendance rows that carry a name; activity alone makes no guard. *)
Theorem processGuardData_guards act att gs k :
  processGuardData act att = Ok gs →
  (∃ p, p ∈ gs ∧ GuardProfile.id p = k) ↔
  (∃ r, r ∈ att ∧ attendance_key r = Some k).
Proof.
  intros Hgs. rewrite <- guards_of_keys. split.
  - intros (p & Hp & <-).
    destruct (processGuardData_elem act att gs p Hgs Hp) as (g & Hg & ->).
    simpl. destruct (decide (Guard.id g ∈ Obj.keys (guards_of act att)))
      as [|Hn]; [done|]. apply get_own_None in Hn. congruence.
  - intros Hk.
    destruct (Obj.get_own (guards_of act att) k) as [g|] eqn:E;
      [|by apply get_own_None in E].
    exists (guard_profile g). split; [|by apply (guards_of_keyed act att)].
    rewrite processGuardData_unfold in Hgs. destruct (poisoned act att); [done|].
    injection Hgs as <-. apply sort_elem_of, list_elem_of_fmap. exists g.
    split; [done|]. apply elem_of_values. exists k. by apply get_own_Some_elem.
Qed.

(** ** Rates and scores *)

Lemma small_counter n : (Z.of_nat n < 2 ^ 34)%Z → small n.
Proof. intros Hn. apply small_lt. assert (2 ^ 34 < 2 ^ 53)%Z by done. lia. Qed.

Lemma percentage_zero : percentage Num.zero.
Proof. exists 0. split; [lia|reflexivity]. Qed.

Lemma rate_percentage part total :
  part ≤ total → small total → percentage (rate part total).
Proof.
  intros Hle Hs. unfold rate. destruct (Nat.ltb_spec 0 total); [|apply percentage_zero].
  apply percent_round; [done..|apply small_100].
Qed.

Lemma weighted_bounded part total w :
  part ≤ total → small total → small w → bounded (weighted part total w) w.
Proof.
  intros Hle Hs Hw. unfold weighted.
  destruct (Nat.ltb_spec 0 total); [by apply bounded_scaled|apply bounded_zero].
Qed.

Lemma coverageScore_bounded g :
  small (JSSet.size (Guard.coverage g)) → bounded (coverageScore g) 30.
Proof.
  intros Hs. unfold coverageScore. apply bounded_min; [|by apply small_counter].
  apply scaled_ratio_good; [done|by apply small_counter..|lia].
Qed.

Lemma performanceScore_percentage g n :
  (Z.of_nat n < 2 ^ 32)%Z → guard_ok g → counters_le n g →
  percentage (performanceScore g).
Proof.
  intros Hn (Ht & Ho & Hl & Hc & _) [Hs Ha]. unfold performanceScore.
  apply (bounded_round _ (30 + 40 + 30)).
  apply bounded_add; [apply bounded_add| |by apply small_counter].
  - apply weighted_bounded; [lia|apply small_counter; lia|by apply small_counter].
  - apply weighted_bounded; [lia|apply small_counter; lia|by apply small_counter].
  - by apply small_counter.
  - apply coverageScore_bounded, small_counter. lia.
Qed.

Lemma guard_metrics_percentages g n :
  (Z.of_nat n < 2 ^ 32)%Z → guard_ok g → counters_le n g →
  percentage (GuardMetrics.attendanceRate (guard_metrics g)) ∧
  percentage (GuardMetrics.activityComplianceRate (guard_metrics g)) ∧
  percentage (GuardMetrics.performanceScore (guard_metrics g)).
Proof.
  intros Hn Hok Hle. split_and!; [| |by eapply performanceScore_percentage].
  - destruct Hok as (Ht & _), Hle as [Hs _].
    apply rate_percentage; [lia|apply small_counter; lia].
  - destruct Hok as (_ & Ho & Hl & _), Hle as [_ Ha].
    apply rate_percentage; [lia|apply small_counter; lia].
Qed.

Lemma processGuardData_counters_le act att gs p :
  processGuardData act att = Ok gs → p ∈ gs →
  Shifts.total (GuardProfile.shifts p) ≤ length att ∧
  Activities.total (GuardProfile.activities p) ≤ length act.
Proof.
  intros Hgs Hp. destruct (processGuardData_elem act att gs p Hgs Hp) as (g & Hg & ->).
  cbn [guard_profile GuardProfile.shifts GuardProfile.activities]. split.
  - rewrite (guards_of_counter (λ g, Shifts.total (Guard.shifts g))
               (λ _, true) (λ _, false) act att (Guard.id g) g) by counter_side.
    rewrite count_if_false_r, Nat.add_0_r. apply count_if_le_length.
  - rewrite (guards_of_counter (λ g, Activities.total (Guard.activities g))
               (λ _, false) (λ _, true) act att (Guard.id g) g) by counter_side.
    rewrite count_if_false_r. apply count_if_le_length.
Qed.

Lemma processGuardData_percentages act att gs p :
  array_size act → array_size att →
  processGuardData act att = Ok gs → p ∈ gs →
  percentage (GuardMetrics.attendanceRate (GuardProfile.metrics p)) ∧
  percentage (GuardMetrics.activityComplianceRate (GuardProfile.metrics p)) ∧
  percentage (GuardMetrics.performanceScore (GuardProfile.metrics p)).
Proof.
  unfold array_size. intros Hact Hatt Hgs Hp.
  destruct (processGuardData_counters_le act att gs p Hgs Hp) as [Hs Ha].
  destruct (processGuardData_elem act att gs p Hgs Hp) as (g & Hg & ->).
  apply (guard_metrics_percentages g (length att `max` length act)); [lia| |].
  - eapply all_get_own, Hg. apply guards_of_ok.
  - split; simpl in *; lia.
Qed.

Lemma processGuardData_scores_all act att gs :
  array_size act → array_size att →
  processGuardData act att = Ok gs →
  Forall (λ p, percentage (GuardMetrics.performanceScore (GuardProfile.metrics p)))
         gs.
Proof.
  intros Hact Hatt Hgs. apply Forall_forall. intros p Hp.
  by destruct (processGuardData_percentages act att gs p Hact Hatt Hgs Hp) as (_ & _ & ?).
Qed.

(** The rates and the performance score of every guard are integers
    from 0 to 100. *)
Theorem processGuardData_scores act att gs :
  array_size act → array_size att →
  processGuardData act att = Ok gs →
  Forall (λ p,
    percentage (GuardMetrics.attendanceRate (GuardProfile.metrics p)) ∧
    percentage (GuardMetrics.activityComplianceRate (GuardProfile.metrics p)) ∧
    percentage (GuardMetrics.performanceScore (GuardProfile.metrics p))) gs.
Proof.
  intros Hact Hatt Hgs. apply Forall_forall. intros p Hp.
  exact (processGuardData_percentages act att gs p Hact Hatt Hgs Hp).
Qed.

(** A comparator [(a, b) => f(b) - f(a)] on percentages orders by
    descending [f]. *)
Lemma desc_keyed {A} (f : A → number) :
  keyed (λ a b, Num.sub (f b) (f a)) (λ p, percentage (f p))
        (λ p, (- to_Z (f p))%Z).
Proof.
  intros x y (kx & Hx & Ex) (ky & Hy & Ey). unfold Arr.after.
  assert (small kx ∧ small ky) as [Sx Sy]
    by (split; apply small_counter; lia).
  rewrite Ex, Ey, !to_Z_of_nat, sub_of_nat_after by done. lia.
Qed.

Lemma by_score_desc_keyed :
  keyed by_score_desc
    (λ p, percentage (GuardMetrics.performanceScore (GuardProfile.metrics p)))
    score_key.
Proof.
  exact (desc_keyed (λ p, GuardMetrics.performanceScore (GuardProfile.metrics p))).
Qed.

(** The result is in descending order of the performance score. *)
Theorem processGuardData_sorted act att gs :
  array_size act → array_size att →
  processGuardData act att = Ok gs →
  StronglySorted (key_le score_key) gs.
Proof.
  intros Hact Hatt Hgs.
  pose proof (processGuardData_scores_all act att gs Hact Hatt Hgs) as Hall.
  rewrite processGuardData_unfold in Hgs. destruct (poisoned act att); [done|].
  injection Hgs as <-.
  apply (sort_sorted by_score_desc _ score_key by_score_desc_keyed).
  by rewrite <- (sort_perm by_score_desc).
Qed.

(** ** Concrete runs *)

Local Open Scope string_scope.

(** Three shifts of two guards; the activities are those of [sample_day]. *)
Definition sample_attendance : list row :=
  [ attendance_row "2024-10-19" "Asha Rao" "G-1" "Gate A" "On-time" "8";
    attendance_row "2024-10-19" "Asha Rao" "G-1" "Gate B" "Late by 5 min" "7.5";
    attendance_row "2024-10-19" "Bo Li" "G-2" "Gate A" "On-time" "8" ].

(** A guard whose service number is the name of an inherited property. *)
Definition poisoned_attendance : list row :=
  [ attendance_row "2024-10-19" "Asha Rao" "G-1" "Gate A" "On-time" "8";
    attendance_row "2024-10-19" "Cy Tan" "constructor" "Gate B" "On-time" "8" ].

(** Guards with numeric service numbers, met in the order 20, 3. *)
Definition numbered_attendance : list row :=
  [ attendance_row "2024-10-19" "Asha Rao" "20" "Gate A" "On-time" "8";
    attendance_row "2024-10-19" "Bo Li" "3" "Gate A" "On-time" "8" ].

Definition profiles_of (activityData attendanceData : list row)
  : list GuardProfile.t :=
  match processGuardData activityData attendanceData with
  | Ok gs => gs
  | Throw _ => []
  end.

Definition sample_profiles : list GuardProfile.t :=
  Eval vm_compute in profiles_of sample_day sample_attendance.

Definition sample_guard : GuardProfile.t :=
  Eval vm_compute in
    nth 0 sample_profiles (guard_profile (new_guard "" "")).

Lemma sample_ok : processGuardData sample_day sample_attendance = Ok sample_profiles.
Proof. vm_compute. reflexivity. Qed.

Lemma sample_guard_elem : sample_guard ∈ sample_profiles.
Proof. apply list_elem_of_here. Qed.

Lemma sample_sizes : array_size sample_day ∧ array_size sample_attendance.
Proof. by vm_compute. Qed.

Lemma processGuardData_error_witness :
  TypeError "total" = TypeError "total".
Proof.
  apply (processGuardData_error sample_day poisoned_attendance).
  vm_compute. reflexivity.
Defined.

Lemma processGuardData_entries_ok_witness :
  Forall (λ p, ∃ g, p = guard_profile g ∧ guard_ok g) sample_profiles.
Proof. apply (processGuardData_entries_ok sample_day sample_attendance), sample_ok. Defined.

Lemma processGuardData_refines_witness :
  sample_profiles ≡ₚ
    guard_profile <$> (map_to_list (guard_ledger sample_day sample_attendance)).*2 ∧
  ∀ k, guard_ledger sample_day sample_attendance !! k =
       (λ g, tally record_activity g (rows_of activity_key k sample_day)) <$>
       entry_of seed record_shift (rows_of attendance_key k sample_attendance).
Proof. apply processGuardData_refines, sample_ok. Defined.

Lemma processGuardData_counts_witness :
  Shifts.total (GuardProfile.shifts sample_guard) =
    count_if (hits attendance_key (GuardProfile.id sample_guard)) sample_attendance ∧
  Shifts.onTime (GuardProfile.shifts sample_guard) =
    count_if (λ r, hits attendance_key (GuardProfile.id sample_guard) r
                   && punctual r) sample_attendance ∧
  Shifts.late (GuardProfile.shifts sample_guard) =
    count_if (λ r, hits attendance_key (GuardProfile.id sample_guard) r
                   && negb (punctual r)) sample_attendance ∧
  Activities.total (GuardProfile.activities sample_guard) =
    count_if (hits activity_key (GuardProfile.id sample_guard)) sample_day ∧
  Activities.onTime (GuardProfile.activities sample_guard) =
    count_if (λ r, hits activity_key (GuardProfile.id sample_guard) r
                   && on_time r) sample_day ∧
  Activities.locationAccurate (GuardProfile.activities sample_guard) =
    count_if (λ r, hits activity_key (GuardProfile.id sample_guard) r
                   && location_accurate (cell r Col.LocationAccuracy)) sample_day.
Proof.
  apply (processGuardData_counts sample_day sample_attendance sample_profiles);
    [apply sample_ok|apply sample_guard_elem].
Defined.

Lemma processGuardData_guards_witness :
  (∃ p, p ∈ sample_profiles ∧ GuardProfile.id p = "G-2") ↔
  (∃ r, r ∈ sample_attendance ∧ attendance_key r = Some "G-2").
Proof. apply (processGuardData_guards sample_day sample_attendance), sample_ok. Defined.

Lemma processGuardData_scores_witness :
  Forall (λ p,
    percentage (GuardMetrics.attendanceRate (GuardProfile.metrics p)) ∧
    percentage (GuardMetrics.activityComplianceRate (GuardProfile.metrics p)) ∧
    percentage (GuardMetrics.performanceScore (GuardProfile.metrics p)))
    sample_profiles.
Proof.
  apply (processGuardData_scores sample_day sample_attendance);
    [apply sample_sizes..|apply sample_ok].
Defined.

Lemma processGuardData_sorted_witness :
  StronglySorted (key_le score_key) sample_profiles.
Proof.
  apply (processGuardData_sorted sample_day sample_attendance);
    [apply sample_sizes..|apply sample_ok].
Defined.

(** The worked example of the specification: two shifts at two posts,
    one on time, and no activity give the score 35. *)
Theorem performanceScore_example :
  GuardMetrics.performanceScore <$>
    (GuardProfile.metrics <$>
       profiles_of []
         [ attendance_row "2024-10-19" "G One" "G1" "Gate A" "On-time" "";
           attendance_row "2024-10-19" "G One" "G1" "Gate B" "Late" "" ])
  = [Num.of_nat 35].
Proof. vm_compute. reflexivity. Qed.

(** Guards with equal scores do not keep the order in which the
    rows met them when their service numbers are integers: [Object.values]
    lists integer keys first, in ascending order. *)
Theorem ties_not_in_encounter_order :
  GuardProfile.id <$> profiles_of [] numbered_attendance = ["3"; "20"] ∧
  GuardMetrics.performanceScore <$>
    (GuardProfile.metrics <$> profiles_of [] numbered_attendance)
  = [Num.of_nat 40; Num.of_nat 40].
Proof. vm_compute. done. Qed.

