(* ===== verification/Locations.v ===== *)
(** * Location aggregation ([processLocationCoverage], compliance dashboard)

    One [forEach] pass over the attendance rows fills the object
    [locationMetrics], keyed by the [Post Name] cell; [Object.values] of it
    is mapped to the final profiles and sorted by descending coverage rate.

    The callback of the final [map] reads [location.guards.length] on the
    accumulator entry, whose [guards] is still the [Set]: the [guardCount] of
    every profile is [undefined], here [None].

    What the pass promises is the finite map [location_ledger]: one entry
    per post, made from the rows of that post alone
    ([processLocationCoverage_refines]). *)

From Stdlib Require Import Sorting.Sorted.
From S2P Require Import Prelude JSNumber Binary64 JSString JSObject JSArray.
From S2P Require Import Upsert Ledger Row Guards.

Module LocShifts.
Record t : Type := mk { total : nat; covered : nat; onTime : nat }.
End LocShifts.

(** An entry of [locationMetrics] while the pass runs. *)
Module Loc.
Record t : Type := mk {
  location : string;
  shifts : LocShifts.t;
  guards : JSSet.t string;
  shiftHours : number
}.
End Loc.

Module LocMetrics.
Record t : Type := mk {
  coverageRate : number;
  punctualityRate : number;
  guardCount : option nat;
  averageShiftHours : number
}.
End LocMetrics.

(** An element of the array [processLocationCoverage] returns. *)
Module LocProfile.
Record t : Type := mk {
  location : string;
  shifts : LocShifts.t;
  guards : list string;
  shiftHours : number;
  metrics : LocMetrics.t
}.
End LocProfile.

Definition new_location (location : string) : Loc.t :=
  {| Loc.location := location;
     Loc.shifts := LocShifts.mk 0 0 0;
     Loc.guards := JSSet.empty;
     Loc.shiftHours := Num.zero |}.

(** The updates of one attendance row on the entry of its post. *)
Definition record_post (record : row) (m : Loc.t) : Loc.t :=
  let s := Loc.shifts m in
  match cell record Col.FullName with
  | Some name =>
      if String.eqb name ""
      then {| Loc.location := Loc.location m;
              Loc.shifts := LocShifts.mk (LocShifts.total s + 1)
                              (LocShifts.covered s) (LocShifts.onTime s);
              Loc.guards := Loc.guards m;
              Loc.shiftHours := Loc.shiftHours m |}
      else {| Loc.location := Loc.location m;
              Loc.shifts :=
                LocShifts.mk (LocShifts.total s + 1) (LocShifts.covered s + 1)
                  (LocShifts.onTime s +
                     if Str.eqb (cell record Col.LateHours) "On-time"
                     then 1 else 0);
              Loc.guards := JSSet.add (Loc.guards m) name;
              Loc.shiftHours := add_duty_hours record (Loc.shiftHours m) |}
  | None =>
      {| Loc.location := Loc.location m;
         Loc.shifts := LocShifts.mk (LocShifts.total s + 1)
                         (LocShifts.covered s) (LocShifts.onTime s);
         Loc.guards := Loc.guards m;
         Loc.shiftHours := Loc.shiftHours m |}
  end.

(** The body of [data.forEach]. *)
Definition location_step (locationMetrics : Obj.t Loc.t) (record : row)
  : res (Obj.t Loc.t) :=
  match cell record Col.PostName with
  | Some location =>
      if String.eqb location "" then Ok locationMetrics
      else
        match Obj.get locationMetrics location with
        | Obj.Undefined =>
            Ok (Obj.set locationMetrics location
                  (record_post record (new_location location)))
        | Obj.Own m => Ok (Obj.set locationMetrics location (record_post record m))
        | Obj.Inherited => Throw (TypeError "total")
        end
  | None => Ok locationMetrics
  end.

(** [Math.round((covered / total) * 100)], with no test of [total]. *)
Definition coverageRate (m : Loc.t) : number :=
  Num.round (Num.mul (Num.div (Num.of_nat (LocShifts.covered (Loc.shifts m)))
                              (Num.of_nat (LocShifts.total (Loc.shifts m))))
                     (Num.of_nat 100)).

Definition punctualityRate (m : Loc.t) : number :=
  rate (LocShifts.onTime (Loc.shifts m)) (LocShifts.covered (Loc.shifts m)).

(** [covered > 0 ? Math.round((shiftHours / covered) * 10) / 10 : 0] *)
Definition averageShiftHours (m : Loc.t) : number :=
  if 0 <? LocShifts.covered (Loc.shifts m)
  then Num.div
         (Num.round (Num.mul (Num.div (Loc.shiftHours m)
                                      (Num.of_nat (LocShifts.covered (Loc.shifts m))))
                             (Num.of_nat 10)))
         (Num.of_nat 10)
  else Num.zero.

Definition location_metrics (m : Loc.t) : LocMetrics.t :=
  {| LocMetrics.coverageRate := coverageRate m;
     LocMetrics.punctualityRate := punctualityRate m;
     LocMetrics.guardCount := JSSet.length_property (Loc.guards m);
     LocMetrics.averageShiftHours := averageShiftHours m |}.

(** The callback of [Object.values(locationMetrics).map]. *)
Definition location_profile (m : Loc.t) : LocProfile.t :=
  {| LocProfile.location := Loc.location m;
     LocProfile.shifts := Loc.shifts m;
     LocProfile.guards := JSSet.to_array (Loc.guards m);
     LocProfile.shiftHours := Loc.shiftHours m;
     LocProfile.metrics := location_metrics m |}.

(** [(a, b) => b.metrics.coverageRate - a.metrics.coverageRate] *)
Definition by_coverage_desc (a b : LocProfile.t) : number :=
  Num.sub (LocMetrics.coverageRate (LocProfile.metrics b))
          (LocMetrics.coverageRate (LocProfile.metrics a)).

Definition locationMetrics (data : list row) : res (Obj.t Loc.t) :=
  foldM location_step data Obj.empty.

Definition processLocationCoverage (data : list row) : res (list LocProfile.t) :=
  lm ← locationMetrics data;
  Ok (Arr.sort by_coverage_desc (location_profile <$> Obj.values lm)).

(** ** The pass as a keyed aggregation *)

(** The post a row is counted for. *)
Definition post_key (record : row) : option string :=
  match cell record Col.PostName with
  | Some location => if String.eqb location "" then None else Some location
  | None => None
  end.

(** The entry a row creates. *)
Definition seed_location (record : row) : Loc.t :=
  new_location (default "" (cell record Col.PostName)).

(** The object the pass builds when it does not throw. *)
Definition locations_of (data : list row) : Obj.t Loc.t :=
  fold_left (upsert_pure post_key seed_location record_post) data Obj.empty.

(** The abstract result of the pass: the entry of each post. *)
Definition location_ledger (data : list row) : gmap string Loc.t :=
  ledger post_key seed_location record_post data.

(** [record['Full Name']] is truthy: the shift has a guard. *)
Definition staffed (record : row) : bool := Str.truthy (cell record Col.FullName).

(** What the counters and the set of a location satisfy. *)
Definition location_ok (m : Loc.t) : Prop :=
  LocShifts.onTime (Loc.shifts m) ≤ LocShifts.covered (Loc.shifts m) ∧
  LocShifts.covered (Loc.shifts m) ≤ LocShifts.total (Loc.shifts m) ∧
  1 ≤ LocShifts.total (Loc.shifts m) ∧
  JSSet.size (Loc.guards m) ≤ LocShifts.covered (Loc.shifts m) ∧
  NoDup (Loc.guards m).

(** The key that orders the profiles: the coverage rate, highest first. *)
Definition coverage_key (p : LocProfile.t) : Z :=
  (- to_Z (LocMetrics.coverageRate (LocProfile.metrics p)))%Z.

(** ** Properties *)

Lemma location_step_upsert o r :
  location_step o r =
  upsert post_key seed_location record_post (TypeError "total") o r.
Proof.
  unfold location_step, upsert, post_key, seed_location.
  destruct (cell r Col.PostName) as [location|]; [|done].
  by destruct (String.eqb location "").
Qed.

Lemma locationMetrics_eq data :
  locationMetrics data =
  if existsb (poison post_key) data then Throw (TypeError "total")
  else Ok (locations_of data).
Proof.
  unfold locationMetrics. rewrite (foldM_ext _ _ _ _ location_step_upsert).
  apply foldM_upsert, own_ok_empty.
Qed.

Lemma processLocationCoverage_unfold data :
  processLocationCoverage data =
  if existsb (poison post_key) data then Throw (TypeError "total")
  else Ok (Arr.sort by_coverage_desc
             (location_profile <$> Obj.values (locations_of data))).
Proof.
  unfold processLocationCoverage. rewrite locationMetrics_eq.
  by destruct (existsb _ data).
Qed.

(** [processLocationCoverage] throws exactly when a row carries a
    post name that names a property of [Object.prototype]. *)
Theorem processLocationCoverage_throws_iff data :
  (∃ e, processLocationCoverage data = Throw e) ↔
  ∃ r k, r ∈ data ∧ post_key r = Some k ∧ Obj.inherited k = true.
Proof.
  rewrite processLocationCoverage_unfold, <- poison_exists.
  destruct (existsb _ data); split; intros H; try done; [by eexists|by destruct H].
Qed.

Lemma record_post_ok r m :
  LocShifts.onTime (Loc.shifts m) ≤ LocShifts.covered (Loc.shifts m) →
  LocShifts.covered (Loc.shifts m) ≤ LocShifts.total (Loc.shifts m) →
  JSSet.size (Loc.guards m) ≤ LocShifts.covered (Loc.shifts m) →
  NoDup (Loc.guards m) →
  location_ok (record_post r m).
Proof.
  intros H1 H2 H3 H4. unfold location_ok, record_post.
  destruct (cell r Col.FullName) as [name|]; [|simpl; split_and!; done || lia].
  destruct (String.eqb name ""); [simpl; split_and!; done || lia|].
  pose proof (add_size (Loc.guards m) name).
  destruct (Str.eqb _ _); simpl; split_and!; try lia; by apply add_NoDup.
Qed.

Lemma locations_of_ok data : all location_ok (locations_of data).
Proof.
  apply fold_upsert_all; [| |constructor].
  - intros r m (? & ? & ? & ? & ?). by apply record_post_ok.
  - intros r. apply record_post_ok; simpl; try lia. constructor.
Qed.

Lemma locations_of_NoDup data : NoDup (Obj.keys (locations_of data)).
Proof. apply fold_upsert_NoDup. constructor. Qed.

Lemma record_post_location r m : Loc.location (record_post r m) = Loc.location m.
Proof.
  unfold record_post. destruct (cell r Col.FullName) as [name|]; [|done].
  by destruct (String.eqb name "").
Qed.

Lemma post_key_seed r k : post_key r = Some k → Loc.location (seed_location r) = k.
Proof.
  unfold post_key, seed_location. destruct (cell r Col.PostName); [|done].
  case_match; [done|]. by intros [= ->].
Qed.

Lemma locations_of_keyed data : keyed_by Loc.location (locations_of data).
Proof.
  apply (fold_left_inv (keyed_by Loc.location)); [|done].
  intros; apply upsert_pure_keyed;
    [apply record_post_location|apply post_key_seed|done].
Qed.

(** Every profile of the result is the profile of an entry, stored under
    its own post name. *)
Lemma processLocationCoverage_elem data ls p :
  processLocationCoverage data = Ok ls → p ∈ ls →
  ∃ m, Obj.get_own (locations_of data) (Loc.location m) = Some m ∧
       p = location_profile m.
Proof.
  rewrite processLocationCoverage_unfold. destruct (existsb _ data); [done|].
  intros [= <-] Hp%sort_elem_of.
  apply list_elem_of_fmap in Hp as (m & -> & (k & Hk)%elem_of_values).
  apply get_own_elem in Hk; [|apply locations_of_NoDup].
  exists m. by rewrite (locations_of_keyed data k m Hk).
Qed.

(** In every location of the result the on-time shifts are at most
    the covered ones, the covered ones at most the total, the total is at
    least one, and the guards are distinct and at most the covered
    shifts. *)
Theorem processLocationCoverage_entries_ok data ls :
  processLocationCoverage data = Ok ls →
  Forall (λ p, ∃ m, p = location_profile m ∧ location_ok m) ls.
Proof.
  intros Hls. apply Forall_forall. intros p Hp.
  destruct (processLocationCoverage_elem data ls p Hls Hp) as (m & Hm & ->).
  exists m. split; [done|]. by eapply all_get_own, Hm; apply locations_of_ok.
Qed.

(** There are at most as many profiles as rows. *)
Lemma processLocationCoverage_length data ls :
  processLocationCoverage data = Ok ls → length ls ≤ length data.
Proof.
  rewrite processLocationCoverage_unfold. case_match; [done|]. intros [= <-].
  rewrite sort_length, length_fmap, values_length.
  etrans; [apply fold_upsert_size|]. simpl. lia.
Qed.

(** No two profiles of the result have the same post name. *)
Lemma processLocationCoverage_names data ls :
  processLocationCoverage data = Ok ls → NoDup (LocProfile.location <$> ls).
Proof.
  rewrite processLocationCoverage_unfold. case_match; [done|]. intros [= <-].
  rewrite sort_perm, <- list_fmap_compose.
  apply (keyed_values_NoDup Loc.location);
    [apply locations_of_keyed|apply locations_of_NoDup].
Qed.

Lemma locations_of_counter (μ : Loc.t → nat) (flag : row → bool) data k m :
  (∀ r v, μ (record_post r v) = μ v + (if flag r then 1 else 0)) →
  (∀ r, μ (seed_location r) = 0) →
  Obj.get_own (locations_of data) k = Some m →
  μ m = count_if (λ r, hits post_key k r && flag r) data.
Proof.
  intros Hupd Hseed Hm.
  assert (counter_at μ k (locations_of data) = μ m) as <-
    by (unfold counter_at; by rewrite Hm).
  unfold locations_of. by rewrite (counter_fold_upsert _ _ _ μ flag Hupd).
Qed.

Ltac post_side :=
  first
    [ assumption
    | intros; unfold record_post, staffed, punctual, Str.truthy; simpl;
      repeat case_match; simpl in *; try done; lia ].

Lemma location_counts data k m :
  Obj.get_own (locations_of data) k = Some m →
  LocShifts.total (Loc.shifts m) = count_if (hits post_key k) data ∧
  LocShifts.covered (Loc.shifts m) =
    count_if (λ r, hits post_key k r && staffed r) data ∧
  LocShifts.onTime (Loc.shifts m) =
    count_if (λ r, hits post_key k r && (staffed r && punctual r)) data.
Proof.
  intros Hm. split_and!.
  - rewrite (locations_of_counter (λ m, LocShifts.total (Loc.shifts m))
               (λ _, true) data k m) by post_side.
    apply count_if_ext. intros; apply andb_true_r.
  - by rewrite (locations_of_counter (λ m, LocShifts.covered (Loc.shifts m))
                  staffed data k m) by post_side.
  - by rewrite (locations_of_counter (λ m, LocShifts.onTime (Loc.shifts m))
                  (λ r, staffed r && punctual r) data k m) by post_side.
Qed.

(** C3: the counters of a location in the result count the rows of its
    post: all of them in [total], those with a guard in [covered], those
    with a guard who was on time in [onTime]. *)
Theorem processLocationCoverage_counts data ls p (k := LocProfile.location p) :
  processLocationCoverage data = Ok ls → p ∈ ls →
  LocShifts.total (LocProfile.shifts p) = count_if (hits post_key k) data ∧
  LocShifts.covered (LocProfile.shifts p) =
    count_if (λ r, hits post_key k r && staffed r) data ∧
  LocShifts.onTime (LocProfile.shifts p) =
    count_if (λ r, hits post_key k r && (staffed r && punctual r)) data.
Proof.
  intros Hls Hp. destruct (processLocationCoverage_elem data ls p Hls Hp) as (m & Hm & ->).
  by apply location_counts.
Qed.

Lemma locations_of_keys data k :
  k ∈ Obj.keys (locations_of data) ↔ ∃ r, r ∈ data ∧ post_key r = Some k.
Proof.
  unfold locations_of. rewrite fold_upsert_keys.
  split; [intros [[]%elem_of_nil|]; done|by right].
Qed.

(** The locations of the result are exactly the post names of the
    rows. *)
Theorem processLocationCoverage_locations data ls k :
  processLocationCoverage data = Ok ls →
  (∃ p, p ∈ ls ∧ LocProfile.location p = k) ↔
  (∃ r, r ∈ data ∧ post_key r = Some k).
Proof.
  intros Hls. rewrite <- locations_of_keys. split.
  - intros (p & Hp & <-).
    destruct (processLocationCoverage_elem data ls p Hls Hp) as (m & Hm & ->).
    simpl. destruct (decide (Loc.location m ∈ Obj.keys (locations_of data)))
      as [|Hn]; [done|]. apply get_own_None in Hn. congruence.
  - intros Hk.
    destruct (Obj.get_own (locations_of data) k) as [m|] eqn:E;
      [|by apply get_own_None in E].
    exists (location_profile m). split; [|by apply (locations_of_keyed data)].
    rewrite processLocationCoverage_unfold in Hls. destruct (existsb _ data); [done|].
    injection Hls as <-. apply sort_elem_of, list_elem_of_fmap. exists m.
    split; [done|]. apply elem_of_values. exists k. by apply get_own_Some_elem.
Qed.

(** ** The pass implements its specification *)

(** C10: The profiles of the result are those of the entries of the ledger, and
    the entry of a post is made from the rows of that post alone: the
    first creates it, and each in turn is recorded in it. *)
Theorem processLocationCoverage_refines data ls :
  processLocationCoverage data = Ok ls →
  ls ≡ₚ location_profile <$> (map_to_list (location_ledger data)).*2 ∧
  ∀ k, location_ledger data !! k =
       entry_of seed_location record_post (rows_of post_key k data).
Proof.
  rewrite processLocationCoverage_unfold. case_match; [done|]. intros [= <-].
  split; [|apply ledger_lookup].
  rewrite sort_perm. unfold locations_of, location_ledger. by rewrite values_ledger.
Qed.

(** Two exports with the same rows under every post give the same
    exception or the same profiles, up to the order of equal rates. *)
#[export] Instance processLocationCoverage_proper :
  Proper (same_rows post_key ==> res_rel (≡ₚ)) processLocationCoverage.
Proof.
  intros data data' E. rewrite !processLocationCoverage_unfold.
  rewrite (poison_same_rows _ _ _ E). case_match; [done|]. simpl.
  unfold locations_of. by rewrite !sort_perm, !values_ledger, E.
Qed.

(** ** Rates *)

Lemma coverageRate_percentage m n :
  (Z.of_nat n < 2 ^ 32)%Z → location_ok m → LocShifts.total (Loc.shifts m) ≤ n →
  percentage (coverageRate m) ∧ percentage (punctualityRate m).
Proof.
  intros Hn (H1 & H2 & H3 & _) Hle. split.
  - apply percent_round; [done..|apply small_counter; lia|apply small_100].
  - apply rate_percentage; [done|apply small_counter; lia].
Qed.

Lemma processLocationCoverage_percentages data ls p :
  array_size data → processLocationCoverage data = Ok ls → p ∈ ls →
  percentage (LocMetrics.coverageRate (LocProfile.metrics p)) ∧
  percentage (LocMetrics.punctualityRate (LocProfile.metrics p)).
Proof.
  unfold array_size. intros Hn Hls Hp.
  destruct (processLocationCoverage_elem data ls p Hls Hp) as (m & Hm & ->).
  apply (coverageRate_percentage m (length data)); [done| |].
  - eapply all_get_own, Hm. apply locations_of_ok.
  - destruct (location_counts data _ m Hm) as (-> & _). apply count_if_le_length.
Qed.

(** The coverage rate and the punctuality rate of every location are
    integers from 0 to 100; the division by [total] that the code does not
    guard never sees a zero. *)
Theorem processLocationCoverage_rates data ls :
  array_size data → processLocationCoverage data = Ok ls →
  Forall (λ p,
    percentage (LocMetrics.coverageRate (LocProfile.metrics p)) ∧
    percentage (LocMetrics.punctualityRate (LocProfile.metrics p))) ls.
Proof.
  intros Hn Hls. apply Forall_forall. intros p Hp.
  exact (processLocationCoverage_percentages data ls p Hn Hls Hp).
Qed.

(** The result is in descending order of the coverage rate. *)
Theorem processLocationCoverage_sorted data ls :
  array_size data → processLocationCoverage data = Ok ls →
  StronglySorted (key_le coverage_key) ls.
Proof.
  intros Hn Hls.
  assert (Forall (λ p, percentage (LocMetrics.coverageRate (LocProfile.metrics p))) ls)
    as Hall.
  { apply Forall_forall. intros p Hp.
    by destruct (processLocationCoverage_percentages data ls p Hn Hls Hp). }
  rewrite processLocationCoverage_unfold in Hls. destruct (existsb _ data); [done|].
  injection Hls as <-.
  apply (sort_sorted by_coverage_desc _ coverage_key
           (desc_keyed (λ p, LocMetrics.coverageRate (LocProfile.metrics p)))).
  by rewrite <- (sort_perm by_coverage_desc).
Qed.

(** ** Concrete runs *)

Local Open Scope string_scope.

Definition locations_of_rows (data : list row) : list LocProfile.t :=
  match processLocationCoverage data with
  | Ok ls => ls
  | Throw _ => []
  end.

(** A day with a shift nobody took. *)
Definition sample_posts : list row :=
  sample_attendance ++
  [ attendance_row "2024-10-19" "" "" "Gate C" "" "" ].

Definition sample_locations : list LocProfile.t :=
  Eval vm_compute in locations_of_rows sample_posts.

Definition sample_location : LocProfile.t :=
  Eval vm_compute in
    nth 0 sample_locations (location_profile (new_location "")).

Lemma sample_posts_ok : processLocationCoverage sample_posts = Ok sample_locations.
Proof. vm_compute. reflexivity. Qed.

Lemma sample_location_elem : sample_location ∈ sample_locations.
Proof. apply list_elem_of_here. Qed.

Lemma sample_posts_size : array_size sample_posts.
Proof. by vm_compute. Qed.

Lemma processLocationCoverage_entries_ok_witness :
  Forall (λ p, ∃ m, p = location_profile m ∧ location_ok m) sample_locations.
Proof. apply (processLocationCoverage_entries_ok sample_posts), sample_posts_ok. Defined.

Lemma processLocationCoverage_refines_witness :
  sample_locations ≡ₚ
    location_profile <$> (map_to_list (location_ledger sample_posts)).*2 ∧
  ∀ k, location_ledger sample_posts !! k =
       entry_of seed_location record_post (rows_of post_key k sample_posts).
Proof. apply processLocationCoverage_refines, sample_posts_ok. Defined.

Lemma processLocationCoverage_counts_witness :
  LocShifts.total (LocProfile.shifts sample_location) =
    count_if (hits post_key (LocProfile.location sample_location)) sample_posts ∧
  LocShifts.covered (LocProfile.shifts sample_location) =
    count_if (λ r, hits post_key (LocProfile.location sample_location) r
                   && staffed r) sample_posts ∧
  LocShifts.onTime (LocProfile.shifts sample_location) =
    count_if (λ r, hits post_key (LocProfile.location sample_location) r
                   && (staffed r && punctual r)) sample_posts.
Proof.
  apply (processLocationCoverage_counts sample_posts sample_locations);
    [apply sample_posts_ok|apply sample_location_elem].
Defined.

Lemma processLocationCoverage_locations_witness :
  (∃ p, p ∈ sample_locations ∧ LocProfile.location p = "Gate C") ↔
  (∃ r, r ∈ sample_posts ∧ post_key r = Some "Gate C").
Proof. apply (processLocationCoverage_locations sample_posts), sample_posts_ok. Defined.

Lemma processLocationCoverage_rates_witness :
  Forall (λ p,
    percentage (LocMetrics.coverageRate (LocProfile.metrics p)) ∧
    percentage (LocMetrics.punctualityRate (LocProfile.metrics p)))
    sample_locations.
Proof.
  apply (processLocationCoverage_rates sample_posts);
    [apply sample_posts_size|apply sample_posts_ok].
Defined.

Lemma processLocationCoverage_sorted_witness :
  StronglySorted (key_le coverage_key) sample_locations.
Proof.
  apply (processLocationCoverage_sorted sample_posts);
    [apply sample_posts_size|apply sample_posts_ok].
Defined.
