(* ===== verification/Hours.v ===== *)
(** * Hours: the duty hours of guards and posts

    Both aggregations of the compliance dashboard
    ([src/unnamed/part_001]) add up the [Duty Hours] cells of the
    attendance rows: [processGuardData] for each guard (lines 113-118),
    [processLocationCoverage] for each post, on the rows that name a guard
    (lines 208-213).  A cell counts when it is not empty and [parseFloat]
    makes a number of it.  The location pass also returns the average per
    covered shift, rounded to one decimal (lines 225-226), which the
    locations tab shows.

    - [duty_hours] is what one row credits and [hours_sum] the sum of the
      credits of some rows, added from 0 in binary64 arithmetic in the
      order of the export.  The hours of a guard are the [hours_sum] of
      its attendance rows, whatever its activity rows hold
      ([guard_hours]); the hours of a post are that of its rows with a
      guard ([location_hours]).
    - The test [!isNaN(hours)] keeps the sums numbers as long as no cell
      has a minus sign: then the hours of every guard and post and the
      average of every post are non-negative numbers or [+Infinity]
      ([hours_are_numbers]).  With signs they need not be: the two
      infinities pass the test and add up to [NaN]
      ([signed_hours_are_no_number]).
    - When, in addition, no cell holds more than [hmax] hours, the hours of
      a post are at most [hmax] per covered shift, and the average is a
      whole number of tenths from 0 to [hmax]
      ([average_hours_in_range]).  The bound [hmax <= 2^20] with fewer
      than [2^32] rows keeps every sum below [2^53], where the integers
      the bound is stated with are exact. *)

From stdpp Require Import base list strings gmap.
From S2P Require Import Prelude JSNumber Binary64 JSString Amounts JSObject JSArray.
From S2P Require Import Upsert Ledger Row Hourly Guards Locations.

(** ** The sum the passes compute *)

(** The hours a row credits: those of a cell that is not empty and parses
    to a number. *)
Definition duty_hours (record : row) : option number :=
  match cell record Col.DutyHours with
  | Some s =>
      if String.eqb s "" then None
      else if Num.isNaN (Str.parseFloat s) then None
      else Some (Str.parseFloat s)
  | None => None
  end.

(** The credits of some rows, added from 0 in the order of the rows. *)
Definition hours_sum (rs : list row) : number :=
  fold_left Num.add (omap duty_hours rs) Num.zero.

(** The update of the location pass on the hours of a post. *)
Definition add_staffed_hours (record : row) (acc : number) : number :=
  if staffed record then add_duty_hours record acc else acc.

Lemma add_duty_hours_credit r acc :
  add_duty_hours r acc = from_option (Num.add acc) acc (duty_hours r).
Proof.
  unfold add_duty_hours, duty_hours. destruct (cell r Col.DutyHours) as [s|]; [|done].
  destruct (String.eqb s ""); [done|]. by destruct (Num.isNaN _).
Qed.

Lemma fold_duty_hours rs acc :
  fold_left (λ a r, add_duty_hours r a) rs acc =
  fold_left Num.add (omap duty_hours rs) acc.
Proof.
  revert acc. induction rs as [|r rs IH]; intros acc; simpl; [done|].
  rewrite IH, add_duty_hours_credit. by destruct (duty_hours r).
Qed.

Lemma fold_staffed_hours rs acc :
  fold_left (λ a r, add_staffed_hours r a) rs acc =
  fold_left Num.add (omap duty_hours (filter (λ r, staffed r = true) rs)) acc.
Proof.
  revert acc. induction rs as [|r rs IH]; intros acc; simpl; [done|].
  rewrite IH. unfold add_staffed_hours. destruct (staffed r) eqn:E.
  - rewrite filter_cons_True by done. simpl.
    rewrite add_duty_hours_credit. by destruct (duty_hours r).
  - rewrite filter_cons_False; [done|]. by rewrite E.
Qed.

Lemma record_post_hours r m :
  Loc.shiftHours (record_post r m) = add_staffed_hours r (Loc.shiftHours m).
Proof.
  unfold record_post, add_staffed_hours, staffed, Str.truthy.
  destruct (cell r Col.FullName) as [name|]; [|done]. by destruct (String.eqb name "").
Qed.

(** ** The hours of a guard and of a post *)

Lemma guards_of_hours act att k g :
  Obj.get_own (guards_of act att) k = Some g →
  Guard.shiftHours g = hours_sum (rows_of attendance_key k att).
Proof.
  rewrite <- obj_map_get_own, guards_of_refines. unfold guard_ledger.
  rewrite fold_amend_lookup, ledger_lookup.
  destruct (entry_of _ _ _) as [g0|] eqn:E; [|done]. intros [= <-].
  rewrite (tally_kept record_activity Guard.shiftHours) by done.
  rewrite (entry_field seed record_shift Guard.shiftHours
             (λ r a, add_duty_hours r a) (λ _ _, eq_refl) Num.zero _ _ (λ _, eq_refl) E).
  apply fold_duty_hours.
Qed.

Lemma locations_of_hours data k m :
  Obj.get_own (locations_of data) k = Some m →
  Loc.shiftHours m = hours_sum (filter (λ r, staffed r = true) (rows_of post_key k data)).
Proof.
  rewrite <- obj_map_get_own. unfold locations_of. rewrite upsert_refines, ledger_lookup.
  intros E.
  rewrite (entry_field seed_location record_post Loc.shiftHours
             add_staffed_hours record_post_hours Num.zero _ _ (λ _, eq_refl) E).
  apply fold_staffed_hours.
Qed.

(** C20: The hours of a guard are the credits of its attendance rows, added in
    the order of the export; no activity row changes them, and a cell that
    is empty or is no number credits nothing. *)
Theorem guard_hours act att gs p :
  processGuardData act att = Ok gs → p ∈ gs →
  GuardProfile.shiftHours p =
  hours_sum (rows_of attendance_key (GuardProfile.id p) att).
Proof.
  intros Hgs Hp. destruct (processGuardData_elem act att gs p Hgs Hp) as (g & Hg & ->).
  exact (guards_of_hours act att _ g Hg).
Qed.

(** C25: The hours of a post are the credits of its rows that name a guard,
    added in the order of the export; a row of the post without a guard
    credits nothing, whatever its cell holds. *)
Theorem location_hours data ls p :
  processLocationCoverage data = Ok ls → p ∈ ls →
  LocProfile.shiftHours p =
  hours_sum (filter (λ r, staffed r = true)
                    (rows_of post_key (LocProfile.location p) data)).
Proof.
  intros Hls Hp. destruct (processLocationCoverage_elem data ls p Hls Hp) as (m & Hm & ->).
  exact (locations_of_hours data _ m Hm).
Qed.

(** ** Sums of amounts and of bounded numbers *)

(** What is asked of a row for the sums to be numbers: no minus sign in
    its [Duty Hours] cell. *)
Definition unsigned_hours (record : row) : bool :=
  from_option unsigned true (cell record Col.DutyHours).

(** What is asked of a row for the sums to be bounded: the cell has no
    minus sign and the hours it credits are at most [hmax]. *)
Definition within (hmax : nat) (record : row) : bool :=
  match duty_hours record with
  | Some h => unsigned_hours record && Num.leb h (Num.of_nat hmax)
  | None => true
  end.

Lemma credit_amount r h :
  unsigned_hours r = true → duty_hours r = Some h → amount h.
Proof.
  unfold unsigned_hours, duty_hours. destruct (cell r Col.DutyHours) as [s|]; [|done].
  simpl. intros Hs. destruct (String.eqb s ""); [done|].
  destruct (Num.isNaN _) eqn:E; [done|]. intros [= <-].
  destruct (parseFloat_unsigned s Hs) as [H|H]; [|done]. by rewrite H in E.
Qed.

Lemma credit_bounded hmax r h :
  small hmax → within hmax r = true → duty_hours r = Some h → bounded h hmax.
Proof.
  unfold within. intros Hs Hw Hh. rewrite Hh in Hw.
  apply andb_prop in Hw as [Hu Hle].
  by apply amount_leb_bounded; [|apply (credit_amount r)|].
Qed.

Lemma credits_amount rs :
  Forall (λ r, unsigned_hours r = true) rs → Forall amount (omap duty_hours rs).
Proof.
  intros Hrs. apply Forall_forall. intros h (r & Hr & Hh)%list_elem_of_omap.
  rewrite Forall_forall in Hrs. apply (credit_amount r); auto.
Qed.

Lemma credits_bounded hmax rs :
  small hmax → Forall (λ r, within hmax r = true) rs →
  Forall (λ h, bounded h hmax) (omap duty_hours rs).
Proof.
  intros Hs Hrs. apply Forall_forall. intros h (r & Hr & Hh)%list_elem_of_omap.
  rewrite Forall_forall in Hrs. apply (credit_bounded hmax r); auto.
Qed.

Lemma hours_sum_amount rs :
  Forall (λ r, unsigned_hours r = true) rs → amount (hours_sum rs).
Proof. intros Hrs. by apply fold_add_amount, credits_amount; [apply amount_zero|]. Qed.

Lemma hours_sum_bounded hmax rs :
  small (hmax * length rs) → small hmax →
  Forall (λ r, within hmax r = true) rs →
  bounded (hours_sum rs) (hmax * length rs).
Proof.
  intros Hn Hs Hrs. pose proof (length_omap_le duty_hours rs) as Hlen.
  apply (bounded_weaken _ (0 + hmax * length (omap duty_hours rs))); [nia|].
  apply fold_add_bounded; [by apply credits_bounded|apply bounded_zero|].
  eapply small_le, Hn. nia.
Qed.

(** ** The average per covered shift *)

Lemma small_size n : (Z.of_nat n < 2 ^ 32)%Z → small n.
Proof. intros Hn. apply small_counter. lia. Qed.

Lemma small_10 : small 10.
Proof. by apply small_size. Qed.

Lemma average_amount m :
  amount (Loc.shiftHours m) → small (LocShifts.covered (Loc.shifts m)) →
  amount (averageShiftHours m).
Proof.
  intros Ha Hc. unfold averageShiftHours.
  destruct (Nat.ltb_spec 0 (LocShifts.covered (Loc.shifts m))); [|apply amount_zero].
  apply div_amount; [|lia|apply small_10].
  apply round_amount, mul_amount; [|lia|apply small_10]. by apply div_amount.
Qed.

Lemma average_tenths hmax m (c := LocShifts.covered (Loc.shifts m)) :
  bounded (Loc.shiftHours m) (hmax * c) → small c → small (hmax * 10) →
  ∃ k, k ≤ hmax * 10 ∧
       averageShiftHours m = Num.div (Num.of_nat k) (Num.of_nat 10).
Proof.
  intros Hb Hc Hs. subst c. unfold averageShiftHours.
  destruct (Nat.ltb_spec 0 (LocShifts.covered (Loc.shifts m))) as [Hpos|];
    [|exists 0; split; [lia|done]].
  destruct (bounded_round
              (Num.mul (Num.div (Loc.shiftHours m)
                          (Num.of_nat (LocShifts.covered (Loc.shifts m))))
                       (Num.of_nat 10)) (hmax * 10)) as (k & Hk & ->); [|by exists k].
  apply bounded_mul; [|apply small_10|done].
  apply bounded_div_by; [done..|]. eapply small_le, Hs. lia.
Qed.

(** The rows behind the hours of a post: as many as its covered shifts,
    all of them rows of the export. *)
Lemma covered_rows data k m (rs := filter (λ r, staffed r = true) (rows_of post_key k data)) :
  Obj.get_own (locations_of data) k = Some m →
  length rs = LocShifts.covered (Loc.shifts m) ∧ rs ⊆ data ∧
  LocShifts.covered (Loc.shifts m) ≤ length data.
Proof.
  intros Hm. subst rs. destruct (location_counts data k m Hm) as (_ & -> & _).
  split_and!.
  - rewrite rows_of_hits. apply (count_if_filter (hits post_key k) staffed).
  - etrans; apply filter_within.
  - apply count_if_le_length.
Qed.

(** ** When the hours are numbers *)

(** C40: When no [Duty Hours] cell of the attendance rows has a minus sign, the
    hours of every guard and of every post, and the average of every post,
    are non-negative numbers or [+Infinity]: none is [NaN]. *)
Theorem hours_are_numbers act att gs ls :
  array_size att → Forall (λ r, unsigned_hours r = true) att →
  processGuardData act att = Ok gs → processLocationCoverage att = Ok ls →
  Forall (λ p, amount (GuardProfile.shiftHours p)) gs ∧
  Forall (λ p, amount (LocProfile.shiftHours p) ∧
               amount (LocMetrics.averageShiftHours (LocProfile.metrics p))) ls.
Proof.
  intros Hn Hatt Hgs Hls. split; apply Forall_forall; intros p Hp.
  - destruct (processGuardData_elem act att gs p Hgs Hp) as (g & Hg & ->).
    cbn [guard_profile GuardProfile.shiftHours].
    rewrite (guards_of_hours act att _ g Hg). apply hours_sum_amount.
    eapply Forall_within, Hatt. apply filter_within.
  - destruct (processLocationCoverage_elem att ls p Hls Hp) as (m & Hm & ->).
    destruct (covered_rows att _ m Hm) as (_ & Hsub & Hle).
    assert (amount (Loc.shiftHours m)) as Ha.
    { rewrite (locations_of_hours att _ m Hm). apply hours_sum_amount.
      by eapply Forall_within, Hatt. }
    split; [done|]. apply average_amount; [done|]. apply small_size.
    unfold array_size in Hn. lia.
Qed.

(** ** When the hours are bounded *)

(** C39: When every [Duty Hours] cell that counts holds at most [hmax] hours
    and has no minus sign, the hours of a post are at most [hmax] for each
    of its covered shifts, and the average the locations tab shows is a
    number of tenths from 0 to [hmax]. *)
Theorem average_hours_in_range hmax data ls p :
  array_size data → (Z.of_nat hmax ≤ 2 ^ 20)%Z →
  Forall (λ r, within hmax r = true) data →
  processLocationCoverage data = Ok ls → p ∈ ls →
  bounded (LocProfile.shiftHours p)
          (hmax * LocShifts.covered (LocProfile.shifts p)) ∧
  ∃ k, k ≤ hmax * 10 ∧
       LocMetrics.averageShiftHours (LocProfile.metrics p) =
       Num.div (Num.of_nat k) (Num.of_nat 10).
Proof.
  unfold array_size. intros Hn Hmax Hdata Hls Hp.
  destruct (processLocationCoverage_elem data ls p Hls Hp) as (m & Hm & ->).
  destruct (covered_rows data _ m Hm) as (Hlen & Hsub & Hle).
  assert (2 ^ 20 * 2 ^ 32 < 2 ^ 53)%Z as Hpow by done.
  assert (bounded (Loc.shiftHours m) (hmax * LocShifts.covered (Loc.shifts m))) as Hb.
  { rewrite (locations_of_hours data _ m Hm), <- Hlen.
    apply hours_sum_bounded; [unfold small; nia|unfold small; lia|].
    by eapply Forall_within, Hdata. }
  split; [done|]. apply average_tenths; [done|apply small_size; lia|unfold small; lia].
Qed.

(** ** Concrete runs *)

Local Open Scope string_scope.

(** Two shifts of one guard at one post, credited with the two
    infinities. *)
Definition signed_attendance : list row :=
  [ attendance_row "2024-10-19" "Asha Rao" "G-1" "Gate A" "On-time" "Infinity";
    attendance_row "2024-10-19" "Asha Rao" "G-1" "Gate A" "On-time" "-Infinity" ].

(** The test [!isNaN(hours)] lets both cells through, and their sum is
    [NaN]: so are the hours of the guard and the average of the post. *)
Example signed_hours_are_no_number :
  GuardProfile.shiftHours <$> profiles_of [] signed_attendance = [Num.NaN] ∧
  (λ p, LocMetrics.averageShiftHours (LocProfile.metrics p)) <$>
    locations_of_rows signed_attendance = [Num.NaN].
Proof. by vm_compute. Qed.

(** The guard of [sample_attendance] with two shifts of 8 and 7.5 hours
    has 15.5; Gate A, with two shifts of 8 hours, averages 8. *)
Example sample_hours :
  hours_sum (rows_of attendance_key "G-1" sample_attendance) =
    Num.div (Num.of_nat 31) (Num.of_nat 2) ∧
  LocMetrics.averageShiftHours (LocProfile.metrics sample_location) = Num.of_nat 8.
Proof. by vm_compute. Qed.

Lemma sample_posts_within : Forall (λ r, within 24 r = true) sample_posts.
Proof. repeat (apply Forall_cons_2; [by vm_compute|]). apply Forall_nil_2. Defined.

Lemma sample_posts_unsigned : Forall (λ r, unsigned_hours r = true) sample_posts.
Proof. repeat (apply Forall_cons_2; [by vm_compute|]). apply Forall_nil_2. Defined.

Lemma guard_hours_witness :
  GuardProfile.shiftHours sample_guard =
  hours_sum (rows_of attendance_key (GuardProfile.id sample_guard) sample_attendance).
Proof.
  apply (guard_hours sample_day sample_attendance sample_profiles sample_guard);
    [apply sample_ok|apply sample_guard_elem].
Defined.

Lemma location_hours_witness :
  LocProfile.shiftHours sample_location =
  hours_sum (filter (λ r, staffed r = true)
                    (rows_of post_key (LocProfile.location sample_location)
                             sample_posts)).
Proof.
  apply (location_hours sample_posts sample_locations sample_location);
    [apply sample_posts_ok|apply sample_location_elem].
Defined.

Lemma average_hours_in_range_witness :
  bounded (LocProfile.shiftHours sample_location)
          (24 * LocShifts.covered (LocProfile.shifts sample_location))%nat ∧
  ∃ k : nat, (k ≤ 24 * 10)%nat ∧
       LocMetrics.averageShiftHours (LocProfile.metrics sample_location) =
       Num.div (Num.of_nat k) (Num.of_nat 10).
Proof.
  apply (average_hours_in_range 24 sample_posts sample_locations sample_location);
    [apply sample_posts_size|by vm_compute|apply sample_posts_within
    |apply sample_posts_ok|apply sample_location_elem].
Defined.

Lemma sample_posts_profiles : processGuardData sample_day sample_posts = Ok sample_profiles.
Proof. vm_compute. reflexivity. Qed.

Lemma hours_are_numbers_witness :
  Forall (λ p, amount (GuardProfile.shiftHours p)) sample_profiles ∧
  Forall (λ p, amount (LocProfile.shiftHours p) ∧
               amount (LocMetrics.averageShiftHours (LocProfile.metrics p)))
         sample_locations.
Proof.
  apply (hours_are_numbers sample_day sample_posts);
    [apply sample_posts_size|apply sample_posts_unsigned
    |apply sample_posts_profiles|apply sample_posts_ok].
Defined.
