(* ===== verification/Compliance.v ===== *)
(** * Compliance evaluation ([calculateComplianceMetrics])

    Every location and every guard is checked against three fixed
    thresholds; a check is the number 1 or 0.  The score of an entity is
    [Math.round(((c1 + c2 + c3) / 3) * 100)], and the overall score is the
    share of passed checks among all checks, computed with no test of the
    denominator.  The function takes the hourly buckets as its first
    argument and never reads them. *)

From S2P Require Import Prelude JSNumber Binary64 JSString JSObject JSArray.
From S2P Require Import Upsert Row Hourly Guards Locations.

Module LocCompliance.
Record t : Type := mk {
  location : string;
  coverageCompliance : nat;
  punctualityCompliance : nat;
  staffingCompliance : nat;
  complianceScore : number
}.
End LocCompliance.

Module GuardCompliance.
Record t : Type := mk {
  name : string;
  attendanceCompliance : nat;
  activityCompliance : nat;
  coverageCompliance : nat;
  complianceScore : number
}.
End GuardCompliance.

Module ComplianceResult.
Record t : Type := mk {
  overall : number;
  byLocation : list LocCompliance.t;
  byGuard : list GuardCompliance.t
}.
End ComplianceResult.

(** [x >= n ? 1 : 0] for a number [x]. *)
Definition check_ge (x : number) (n : nat) : nat :=
  if Num.geb x (Num.of_nat n) then 1 else 0.

(** [c >= n ? 1 : 0] for a property that is a count or [undefined]:
    [undefined >= n] is false. *)
Definition check_count_ge (c : option nat) (n : nat) : nat :=
  match c with
  | Some k => if n <=? k then 1 else 0
  | None => 0
  end.

(** [Math.round(((c1 + c2 + c3) / 3) * 100)] *)
Definition score3 (c1 c2 c3 : nat) : number :=
  Num.round (Num.mul (Num.div (Num.of_nat (c1 + c2 + c3)) (Num.of_nat 3))
                     (Num.of_nat 100)).

Definition location_compliance (l : LocProfile.t) : LocCompliance.t :=
  let m := LocProfile.metrics l in
  let c := check_ge (LocMetrics.coverageRate m) 95 in
  let p := check_ge (LocMetrics.punctualityRate m) 90 in
  let s := check_count_ge (LocMetrics.guardCount m) 2 in
  {| LocCompliance.location := LocProfile.location l;
     LocCompliance.coverageCompliance := c;
     LocCompliance.punctualityCompliance := p;
     LocCompliance.staffingCompliance := s;
     LocCompliance.complianceScore := score3 c p s |}.

Definition guard_compliance (g : GuardProfile.t) : GuardCompliance.t :=
  let m := GuardProfile.metrics g in
  let a := check_ge (GuardMetrics.attendanceRate m) 95 in
  let c := check_ge (GuardMetrics.activityComplianceRate m) 90 in
  let v := check_count_ge (Some (GuardMetrics.coverageCount m)) 1 in
  {| GuardCompliance.name := GuardProfile.name g;
     GuardCompliance.attendanceCompliance := a;
     GuardCompliance.activityCompliance := c;
     GuardCompliance.coverageCompliance := v;
     GuardCompliance.complianceScore := score3 a c v |}.

Definition loc_passed (c : LocCompliance.t) : nat :=
  LocCompliance.coverageCompliance c + LocCompliance.punctualityCompliance c +
  LocCompliance.staffingCompliance c.

Definition guard_passed (c : GuardCompliance.t) : nat :=
  GuardCompliance.attendanceCompliance c + GuardCompliance.activityCompliance c +
  GuardCompliance.coverageCompliance c.

(** The counter object [overallMetrics], which both [map] callbacks update. *)
Module Overall.
Record t : Type := mk { totalChecks : nat; passedChecks : nat }.
End Overall.

(** [totalChecks += 3; passedChecks += c1 + c2 + c3] *)
Definition count_checks (om : Overall.t) (passed : nat) : Overall.t :=
  {| Overall.totalChecks := Overall.totalChecks om + 3;
     Overall.passedChecks := Overall.passedChecks om + passed |}.

(** [overallMetrics] after the locations and then the guards were mapped. *)
Definition overallMetrics
  (ls : list LocCompliance.t) (gs : list GuardCompliance.t) : Overall.t :=
  fold_left (λ om c, count_checks om (guard_passed c)) gs
    (fold_left (λ om c, count_checks om (loc_passed c)) ls (Overall.mk 0 0)).

(** [Math.round((passedChecks / totalChecks) * 100)] *)
Definition overall_score (passed total : nat) : number :=
  Num.round (Num.mul (Num.div (Num.of_nat passed) (Num.of_nat total))
                     (Num.of_nat 100)).

Definition calculateComplianceMetrics (activities : list Bucket.t)
  (locations : list LocProfile.t) (guards : list GuardProfile.t)
  : ComplianceResult.t :=
  let locationCompliance := location_compliance <$> locations in
  let guardCompliance := guard_compliance <$> guards in
  let om := overallMetrics locationCompliance guardCompliance in
  {| ComplianceResult.overall :=
       overall_score (Overall.passedChecks om) (Overall.totalChecks om);
     ComplianceResult.byLocation := locationCompliance;
     ComplianceResult.byGuard := guardCompliance |}.

(** The scores three checks can give. *)
Definition check_scores : list number :=
  [Num.of_nat 0; Num.of_nat 33; Num.of_nat 67; Num.of_nat 100].

(** A check is 0 or 1. *)
Definition is_check (c : nat) : Prop := c ≤ 1.

(** ** Properties *)

Lemma check_ge_is_check x n : is_check (check_ge x n).
Proof. unfold is_check, check_ge. case_match; lia. Qed.

Lemma check_count_ge_is_check c n : is_check (check_count_ge c n).
Proof. unfold is_check, check_count_ge. repeat case_match; lia. Qed.

(** A threshold test on a percentage is the test on its integer. *)
Lemma check_ge_percentage (k n : nat) :
  k ≤ 100 → n ≤ 100 →
  check_ge (Num.of_nat k) n = if n <=? k then 1 else 0.
Proof.
  intros Hk Hn. unfold check_ge.
  by rewrite geb_of_nat by (apply small_counter; lia).
Qed.

Lemma score3_values c1 c2 c3 :
  is_check c1 → is_check c2 → is_check c3 → score3 c1 c2 c3 ∈ check_scores.
Proof.
  unfold is_check, check_scores. intros H1 H2 H3.
  assert (c1 = 0 ∨ c1 = 1) as [-> | ->] by lia;
    assert (c2 = 0 ∨ c2 = 1) as [-> | ->] by lia;
    assert (c3 = 0 ∨ c3 = 1) as [-> | ->] by lia;
    vm_compute; set_solver.
Qed.

Lemma loc_passed_le c l : c = location_compliance l → loc_passed c ≤ 3.
Proof.
  intros ->. unfold loc_passed, location_compliance; simpl.
  pose proof (check_ge_is_check (LocMetrics.coverageRate (LocProfile.metrics l)) 95).
  pose proof (check_ge_is_check (LocMetrics.punctualityRate (LocProfile.metrics l)) 90).
  pose proof (check_count_ge_is_check (LocMetrics.guardCount (LocProfile.metrics l)) 2).
  unfold is_check in *. lia.
Qed.

Lemma guard_passed_le c g : c = guard_compliance g → guard_passed c ≤ 3.
Proof.
  intros ->. unfold guard_passed, guard_compliance.
  cbn [GuardCompliance.attendanceCompliance GuardCompliance.activityCompliance
       GuardCompliance.coverageCompliance].
  pose proof (check_ge_is_check (GuardMetrics.attendanceRate (GuardProfile.metrics g)) 95).
  pose proof (check_ge_is_check
                (GuardMetrics.activityComplianceRate (GuardProfile.metrics g)) 90).
  pose proof (check_count_ge_is_check
                (Some (GuardMetrics.coverageCount (GuardProfile.metrics g))) 1).
  unfold is_check in *. lia.
Qed.

(** The counters after one of the two [map] calls. *)
Lemma count_checks_fold {A} (passed : A → nat) (l : list A) om :
  Overall.totalChecks (fold_left (λ om c, count_checks om (passed c)) l om) =
    Overall.totalChecks om + 3 * length l ∧
  Overall.passedChecks (fold_left (λ om c, count_checks om (passed c)) l om) =
    Overall.passedChecks om + sum_list (passed <$> l).
Proof.
  revert om. induction l as [|c l IH]; intros om; csimpl; [split; simpl; lia|].
  destruct (IH (count_checks om (passed c))) as [-> ->]. simpl. lia.
Qed.

Lemma overallMetrics_counts ls gs :
  Overall.totalChecks (overallMetrics ls gs) = 3 * (length ls + length gs) ∧
  Overall.passedChecks (overallMetrics ls gs) =
    sum_list (loc_passed <$> ls) + sum_list (guard_passed <$> gs).
Proof.
  unfold overallMetrics.
  destruct (count_checks_fold guard_passed gs
              (fold_left (λ om c, count_checks om (loc_passed c)) ls (Overall.mk 0 0)))
    as [-> ->].
  destruct (count_checks_fold loc_passed ls (Overall.mk 0 0)) as [-> ->]. simpl. lia.
Qed.

Lemma sum_list_le_3 {A} (f : A → nat) (l : list A) :
  Forall (λ x, f x ≤ 3) l → sum_list (f <$> l) ≤ 3 * length l.
Proof.
  induction 1 as [|x l Hx Hl IH]; csimpl; lia.
Qed.

Lemma overallMetrics_passed_le locations guards :
  let om := overallMetrics (location_compliance <$> locations)
                           (guard_compliance <$> guards) in
  Overall.passedChecks om ≤ Overall.totalChecks om.
Proof.
  intros om. subst om.
  destruct (overallMetrics_counts (location_compliance <$> locations)
              (guard_compliance <$> guards)) as [-> ->].
  assert (sum_list (loc_passed <$> (location_compliance <$> locations))
          ≤ 3 * length (location_compliance <$> locations)) as H1.
  { apply sum_list_le_3, Forall_fmap, Forall_forall. intros l _. by eapply loc_passed_le. }
  assert (sum_list (guard_passed <$> (guard_compliance <$> guards))
          ≤ 3 * length (guard_compliance <$> guards)) as H2.
  { apply sum_list_le_3, Forall_fmap, Forall_forall. intros g _. by eapply guard_passed_le. }
  lia.
Qed.

(** C4: three checks are issued for every location and every guard, and
    the overall score is the rounded share of the checks they passed. *)
Theorem calculateComplianceMetrics_overall activities locations guards :
  let r := calculateComplianceMetrics activities locations guards in
  ComplianceResult.overall r =
  overall_score
    (sum_list (loc_passed <$> ComplianceResult.byLocation r) +
     sum_list (guard_passed <$> ComplianceResult.byGuard r))
    (3 * (length locations + length guards)).
Proof.
  intros r. subst r. unfold calculateComplianceMetrics. simpl.
  destruct (overallMetrics_counts (location_compliance <$> locations)
              (guard_compliance <$> guards)) as [-> ->].
  by rewrite !length_fmap.
Qed.

(** With at least one location or guard the overall score is an
    integer from 0 to 100. *)
Theorem calculateComplianceMetrics_overall_percentage activities locations guards :
  array_size locations → array_size guards →
  0 < length locations + length guards →
  percentage (ComplianceResult.overall
                (calculateComplianceMetrics activities locations guards)).
Proof.
  unfold array_size. intros Hl Hg Hpos. unfold calculateComplianceMetrics. simpl.
  pose proof (overallMetrics_passed_le locations guards) as Hle. simpl in Hle.
  destruct (overallMetrics_counts (location_compliance <$> locations)
              (guard_compliance <$> guards)) as [Ht _].
  rewrite !length_fmap in Ht.
  apply percent_round; [done|lia|apply small_lt; lia|apply small_100].
Qed.

(** With no location and no guard the overall score is [NaN], the
    result of [0 / 0]. *)
Theorem calculateComplianceMetrics_empty activities :
  ComplianceResult.overall (calculateComplianceMetrics activities [] []) = Num.NaN.
Proof. reflexivity. Qed.

(** The entries of [byLocation] are in the order of the locations and
    carry their names. *)
Lemma byLocation_names activities ls gs :
  LocCompliance.location <$>
    ComplianceResult.byLocation (calculateComplianceMetrics activities ls gs) =
  LocProfile.location <$> ls.
Proof. simpl. by rewrite <- list_fmap_compose. Qed.

Lemma location_compliance_score l :
  LocCompliance.complianceScore (location_compliance l) ∈ check_scores.
Proof.
  unfold location_compliance. cbn [LocCompliance.complianceScore].
  apply score3_values; apply check_ge_is_check || apply check_count_ge_is_check.
Qed.

Lemma guard_compliance_score g :
  GuardCompliance.complianceScore (guard_compliance g) ∈ check_scores.
Proof.
  unfold guard_compliance. cbn [GuardCompliance.complianceScore].
  apply score3_values; apply check_ge_is_check || apply check_count_ge_is_check.
Qed.

(** Every compliance score is one of 0, 33, 67 and 100. *)
Theorem calculateComplianceMetrics_scores activities locations guards :
  let r := calculateComplianceMetrics activities locations guards in
  Forall (λ c, LocCompliance.complianceScore c ∈ check_scores)
         (ComplianceResult.byLocation r) ∧
  Forall (λ c, GuardCompliance.complianceScore c ∈ check_scores)
         (ComplianceResult.byGuard r).
Proof.
  split; apply Forall_fmap, Forall_forall; intros x _.
  - apply location_compliance_score.
  - apply guard_compliance_score.
Qed.

(** No location that [processLocationCoverage] returns passes the
    staffing check, since its [guardCount] is [undefined]; its compliance
    score is at most 67. *)
Theorem staffing_never_passes activities data ls guards :
  processLocationCoverage data = Ok ls →
  Forall (λ c, LocCompliance.staffingCompliance c = 0 ∧
               LocCompliance.complianceScore c ∈
                 [Num.of_nat 0; Num.of_nat 33; Num.of_nat 67])
         (ComplianceResult.byLocation
            (calculateComplianceMetrics activities ls guards)).
Proof.
  intros Hls. simpl. apply Forall_fmap, Forall_forall. intros p Hp.
  destruct (processLocationCoverage_elem data ls p Hls Hp) as (m & _ & ->).
  simpl. split; [done|].
  pose proof (check_ge_is_check (coverageRate m) 95) as H1.
  pose proof (check_ge_is_check (punctualityRate m) 90) as H2.
  unfold is_check in *.
  destruct (check_ge (coverageRate m) 95) as [|[|]],
    (check_ge (punctualityRate m) 90) as [|[|]]; try lia; vm_compute; set_solver.
Qed.

(** Every guard that [processGuardData] returns passes the coverage
    check, since it has covered at least one post. *)
Theorem guard_coverage_always_passes activities act att gs locations :
  processGuardData act att = Ok gs →
  Forall (λ c, GuardCompliance.coverageCompliance c = 1)
         (ComplianceResult.byGuard
            (calculateComplianceMetrics activities locations gs)).
Proof.
  intros Hgs. simpl. apply Forall_fmap, Forall_forall. intros p Hp.
  destruct (processGuardData_elem act att gs p Hgs Hp) as (g & Hg & ->).
  assert (guard_ok g) as (_ & _ & _ & [Hc _] & _)
    by (eapply all_get_own, Hg; apply guards_of_ok).
  simpl. destruct (JSSet.size (Guard.coverage g)); [lia|done].
Qed.

(** ** Concrete runs *)

Lemma calculateComplianceMetrics_overall_percentage_witness :
  percentage (ComplianceResult.overall
                (calculateComplianceMetrics [] sample_locations sample_profiles)).
Proof.
  apply calculateComplianceMetrics_overall_percentage;
    [by vm_compute|by vm_compute|simpl; lia].
Defined.

Lemma staffing_never_passes_witness :
  Forall (λ c, LocCompliance.staffingCompliance c = 0 ∧
               LocCompliance.complianceScore c ∈
                 [Num.of_nat 0; Num.of_nat 33; Num.of_nat 67])
         (ComplianceResult.byLocation
            (calculateComplianceMetrics [] sample_locations sample_profiles)).
Proof. apply (staffing_never_passes [] sample_posts), sample_posts_ok. Defined.

Lemma guard_coverage_always_passes_witness :
  Forall (λ c, GuardCompliance.coverageCompliance c = 1)
         (ComplianceResult.byGuard
            (calculateComplianceMetrics [] sample_locations sample_profiles)).
Proof.
  apply (guard_coverage_always_passes [] sample_day sample_attendance), sample_ok.
Defined.
