(* ===== verification/Alerts.v ===== *)
(** * The alert dashboard ([src/src/App.js]): data processing functions

    [App] is the earlier variant of the dashboard.  Its processing functions
    are [processActivityData] (hourly activity and alert counts),
    [processLocationCoverage] and [processAttendanceData] (per-post
    coverage), [processGuardStatistics] (per-guard activity statistics) and
    [calculatePerformanceMetrics].  They are modelled in the module [App];
    the names are the source's.

    Both objects used as dictionaries are indexed by a CSV cell.  When the
    cell names a property of [Object.prototype] the entry test
    [!acc[location]] finds the inherited value and no entry is created;
    the updates that follow write to that built-in object, and the first
    method call on a property it does not have ([guards.add], [posts.add])
    throws.  The writes to the built-in object are not modelled: nothing in
    the component reads them back as an entry, since the values written
    ([undefined + 1]) are [NaN] and so are falsy for the entry test. *)

From Stdlib Require Import Sorting.Sorted.
From S2P Require Import Prelude JSNumber Binary64 JSString JSObject JSArray JSDate.
From S2P Require Import GroupBy Upsert Ledger Row Hourly Guards.

Module App.

(** ** [processActivityData] *)

Module HourBucket.
Record t : Type := mk {
  hour : number;
  count : nat;
  alerts : nat;
  criticalAlerts : nat
}.
End HourBucket.

(** [curr['Alert'] ? 1 : 0] *)
Definition alert_flag (curr : row) : nat :=
  if Str.truthy (cell curr Col.Alert) then 1 else 0.

(** [curr['Alert'] === 'Critical' ? 1 : 0] *)
Definition critical_flag (curr : row) : nat :=
  if Str.eqb (cell curr Col.Alert) "Critical" then 1 else 0.

Definition new_bucket (hour : number) (curr : row) : HourBucket.t :=
  {| HourBucket.hour := hour;
     HourBucket.count := 1;
     HourBucket.alerts := alert_flag curr;
     HourBucket.criticalAlerts := critical_flag curr |}.

(** The updates on the bucket found. *)
Definition bump (curr : row) (existing : HourBucket.t) : HourBucket.t :=
  {| HourBucket.hour := HourBucket.hour existing;
     HourBucket.count := HourBucket.count existing + 1;
     HourBucket.alerts := HourBucket.alerts existing + alert_flag curr;
     HourBucket.criticalAlerts :=
       HourBucket.criticalAlerts existing + critical_flag curr |}.

Section Activity.
Context `{DateLib}.

Definition same_hour (hour : number) (item : HourBucket.t) : Prop :=
  Is_true (Num.eqb (HourBucket.hour item) hour).

(** The callback of [data.reduce]. *)
Definition activity_step (acc : list HourBucket.t) (curr : row)
  : list HourBucket.t :=
  if negb (Str.truthy (cell curr Col.DateTime)) then acc
  else
    let hour := getHours (default ""%string (cell curr Col.DateTime)) in
    match list_find (same_hour hour) acc with
    | Some (i, _) => alter (bump curr) i acc
    | None => acc ++ [new_bucket hour curr]
    end.

Definition by_hour (a b : HourBucket.t) : number :=
  Num.sub (HourBucket.hour a) (HourBucket.hour b).

Definition processActivityData (data : list row) : list HourBucket.t :=
  Arr.sort by_hour (fold_left activity_step data []).

End Activity.

(** ** [processLocationCoverage] *)

Module Coverage.
Record t : Type := mk {
  total : nat;
  covered : nat;
  alerts : nat;
  guards : JSSet.t string
}.
End Coverage.

Definition new_coverage : Coverage.t :=
  {| Coverage.total := 0; Coverage.covered := 0; Coverage.alerts := 0;
     Coverage.guards := JSSet.empty |}.

(** [curr['Full Name']] when it is truthy. *)
Definition guard_name (curr : row) : option string :=
  match cell curr Col.FullName with
  | Some name => if String.eqb name "" then None else Some name
  | None => None
  end.

(** The updates of one row on the entry of its post. *)
Definition cover (curr : row) (c : Coverage.t) : Coverage.t :=
  {| Coverage.total := Coverage.total c + 1;
     Coverage.covered :=
       Coverage.covered c + (if guard_name curr is Some _ then 1 else 0);
     Coverage.alerts := Coverage.alerts c + alert_flag curr;
     Coverage.guards :=
       match guard_name curr with
       | Some name => JSSet.add (Coverage.guards c) name
       | None => Coverage.guards c
       end |}.

(** The callback of [data.reduce]. *)
Definition coverage_step (acc : Obj.t Coverage.t) (curr : row)
  : res (Obj.t Coverage.t) :=
  match cell curr Col.PostName with
  | Some location =>
      if String.eqb location "" then Ok acc
      else
        match Obj.get acc location with
        | Obj.Undefined => Ok (Obj.set acc location (cover curr new_coverage))
        | Obj.Own c => Ok (Obj.set acc location (cover curr c))
        | Obj.Inherited =>
            if guard_name curr is Some _ then Throw (TypeError "add") else Ok acc
        end
  | None => Ok acc
  end.

Definition processLocationCoverage (data : list row) : res (Obj.t Coverage.t) :=
  foldM coverage_step data Obj.empty.

(** ** [processAttendanceData] *)

Module Attendance.
Record t : Type := mk {
  totalShifts : nat;
  onTime : nat;
  late : nat;
  locationCoverage : Obj.t Coverage.t;
  avgCoverage : option number
}.
End Attendance.

Definition on_time (d : row) : bool := Str.eqb (cell d Col.LateHours) "On-time".

(** [acc + (loc.covered / loc.total)] *)
Definition add_ratio (acc : number) (loc : Coverage.t) : number :=
  Num.add acc (Num.div (Num.of_nat (Coverage.covered loc))
                       (Num.of_nat (Coverage.total loc))).

(** [Object.values(lc).reduce(.., 0) / Object.keys(lc).length * 100] *)
Definition avgCoverage (lc : Obj.t Coverage.t) : number :=
  Num.mul (Num.div (fold_left add_ratio (Obj.values lc) Num.zero)
                   (Num.of_nat (length (Obj.keys lc))))
          (Num.of_nat 100).

Definition processAttendanceData (data : list row) : res Attendance.t :=
  locationCoverage ← processLocationCoverage data;
  let totalShifts := length data in
  let onTime := count_if on_time data in
  Ok {| Attendance.totalShifts := totalShifts;
        Attendance.onTime := onTime;
        Attendance.late := totalShifts - onTime;
        Attendance.locationCoverage := locationCoverage;
        Attendance.avgCoverage := Some (avgCoverage locationCoverage) |}.

(** ** [processGuardStatistics] *)

(** An entry of [guardStats] while the pass runs. *)
Module Stats.
Record t : Type := mk {
  id : string;
  name : option string;
  totalActivities : nat;
  locationAccuracy : list number;
  onTimeActivities : nat;
  lateActivities : nat;
  alerts : nat;
  criticalAlerts : nat;
  posts : JSSet.t (option string);
  lastActivity : option string
}.
End Stats.

Inductive status : Type := warning | normal.

(** An element of the array [processGuardStatistics] returns. *)
Module GuardStat.
Record t : Type := mk {
  id : string;
  name : option string;
  totalActivities : nat;
  locationAccuracy : list number;
  onTimeActivities : nat;
  lateActivities : nat;
  alerts : nat;
  criticalAlerts : nat;
  posts : list (option string);
  lastActivity : option string;
  avgLocationAccuracy : number;
  punctualityRate : number;
  alertRate : number;
  status : status
}.
End GuardStat.

Definition new_stats (guardId : string) (record : row) : Stats.t :=
  {| Stats.id := guardId;
     Stats.name := cell record Col.UserName;
     Stats.totalActivities := 0;
     Stats.locationAccuracy := [];
     Stats.onTimeActivities := 0;
     Stats.lateActivities := 0;
     Stats.alerts := 0;
     Stats.criticalAlerts := 0;
     Stats.posts := JSSet.empty;
     Stats.lastActivity := None |}.

(** [if (v) { accuracy = parseInt(v); if (!isNaN(accuracy)) list.push(accuracy) }] *)
Definition push_accuracy (record : row) (l : list number) : list number :=
  match cell record Col.LocationAccuracy with
  | Some s =>
      if String.eqb s "" then l
      else
        let accuracy := Str.parseInt s in
        if Num.isNaN accuracy then l else l ++ [accuracy]
  | None => l
  end.

(** The updates of one activity row on the guard's entry. *)
Definition record_activity (record : row) (g : Stats.t) : Stats.t :=
  let on := Str.eqb (cell record Col.TimeAccuracy) "On Time" in
  {| Stats.id := Stats.id g;
     Stats.name := Stats.name g;
     Stats.totalActivities := Stats.totalActivities g + 1;
     Stats.locationAccuracy := push_accuracy record (Stats.locationAccuracy g);
     Stats.onTimeActivities := Stats.onTimeActivities g + (if on then 1 else 0);
     Stats.lateActivities := Stats.lateActivities g + (if on then 0 else 1);
     Stats.alerts := Stats.alerts g + alert_flag record;
     Stats.criticalAlerts :=
       Stats.criticalAlerts g +
       (if Str.truthy (cell record Col.Alert) then critical_flag record else 0);
     Stats.posts := JSSet.add (Stats.posts g) (cell record Col.PostName);
     Stats.lastActivity := cell record Col.DateTime |}.

(** The body of [activityData.forEach]. *)
Definition stats_step (guardStats : Obj.t Stats.t) (record : row)
  : res (Obj.t Stats.t) :=
  match cell record Col.ServiceNumber with
  | Some guardId =>
      if String.eqb guardId "" then Ok guardStats
      else
        match Obj.get guardStats guardId with
        | Obj.Undefined =>
            Ok (Obj.set guardStats guardId
                  (record_activity record (new_stats guardId record)))
        | Obj.Own g => Ok (Obj.set guardStats guardId (record_activity record g))
        | Obj.Inherited => Throw (TypeError "add")
        end
  | None => Ok guardStats
  end.

(** [l.reduce((a, b) => a + b, 0)] *)
Definition sum (l : list number) : number := fold_left Num.add l Num.zero.

(** [l.length ? Math.round(sum / l.length) : 0] *)
Definition avgLocationAccuracy (l : list number) : number :=
  match l with
  | [] => Num.zero
  | _ => Num.round (Num.div (sum l) (Num.of_nat (length l)))
  end.

(** [Math.round((part / whole) * 100)], with no test of [whole]. *)
Definition percent (part whole : nat) : number :=
  Num.round (Num.mul (Num.div (Num.of_nat part) (Num.of_nat whole))
                     (Num.of_nat 100)).

(** The callback of [Object.values(guardStats).map]. *)
Definition guard_stat (g : Stats.t) : GuardStat.t :=
  {| GuardStat.id := Stats.id g;
     GuardStat.name := Stats.name g;
     GuardStat.totalActivities := Stats.totalActivities g;
     GuardStat.locationAccuracy := Stats.locationAccuracy g;
     GuardStat.onTimeActivities := Stats.onTimeActivities g;
     GuardStat.lateActivities := Stats.lateActivities g;
     GuardStat.alerts := Stats.alerts g;
     GuardStat.criticalAlerts := Stats.criticalAlerts g;
     GuardStat.posts := JSSet.to_array (Stats.posts g);
     GuardStat.lastActivity := Stats.lastActivity g;
     GuardStat.avgLocationAccuracy := avgLocationAccuracy (Stats.locationAccuracy g);
     GuardStat.punctualityRate :=
       percent (Stats.onTimeActivities g)
               (Stats.onTimeActivities g + Stats.lateActivities g);
     GuardStat.alertRate := percent (Stats.alerts g) (Stats.totalActivities g);
     GuardStat.status := if 0 <? Stats.criticalAlerts g then warning else normal |}.

(** [(a, b) => b.punctualityRate - a.punctualityRate] *)
Definition by_punctuality_desc (a b : GuardStat.t) : number :=
  Num.sub (GuardStat.punctualityRate b) (GuardStat.punctualityRate a).

Definition processGuardStatistics (activityData attendanceData : list row)
  : res (list GuardStat.t) :=
  guardStats ← foldM stats_step activityData Obj.empty;
  Ok (Arr.sort by_punctuality_desc (guard_stat <$> Obj.values guardStats)).

(** ** [calculatePerformanceMetrics] *)

Module Performance.
Record t : Type := mk {
  overallAccuracy : number;
  criticalAlerts : nat;
  coverageScore : number;
  totalAlerts : nat
}.
End Performance.

Definition calculatePerformanceMetrics
  (activityData : list row) (attendanceData : Attendance.t)
  (guardStats : list GuardStat.t) : Performance.t :=
  let locationAccuracies := GuardStat.avgLocationAccuracy <$> guardStats in
  let avgAccuracy :=
    Num.div (sum locationAccuracies) (Num.of_nat (length locationAccuracies)) in
  {| Performance.overallAccuracy := Num.round avgAccuracy;
     Performance.criticalAlerts := sum_list (critical_flag <$> activityData);
     Performance.totalAlerts := sum_list (alert_flag <$> activityData);
     Performance.coverageScore :=
       Num.round (default Num.NaN (Attendance.avgCoverage attendanceData)) |}.

(** ** The hourly series *)

(** [curr['Alert']] is truthy. *)
Definition alerting (curr : row) : bool := Str.truthy (cell curr Col.Alert).

(** [curr['Alert'] === 'Critical'] *)
Definition critical (curr : row) : bool := Str.eqb (cell curr Col.Alert) "Critical".

(** A bucket for one of the hours [0 .. 23]. *)
Definition bucket_hour_ok (b : HourBucket.t) : Prop :=
  ∃ h : nat, h < 24 ∧ HourBucket.hour b = Num.of_nat h.

Definition bucket_key (b : HourBucket.t) : Z := to_Z (HourBucket.hour b).

(** What the counters of a bucket satisfy. *)
Definition series_ok (b : HourBucket.t) : Prop :=
  1 ≤ HourBucket.count b ∧
  HourBucket.criticalAlerts b ≤ HourBucket.alerts b ∧
  HourBucket.alerts b ≤ HourBucket.count b.

Section ActivityProps.
Context `{DateLib}.

Lemma flags_le curr : critical_flag curr ≤ alert_flag curr ≤ 1.
Proof.
  unfold critical_flag, alert_flag, Str.eqb, Str.truthy.
  destruct (cell curr Col.Alert) as [v|]; simpl; [|lia].
  destruct (String.eqb_spec v "Critical") as [->|]; simpl; [lia|].
  destruct (String.eqb v ""); simpl; lia.
Qed.

Lemma activity_step_ok acc curr :
  Forall series_ok acc → Forall series_ok (activity_step acc curr).
Proof.
  intros Hacc. unfold activity_step. case_match; [done|].
  pose proof (flags_le curr) as Hf.
  destruct (list_find _ acc) as [[i b]|].
  - apply Forall_alter; [done|]. intros b' Hb.
    destruct (Forall_lookup_1 _ _ _ _ Hacc Hb) as (G1 & G2 & G3).
    unfold series_ok. simpl. lia.
  - apply Forall_app. split; [done|]. apply Forall_singleton.
    unfold series_ok. simpl. lia.
Qed.

(** In every bucket of the series the critical alerts are at most the
    alerts, the alerts at most the rows, and there is at least one row. *)
Lemma activity_series_ok data : Forall series_ok (processActivityData data).
Proof.
  apply sort_Forall, (fold_left_inv (Forall series_ok)); [|constructor].
  intros; by apply activity_step_ok.
Qed.

Lemma activity_group data :
  fold_left activity_step data [] =
  group HourBucket.hour dated hour_of_row bump
        (λ r, new_bucket (hour_of_row r) r) data.
Proof. reflexivity. Qed.

Lemma activity_counter (μ : HourBucket.t → nat) (flag : row → bool) data b k :
  (∀ r b, μ (bump r b) = μ b + (if flag r then 1 else 0)) →
  (∀ r, μ (new_bucket (hour_of_row r) r) = if flag r then 1 else 0) →
  b ∈ processActivityData data → Num.eqb (HourBucket.hour b) k = true →
  μ b = count_if (λ r, in_hour k r && flag r) data.
Proof.
  intros Hupd Hnew Hb%sort_elem_of Hk. rewrite activity_group in Hb.
  apply (group_counter HourBucket.hour dated hour_of_row bump
           (λ r, new_bucket (hour_of_row r) r)
           (λ _ _, eq_refl) (λ _, eq_refl) μ flag); [done..|by apply Is_true_true].
Qed.

(** C28: a bucket of the hourly series counts the dated rows of its hour
    in [count], those with an alert in [alerts] and those with a critical
    alert in [criticalAlerts]. *)
Theorem activity_series_counts data b k :
  b ∈ processActivityData data → Num.eqb (HourBucket.hour b) k = true →
  HourBucket.count b = count_if (in_hour k) data ∧
  HourBucket.alerts b = count_if (λ r, in_hour k r && alerting r) data ∧
  HourBucket.criticalAlerts b = count_if (λ r, in_hour k r && critical r) data.
Proof.
  intros Hb Hk. split_and!.
  - rewrite (activity_counter HourBucket.count (λ _, true) data b k)
      by first [assumption | intros; reflexivity].
    apply count_if_ext. intros; apply andb_true_r.
  - apply (activity_counter HourBucket.alerts alerting);
      first [assumption | intros; reflexivity].
  - apply (activity_counter HourBucket.criticalAlerts critical);
      first [assumption | intros; reflexivity].
Qed.

Lemma activity_hours data :
  Forall parseable data → Forall bucket_hour_ok (fold_left activity_step data []).
Proof.
  intros Hp. rewrite Forall_forall in Hp.
  apply (fold_left_inv (Forall bucket_hour_ok)); [|constructor].
  intros acc r Hr Hacc.
  change (activity_step acc r) with
    (find_or_push HourBucket.hour dated hour_of_row bump
       (λ r, new_bucket (hour_of_row r) r) acc r).
  destruct (find_or_push_step HourBucket.hour dated hour_of_row bump
              (λ r, new_bucket (hour_of_row r) r) acc r) as [|i b Hd _|Hd _]; [done| |].
  - apply Forall_alter_strong; [done|]. intros; done.
  - apply Forall_app; split; [done|]. apply Forall_singleton.
    by apply hour_of_row_ok; [apply Hp|].
Qed.

Lemma series_by_hour_keyed : keyed by_hour bucket_hour_ok bucket_key.
Proof.
  intros x y (hx & Hx & Ex) (hy & Hy & Ey). unfold Arr.after, by_hour, bucket_key.
  rewrite Ex, Ey, !to_Z_of_nat by (by apply small_hour).
  rewrite sub_of_nat_after by (by apply small_hour). lia.
Qed.

(** If every dated row carries a date that parses, the hourly series
    is in ascending order of the hour. *)
Theorem activity_series_sorted data :
  Forall parseable data →
  StronglySorted (key_le bucket_key) (processActivityData data).
Proof.
  intros Hp. apply (sort_sorted by_hour bucket_hour_ok bucket_key series_by_hour_keyed).
  by apply activity_hours.
Qed.

End ActivityProps.

(** ** The guard statistics *)

(** The guard an activity row is counted for. *)
Definition stats_key (record : row) : option string :=
  match cell record Col.ServiceNumber with
  | Some guardId => if String.eqb guardId "" then None else Some guardId
  | None => None
  end.

(** The entry a row creates. *)
Definition seed_stats (record : row) : Stats.t :=
  new_stats (default "" (cell record Col.ServiceNumber)) record.

(** The object the pass builds when it does not throw. *)
Definition stats_of (activityData : list row) : Obj.t Stats.t :=
  fold_left (upsert_pure stats_key seed_stats record_activity) activityData
            Obj.empty.

(** [record['Time Accuracy'] === 'On Time'] *)
Definition timely (record : row) : bool :=
  Str.eqb (cell record Col.TimeAccuracy) "On Time".

(** The abstract result of the pass: the entry of each guard. *)
Definition stats_ledger (activityData : list row) : gmap string Stats.t :=
  ledger stats_key seed_stats record_activity activityData.

(** What the counters of a guard satisfy. *)
Definition stats_ok (g : Stats.t) : Prop :=
  Stats.totalActivities g = Stats.onTimeActivities g + Stats.lateActivities g ∧
  1 ≤ Stats.totalActivities g ∧
  Stats.criticalAlerts g ≤ Stats.alerts g ∧
  Stats.alerts g ≤ Stats.totalActivities g ∧
  length (Stats.locationAccuracy g) ≤ Stats.totalActivities g ∧
  1 ≤ JSSet.size (Stats.posts g) ≤ Stats.totalActivities g ∧
  NoDup (Stats.posts g).

(** The key that orders the statistics: punctuality, highest first. *)
Definition punctuality_key (p : GuardStat.t) : Z :=
  (- to_Z (GuardStat.punctualityRate p))%Z.

Lemma stats_step_upsert o r :
  stats_step o r = upsert stats_key seed_stats record_activity (TypeError "add") o r.
Proof.
  unfold stats_step, upsert, stats_key, seed_stats.
  destruct (cell r Col.ServiceNumber) as [guardId|]; [|done].
  by destruct (String.eqb guardId "").
Qed.

Lemma processGuardStatistics_unfold act att :
  processGuardStatistics act att =
  if existsb (poison stats_key) act then Throw (TypeError "add")
  else Ok (Arr.sort by_punctuality_desc (guard_stat <$> Obj.values (stats_of act))).
Proof.
  unfold processGuardStatistics. rewrite (foldM_ext _ _ _ _ stats_step_upsert).
  rewrite foldM_upsert by apply own_ok_empty. by destruct (existsb _ act).
Qed.

(** [processGuardStatistics] throws exactly when an activity row
    carries a service number that names a property of [Object.prototype]. *)
Theorem guard_statistics_throws_iff act att :
  (∃ e, processGuardStatistics act att = Throw e) ↔
  ∃ r k, r ∈ act ∧ stats_key r = Some k ∧ Obj.inherited k = true.
Proof.
  rewrite processGuardStatistics_unfold, <- poison_exists.
  destruct (existsb _ act); split; intros Hx; try done; [by eexists|by destruct Hx].
Qed.

Lemma push_accuracy_length r l :
  length l ≤ length (push_accuracy r l) ≤ length l + 1.
Proof.
  unfold push_accuracy. repeat case_match; rewrite ?length_app; simpl; lia.
Qed.

Lemma stats_activity_ok r g :
  Stats.totalActivities g = Stats.onTimeActivities g + Stats.lateActivities g →
  Stats.criticalAlerts g ≤ Stats.alerts g →
  Stats.alerts g ≤ Stats.totalActivities g →
  length (Stats.locationAccuracy g) ≤ Stats.totalActivities g →
  JSSet.size (Stats.posts g) ≤ Stats.totalActivities g →
  NoDup (Stats.posts g) →
  stats_ok (record_activity r g).
Proof.
  intros H1 H2 H3 H4 H5 H6. unfold stats_ok, record_activity; simpl.
  pose proof (add_size (Stats.posts g) (cell r Col.PostName)).
  pose proof (push_accuracy_length r (Stats.locationAccuracy g)).
  unfold alert_flag, critical_flag.
  repeat case_match; split_and!; try lia; by apply add_NoDup.
Qed.

Lemma stats_of_ok act : all stats_ok (stats_of act).
Proof.
  apply fold_upsert_all; [| |constructor].
  - intros r g (? & ? & ? & ? & ? & ? & ?). apply stats_activity_ok; try done; lia.
  - intros r. apply stats_activity_ok; simpl; try lia. constructor.
Qed.

Lemma stats_of_NoDup act : NoDup (Obj.keys (stats_of act)).
Proof. apply fold_upsert_NoDup. constructor. Qed.

Lemma stats_key_seed r k : stats_key r = Some k → Stats.id (seed_stats r) = k.
Proof.
  unfold stats_key, seed_stats. destruct (cell r Col.ServiceNumber); [|done].
  case_match; [done|]. by intros [= ->].
Qed.

Lemma stats_of_keyed act : keyed_by Stats.id (stats_of act).
Proof.
  apply (fold_left_inv (keyed_by Stats.id)); [|done].
  intros; apply upsert_pure_keyed; [done|apply stats_key_seed|done].
Qed.

Lemma guard_statistics_elem act att gs p :
  processGuardStatistics act att = Ok gs → p ∈ gs →
  ∃ g, Obj.get_own (stats_of act) (Stats.id g) = Some g ∧ p = guard_stat g.
Proof.
  rewrite processGuardStatistics_unfold. destruct (existsb _ act); [done|].
  intros [= <-] Hp%sort_elem_of.
  apply list_elem_of_fmap in Hp as (g & -> & (k & Hk)%elem_of_values).
  apply get_own_elem in Hk; [|apply stats_of_NoDup].
  exists g. by rewrite (stats_of_keyed act k g Hk).
Qed.

(** For every guard of the statistics the on-time and late
    activities add up to the activities, critical alerts are at most the
    alerts and these at most the activities, and the posts are distinct,
    at least one and at most the activities. *)
Theorem guard_statistics_entries_ok act att gs :
  processGuardStatistics act att = Ok gs →
  Forall (λ p, ∃ g, p = guard_stat g ∧ stats_ok g) gs.
Proof.
  intros Hgs. apply Forall_forall. intros p Hp.
  destruct (guard_statistics_elem act att gs p Hgs Hp) as (g & Hg & ->).
  exists g. split; [done|]. by eapply all_get_own, Hg; apply stats_of_ok.
Qed.

(** No two guards of the statistics have the same service number. *)
Lemma guard_statistics_ids act att gs :
  processGuardStatistics act att = Ok gs → NoDup (GuardStat.id <$> gs).
Proof.
  rewrite processGuardStatistics_unfold. case_match; [done|]. intros [= <-].
  rewrite sort_perm, <- list_fmap_compose.
  apply (keyed_values_NoDup Stats.id); [apply stats_of_keyed|apply stats_of_NoDup].
Qed.

(** The statistics of the result are those of the entries of the
    ledger, and the entry of a guard is made from the rows of that guard
    alone, in the order of the export. *)
Theorem guard_statistics_refines act att gs :
  processGuardStatistics act att = Ok gs →
  gs ≡ₚ guard_stat <$> (map_to_list (stats_ledger act)).*2 ∧
  ∀ k, stats_ledger act !! k =
       entry_of seed_stats record_activity (rows_of stats_key k act).
Proof.
  rewrite processGuardStatistics_unfold. case_match; [done|]. intros [= <-].
  split; [|apply ledger_lookup].
  rewrite sort_perm. unfold stats_of, stats_ledger. by rewrite values_ledger.
Qed.

Lemma stats_of_counter (μ : Stats.t → nat) (flag : row → bool) act k g :
  (∀ r v, μ (record_activity r v) = μ v + (if flag r then 1 else 0)) →
  (∀ r, μ (seed_stats r) = 0) →
  Obj.get_own (stats_of act) k = Some g →
  μ g = count_if (λ r, hits stats_key k r && flag r) act.
Proof.
  intros Hupd Hseed Hg.
  assert (counter_at μ k (stats_of act) = μ g) as <-
    by (unfold counter_at; by rewrite Hg).
  unfold stats_of. by rewrite (counter_fold_upsert _ _ _ μ flag Hupd).
Qed.

Ltac stats_side :=
  first
    [ assumption
    | intros; unfold record_activity, alert_flag, critical_flag, timely,
        alerting, critical; simpl;
      repeat case_match; simpl in *; try done; lia ].

Lemma stats_counts act k g :
  Obj.get_own (stats_of act) k = Some g →
  Stats.totalActivities g = count_if (hits stats_key k) act ∧
  Stats.onTimeActivities g = count_if (λ r, hits stats_key k r && timely r) act ∧
  Stats.lateActivities g =
    count_if (λ r, hits stats_key k r && negb (timely r)) act ∧
  Stats.alerts g = count_if (λ r, hits stats_key k r && alerting r) act ∧
  Stats.criticalAlerts g =
    count_if (λ r, hits stats_key k r && (alerting r && critical r)) act.
Proof.
  intros Hg. split_and!.
  - rewrite (stats_of_counter Stats.totalActivities (λ _, true) act k g)
      by stats_side.
    apply count_if_ext. intros; apply andb_true_r.
  - by rewrite (stats_of_counter Stats.onTimeActivities timely act k g)
      by stats_side.
  - by rewrite (stats_of_counter Stats.lateActivities (λ r, negb (timely r)) act k g)
      by stats_side.
  - by rewrite (stats_of_counter Stats.alerts alerting act k g) by stats_side.
  - by rewrite (stats_of_counter Stats.criticalAlerts
                  (λ r, alerting r && critical r) act k g) by stats_side.
Qed.

(** C27: the counters of a guard in the statistics count the activity
    rows of its service number: all of them, those on time, the others,
    those with an alert and those with a critical alert. *)
Theorem guard_statistics_counts act att gs p (k := GuardStat.id p) :
  processGuardStatistics act att = Ok gs → p ∈ gs →
  GuardStat.totalActivities p = count_if (hits stats_key k) act ∧
  GuardStat.onTimeActivities p =
    count_if (λ r, hits stats_key k r && timely r) act ∧
  GuardStat.lateActivities p =
    count_if (λ r, hits stats_key k r && negb (timely r)) act ∧
  GuardStat.alerts p = count_if (λ r, hits stats_key k r && alerting r) act ∧
  GuardStat.criticalAlerts p =
    count_if (λ r, hits stats_key k r && (alerting r && critical r)) act.
Proof.
  intros Hgs Hp. destruct (guard_statistics_elem act att gs p Hgs Hp) as (g & Hg & ->).
  by apply stats_counts.
Qed.

Lemma guard_statistics_percentages act att gs p :
  array_size act → processGuardStatistics act att = Ok gs → p ∈ gs →
  percentage (GuardStat.punctualityRate p) ∧ percentage (GuardStat.alertRate p).
Proof.
  unfold array_size. intros Hn Hgs Hp.
  destruct (guard_statistics_elem act att gs p Hgs Hp) as (g & Hg & ->).
  assert (stats_ok g) as (H1 & H2 & H3 & H4 & _)
    by (eapply all_get_own, Hg; apply stats_of_ok).
  destruct (stats_counts act _ g Hg) as (Ht & _).
  pose proof (count_if_le_length (hits stats_key (Stats.id g)) act).
  simpl. unfold percent. rewrite <- H1.
  split; apply percent_round; try lia; try apply small_100; apply small_counter; lia.
Qed.

(** The punctuality rate and the alert rate of every guard are
    integers from 0 to 100; the divisions the code does not guard never see
    a zero. *)
Theorem guard_statistics_rates act att gs :
  array_size act → processGuardStatistics act att = Ok gs →
  Forall (λ p, percentage (GuardStat.punctualityRate p) ∧
               percentage (GuardStat.alertRate p)) gs.
Proof.
  intros Hn Hgs. apply Forall_forall. intros p Hp.
  exact (guard_statistics_percentages act att gs p Hn Hgs Hp).
Qed.

(** The statistics are in descending order of the punctuality
    rate. *)
Theorem guard_statistics_sorted act att gs :
  array_size act → processGuardStatistics act att = Ok gs →
  StronglySorted (key_le punctuality_key) gs.
Proof.
  intros Hn Hgs.
  assert (Forall (λ p, percentage (GuardStat.punctualityRate p)) gs) as Hall.
  { apply Forall_forall. intros p Hp.
    by destruct (guard_statistics_percentages act att gs p Hn Hgs Hp). }
  rewrite processGuardStatistics_unfold in Hgs. destruct (existsb _ act); [done|].
  injection Hgs as <-.
  apply (sort_sorted by_punctuality_desc _ punctuality_key
           (desc_keyed GuardStat.punctualityRate)).
  by rewrite <- (sort_perm by_punctuality_desc).
Qed.

(** ** The coverage of the posts *)

(** [curr['Full Name']] is truthy. *)
Definition guarded (curr : row) : bool :=
  if guard_name curr is Some _ then true else false.

(** The post a row is counted for.  A post whose name is a property of
    [Object.prototype] is reached only by the rows that name a guard: the
    others fail both conditions of the callback. *)
Definition coverage_key (curr : row) : option string :=
  match cell curr Col.PostName with
  | Some location =>
      if String.eqb location "" then None
      else if Obj.inherited location && negb (guarded curr) then None
      else Some location
  | None => None
  end.

(** The object the pass builds when it does not throw. *)
Definition coverage_of (data : list row) : Obj.t Coverage.t :=
  fold_left (upsert_pure coverage_key (λ _, new_coverage) cover) data Obj.empty.

(** The abstract result of the pass: the entry of each post. *)
Definition coverage_ledger (data : list row) : gmap string Coverage.t :=
  ledger coverage_key (λ _, new_coverage) cover data.

(** What the counters of a post satisfy. *)
Definition coverage_ok (c : Coverage.t) : Prop :=
  Coverage.covered c ≤ Coverage.total c ∧
  Coverage.alerts c ≤ Coverage.total c ∧
  1 ≤ Coverage.total c ∧
  JSSet.size (Coverage.guards c) ≤ Coverage.covered c ∧
  NoDup (Coverage.guards c).

Lemma coverage_step_eq o r :
  own_ok o →
  coverage_step o r =
  if poison coverage_key r then Throw (TypeError "add")
  else Ok (upsert_pure coverage_key (λ _, new_coverage) cover o r).
Proof.
  intros Ho. unfold coverage_step, poison, upsert_pure, coverage_key, guarded, Obj.get.
  destruct (cell r Col.PostName) as [l|]; [|done].
  destruct (String.eqb l ""); [done|].
  destruct (Obj.get_own o l) as [c|] eqn:E.
  - rewrite (own_ok_get_own o l c Ho E). simpl.
    by rewrite E, (own_ok_get_own o l c Ho E).
  - destruct (Obj.inherited l) eqn:I; simpl; [|by rewrite E, I].
    destruct (guard_name r); simpl; [by rewrite I|done].
Qed.

Lemma coverage_unfold data :
  processLocationCoverage data =
  if existsb (poison coverage_key) data then Throw (TypeError "add")
  else Ok (coverage_of data).
Proof.
  apply (foldM_fails_on own_ok); [apply coverage_step_eq| |apply own_ok_empty].
  intros; by apply upsert_pure_own_ok.
Qed.

(** The coverage object is the ledger of the posts: as a dictionary it
    has one entry per post, made from the rows of that post alone. *)
Theorem coverage_refines data lc :
  processLocationCoverage data = Ok lc →
  obj_map lc = coverage_ledger data ∧
  ∀ k, coverage_ledger data !! k =
       entry_of (λ _, new_coverage) cover (rows_of coverage_key k data).
Proof.
  rewrite coverage_unfold. case_match; [done|]. intros [= <-].
  split; [apply upsert_refines|apply ledger_lookup].
Qed.

(** The coverage pass throws exactly when a row names a guard at a
    post whose name is a property of [Object.prototype]; such a row without
    a guard is passed over. *)
Theorem coverage_throws_iff data :
  (∃ e, processLocationCoverage data = Throw e) ↔
  ∃ r k, r ∈ data ∧ cell r Col.PostName = Some k ∧ Obj.inherited k = true ∧
         guarded r = true.
Proof.
  rewrite coverage_unfold.
  assert (existsb (poison coverage_key) data = true ↔
          ∃ r k, r ∈ data ∧ cell r Col.PostName = Some k ∧
                 Obj.inherited k = true ∧ guarded r = true) as <-.
  { rewrite poison_exists. unfold coverage_key.
    split; intros (r & k & Hr & Hk); exists r, k; (split; [done|]).
    - destruct Hk as [Hk Hi]. destruct (cell r Col.PostName) as [l|]; [|done].
      destruct (String.eqb l ""); [done|].
      destruct (Obj.inherited l) eqn:I, (guarded r) eqn:G; simplify_eq/=;
        by first [congruence|split_and!].
    - destruct Hk as (-> & Hi & ->). rewrite Hi. simpl.
      destruct (String.eqb_spec k ""); [by subst|done]. }
  destruct (existsb _ data); split; intros Hx; try done; [by eexists|by destruct Hx].
Qed.

Lemma cover_ok r c :
  Coverage.covered c ≤ Coverage.total c → Coverage.alerts c ≤ Coverage.total c →
  JSSet.size (Coverage.guards c) ≤ Coverage.covered c →
  NoDup (Coverage.guards c) →
  coverage_ok (cover r c).
Proof.
  intros H1 H2 H3 H4. unfold coverage_ok, cover, alert_flag; simpl.
  destruct (guard_name r) as [name|].
  - pose proof (add_size (Coverage.guards c) name).
    case_match; split_and!; try lia; by apply add_NoDup.
  - case_match; split_and!; try lia; done.
Qed.

Lemma coverage_of_ok data : all coverage_ok (coverage_of data).
Proof.
  apply fold_upsert_all; [| |constructor].
  - intros r c (? & ? & ? & ? & ?). by apply cover_ok.
  - intros r. apply cover_ok; simpl; try lia. constructor.
Qed.

(** The entries of the coverage object: no post twice, and consistent
    counters under each. *)
Lemma coverage_entries_ok data lc :
  processLocationCoverage data = Ok lc →
  NoDup (Obj.keys lc) ∧ all coverage_ok lc.
Proof.
  rewrite coverage_unfold. case_match; [done|]. intros [= <-].
  split; [apply fold_upsert_NoDup; constructor|apply coverage_of_ok].
Qed.

Lemma coverage_of_counter (μ : Coverage.t → nat) (flag : row → bool) data k c :
  (∀ r v, μ (cover r v) = μ v + (if flag r then 1 else 0)) →
  μ new_coverage = 0 →
  Obj.get_own (coverage_of data) k = Some c →
  μ c = count_if (λ r, hits coverage_key k r && flag r) data.
Proof.
  intros Hupd Hseed Hc.
  assert (counter_at μ k (coverage_of data) = μ c) as <-
    by (unfold counter_at; by rewrite Hc).
  unfold coverage_of. by rewrite (counter_fold_upsert _ _ _ μ flag Hupd).
Qed.

Ltac coverage_side :=
  first
    [ assumption
    | intros; unfold cover, alert_flag, alerting, guarded; simpl;
      repeat case_match; simpl in *; try done; lia ].

Lemma coverage_counts_at data k c :
  Obj.get_own (coverage_of data) k = Some c →
  Coverage.total c = count_if (hits coverage_key k) data ∧
  Coverage.covered c = count_if (λ r, hits coverage_key k r && guarded r) data ∧
  Coverage.alerts c = count_if (λ r, hits coverage_key k r && alerting r) data.
Proof.
  intros Hc. split_and!.
  - rewrite (coverage_of_counter Coverage.total (λ _, true) data k c)
      by coverage_side.
    apply count_if_ext. intros; apply andb_true_r.
  - by rewrite (coverage_of_counter Coverage.covered guarded data k c)
      by coverage_side.
  - by rewrite (coverage_of_counter Coverage.alerts alerting data k c)
      by coverage_side.
Qed.

(** C29: when the coverage pass returns, the entry of a post counts the
    rows of the post, those of them that name a guard and those with an
    alert; the guards of the entry are distinct and at most the covered
    rows. *)
Theorem coverage_counts data lc k c :
  processLocationCoverage data = Ok lc → Obj.get_own lc k = Some c →
  Coverage.total c = count_if (hits coverage_key k) data ∧
  Coverage.covered c = count_if (λ r, hits coverage_key k r && guarded r) data ∧
  Coverage.alerts c = count_if (λ r, hits coverage_key k r && alerting r) data ∧
  coverage_ok c.
Proof.
  rewrite coverage_unfold. destruct (existsb _ data); [done|]. intros [= <-] Hc.
  destruct (coverage_counts_at data k c Hc) as (? & ? & ?). split_and!; try done.
  by eapply all_get_own, Hc; apply coverage_of_ok.
Qed.

(** ** The attendance summary and the performance metrics *)

(** The attendance summary counts the rows, those marked
    ["On-time"] and the others, and carries the coverage of the posts. *)
Theorem attendance_summary data a :
  processAttendanceData data = Ok a →
  Attendance.totalShifts a = length data ∧
  Attendance.onTime a = count_if on_time data ∧
  Attendance.onTime a + Attendance.late a = Attendance.totalShifts a ∧
  processLocationCoverage data = Ok (Attendance.locationCoverage a).
Proof.
  unfold processAttendanceData.
  destruct (processLocationCoverage data) as [lc|e]; [|done]. intros [= <-]; simpl.
  pose proof (count_if_le_length on_time data). split_and!; try done; lia.
Qed.

Lemma ratios_bounded (vs : list Coverage.t) acc n :
  Forall (λ c, coverage_ok c ∧ small (Coverage.total c)) vs →
  bounded acc n → small (n + length vs) →
  bounded (fold_left add_ratio vs acc) (n + length vs).
Proof.
  revert acc n. induction vs as [|c vs IH]; intros acc n Hvs Hacc Hs; simpl.
  - by rewrite Nat.add_0_r.
  - apply Forall_cons in Hvs as [[(H1 & _ & H3 & _) Hc] Hvs].
    simpl in Hs. replace (n + S (length vs)) with ((n + 1) + length vs) in * by lia.
    apply IH; [done| |done].
    apply bounded_add; [done|apply bounded_ratio; [done|lia|done]|].
    eapply small_le; [|exact Hs]. lia.
Qed.

Lemma coverage_values_ok data :
  array_size data →
  Forall (λ c, coverage_ok c ∧ small (Coverage.total c))
         (Obj.values (coverage_of data)).
Proof.
  unfold array_size. intros Hn. apply Forall_forall. intros c (k & Hk)%elem_of_values.
  apply get_own_elem in Hk; [|apply fold_upsert_NoDup; constructor].
  split; [by eapply all_get_own, Hk; apply coverage_of_ok|].
  destruct (coverage_counts_at data k c Hk) as (-> & _).
  pose proof (count_if_le_length (hits coverage_key k) data).
  apply small_counter. lia.
Qed.

Lemma avgCoverage_bounded data :
  array_size data → 0 < length (Obj.keys (coverage_of data)) →
  bounded (avgCoverage (coverage_of data)) 100.
Proof.
  intros Hn Hpos. pose proof (fold_upsert_size coverage_key (λ _, new_coverage)
                                cover data Obj.empty) as Hsize.
  fold (coverage_of data) in Hsize. simpl in Hsize. unfold array_size in Hn.
  assert (small (length (Obj.keys (coverage_of data)))) as Hs
    by (apply small_counter; lia).
  unfold avgCoverage. apply (bounded_mul _ 1 100); [|apply small_100..].
  apply bounded_div; [|done..]. rewrite <- values_length in *.
  apply (ratios_bounded _ _ 0); [by apply coverage_values_ok|apply bounded_zero|done].
Qed.

(** When some row is counted for a post, the coverage score of
    the performance metrics is an integer from 0 to 100. *)
Theorem coverage_score_percentage act data a gs :
  array_size data → processAttendanceData data = Ok a →
  (∃ r, r ∈ data ∧ is_Some (coverage_key r)) →
  percentage (Performance.coverageScore (calculatePerformanceMetrics act a gs)).
Proof.
  intros Hn Ha (r & Hr & k & Hk). revert Ha. unfold processAttendanceData.
  rewrite coverage_unfold. destruct (existsb _ data); [done|]. intros [= <-]. simpl.
  apply bounded_round, avgCoverage_bounded; [done|].
  assert (k ∈ Obj.keys (coverage_of data)) as Hin
    by (apply fold_upsert_keys; right; by exists r).
  destruct (Obj.keys (coverage_of data)); [by apply elem_of_nil in Hin|simpl; lia].
Qed.

(** When no row is counted for a post the average coverage is
    [0 / 0 * 100], and the coverage score of the performance metrics is
    [NaN]. *)
Theorem coverage_score_nan act data gs :
  (∀ r, r ∈ data → coverage_key r = None) →
  ∃ a, processAttendanceData data = Ok a ∧
       Performance.coverageScore (calculatePerformanceMetrics act a gs) = Num.NaN.
Proof.
  intros Hnone.
  assert (fold_left (upsert_pure coverage_key (λ _, new_coverage) cover) data
            Obj.empty = Obj.empty) as Hlc.
  { apply (fold_left_inv (λ o, o = Obj.empty)); [|done].
    intros o r Hr ->. unfold upsert_pure. by rewrite (Hnone r Hr). }
  assert (existsb (poison coverage_key) data = false) as Hp.
  { apply not_true_is_false. intros (r & k & Hr & Hk & _)%poison_exists.
    by rewrite (Hnone r Hr) in Hk. }
  eexists. unfold processAttendanceData. rewrite coverage_unfold, Hp. unfold coverage_of.
  rewrite Hlc. split; [reflexivity|]. by vm_compute.
Qed.

Lemma critical_alerting r : critical r = true → alerting r = true.
Proof.
  unfold critical, alerting, Str.eqb, Str.truthy.
  destruct (cell r Col.Alert) as [s|]; [|done]. by intros ->%String.eqb_eq.
Qed.

(** The performance metrics count the activity rows with an alert
    and those whose alert is ["Critical"]; the second count is at most the
    first. *)
Theorem performance_alert_counts act a gs
    (m := calculatePerformanceMetrics act a gs) :
  Performance.totalAlerts m = count_if alerting act ∧
  Performance.criticalAlerts m = count_if critical act ∧
  Performance.criticalAlerts m ≤ Performance.totalAlerts m.
Proof.
  assert (Performance.totalAlerts m = count_if alerting act) as Ht
    by (by rewrite count_if_sum).
  assert (Performance.criticalAlerts m = count_if critical act) as Hc
    by (by rewrite count_if_sum).
  rewrite Ht, Hc. split_and!; try done. apply count_if_mono, critical_alerting.
Qed.

(** With no guard in the statistics the overall accuracy is
    [Math.round(0 / 0)], that is [NaN]. *)
Theorem performance_no_guards act a :
  Performance.overallAccuracy (calculatePerformanceMetrics act a []) = Num.NaN.
Proof. reflexivity. Qed.

(** ** The theorems at work on a small export *)

Definition alert_row (date_time time_accuracy location_accuracy service_number
                      user_name post_name alert : string) : row :=
  mk_row [(Col.DateTime, date_time); (Col.TimeAccuracy, time_accuracy);
          (Col.LocationAccuracy, location_accuracy);
          (Col.ServiceNumber, service_number); (Col.UserName, user_name);
          (Col.PostName, post_name); (Col.Alert, alert)].

Definition sample_activity : list row :=
  [ alert_row "2024-10-19 14:05:00" "On Time" "12" "G-1" "asha" "Gate A" "";
    alert_row "2024-10-19 08:15:00" "Late" "50" "G-2" "bo" "Gate A" "Critical";
    alert_row "2024-10-19 08:40:00" "On Time" "5" "G-1" "asha" "Gate B" "Warning" ].

(** A shift at a post that nobody has named. *)
Definition unnamed_post : list row :=
  [ attendance_row "2024-10-19" "Asha Rao" "G-1" "" "On-time" "8" ].

Definition sample_series : list HourBucket.t :=
  Eval vm_compute in processActivityData sample_activity.

Definition sample_hour_bucket : HourBucket.t :=
  Eval vm_compute in nth 0 sample_series (new_bucket Num.zero (mk_row [])).

Definition stats_for (activityData : list row) : list GuardStat.t :=
  match processGuardStatistics activityData [] with
  | Ok gs => gs
  | Throw _ => []
  end.

Definition sample_stats : list GuardStat.t :=
  Eval vm_compute in stats_for sample_activity.

Definition sample_stat : GuardStat.t :=
  Eval vm_compute in nth 0 sample_stats (guard_stat (new_stats "" (mk_row []))).

Definition sample_summary : Attendance.t :=
  Eval vm_compute in
    match processAttendanceData sample_attendance with
    | Ok a => a
    | Throw _ => Attendance.mk 0 0 0 Obj.empty None
    end.

Definition sample_post : Coverage.t :=
  Eval vm_compute in
    default new_coverage
      (Obj.get_own (Attendance.locationCoverage sample_summary) "Gate A").

Lemma sample_activity_parseable : Forall parseable sample_activity.
Proof.
  unfold sample_activity.
  repeat (apply Forall_cons; split; [intros _; vm_compute; discriminate|]).
  constructor.
Qed.

Lemma sample_hour_bucket_elem : sample_hour_bucket ∈ processActivityData sample_activity.
Proof. vm_compute. apply list_elem_of_here. Qed.

Lemma sample_stats_ok : processGuardStatistics sample_activity [] = Ok sample_stats.
Proof. vm_compute. reflexivity. Qed.

Lemma sample_stat_elem : sample_stat ∈ sample_stats.
Proof. apply list_elem_of_here. Qed.

Lemma sample_activity_size : array_size sample_activity.
Proof. by vm_compute. Qed.

Lemma sample_attendance_size : array_size sample_attendance.
Proof. by vm_compute. Qed.

Lemma sample_summary_ok : processAttendanceData sample_attendance = Ok sample_summary.
Proof. vm_compute. reflexivity. Qed.

Lemma activity_series_counts_witness :
  HourBucket.count sample_hour_bucket =
    count_if (in_hour (Num.of_nat 8)) sample_activity ∧
  HourBucket.alerts sample_hour_bucket =
    count_if (λ r, in_hour (Num.of_nat 8) r && alerting r) sample_activity ∧
  HourBucket.criticalAlerts sample_hour_bucket =
    count_if (λ r, in_hour (Num.of_nat 8) r && critical r) sample_activity.
Proof.
  apply activity_series_counts; [apply sample_hour_bucket_elem|].
  vm_compute. reflexivity.
Defined.

Lemma activity_series_sorted_witness :
  StronglySorted (key_le bucket_key) (processActivityData sample_activity).
Proof. apply activity_series_sorted, sample_activity_parseable. Defined.

Lemma guard_statistics_entries_ok_witness :
  Forall (λ p, ∃ g, p = guard_stat g ∧ stats_ok g) sample_stats.
Proof. apply (guard_statistics_entries_ok sample_activity []), sample_stats_ok. Defined.

Lemma guard_statistics_counts_witness :
  GuardStat.totalActivities sample_stat =
    count_if (hits stats_key (GuardStat.id sample_stat)) sample_activity ∧
  GuardStat.onTimeActivities sample_stat =
    count_if (λ r, hits stats_key (GuardStat.id sample_stat) r && timely r)
             sample_activity ∧
  GuardStat.lateActivities sample_stat =
    count_if (λ r, hits stats_key (GuardStat.id sample_stat) r && negb (timely r))
             sample_activity ∧
  GuardStat.alerts sample_stat =
    count_if (λ r, hits stats_key (GuardStat.id sample_stat) r && alerting r)
             sample_activity ∧
  GuardStat.criticalAlerts sample_stat =
    count_if (λ r, hits stats_key (GuardStat.id sample_stat) r
                   && (alerting r && critical r)) sample_activity.
Proof.
  apply (guard_statistics_counts sample_activity [] sample_stats);
    [apply sample_stats_ok|apply sample_stat_elem].
Defined.

Lemma guard_statistics_rates_witness :
  Forall (λ p, percentage (GuardStat.punctualityRate p) ∧
               percentage (GuardStat.alertRate p)) sample_stats.
Proof.
  apply (guard_statistics_rates sample_activity []);
    [apply sample_activity_size|apply sample_stats_ok].
Defined.

Lemma guard_statistics_sorted_witness :
  StronglySorted (key_le punctuality_key) sample_stats.
Proof.
  apply (guard_statistics_sorted sample_activity []);
    [apply sample_activity_size|apply sample_stats_ok].
Defined.

Lemma coverage_counts_witness :
  Coverage.total sample_post =
    count_if (hits coverage_key "Gate A") sample_attendance ∧
  Coverage.covered sample_post =
    count_if (λ r, hits coverage_key "Gate A" r && guarded r) sample_attendance ∧
  Coverage.alerts sample_post =
    count_if (λ r, hits coverage_key "Gate A" r && alerting r) sample_attendance ∧
  coverage_ok sample_post.
Proof.
  apply (coverage_counts sample_attendance
           (Attendance.locationCoverage sample_summary));
    vm_compute; reflexivity.
Defined.

Lemma attendance_summary_witness :
  Attendance.totalShifts sample_summary = length sample_attendance ∧
  Attendance.onTime sample_summary = count_if on_time sample_attendance ∧
  Attendance.onTime sample_summary + Attendance.late sample_summary =
    Attendance.totalShifts sample_summary ∧
  processLocationCoverage sample_attendance =
    Ok (Attendance.locationCoverage sample_summary).
Proof. apply attendance_summary, sample_summary_ok. Defined.

Lemma coverage_score_percentage_witness :
  percentage (Performance.coverageScore
                (calculatePerformanceMetrics sample_activity sample_summary
                                             sample_stats)).
Proof.
  apply (coverage_score_percentage _ sample_attendance);
    [apply sample_attendance_size|apply sample_summary_ok|].
  eexists. split; [apply list_elem_of_here|]. vm_compute. by eexists.
Defined.

Lemma coverage_score_nan_witness :
  ∃ a, processAttendanceData unnamed_post = Ok a ∧
       Performance.coverageScore
         (calculatePerformanceMetrics sample_activity a sample_stats) = Num.NaN.
Proof.
  apply coverage_score_nan. intros r ->%list_elem_of_singleton.
  vm_compute. reflexivity.
Defined.

End App.
