(* ===== verification/Accuracy.v ===== *)
(** * Accuracy: what a guard of the alert dashboard carries besides counters

    [processGuardStatistics] of [src/src/App.js] keeps, for each guard,
    the name of the first row, the date of the last one and the array of
    the location accuracies that [parseInt] could read (lines 119-141);
    the final [map] adds their rounded mean (lines 159-161), which the
    guards table shows in metres.

    - The three fields are made from the rows of the guard alone, in the
      order of the export ([guard_statistics_fields]).
    - When no [Location Accuracy] cell has a minus sign and none holds
      more than [amax], the mean is a whole number from 0 to [amax]
      ([average_accuracy_in_range]); a guard none of whose cells could be
      read has the mean 0. *)

From stdpp Require Import base list strings gmap.
From S2P Require Import Prelude JSNumber Binary64 JSString Amounts JSObject JSArray.
From S2P Require Import Upsert Ledger Row Guards Alerts.
Import App.

(** The accuracy a row adds to the array: that of a cell that is not empty
    and that [parseInt] reads. *)
Definition accuracy_of (record : row) : option number :=
  match cell record Col.LocationAccuracy with
  | Some s =>
      if String.eqb s "" then None
      else if Num.isNaN (Str.parseInt s) then None
      else Some (Str.parseInt s)
  | None => None
  end.

(** What is asked of a row for the mean to be bounded: its cell has no
    minus sign and the accuracy it adds is at most [amax]. *)
Definition accurate_within (amax : nat) (record : row) : bool :=
  match accuracy_of record with
  | Some a =>
      from_option unsigned true (cell record Col.LocationAccuracy) &&
      Num.leb a (Num.of_nat amax)
  | None => true
  end.

Lemma push_accuracy_credit r l :
  push_accuracy r l = l ++ option_list (accuracy_of r).
Proof.
  unfold push_accuracy, accuracy_of.
  destruct (cell r Col.LocationAccuracy) as [s|]; [|by rewrite app_nil_r].
  destruct (String.eqb s ""); [by rewrite app_nil_r|].
  destruct (Num.isNaN _); [by rewrite app_nil_r|done].
Qed.

Lemma fold_push_accuracy rs l :
  fold_left (λ a r, push_accuracy r a) rs l = l ++ omap accuracy_of rs.
Proof.
  revert l. induction rs as [|r rs IH]; intros l; simpl; [by rewrite app_nil_r|].
  rewrite IH, push_accuracy_credit, <- app_assoc. by destruct (accuracy_of r).
Qed.

Lemma fold_last_activity rs v :
  fold_left (λ (_ : option string) r, cell r Col.DateTime) rs v =
  from_option (λ r, cell r Col.DateTime) v (last rs).
Proof.
  revert v. induction rs as [|r rs IH]; intros v; simpl; [done|].
  rewrite IH, last_cons. by destruct (last rs).
Qed.

Lemma stats_of_fields act k g (rs := rows_of stats_key k act) :
  Obj.get_own (stats_of act) k = Some g →
  Stats.locationAccuracy g = omap accuracy_of rs ∧
  Stats.name g = head rs ≫= (λ r, cell r Col.UserName) ∧
  Stats.lastActivity g = last rs ≫= (λ r, cell r Col.DateTime).
Proof.
  subst rs. rewrite <- obj_map_get_own. unfold stats_of.
  rewrite upsert_refines, ledger_lookup. intros E. split_and!.
  - by rewrite (entry_field seed_stats record_activity Stats.locationAccuracy
                  push_accuracy (λ _ _, eq_refl) [] _ _ (λ _, eq_refl) E),
               fold_push_accuracy.
  - destruct (rows_of _ _ _) as [|r rs]; [done|]. injection E as <-.
    by rewrite (tally_kept record_activity Stats.name).
  - rewrite (entry_field seed_stats record_activity Stats.lastActivity
               (λ r _, cell r Col.DateTime) (λ _ _, eq_refl) None _ _ (λ _, eq_refl) E),
            fold_last_activity.
    by destruct (last _).
Qed.

(** The array of accuracies of a guard holds what [parseInt] reads in the
    rows of the guard, in their order; the name is the [User Name] of its
    first row and the last activity the [Date/Time] of its last row. *)
Theorem guard_statistics_fields act att gs p
    (rs := rows_of stats_key (GuardStat.id p) act) :
  processGuardStatistics act att = Ok gs → p ∈ gs →
  GuardStat.locationAccuracy p = omap accuracy_of rs ∧
  GuardStat.name p = head rs ≫= (λ r, cell r Col.UserName) ∧
  GuardStat.lastActivity p = last rs ≫= (λ r, cell r Col.DateTime).
Proof.
  intros Hgs Hp. subst rs.
  destruct (guard_statistics_elem act att gs p Hgs Hp) as (g & Hg & ->).
  exact (stats_of_fields act _ g Hg).
Qed.

(** ** The mean *)

Lemma accuracy_bounded amax r a :
  small amax → accurate_within amax r = true → accuracy_of r = Some a →
  bounded a amax.
Proof.
  unfold accurate_within. intros Hs Hw Ha. rewrite Ha in Hw.
  apply andb_prop in Hw as [Hu Hle]. apply amount_leb_bounded; [done| |done].
  revert Ha Hu. unfold accuracy_of.
  destruct (cell r Col.LocationAccuracy) as [s|]; [|done]. simpl.
  destruct (String.eqb s ""); [done|]. destruct (Num.isNaN _) eqn:E; [done|].
  intros [= <-] Hu. destruct (parseInt_unsigned s Hu) as [H|H]; [|done].
  by rewrite H in E.
Qed.

Lemma mean_bounded amax (l : list number) :
  Forall (λ a, bounded a amax) l →
  small (amax * length l) → small (length l) → small amax →
  ∃ k, k ≤ amax ∧ avgLocationAccuracy l = Num.of_nat k.
Proof.
  intros Hl Hn Hlen Hs. unfold avgLocationAccuracy.
  destruct l as [|a l]; [exists 0; split; [lia|done]|].
  apply bounded_round, bounded_div_by; [|simpl; lia|done..].
  by apply (fold_add_bounded amax _ Num.zero 0); [|apply bounded_zero|].
Qed.

(** When no [Location Accuracy] cell that counts has a minus sign or holds
    more than [amax], the mean accuracy of every guard is a whole number
    from 0 to [amax]. *)
Theorem average_accuracy_in_range amax act att gs p :
  array_size act → (Z.of_nat amax ≤ 2 ^ 20)%Z →
  Forall (λ r, accurate_within amax r = true) act →
  processGuardStatistics act att = Ok gs → p ∈ gs →
  ∃ k, k ≤ amax ∧ GuardStat.avgLocationAccuracy p = Num.of_nat k.
Proof.
  unfold array_size. intros Hn Hmax Hact Hgs Hp.
  destruct (guard_statistics_elem act att gs p Hgs Hp) as (g & Hg & ->).
  destruct (stats_of_fields act _ g Hg) as (Hl & _).
  cbn [guard_stat GuardStat.avgLocationAccuracy]. rewrite Hl.
  pose proof (length_omap_le accuracy_of (rows_of stats_key (Stats.id g) act)) as H1.
  pose proof (length_filter (λ r, stats_key r = Some (Stats.id g)) act) as H2.
  change (filter _ act) with (rows_of stats_key (Stats.id g) act) in H2.
  assert (2 ^ 20 * 2 ^ 32 < 2 ^ 53)%Z as Hpow by done.
  apply mean_bounded; [|unfold small; nia|unfold small; lia|unfold small; lia].
  apply Forall_forall. intros a (r & Hr & Ha)%list_elem_of_omap.
  apply (accuracy_bounded amax r); [unfold small; lia| |done].
  rewrite Forall_forall in Hact. apply Hact. eapply filter_within, Hr.
Qed.

(** ** Concrete runs *)

Local Open Scope string_scope.

(** The first guard of [sample_activity] was read at 12 and at 5 metres:
    the mean 8.5 is shown as 9. *)
Example sample_accuracy :
  GuardStat.locationAccuracy sample_stat = [Num.of_nat 12; Num.of_nat 5] ∧
  GuardStat.avgLocationAccuracy sample_stat = Num.of_nat 9.
Proof. by vm_compute. Qed.

Lemma sample_activity_accurate : Forall (λ r, accurate_within 50 r = true) sample_activity.
Proof. repeat (apply Forall_cons_2; [by vm_compute|]). apply Forall_nil_2. Defined.

Lemma guard_statistics_fields_witness :
  let rs := rows_of stats_key (GuardStat.id sample_stat) sample_activity in
  GuardStat.locationAccuracy sample_stat = omap accuracy_of rs ∧
  GuardStat.name sample_stat = head rs ≫= (λ r, cell r Col.UserName) ∧
  GuardStat.lastActivity sample_stat = last rs ≫= (λ r, cell r Col.DateTime).
Proof.
  apply (guard_statistics_fields sample_activity [] sample_stats sample_stat);
    [apply sample_stats_ok|apply sample_stat_elem].
Defined.

Lemma average_accuracy_in_range_witness :
  ∃ k : nat, (k ≤ 50)%nat ∧
             GuardStat.avgLocationAccuracy sample_stat = Num.of_nat k.
Proof.
  apply (average_accuracy_in_range 50 sample_activity [] sample_stats sample_stat);
    [apply sample_activity_size|by vm_compute|apply sample_activity_accurate
    |apply sample_stats_ok|apply sample_stat_elem].
Defined.
