(* ===== verification/Members.v ===== *)
(** * Members: the sets an entry keeps

    Each aggregation keeps a [Set] in the entry of a key: the posts a
    guard has covered ([processGuardData], line 110 of
    [src/unnamed/part_001]), the guards seen at a post
    ([processLocationCoverage], line 202), and in [src/src/App.js] the
    posts of a guard (line 133) and the guards of a post (line 85).  The
    final [map] turns the set into an array.

    The array has no element twice, and its elements are the values of
    the rows of the key: every one of them, and nothing else
    ([guard_posts], [location_guards], [statistics_posts],
    [coverage_guards]).  Where the code adds a cell without testing it
    the value can be [undefined]: a shift without a post name makes
    [undefined] one of the posts a guard has covered
    ([unnamed_post_is_covered]). *)

From stdpp Require Import base list strings gmap.
From S2P Require Import Prelude JSNumber JSString JSObject JSArray.
From S2P Require Import Upsert Ledger Row Hourly Guards Locations Alerts.

(** ** Compliance dashboard *)

Lemma guards_of_posts act att k g post :
  Obj.get_own (guards_of act att) k = Some g →
  post ∈ Guard.coverage g ↔
  ∃ r, r ∈ rows_of attendance_key k att ∧ cell r Col.PostName = post.
Proof.
  rewrite <- obj_map_get_own, guards_of_refines. unfold guard_ledger.
  rewrite fold_amend_lookup, ledger_lookup.
  destruct (entry_of _ _ _) as [g0|] eqn:E; [|done]. intros [= <-].
  rewrite (tally_kept record_activity Guard.coverage) by done.
  rewrite (entry_field seed record_shift Guard.coverage
             (λ r s, from_option (JSSet.add s) s (Some (cell r Col.PostName)))
             (λ _ _, eq_refl) JSSet.empty _ _ (λ _, eq_refl) E).
  rewrite (fold_add_elem_of (λ r, Some (cell r Col.PostName))).
  split; [intros [[]%elem_of_nil|(r & Hr & [= <-])]; eauto|].
  intros (r & Hr & <-). right. eauto.
Qed.

(** The posts of a guard are the [Post Name] cells of its attendance rows,
    each once; [coverageCount] is their number. *)
Theorem guard_posts act att gs p :
  processGuardData act att = Ok gs → p ∈ gs →
  NoDup (GuardProfile.coverage p) ∧
  GuardMetrics.coverageCount (GuardProfile.metrics p) =
    length (GuardProfile.coverage p) ∧
  ∀ post, post ∈ GuardProfile.coverage p ↔
          ∃ r, r ∈ rows_of attendance_key (GuardProfile.id p) att ∧
               cell r Col.PostName = post.
Proof.
  intros Hgs Hp. destruct (processGuardData_elem act att gs p Hgs Hp) as (g & Hg & ->).
  assert (guard_ok g) as (_ & _ & _ & _ & Hnd)
    by (eapply all_get_own, Hg; apply guards_of_ok).
  split_and!; [done..|]. intros post. exact (guards_of_posts act att _ g post Hg).
Qed.

(** The name a row adds to the guards of its post. *)
Definition guard_of (record : row) : option string :=
  if staffed record then cell record Col.FullName else None.

Lemma record_post_guards r m :
  Loc.guards (record_post r m) =
  from_option (JSSet.add (Loc.guards m)) (Loc.guards m) (guard_of r).
Proof.
  unfold record_post, guard_of, staffed, Str.truthy.
  destruct (cell r Col.FullName) as [name|]; [|done]. by destruct (String.eqb name "").
Qed.

Lemma locations_of_guards data k m name :
  Obj.get_own (locations_of data) k = Some m →
  name ∈ Loc.guards m ↔
  ∃ r, r ∈ rows_of post_key k data ∧ guard_of r = Some name.
Proof.
  rewrite <- obj_map_get_own. unfold locations_of. rewrite upsert_refines, ledger_lookup.
  intros E.
  rewrite (entry_field seed_location record_post Loc.guards
             (λ r s, from_option (JSSet.add s) s (guard_of r))
             record_post_guards JSSet.empty _ _ (λ _, eq_refl) E).
  rewrite fold_add_elem_of. split; [by intros [[]%elem_of_nil|]|by right].
Qed.

(** The guards of a location are the names in the rows of its post that
    have one, each once. *)
Theorem location_guards data ls p :
  processLocationCoverage data = Ok ls → p ∈ ls →
  NoDup (LocProfile.guards p) ∧
  ∀ name, name ∈ LocProfile.guards p ↔
          ∃ r, r ∈ rows_of post_key (LocProfile.location p) data ∧
               guard_of r = Some name.
Proof.
  intros Hls Hp. destruct (processLocationCoverage_elem data ls p Hls Hp) as (m & Hm & ->).
  assert (location_ok m) as (_ & _ & _ & _ & Hnd)
    by (eapply all_get_own, Hm; apply locations_of_ok).
  split; [done|]. intros name. exact (locations_of_guards data _ m name Hm).
Qed.

(** ** Alert dashboard *)

Section AlertDashboard.
Import App.

Lemma stats_of_posts act k g post :
  Obj.get_own (stats_of act) k = Some g →
  post ∈ Stats.posts g ↔
  ∃ r, r ∈ rows_of stats_key k act ∧ cell r Col.PostName = post.
Proof.
  rewrite <- obj_map_get_own. unfold stats_of. rewrite upsert_refines, ledger_lookup.
  intros E.
  rewrite (entry_field seed_stats record_activity Stats.posts
             (λ r s, from_option (JSSet.add s) s (Some (cell r Col.PostName)))
             (λ _ _, eq_refl) JSSet.empty _ _ (λ _, eq_refl) E).
  rewrite (fold_add_elem_of (λ r, Some (cell r Col.PostName))).
  split; [intros [[]%elem_of_nil|(r & Hr & [= <-])]; eauto|].
  intros (r & Hr & <-). right. eauto.
Qed.

(** The posts of a guard of the statistics are the [Post Name] cells of
    its activity rows, each once. *)
Theorem statistics_posts act att gs p :
  processGuardStatistics act att = Ok gs → p ∈ gs →
  NoDup (GuardStat.posts p) ∧
  ∀ post, post ∈ GuardStat.posts p ↔
          ∃ r, r ∈ rows_of stats_key (GuardStat.id p) act ∧
               cell r Col.PostName = post.
Proof.
  intros Hgs Hp. destruct (guard_statistics_elem act att gs p Hgs Hp) as (g & Hg & ->).
  assert (stats_ok g) as (_ & _ & _ & _ & _ & _ & Hnd)
    by (eapply all_get_own, Hg; apply stats_of_ok).
  split; [done|]. intros post. exact (stats_of_posts act _ g post Hg).
Qed.

Lemma cover_guards r c :
  Coverage.guards (cover r c) =
  from_option (JSSet.add (Coverage.guards c)) (Coverage.guards c) (guard_name r).
Proof. unfold cover. by destruct (guard_name r). Qed.

(** The guards of a post in the coverage object are the names in the
    rows counted for the post, each once. *)
Theorem coverage_guards data lc k c :
  processLocationCoverage data = Ok lc → Obj.get_own lc k = Some c →
  NoDup (Coverage.guards c) ∧
  ∀ name, name ∈ Coverage.guards c ↔
          ∃ r, r ∈ rows_of coverage_key k data ∧ guard_name r = Some name.
Proof.
  rewrite coverage_unfold. destruct (existsb _ data); [done|]. intros [= <-] Hc.
  assert (coverage_ok c) as Hok by (eapply all_get_own, Hc; apply coverage_of_ok).
  split; [apply Hok|]. intros name. revert Hc.
  rewrite <- obj_map_get_own. unfold coverage_of. rewrite upsert_refines, ledger_lookup.
  intros E.
  rewrite (entry_field (λ _, new_coverage) cover Coverage.guards
             (λ r s, from_option (JSSet.add s) s (guard_name r))
             cover_guards JSSet.empty _ _ (λ _, eq_refl) E).
  rewrite fold_add_elem_of. split; [by intros [[]%elem_of_nil|]|by right].
Qed.

End AlertDashboard.

(** ** Concrete runs *)

Local Open Scope string_scope.

(** One shift that names no post. *)
Definition unposted_shift : list row :=
  [ mk_row [(Col.LoginDate, "2024-10-19"); (Col.FullName, "Asha Rao");
            (Col.ServiceNumber, "G-1"); (Col.LateHours, "On-time")] ].

(** [coverage.add(record['Post Name'])] has no test: the guard of that
    shift has covered one location, [undefined], which earns 10 of the 30
    points for coverage. *)
Example unnamed_post_is_covered :
  (λ p, (GuardProfile.coverage p,
         GuardMetrics.coverageCount (GuardProfile.metrics p),
         GuardMetrics.performanceScore (GuardProfile.metrics p))) <$>
    profiles_of [] unposted_shift = [([None], 1, Num.of_nat 40)].
Proof. by vm_compute. Qed.

Lemma guard_posts_witness :
  NoDup (GuardProfile.coverage sample_guard) ∧
  GuardMetrics.coverageCount (GuardProfile.metrics sample_guard) =
    length (GuardProfile.coverage sample_guard) ∧
  ∀ post, post ∈ GuardProfile.coverage sample_guard ↔
          ∃ r, r ∈ rows_of attendance_key (GuardProfile.id sample_guard)
                           sample_attendance ∧
               cell r Col.PostName = post.
Proof.
  apply (guard_posts sample_day sample_attendance sample_profiles sample_guard);
    [apply sample_ok|apply sample_guard_elem].
Defined.

Lemma location_guards_witness :
  NoDup (LocProfile.guards sample_location) ∧
  ∀ name, name ∈ LocProfile.guards sample_location ↔
          ∃ r, r ∈ rows_of post_key (LocProfile.location sample_location)
                           sample_posts ∧
               guard_of r = Some name.
Proof.
  apply (location_guards sample_posts sample_locations sample_location);
    [apply sample_posts_ok|apply sample_location_elem].
Defined.

Lemma statistics_posts_witness :
  NoDup (App.GuardStat.posts App.sample_stat) ∧
  ∀ post, post ∈ App.GuardStat.posts App.sample_stat ↔
          ∃ r, r ∈ rows_of App.stats_key (App.GuardStat.id App.sample_stat)
                           App.sample_activity ∧
               cell r Col.PostName = post.
Proof.
  apply (statistics_posts App.sample_activity [] App.sample_stats App.sample_stat);
    [apply App.sample_stats_ok|apply App.sample_stat_elem].
Defined.
