(* ===== verification/ExactRates.v ===== *)
(** * ExactRates: the rates as functions of the counters

    The rates of the two dashboards are computed in binary64 arithmetic as
    [Math.round((part / total) * 100)].  [Rates] shows that this is the
    integer function [rounded_percent] of the two counters.  This file
    states it for each rate the aggregations return: the coverage and
    punctuality rate of a location and the two rates of a guard in
    [src/unnamed/part_001], its overall compliance score, and the
    punctuality and alert rate of a guard in [src/src/App.js].

    The specification writes the rates as [round(100 * part / total)].
    The two agree except when [part / total] is 29/200, 57/200, 113/200
    or 115/200, where the code gives the integer below the half
    ([rates_depart_at_four_fractions], and [half_way_rounds_down] for 23
    of 40). *)

From S2P Require Import Prelude JSNumber Binary64 Rates JSString JSObject JSArray.
From S2P Require Import Upsert Row Hourly Guards Locations Compliance Alerts.

(** The reference for a rate that is [0] when its denominator is. *)
Definition guarded_percent (part total : nat) : nat :=
  if 0 <? total then rounded_percent part total else 0.

(** The percentage rounded half up, as the specification writes it. *)
Definition half_up_percent (part total : nat) : nat :=
  (200 * part + total) / (2 * total).

(** The fractions at which the two roundings of the code lose the half. *)
Definition departs (part total : nat) : Prop :=
  200 * part = 29 * total ∨ 200 * part = 57 * total ∨
  200 * part = 113 * total ∨ 200 * part = 115 * total.

(** ** The three forms of a rate in the sources *)

Lemma percent_exact part total :
  part ≤ total → 0 < total → (Z.of_nat total < 2 ^ 42)%Z →
  App.percent part total = Num.of_nat (rounded_percent part total).
Proof. apply percent_reference. Qed.

Lemma rate_exact part total :
  part ≤ total → (Z.of_nat total < 2 ^ 42)%Z →
  rate part total = Num.of_nat (guarded_percent part total).
Proof.
  intros Hle Hsize. unfold rate, guarded_percent.
  destruct (Nat.ltb_spec 0 total); [|done]. by apply percent_reference.
Qed.

(** ** Compliance dashboard *)

(** C12: The coverage rate and the punctuality rate of a location are the
    rounded percentages of its counters. *)
Theorem location_rates_exact data ls p (s := LocProfile.shifts p) :
  array_size data → processLocationCoverage data = Ok ls → p ∈ ls →
  LocMetrics.coverageRate (LocProfile.metrics p) =
    Num.of_nat (rounded_percent (LocShifts.covered s) (LocShifts.total s)) ∧
  LocMetrics.punctualityRate (LocProfile.metrics p) =
    Num.of_nat (guarded_percent (LocShifts.onTime s) (LocShifts.covered s)).
Proof.
  unfold array_size. intros Hn Hls Hp. subst s.
  destruct (processLocationCoverage_elem data ls p Hls Hp) as (m & Hm & ->).
  assert (location_ok m) as (H1 & H2 & H3 & _)
    by (eapply all_get_own, Hm; apply locations_of_ok).
  destruct (location_counts data _ m Hm) as (Ht & _).
  pose proof (count_if_le_length (hits post_key (Loc.location m)) data).
  cbn [location_profile LocProfile.shifts LocProfile.metrics location_metrics
       LocMetrics.coverageRate LocMetrics.punctualityRate].
  split; [apply percent_reference|apply rate_exact]; lia.
Qed.

(** The attendance rate and the activity compliance rate of a guard. *)
Theorem guard_rates_exact act att gs p
    (s := GuardProfile.shifts p) (a := GuardProfile.activities p) :
  array_size act → array_size att →
  processGuardData act att = Ok gs → p ∈ gs →
  GuardMetrics.attendanceRate (GuardProfile.metrics p) =
    Num.of_nat (guarded_percent (Shifts.onTime s) (Shifts.total s)) ∧
  GuardMetrics.activityComplianceRate (GuardProfile.metrics p) =
    Num.of_nat (guarded_percent
                  (Activities.onTime a + Activities.locationAccurate a)
                  (2 * Activities.total a)).
Proof.
  unfold array_size. intros Hact Hatt Hgs Hp. subst s a.
  destruct (processGuardData_counters_le act att gs p Hgs Hp) as [Hs Ha].
  destruct (processGuardData_elem act att gs p Hgs Hp) as (g & Hg & ->).
  assert (guard_ok g) as (H1 & H2 & H3 & _)
    by (eapply all_get_own, Hg; apply guards_of_ok).
  simpl in *. split; apply rate_exact; lia.
Qed.

(** The overall compliance score. *)
Theorem overall_exact activities locations guards
    (r := calculateComplianceMetrics activities locations guards) :
  array_size locations → array_size guards →
  0 < length locations + length guards →
  ComplianceResult.overall r =
  Num.of_nat (rounded_percent
                (sum_list (loc_passed <$> ComplianceResult.byLocation r) +
                 sum_list (guard_passed <$> ComplianceResult.byGuard r))
                (3 * (length locations + length guards))).
Proof.
  unfold array_size. intros Hl Hg Hpos. subst r. unfold calculateComplianceMetrics.
  pose proof (overallMetrics_passed_le locations guards) as Hle. simpl in *.
  destruct (overallMetrics_counts (location_compliance <$> locations)
              (guard_compliance <$> guards)) as [Ht Hp].
  rewrite !length_fmap in Ht. rewrite Ht, Hp in *.
  apply percent_reference; lia.
Qed.

(** ** Alert dashboard *)

Section AlertDashboard.
Import App.

(** The punctuality rate and the alert rate of a guard. *)
Theorem guard_statistics_rates_exact act att gs p :
  array_size act → processGuardStatistics act att = Ok gs → p ∈ gs →
  GuardStat.punctualityRate p =
    Num.of_nat (rounded_percent (GuardStat.onTimeActivities p)
                                (GuardStat.totalActivities p)) ∧
  GuardStat.alertRate p =
    Num.of_nat (rounded_percent (GuardStat.alerts p) (GuardStat.totalActivities p)).
Proof.
  unfold array_size. intros Hn Hgs Hp.
  destruct (guard_statistics_elem act att gs p Hgs Hp) as (g & Hg & ->).
  assert (stats_ok g) as (H1 & H2 & H3 & H4 & _)
    by (eapply all_get_own, Hg; apply stats_of_ok).
  destruct (stats_counts act _ g Hg) as (Ht & _).
  pose proof (count_if_le_length (hits stats_key (Stats.id g)) act).
  simpl. rewrite <- H1. split; apply percent_reference; lia.
Qed.

(** An entry of the coverage object of a summary: its counters are
    consistent and count rows of the export. *)
Lemma coverage_entry data a k c :
  processAttendanceData data = Ok a →
  (k, c) ∈ Obj.entries (Attendance.locationCoverage a) →
  coverage_ok c ∧ Coverage.total c ≤ length data.
Proof.
  intros Ha Hin. destruct (attendance_summary data a Ha) as (_ & _ & _ & Hlc).
  revert Hlc. rewrite coverage_unfold. destruct (existsb _ data); [done|].
  intros [= Hlc]. rewrite <- Hlc, elem_of_entries in Hin.
  apply get_own_elem in Hin; [|apply fold_upsert_NoDup; constructor].
  split; [by eapply all_get_own, Hin; apply coverage_of_ok|].
  destruct (coverage_counts_at data k c Hin) as (-> & _). apply count_if_le_length.
Qed.

End AlertDashboard.

(** ** Where the code and exact arithmetic part *)

Lemma rounds_down_iff j : rounds_down j = true ↔ j = 14 ∨ j = 28 ∨ j = 56 ∨ j = 57.
Proof.
  unfold rounds_down, down_ties. simpl. rewrite !orb_true_iff, !Nat.eqb_eq.
  split; [intros [?|[?|[?|[?|[]%Bool.diff_false_true]]]]|]; lia.
Qed.

Lemma multiple_div_mod n t c :
  0 < t → n = 2 * t * c → n mod (2 * t) = 0 ∧ n / (2 * t) = c.
Proof.
  intros Ht ->. rewrite (Nat.mul_comm (2 * t) c).
  split; [apply Nat.Div0.mod_mul|apply Nat.div_mul; lia].
Qed.

Lemma rounded_percent_departs part total (k := half_up_percent part total) :
  0 < total →
  (departs part total ∧ 1 ≤ k ∧ rounded_percent part total = k - 1) ∨
  (¬ departs part total ∧ rounded_percent part total = k).
Proof.
  intros Hpos. subst k. unfold rounded_percent, half_up_percent.
  destruct (decide (departs part total)) as [Hd|Hn]; [left|right]; (split; [done|]).
  - assert (∃ c, (c = 15 ∨ c = 29 ∨ c = 57 ∨ c = 58) ∧
                 200 * part + total = 2 * total * c) as (c & Hc & E)
      by (destruct Hd as [H|[H|[H|H]]];
          [exists 15|exists 29|exists 57|exists 58]; lia).
    destruct (multiple_div_mod _ total c Hpos E) as [Hm Hk]. rewrite Hm, Hk.
    destruct Hc as [-> | [-> | [-> | ->]]]; (split; [lia|done]).
  - pose proof (Nat.div_mod_eq (200 * part + total) (2 * total)) as Hdiv.
    destruct (Nat.eqb_spec ((200 * part + total) mod (2 * total)) 0) as [E|]; [|done].
    destruct (rounds_down _) eqn:Hr; [|done]. apply rounds_down_iff in Hr.
    destruct Hn. rewrite E, Nat.add_0_r in Hdiv. unfold departs.
    set (k := (200 * part + total) / (2 * total)) in *.
    assert (k = 15 ∨ k = 29 ∨ k = 57 ∨ k = 58) as [Hk|[Hk|[Hk|Hk]]] by lia;
      rewrite Hk in Hdiv; lia.
Qed.

(** Where the rates of the code and of the specification part: the code
    gives the percentage rounded half up, except at the four fractions
    29/200, 57/200, 113/200 and 115/200, where it gives one less. *)
Theorem rates_depart_at_four_fractions part total :
  part ≤ total → 0 < total → (Z.of_nat total < 2 ^ 42)%Z →
  App.percent part total =
    Num.of_nat (half_up_percent part total - if decide (departs part total) then 1 else 0) ∧
  (App.percent part total = Num.of_nat (half_up_percent part total) ↔
   ¬ departs part total).
Proof.
  intros Hle Hpos Hsize. rewrite (percent_exact part total Hle Hpos Hsize).
  assert (half_up_percent part total ≤ 100) as H100.
  { unfold half_up_percent. apply Nat.lt_succ_r, Nat.Div0.div_lt_upper_bound. lia. }
  assert (∀ a b, a ≤ 100 → b ≤ 100 → Num.of_nat a = Num.of_nat b → a = b) as Hinj.
  { intros a b Ha Hb. apply of_nat_inj; apply small_counter; lia. }
  destruct (rounded_percent_departs part total Hpos) as [(Hd & Hk & ->)|(Hn & ->)];
    case_decide; try done.
  - split; [done|]. split; [intros E%Hinj; lia|done].
  - split; [by rewrite Nat.sub_0_r|done].
Qed.

(** 23 of 40 is 57.5 per cent, which the code shows as 57: the quotient
    is rounded below 0.575 before it is multiplied. *)
Example half_way_rounds_down :
  rounded_percent 23 40 = 57 ∧ App.percent 23 40 = Num.of_nat 57 ∧
  rate 23 40 = Num.of_nat 57 ∧
  (200 * 23 + 40) / (2 * 40) = 58.
Proof. by vm_compute. Qed.

(** ** The theorems at the sample exports *)

Lemma location_rates_exact_witness :
  let s := LocProfile.shifts sample_location in
  LocMetrics.coverageRate (LocProfile.metrics sample_location) =
    Num.of_nat (rounded_percent (LocShifts.covered s) (LocShifts.total s)) ∧
  LocMetrics.punctualityRate (LocProfile.metrics sample_location) =
    Num.of_nat (guarded_percent (LocShifts.onTime s) (LocShifts.covered s)).
Proof.
  apply (location_rates_exact sample_posts sample_locations sample_location);
    [apply sample_posts_size|apply sample_posts_ok|apply sample_location_elem].
Defined.

Lemma guard_rates_exact_witness :
  let s := GuardProfile.shifts sample_guard in
  let a := GuardProfile.activities sample_guard in
  GuardMetrics.attendanceRate (GuardProfile.metrics sample_guard) =
    Num.of_nat (guarded_percent (Shifts.onTime s) (Shifts.total s)) ∧
  GuardMetrics.activityComplianceRate (GuardProfile.metrics sample_guard) =
    Num.of_nat (guarded_percent
                  (Activities.onTime a + Activities.locationAccurate a)
                  (2 * Activities.total a)).
Proof.
  apply (guard_rates_exact sample_day sample_attendance sample_profiles sample_guard);
    [apply sample_sizes|apply sample_sizes|apply sample_ok|apply sample_guard_elem].
Defined.

Lemma overall_exact_witness :
  let r := calculateComplianceMetrics [] sample_locations sample_profiles in
  ComplianceResult.overall r =
  Num.of_nat (rounded_percent
                (sum_list (loc_passed <$> ComplianceResult.byLocation r) +
                 sum_list (guard_passed <$> ComplianceResult.byGuard r))
                (3 * (length sample_locations + length sample_profiles))).
Proof.
  apply (overall_exact [] sample_locations sample_profiles);
    [vm_compute; reflexivity|vm_compute; reflexivity|vm_compute; lia].
Defined.

Lemma guard_statistics_rates_exact_witness :
  App.GuardStat.punctualityRate App.sample_stat =
    Num.of_nat (rounded_percent (App.GuardStat.onTimeActivities App.sample_stat)
                                (App.GuardStat.totalActivities App.sample_stat)) ∧
  App.GuardStat.alertRate App.sample_stat =
    Num.of_nat (rounded_percent (App.GuardStat.alerts App.sample_stat)
                                (App.GuardStat.totalActivities App.sample_stat)).
Proof.
  apply (guard_statistics_rates_exact App.sample_activity [] App.sample_stats);
    [apply App.sample_activity_size|apply App.sample_stats_ok|apply App.sample_stat_elem].
Defined.
