(* ===== verification/AlertApp.v ===== *)
(** * AlertApp: the state of the alert dashboard, its loader and its events

    The component [App] of [src/src/App.js] outside its aggregation
    functions (those are in [Alerts]): the ten [useState] cells, [processData]
    with its interleaved [setState] calls, [loadData] with its
    [try]/[catch]/[finally], the effect that runs it on mount and on a change
    of the selected date, the three handlers of the controls, the choice of
    the screen and the guard filter of the dashboard.

    The CSV decoder is a parameter [parse] of the section; what the two
    fetches give is an argument of [loadData].

    [step] handles an event with the load it starts run to its end.  The
    component is also an instance of the machine of [Async], where a load
    is suspended at its [await]s ([start], [resume]); the last theorems
    show that the two views agree, because no second load can start while
    one is in flight.

    [well_formed] says what the cells hold at every render: consistent
    counters, no post and no guard twice.  It holds of the initial state
    and every event preserves it ([alert_well_formed]). *)

From stdpp Require Import base list strings pretty.
From S2P Require Import Prelude JSNumber JSString JSObject JSArray JSDate.
From S2P Require Import Upsert Effects Async Row Guards Alerts.

Module AlertApp.
Import App.

(** ** The state *)

Module Filter.
Record t : Type := mk { timeRange : string; location : string; status : string }.
End Filter.

Module State.
Record t : Type := mk {
  loading : bool;
  error : option string;
  activityData : list HourBucket.t;
  attendanceData : Attendance.t;
  guardStats : list GuardStat.t;
  selectedDate : string;
  activeTab : string;
  searchTerm : string;
  performanceMetrics : Performance.t;
  filterOptions : Filter.t
}.
End State.
Import State.

(** The arguments of the [useState] calls. *)
Definition initial : State.t :=
  {| loading := true;
     error := None;
     activityData := [];
     attendanceData :=
       {| Attendance.totalShifts := 0; Attendance.onTime := 0;
          Attendance.late := 0; Attendance.locationCoverage := Obj.empty;
          Attendance.avgCoverage := None |};
     guardStats := [];
     selectedDate := "2024-10-19";
     activeTab := "overview";
     searchTerm := "";
     performanceMetrics :=
       {| Performance.overallAccuracy := Num.zero;
          Performance.criticalAlerts := 0;
          Performance.coverageScore := Num.zero;
          Performance.totalAlerts := 0 |};
     filterOptions :=
       {| Filter.timeRange := "24h"; Filter.location := "all";
          Filter.status := "all" |} |}.

Definition setLoading (v : bool) (s : State.t) : State.t :=
  mk v (error s) (activityData s) (attendanceData s) (guardStats s)
     (selectedDate s) (activeTab s) (searchTerm s) (performanceMetrics s)
     (filterOptions s).

Definition setError (v : option string) (s : State.t) : State.t :=
  mk (loading s) v (activityData s) (attendanceData s) (guardStats s)
     (selectedDate s) (activeTab s) (searchTerm s) (performanceMetrics s)
     (filterOptions s).

Definition setActivityData (v : list HourBucket.t) (s : State.t) : State.t :=
  mk (loading s) (error s) v (attendanceData s) (guardStats s)
     (selectedDate s) (activeTab s) (searchTerm s) (performanceMetrics s)
     (filterOptions s).

Definition setAttendanceData (v : Attendance.t) (s : State.t) : State.t :=
  mk (loading s) (error s) (activityData s) v (guardStats s)
     (selectedDate s) (activeTab s) (searchTerm s) (performanceMetrics s)
     (filterOptions s).

Definition setGuardStats (v : list GuardStat.t) (s : State.t) : State.t :=
  mk (loading s) (error s) (activityData s) (attendanceData s) v
     (selectedDate s) (activeTab s) (searchTerm s) (performanceMetrics s)
     (filterOptions s).

Definition setSelectedDate (v : string) (s : State.t) : State.t :=
  mk (loading s) (error s) (activityData s) (attendanceData s) (guardStats s)
     v (activeTab s) (searchTerm s) (performanceMetrics s) (filterOptions s).

Definition setActiveTab (v : string) (s : State.t) : State.t :=
  mk (loading s) (error s) (activityData s) (attendanceData s) (guardStats s)
     (selectedDate s) v (searchTerm s) (performanceMetrics s) (filterOptions s).

Definition setSearchTerm (v : string) (s : State.t) : State.t :=
  mk (loading s) (error s) (activityData s) (attendanceData s) (guardStats s)
     (selectedDate s) (activeTab s) v (performanceMetrics s) (filterOptions s).

Definition setPerformanceMetrics (v : Performance.t) (s : State.t) : State.t :=
  mk (loading s) (error s) (activityData s) (attendanceData s) (guardStats s)
     (selectedDate s) (activeTab s) (searchTerm s) v (filterOptions s).

(** What a load computes from the decoded rows. *)
Module Loaded.
Record t : Type := mk {
  activity : list HourBucket.t;
  attendance : Attendance.t;
  guards : list GuardStat.t;
  performance : Performance.t
}.
End Loaded.

(** The four cells a load writes. *)
Definition data_of (s : State.t) : Loaded.t :=
  {| Loaded.activity := activityData s;
     Loaded.attendance := attendanceData s;
     Loaded.guards := guardStats s;
     Loaded.performance := performanceMetrics s |}.

Definition screen (s : State.t) : screen := screen_of (loading s) (error s).

(** ** The loader *)

Section Loader.
Context `{DateLib} (parse : string → list row).

(** [processData]: each result is stored before the next is computed. *)
Definition processData (activityData attendanceData : list row)
  : eff State.t unit :=
  let activitySummary := processActivityData activityData in
  modify (setActivityData activitySummary);;
  attendanceSummary ← lift (processAttendanceData attendanceData);
  modify (setAttendanceData attendanceSummary);;
  guardStatistics ← lift (processGuardStatistics activityData attendanceData);
  modify (setGuardStats guardStatistics);;
  modify (setPerformanceMetrics
            (calculatePerformanceMetrics activityData attendanceSummary
                                         guardStatistics)).

(** [await fetch(url)], the test of [response.ok] and
    [await response.text()]; [what] is ["Activity"] or ["Attendance"]. *)
Definition fetch_text (what : string) (f : fetched) : res string :=
  match f with
  | Rejected m => Throw (FetchError m)
  | Responded ok status text =>
      if ok then Ok text
      else Throw (FetchError
                    (what +:+ " data HTTP error! status: " +:+ pretty status))
  end.

(** [loadData].  The second fetch is awaited only after the first file is
    decoded. *)
Definition loadData (activity attendance : fetched) : eff State.t unit :=
  try_catch_finally
    (modify (setLoading true);;
     modify (setError None);;
     activityText ← lift (fetch_text "Activity" activity);
     let activityResults := parse activityText in
     attendanceText ← lift (fetch_text "Attendance" attendance);
     let attendanceResults := parse attendanceText in
     processData activityResults attendanceResults)
    (λ err, modify (setError (Some ("Failed to load data: " +:+ error_message err))))
    (modify (setLoading false)).

(** [loadData] up to its first [await]: what the call itself does. *)
Definition start : eff State.t unit :=
  modify (setLoading true);; modify (setError None).

(** [loadData] from its first [await] on: what runs when the promises are
    settled. *)
Definition resume (activity attendance : fetched) : eff State.t unit :=
  try_catch_finally
    (activityText ← lift (fetch_text "Activity" activity);
     let activityResults := parse activityText in
     attendanceText ← lift (fetch_text "Attendance" attendance);
     let attendanceResults := parse attendanceText in
     processData activityResults attendanceResults)
    (λ err, modify (setError (Some ("Failed to load data: " +:+ error_message err))))
    (modify (setLoading false)).

(** The controls are on the dashboard screen only; the mount is the first
    event and no later one. *)
Definition enabled (s : State.t) (ev : event) : bool :=
  match ev with
  | Mounted _ _ => false
  | _ => bool_decide (screen s = DashboardScreen)
  end.

(** One event: the handler of the control, then the effect when the
    selected date has changed. *)
Definition step (s : State.t) (ev : event) : State.t :=
  match ev with
  | Mounted activity attendance => exec (loadData activity attendance) s
  | DateChanged date activity attendance =>
      if String.eqb date (selectedDate s) then s
      else exec (loadData activity attendance) (setSelectedDate date s)
  | TabClicked id => setActiveTab id s
  | SearchTyped value => setSearchTerm value s
  end.

(** The states the component goes through. *)
Inductive reachable : State.t → Prop :=
| reachable_mount activity attendance :
    reachable (step initial (Mounted activity attendance))
| reachable_step s ev :
    reachable s → enabled s ev = true → reachable (step s ev).

(** What a load that succeeds stores. *)
Definition loaded (activityRows attendanceRows : list row) : res Loaded.t :=
  attendanceSummary ← processAttendanceData attendanceRows;
  guardStatistics ← processGuardStatistics activityRows attendanceRows;
  Ok {| Loaded.activity := processActivityData activityRows;
        Loaded.attendance := attendanceSummary;
        Loaded.guards := guardStatistics;
        Loaded.performance :=
          calculatePerformanceMetrics activityRows attendanceSummary
                                      guardStatistics |}.

End Loader.

(** ** The guard filter of the dashboard *)

(** [v.toLowerCase().includes(term.toLowerCase())]; the method call on
    [undefined] throws. *)
Definition lower_includes (v : option string) (term : string) : res bool :=
  match v with
  | Some s => Ok (Str.includes (Str.toLowerCase s) (Str.toLowerCase term))
  | None => Throw (TypeError "toLowerCase")
  end.

(** [l.some(p)]: stops at the first element that passes. *)
Fixpoint someM {A} (p : A → res bool) (l : list A) : res bool :=
  match l with
  | [] => Ok false
  | x :: l' => b ← p x; if b : bool then Ok true else someM p l'
  end.

(** [l.filter(p)] with a callback that may throw. *)
Fixpoint filterM {A} (p : A → res bool) (l : list A) : res (list A) :=
  match l with
  | [] => Ok []
  | x :: l' => b ← p x; r ← filterM p l'; Ok (if b : bool then x :: r else r)
  end.

(** The callback of [guardStats.filter]. *)
Definition guard_matches (term : string) (guard : GuardStat.t) : res bool :=
  b ← lower_includes (GuardStat.name guard) term;
  if b : bool then Ok true
  else someM (λ post, lower_includes post term) (GuardStat.posts guard).

Definition filteredGuards (guardStats : list GuardStat.t) (searchTerm : string)
  : res (list GuardStat.t) :=
  filterM (guard_matches searchTerm) guardStats.

(** ** What a load does to the state *)

(** The state when the [try] block has made its two first calls. *)
Definition started (s : State.t) : State.t := setError None (setLoading true s).

(** The state after [catch] and [finally], from the state the [try] block
    reached. *)
Definition failed (e : js_error) (s : State.t) : State.t :=
  setLoading false
    (setError (Some ("Failed to load data: " +:+ error_message e)) s).

(** The state after a [try] block that reached its end. *)
Definition stored (d : Loaded.t) (s : State.t) : State.t :=
  setLoading false
    (setPerformanceMetrics (Loaded.performance d)
       (setGuardStats (Loaded.guards d)
          (setAttendanceData (Loaded.attendance d)
             (setActivityData (Loaded.activity d) (started s))))).

(** What the cells hold at every render: consistent counters in every
    bucket, post and guard, no post and no guard twice.  Each cell is well
    formed by itself, so a load that stops half-way keeps the state so. *)
Record well_formed (s : State.t) : Prop := {
  wf_series : Forall series_ok (activityData s);
  wf_shifts :
    Attendance.onTime (attendanceData s) + Attendance.late (attendanceData s) =
    Attendance.totalShifts (attendanceData s);
  wf_post_names :
    NoDup (Obj.keys (Attendance.locationCoverage (attendanceData s)));
  wf_posts : all coverage_ok (Attendance.locationCoverage (attendanceData s));
  wf_stats : Forall (λ p, ∃ g, p = guard_stat g ∧ stats_ok g) (guardStats s);
  wf_stat_ids : NoDup (GuardStat.id <$> guardStats s)
}.

Section LoaderProps.
Context `{DateLib} (parse : string → list row).
Implicit Types (s : State.t) (a b : fetched).

(** [processData] runs up to the first aggregation that throws. *)
Lemma run_processData act att s :
  run (processData act att) s =
  let s1 := setActivityData (processActivityData act) s in
  match processAttendanceData att with
  | Throw e => (s1, Throw e)
  | Ok asum =>
      let s2 := setAttendanceData asum s1 in
      match processGuardStatistics act att with
      | Throw e => (s2, Throw e)
      | Ok gs =>
          (setPerformanceMetrics (calculatePerformanceMetrics act asum gs)
             (setGuardStats gs s2), Ok tt)
      end
  end.
Proof.
  unfold processData. rewrite run_modify_bind, run_lift_bind.
  destruct (processAttendanceData att) as [asum|e]; [|done].
  rewrite run_modify_bind, run_lift_bind.
  by destruct (processGuardStatistics act att) as [gs|e].
Qed.

(** The state a load ends in, case by case. *)
Lemma exec_loadData a b s :
  exec (loadData parse a b) s =
  match fetch_text "Activity" a with
  | Throw e => failed e (started s)
  | Ok atext =>
      match fetch_text "Attendance" b with
      | Throw e => failed e (started s)
      | Ok btext =>
          match run (processData (parse atext) (parse btext)) (started s) with
          | (s', Ok _) => setLoading false s'
          | (s', Throw e) => failed e s'
          end
      end
  end.
Proof.
  unfold exec, loadData. rewrite try_catch_finally_modify.
  rewrite !run_modify_bind, run_lift_bind. fold (started s).
  destruct (fetch_text "Activity" a) as [atext|e]; [|done].
  rewrite run_lift_bind.
  destruct (fetch_text "Attendance" b) as [btext|e]; [|done].
  by destruct (run (processData _ _) (started s)) as [s' [[]|e]].
Qed.

(** A load whose fetches and aggregations succeed stores the four results. *)
Lemma exec_loadData_ok a b atext btext d s :
  fetch_text "Activity" a = Ok atext → fetch_text "Attendance" b = Ok btext →
  loaded (parse atext) (parse btext) = Ok d →
  exec (loadData parse a b) s = stored d s.
Proof.
  intros Ha Hb Hd. rewrite exec_loadData, Ha, Hb, run_processData.
  unfold loaded in Hd. cbv zeta.
  destruct (processAttendanceData (parse btext)) as [asum|]; [|done].
  destruct (processGuardStatistics _ _) as [gs|]; [|done].
  simpl in Hd. by injection Hd as <-.
Qed.

(** A load that fails leaves an error message that is not empty, and
    [loading] false. *)
Definition load_failed (s' : State.t) : Prop :=
  loading s' = false ∧
  ∃ e, error s' = Some ("Failed to load data: " +:+ error_message e).

Lemma failed_load_failed e s : load_failed (failed e s).
Proof. split; [done|]. by exists e. Qed.

(** Every load ends in one of two ways. *)
Lemma exec_loadData_cases a b s :
  (∃ atext btext d,
      fetch_text "Activity" a = Ok atext ∧ fetch_text "Attendance" b = Ok btext ∧
      loaded (parse atext) (parse btext) = Ok d ∧
      exec (loadData parse a b) s = stored d s) ∨
  load_failed (exec (loadData parse a b) s).
Proof.
  destruct (fetch_text "Activity" a) as [atext|e] eqn:Ha;
    [|right; rewrite exec_loadData, Ha; apply failed_load_failed].
  destruct (fetch_text "Attendance" b) as [btext|e] eqn:Hb;
    [|right; rewrite exec_loadData, Ha, Hb; apply failed_load_failed].
  destruct (loaded (parse atext) (parse btext)) as [d|e] eqn:Hd.
  - left. exists atext, btext, d. split_and!; try done.
    by apply (exec_loadData_ok a b atext btext).
  - right. rewrite exec_loadData, Ha, Hb, run_processData. cbv zeta.
    unfold loaded in Hd.
    destruct (processAttendanceData (parse btext)) as [asum|];
      [|apply failed_load_failed].
    destruct (processGuardStatistics _ _) as [gs|]; [done|apply failed_load_failed].
Qed.

Lemma load_failed_screen s' : load_failed s' → ∃ t, screen s' = ErrorScreen t.
Proof.
  intros [Hl [e He]]. unfold screen. rewrite Hl, He. eexists. reflexivity.
Qed.

Lemma stored_screen d s : screen (stored d s) = DashboardScreen.
Proof. reflexivity. Qed.

(** C30: a load whose two fetches succeed and whose aggregations do
    not throw stores the four results, clears [loading] and the error, and
    leaves the date, the tab and the search term as they were. *)
Theorem loadData_stores a b atext btext d s (s' := exec (loadData parse a b) s) :
  fetch_text "Activity" a = Ok atext → fetch_text "Attendance" b = Ok btext →
  loaded (parse atext) (parse btext) = Ok d →
  data_of s' = d ∧ loading s' = false ∧ error s' = None ∧
  selectedDate s' = selectedDate s ∧ activeTab s' = activeTab s ∧
  searchTerm s' = searchTerm s.
Proof.
  intros Ha Hb Hd. subst s'. rewrite (exec_loadData_ok a b atext btext d s Ha Hb Hd).
  by destruct d.
Qed.

(** A response to the first fetch that is not [ok] ends the load
    with the message of its status; the data of the state are not
    touched. *)
Theorem loadData_http_error status text b s
    (s' := exec (loadData parse (Responded false status text) b) s) :
  error s' = Some ("Failed to load data: Activity data HTTP error! status: "
                   +:+ pretty status) ∧
  data_of s' = data_of s ∧ loading s' = false.
Proof. subst s'. by rewrite exec_loadData. Qed.

(** C31: when the attendance aggregation throws, the hourly series of
    the new rows is already stored, next to the attendance summary, the
    guard statistics and the performance metrics of the load before. *)
Theorem loadData_partial a b atext btext e s (s' := exec (loadData parse a b) s) :
  fetch_text "Activity" a = Ok atext → fetch_text "Attendance" b = Ok btext →
  processAttendanceData (parse btext) = Throw e →
  activityData s' = processActivityData (parse atext) ∧
  attendanceData s' = attendanceData s ∧ guardStats s' = guardStats s ∧
  performanceMetrics s' = performanceMetrics s ∧
  error s' = Some ("Failed to load data: " +:+ error_message e).
Proof.
  intros Ha Hb He. subst s'. rewrite exec_loadData, Ha, Hb, run_processData.
  cbv zeta. by rewrite He.
Qed.

(** After a load the dashboard is on screen exactly when both
    fetches succeeded and no aggregation threw; otherwise the error screen
    is. *)
Theorem loadData_screen a b s :
  screen (exec (loadData parse a b) s) = DashboardScreen ↔
  ∃ atext btext d,
    fetch_text "Activity" a = Ok atext ∧ fetch_text "Attendance" b = Ok btext ∧
    loaded (parse atext) (parse btext) = Ok d.
Proof.
  split.
  - intros Hs. destruct (exec_loadData_cases a b s)
      as [(atext & btext & d & Ha & Hb & Hd & _)|Hf].
    + by exists atext, btext, d.
    + apply load_failed_screen in Hf as [t Ht]. by rewrite Ht in Hs.
  - intros (atext & btext & d & Ha & Hb & Hd).
    by rewrite (exec_loadData_ok a b atext btext d s Ha Hb Hd).
Qed.

(** The load does not read the selected date: the same files
    give the same state whatever date is chosen. *)
Theorem loadData_ignores_date a b date s :
  exec (loadData parse a b) (setSelectedDate date s) =
  setSelectedDate date (exec (loadData parse a b) s).
Proof.
  rewrite !exec_loadData.
  destruct (fetch_text "Activity" a) as [atext|e]; [|done].
  destruct (fetch_text "Attendance" b) as [btext|e]; [|done].
  rewrite !run_processData. cbv zeta.
  destruct (processAttendanceData (parse btext)) as [asum|]; [|done].
  by destruct (processGuardStatistics _ _) as [gs|].
Qed.

(** What holds of the state between two events. *)
Definition settled (s : State.t) : Prop :=
  loading s = false ∧
  (screen s = DashboardScreen →
   error s = None ∧ ∃ act att, loaded act att = Ok (data_of s)).

Lemma settled_load a b s : settled (exec (loadData parse a b) s).
Proof.
  destruct (exec_loadData_cases a b s)
    as [(atext & btext & d & Ha & Hb & Hd & ->)|Hf].
  - split; [done|]. intros _. split; [done|].
    exists (parse atext), (parse btext). by destruct d.
  - split; [apply Hf|]. intros Hs.
    apply load_failed_screen in Hf as [t Ht]. by rewrite Ht in Hs.
Qed.

Lemma settled_step s ev : settled s → settled (step parse s ev).
Proof.
  intros Hs. destruct ev as [a b|date a b|id|value]; simpl;
    [apply settled_load| |done..].
  destruct (String.eqb date (selectedDate s)); [done|apply settled_load].
Qed.

(** C32: between two events the loading screen is never shown, and
    when the dashboard is shown there is no error and the four results on
    display come from one pair of files. *)
Theorem reachable_settled s : reachable parse s → settled s.
Proof.
  induction 1 as [a b|s ev _ IH _]; [apply settled_load|by apply settled_step].
Qed.

(** ** Well-formed data *)

Lemma alert_initial_well_formed : well_formed initial.
Proof. split; simpl; by repeat constructor. Qed.

(** [processData] keeps the cells well formed up to the point it
    reaches. *)
Lemma processData_well_formed act att s :
  well_formed s → well_formed (run (processData act att) s).1.
Proof.
  intros [H1 H2 H3 H4 H5 H6]. rewrite run_processData. cbv zeta.
  pose proof (activity_series_ok act) as Hact.
  destruct (processAttendanceData att) as [a|e] eqn:Ha; [|by split].
  destruct (attendance_summary att a Ha) as (_ & _ & Hsum & Hlc).
  destruct (coverage_entries_ok att _ Hlc) as [Hnd Hok].
  destruct (processGuardStatistics act att) as [gs|e] eqn:Hgs; [|by split].
  split; simpl; try done.
  - by eapply guard_statistics_entries_ok.
  - by eapply guard_statistics_ids.
Qed.

Lemma alert_load_well_formed a b s :
  well_formed s → well_formed (exec (loadData parse a b) s).
Proof.
  intros Hs. rewrite exec_loadData.
  destruct (fetch_text "Activity" a) as [atext|e]; [|by destruct Hs].
  destruct (fetch_text "Attendance" b) as [btext|e]; [|by destruct Hs].
  assert (well_formed (started s)) as Hs' by (by destruct Hs).
  pose proof (processData_well_formed (parse atext) (parse btext) _ Hs') as Hw.
  destruct (run _ _) as [s' [[]|e]]; by destruct Hw.
Qed.

Lemma alert_step_well_formed s ev :
  well_formed s → well_formed (step parse s ev).
Proof.
  intros Hs. destruct ev as [a b|date a b|id|value]; simpl;
    [by apply alert_load_well_formed| |by destruct Hs..].
  destruct (String.eqb date (selectedDate s)); [done|].
  apply alert_load_well_formed. by destruct Hs.
Qed.

Lemma alert_reachable_well_formed s : reachable parse s → well_formed s.
Proof.
  induction 1 as [a b|s ev _ IH _]; [|by apply alert_step_well_formed].
  apply alert_step_well_formed, alert_initial_well_formed.
Qed.

(** The data of the component is well formed from the first render on,
    and every event keeps it so, also a load that stores the results of
    the first aggregations and then fails. *)
Theorem alert_well_formed :
  well_formed initial ∧
  (∀ s ev, well_formed s → well_formed (step parse s ev)) ∧
  (∀ s, reachable parse s → well_formed s).
Proof.
  split_and!; [apply alert_initial_well_formed| |apply alert_reachable_well_formed].
  intros s ev. apply alert_step_well_formed.
Qed.

(** ** Loads suspended at their [await]s *)

(** A load is its two parts, one after the other. *)
Lemma loadData_split a b s :
  exec (loadData parse a b) s = exec (resume parse a b) (exec start s).
Proof. reflexivity. Qed.

Lemma screen_loading s : loading s = true → screen s = LoadingScreen.
Proof. intros Hl. unfold screen. by rewrite Hl. Qed.

(** The [finally] block ends every load with the loading flag down. *)
Lemma alert_resume_done (date : string) a b s :
  loading (exec (resume parse a b) s) = false.
Proof.
  unfold exec, resume. rewrite try_catch_finally_modify. by repeat case_match.
Qed.

Lemma step_DateChanged s date a b :
  step parse s (DateChanged date a b) =
  if String.eqb date (selectedDate s) then s
  else exec (resume parse a b) (exec start (setSelectedDate date s)).
Proof. reflexivity. Qed.

(** The alert dashboard as a dashboard of [Async]. *)
#[local] Instance alert_dashboard : Async.Dashboard State.t := {|
  Async.initial := initial;
  Async.is_loading := loading;
  Async.shown := screen;
  Async.selected := selectedDate;
  Async.select := setSelectedDate;
  Async.start := exec start;
  Async.resume := λ _ a b, exec (resume parse a b);
  Async.step := step parse;
  Async.shown_loading := screen_loading;
  Async.start_loading := λ _, eq_refl;
  Async.resume_done := alert_resume_done;
  Async.step_mount := λ _ _ _, eq_refl;
  Async.step_date := step_DateChanged
|}.

Lemma async_reachable_settled s : Async.reachable s → settled s.
Proof.
  induction 1 as [a b|s ev _ IH _ _]; [apply settled_load|by apply settled_step].
Qed.

(** With loads suspended at their [await]s, at most one load of
    the alert dashboard is in flight, and while it is the loading screen is
    shown: no control can start a second one. *)
Theorem alert_loads_never_overlap c :
  Async.areachable c →
  length (Async.pending c) ≤ 1 ∧
  (Async.pending c ≠ [] → screen (Async.now c) = LoadingScreen).
Proof.
  intros Hc. split; [by apply Async.pending_at_most_one|].
  exact (Async.pending_loading c Hc).
Qed.

(** With loads suspended at their [await]s, whenever no load is
    in flight the state of the alert dashboard is settled: a dashboard on
    screen shows the four results of one pair of files. *)
Theorem alert_async_settled c :
  Async.areachable c → Async.pending c = [] → settled (Async.now c).
Proof.
  intros Hc Hq. by apply async_reachable_settled, Async.quiescent_reachable.
Qed.

(** With loads suspended at their [await]s, a load in flight always
    ends: the component can resume it, no control can come before, and
    whatever step is taken leaves no load in flight, the loading flag down
    and a settled state. *)
Theorem alert_load_completes c :
  Async.areachable c → Async.pending c ≠ [] →
  (∃ c', Async.aresume c c') ∧
  ∀ c', Async.astep c c' →
        Async.pending c' = [] ∧ loading (Async.now c') = false ∧
        settled (Async.now c').
Proof.
  intros Hc Hp. destruct (Async.load_completes c Hc Hp) as [Hcan Hall].
  split; [done|]. intros c' Hstep. destruct (Hall c' Hstep) as (Hq & Hl & Hr).
  split_and!; [done..|]. by apply async_reachable_settled.
Qed.

End LoaderProps.

(** ** The guard filter *)

Lemma includes_empty s : Str.includes s "" = true.
Proof. by destruct s. Qed.

(** With the empty search term, the filter of the dashboard gives
    every guard when all of them have a name, and throws the [TypeError] of
    [toLowerCase] when one has none: the posts are not looked at. *)
Theorem filteredGuards_empty_term gs :
  filteredGuards gs "" =
  if forallb (λ g, if GuardStat.name g is Some _ then true else false) gs
  then Ok gs
  else Throw (TypeError "toLowerCase").
Proof.
  unfold filteredGuards. induction gs as [|g gs IH]; [done|].
  cbn [filterM forallb]. rewrite IH.
  assert (guard_matches "" g =
          if GuardStat.name g is Some _ then Ok true
          else Throw (TypeError "toLowerCase")) as ->.
  { unfold guard_matches, lower_includes.
    destruct (GuardStat.name g) as [name|]; simpl; [|done].
    by rewrite includes_empty. }
  destruct (GuardStat.name g); simpl; [|done]. by destruct (forallb _ gs).
Qed.

Lemma filterM_ok {A} (p : A → res bool) l r :
  filterM p l = Ok r → r = filter (λ x, p x = Ok true) l.
Proof.
  revert r. induction l as [|x l IH]; intros r; simpl; [by intros [= <-]|].
  destruct (p x) as [b|] eqn:Hp; [|done]. simpl.
  destruct (filterM p l) as [r'|]; [|done]. simpl. intros [= <-].
  rewrite (IH r' eq_refl), filter_cons. destruct b; case_decide; congruence.
Qed.

(** When the filter returns, it gives the guards the callback
    accepts, in their order. *)
Theorem filteredGuards_ok gs term r :
  filteredGuards gs term = Ok r →
  r = filter (λ g, guard_matches term g = Ok true) gs.
Proof. apply filterM_ok. Qed.

(** ** The theorems at work on a small export *)

(** A shift at a post named after a method of every object. *)
Definition poisoned_posts : list row :=
  [ attendance_row "2024-10-19" "Asha Rao" "G-1" "toString" "On-time" "8" ].

(** A decoder for the examples: it knows three texts. *)
Definition sample_parse (text : string) : list row :=
  if String.eqb text "activity" then sample_activity
  else if String.eqb text "attendance" then sample_attendance
  else if String.eqb text "poisoned" then poisoned_posts
  else [].

Definition sample_loaded : Loaded.t :=
  Eval vm_compute in
    match loaded sample_activity sample_attendance with
    | Ok d => d
    | Throw _ => data_of initial
    end.

Definition sample_filtered : list GuardStat.t :=
  Eval vm_compute in
    match filteredGuards sample_stats "gate b" with
    | Ok r => r
    | Throw _ => []
    end.

Lemma sample_loaded_ok :
  loaded (sample_parse "activity") (sample_parse "attendance") = Ok sample_loaded.
Proof. vm_compute. reflexivity. Qed.

Lemma sample_filtered_ok : filteredGuards sample_stats "gate b" = Ok sample_filtered.
Proof. vm_compute. reflexivity. Qed.

Lemma loadData_stores_witness :
  let s' := exec (loadData sample_parse (Responded true 200 "activity")
                           (Responded true 200 "attendance")) initial in
  data_of s' = sample_loaded ∧ loading s' = false ∧ error s' = None ∧
  selectedDate s' = selectedDate initial ∧ activeTab s' = activeTab initial ∧
  searchTerm s' = searchTerm initial.
Proof.
  apply (loadData_stores sample_parse _ _ "activity" "attendance");
    [reflexivity..|apply sample_loaded_ok].
Defined.

Lemma loadData_partial_witness :
  let s' := exec (loadData sample_parse (Responded true 200 "activity")
                           (Responded true 200 "poisoned")) initial in
  activityData s' = processActivityData (sample_parse "activity") ∧
  attendanceData s' = attendanceData initial ∧
  guardStats s' = guardStats initial ∧
  performanceMetrics s' = performanceMetrics initial ∧
  error s' = Some ("Failed to load data: " +:+ error_message (TypeError "add")).
Proof.
  apply (loadData_partial sample_parse _ _ "activity" "poisoned");
    [reflexivity..|vm_compute; reflexivity].
Defined.

Lemma reachable_settled_witness :
  settled (step sample_parse initial
             (Mounted (Responded true 200 "activity")
                      (Responded true 200 "attendance"))).
Proof. apply (reachable_settled sample_parse), reachable_mount. Defined.

(** The first load of the examples, in flight. *)
Definition sample_mounted : @Async.config State.t :=
  @Async.mounted State.t (alert_dashboard sample_parse)
    (Responded true 200 "activity") (Responded true 200 "attendance").

(** The same load, resumed. *)
Definition sample_resumed : @Async.config State.t :=
  Async.Config
    (exec (resume sample_parse (Responded true 200 "activity")
                  (Responded true 200 "attendance")) (exec start initial)) [].

Lemma sample_resumed_reachable :
  @Async.areachable State.t (alert_dashboard sample_parse) sample_resumed.
Proof.
  apply (Async.areachable_step sample_mounted); [constructor|].
  exact (@Async.astep_resume State.t (alert_dashboard sample_parse)
           (exec start initial) [] (selectedDate initial)
           (Responded true 200 "activity") (Responded true 200 "attendance") []).
Qed.

Lemma alert_loads_never_overlap_witness :
  length (Async.pending sample_mounted) ≤ 1 ∧
  (Async.pending sample_mounted ≠ [] →
   screen (Async.now sample_mounted) = LoadingScreen).
Proof. apply (alert_loads_never_overlap sample_parse). constructor. Defined.

Lemma alert_load_completes_witness :
  (∃ c', @Async.aresume State.t (alert_dashboard sample_parse) sample_mounted c') ∧
  ∀ c', @Async.astep State.t (alert_dashboard sample_parse) sample_mounted c' →
        Async.pending c' = [] ∧ loading (Async.now c') = false ∧
        settled (Async.now c').
Proof. apply (alert_load_completes sample_parse); [constructor|done]. Defined.

Lemma alert_async_settled_witness : settled (Async.now sample_resumed).
Proof.
  apply (alert_async_settled sample_parse);
    [apply sample_resumed_reachable|reflexivity].
Defined.

Lemma filteredGuards_ok_witness :
  sample_filtered =
  filter (λ g, guard_matches "gate b" g = Ok true) sample_stats.
Proof. apply filteredGuards_ok, sample_filtered_ok. Defined.

End AlertApp.
