(* ===== verification/ComplianceApp.v ===== *)
(** * ComplianceApp: the state of the compliance dashboard, its loader and
    its events

    The component [App] of [src/unnamed/part_001] outside its aggregation
    functions (those are in [Hourly], [Guards], [Locations] and
    [Compliance]): the nine [useState] cells, [loadData] with the date
    filter, its [try]/[catch]/[finally] and the four stores that follow the
    aggregations, the effect that runs it on mount and on a change of the
    selected date, the handlers of the controls and the choice of the
    screen.

    [loadData] differs from the one of the alert dashboard in three ways
    the theorems make precise: it does not look at the status of a response;
    every aggregation that can throw runs before the first store; and it
    never clears the error.

    The CSV decoder is a parameter [parse] of the section; what the two
    fetches give is an argument of [loadData].

    [step] handles an event with the load it starts run to its end.  The
    component is also an instance of the machine of [Async], where a load
    is suspended at its [await]s ([start], [resume]) and carries the
    selected date of the render that started it; the last theorems show
    that the two views agree, because no second load can start while one
    is in flight.

    [well_formed] says what the cells hold at every render: consistent
    counters, no location and no guard twice, and compliance metrics that
    are those of the profiles on display.  It holds of the initial state
    and every event preserves it ([compliance_well_formed]). *)

From stdpp Require Import base list strings.
From S2P Require Import Prelude JSNumber JSString JSObject JSArray JSDate.
From S2P Require Import Effects Async Row Hourly Guards Locations Compliance.

Module ComplianceApp.

(** ** The state *)

(** The value of the cell [attendanceData]. *)
Module Summary.
Record t : Type := mk {
  totalShifts : nat;
  onTime : nat;
  late : nat;
  locationCoverage : list LocProfile.t
}.
End Summary.

(** The value of the cell [complianceMetrics]: the object of the [useState]
    call, [{overall: 0, byLocation: [], byShift: []}], which has no
    [byGuard], or a result of [calculateComplianceMetrics]. *)
Inductive metrics : Type :=
| NotComputed
| Computed (c : ComplianceResult.t).

Module State.
Record t : Type := mk {
  loading : bool;
  error : option string;
  activityData : list Bucket.t;
  attendanceData : Summary.t;
  guardStats : list GuardProfile.t;
  selectedDate : string;
  activeTab : string;
  searchTerm : string;
  complianceMetrics : metrics
}.
End State.
Import State.

(** The arguments of the [useState] calls. *)
Definition initial : State.t :=
  {| loading := true;
     error := None;
     activityData := [];
     attendanceData := Summary.mk 0 0 0 [];
     guardStats := [];
     selectedDate := "2024-10-19";
     activeTab := "overview";
     searchTerm := "";
     complianceMetrics := NotComputed |}.

Definition setLoading (v : bool) (s : State.t) : State.t :=
  mk v (error s) (activityData s) (attendanceData s) (guardStats s)
     (selectedDate s) (activeTab s) (searchTerm s) (complianceMetrics s).

Definition setError (v : option string) (s : State.t) : State.t :=
  mk (loading s) v (activityData s) (attendanceData s) (guardStats s)
     (selectedDate s) (activeTab s) (searchTerm s) (complianceMetrics s).

Definition setActivityData (v : list Bucket.t) (s : State.t) : State.t :=
  mk (loading s) (error s) v (attendanceData s) (guardStats s)
     (selectedDate s) (activeTab s) (searchTerm s) (complianceMetrics s).

Definition setAttendanceData (v : Summary.t) (s : State.t) : State.t :=
  mk (loading s) (error s) (activityData s) v (guardStats s)
     (selectedDate s) (activeTab s) (searchTerm s) (complianceMetrics s).

Definition setGuardStats (v : list GuardProfile.t) (s : State.t) : State.t :=
  mk (loading s) (error s) (activityData s) (attendanceData s) v
     (selectedDate s) (activeTab s) (searchTerm s) (complianceMetrics s).

Definition setSelectedDate (v : string) (s : State.t) : State.t :=
  mk (loading s) (error s) (activityData s) (attendanceData s) (guardStats s)
     v (activeTab s) (searchTerm s) (complianceMetrics s).

Definition setActiveTab (v : string) (s : State.t) : State.t :=
  mk (loading s) (error s) (activityData s) (attendanceData s) (guardStats s)
     (selectedDate s) v (searchTerm s) (complianceMetrics s).

Definition setSearchTerm (v : string) (s : State.t) : State.t :=
  mk (loading s) (error s) (activityData s) (attendanceData s) (guardStats s)
     (selectedDate s) (activeTab s) v (complianceMetrics s).

Definition setComplianceMetrics (v : ComplianceResult.t) (s : State.t) : State.t :=
  mk (loading s) (error s) (activityData s) (attendanceData s) (guardStats s)
     (selectedDate s) (activeTab s) (searchTerm s) (Computed v).

(** What a load computes from the decoded rows. *)
Module Loaded.
Record t : Type := mk {
  activity : list Bucket.t;
  attendance : Summary.t;
  guards : list GuardProfile.t;
  compliance : ComplianceResult.t
}.
End Loaded.

Definition screen (s : State.t) : screen := screen_of (loading s) (error s).

(** [rows.filter(record => record[col]?.includes(selectedDate))] *)
Definition on_date (col selectedDate : string) (rows : list row) : list row :=
  filter (λ record, Str.opt_includes (cell record col) selectedDate = true) rows.

(** ** The loader *)

Section Loader.
Context `{DateLib} (parse : string → list row).

(** [await fetch(url)] and [await response.text()]: the status of the
    response is not read. *)
Definition fetch_text (f : fetched) : res string :=
  match f with
  | Rejected m => Throw (FetchError m)
  | Responded _ _ text => Ok text
  end.

(** What the [try] block computes after the fetches: the date filter, the
    three aggregations that precede the stores, and the compliance metrics.
    The source calls [calculateComplianceMetrics] after the first three
    stores; the call reads its arguments only and cannot throw, so the
    state after the four stores is the same. *)
Definition loaded (selectedDate : string) (activityRows attendanceRows : list row)
  : res Loaded.t :=
  let filteredActivityData := on_date Col.DateTime selectedDate activityRows in
  let filteredAttendanceData := on_date Col.LoginDate selectedDate attendanceRows in
  let processedActivityData := processActivityData filteredActivityData in
  locationCoverage ← processLocationCoverage filteredAttendanceData;
  guardStatistics ← processGuardData filteredActivityData filteredAttendanceData;
  Ok {| Loaded.activity := processedActivityData;
        Loaded.attendance :=
          {| Summary.totalShifts := length filteredAttendanceData;
             Summary.onTime := count_if punctual filteredAttendanceData;
             Summary.late :=
               count_if (λ d, negb (punctual d)) filteredAttendanceData;
             Summary.locationCoverage := locationCoverage |};
        Loaded.guards := guardStatistics;
        Loaded.compliance :=
          calculateComplianceMetrics processedActivityData locationCoverage
            guardStatistics |}.

(** The four stores. *)
Definition store (d : Loaded.t) : eff State.t unit :=
  modify (setActivityData (Loaded.activity d));;
  modify (setAttendanceData (Loaded.attendance d));;
  modify (setGuardStats (Loaded.guards d));;
  modify (setComplianceMetrics (Loaded.compliance d)).

(** [loadData], in the render where the selected date is [selectedDate]. *)
Definition loadData (selectedDate : string) (activity attendance : fetched)
  : eff State.t unit :=
  try_catch_finally
    (modify (setLoading true);;
     activityText ← lift (fetch_text activity);
     let activityResults := parse activityText in
     attendanceText ← lift (fetch_text attendance);
     let attendanceResults := parse attendanceText in
     d ← lift (loaded selectedDate activityResults attendanceResults);
     store d)
    (λ err, modify (setError (Some (error_message err))))
    (modify (setLoading false)).

(** [loadData] up to its first [await]: what the call itself does. *)
Definition start : eff State.t unit := modify (setLoading true).

(** [loadData] from its first [await] on: what runs when the promises are
    settled, with the selected date of the render that made the call. *)
Definition resume (selectedDate : string) (activity attendance : fetched)
  : eff State.t unit :=
  try_catch_finally
    (activityText ← lift (fetch_text activity);
     let activityResults := parse activityText in
     attendanceText ← lift (fetch_text attendance);
     let attendanceResults := parse attendanceText in
     d ← lift (loaded selectedDate activityResults attendanceResults);
     store d)
    (λ err, modify (setError (Some (error_message err))))
    (modify (setLoading false)).

(** The controls are on the dashboard screen only; the mount is the first
    event and no later one. *)
Definition enabled (s : State.t) (ev : event) : bool :=
  match ev with
  | Mounted _ _ => false
  | _ => bool_decide (screen s = DashboardScreen)
  end.

(** One event: the handler of the control, then the effect when the
    selected date has changed. *)
Definition step (s : State.t) (ev : event) : State.t :=
  match ev with
  | Mounted activity attendance =>
      exec (loadData (selectedDate s) activity attendance) s
  | DateChanged date activity attendance =>
      if String.eqb date (selectedDate s) then s
      else exec (loadData date activity attendance) (setSelectedDate date s)
  | TabClicked id => setActiveTab id s
  | SearchTyped value => setSearchTerm value s
  end.

(** The states the component goes through. *)
Inductive reachable : State.t → Prop :=
| reachable_mount activity attendance :
    reachable (step initial (Mounted activity attendance))
| reachable_step s ev :
    reachable s → enabled s ev = true → reachable (step s ev).

End Loader.

(** The four cells a load writes, when the last of them has been written. *)
Definition data_of (s : State.t) : option Loaded.t :=
  match complianceMetrics s with
  | Computed c =>
      Some {| Loaded.activity := activityData s;
              Loaded.attendance := attendanceData s;
              Loaded.guards := guardStats s;
              Loaded.compliance := c |}
  | NotComputed => None
  end.

(** The state after a [try] block that reached its end. *)
Definition stored (d : Loaded.t) (s : State.t) : State.t :=
  setLoading false
    (setComplianceMetrics (Loaded.compliance d)
       (setGuardStats (Loaded.guards d)
          (setAttendanceData (Loaded.attendance d)
             (setActivityData (Loaded.activity d) (setLoading true s))))).

(** The state after [catch] and [finally]. *)
Definition failed (e : js_error) (s : State.t) : State.t :=
  setLoading false (setError (Some (error_message e)) (setLoading true s)).

(** What a day without rows gives. *)
Definition empty_day : Loaded.t :=
  {| Loaded.activity := [];
     Loaded.attendance := Summary.mk 0 0 0 [];
     Loaded.guards := [];
     Loaded.compliance :=
       {| ComplianceResult.overall := Num.NaN;
          ComplianceResult.byLocation := [];
          ComplianceResult.byGuard := [] |} |}.

(** What the cells hold at every render: consistent counters in every
    bucket, location and guard, no location and no guard twice, and
    compliance metrics that are those of the locations and guards on
    display, or no data at all while no load has stored any. *)
Record well_formed (s : State.t) : Prop := {
  wf_buckets : Forall bucket_ok (activityData s);
  wf_shifts :
    Summary.onTime (attendanceData s) + Summary.late (attendanceData s) =
    Summary.totalShifts (attendanceData s);
  wf_locations :
    Forall (λ p, ∃ m, p = location_profile m ∧ location_ok m)
           (Summary.locationCoverage (attendanceData s));
  wf_location_names :
    NoDup (LocProfile.location <$> Summary.locationCoverage (attendanceData s));
  wf_guards :
    Forall (λ p, ∃ g, p = guard_profile g ∧ guard_ok g) (guardStats s);
  wf_guard_ids : NoDup (GuardProfile.id <$> guardStats s);
  wf_metrics :
    match complianceMetrics s with
    | NotComputed =>
        activityData s = [] ∧ guardStats s = [] ∧
        Summary.locationCoverage (attendanceData s) = []
    | Computed c =>
        c = calculateComplianceMetrics (activityData s)
              (Summary.locationCoverage (attendanceData s)) (guardStats s)
    end
}.

(** ** What a load does to the state *)

Section LoaderProps.
Context `{DateLib} (parse : string → list row).
Implicit Types (s : State.t) (a b : fetched) (date : string).

(** Everything the [try] block computes before it stores. *)
Definition load_result date a b : res Loaded.t :=
  activityText ← fetch_text a;
  attendanceText ← fetch_text b;
  loaded date (parse activityText) (parse attendanceText).

(** A load stores all four results or none. *)
Lemma exec_compliance_load date a b s :
  exec (loadData parse date a b) s =
  match load_result date a b with
  | Ok d => stored d s
  | Throw e => failed e s
  end.
Proof.
  unfold exec, loadData, load_result. rewrite try_catch_finally_modify.
  rewrite run_modify_bind, run_lift_bind.
  destruct (fetch_text a) as [atext|e]; [|done]. rewrite run_lift_bind.
  destruct (fetch_text b) as [btext|e]; [|done]. rewrite run_lift_bind. simpl.
  by destruct (loaded date (parse atext) (parse btext)) as [d|e].
Qed.

(** C21: a load whose fetches and aggregations succeed stores the
    four results and clears [loading]; it leaves the error as it was. *)
Theorem compliance_load_stores date a b d s
    (s' := exec (loadData parse date a b) s) :
  load_result date a b = Ok d →
  data_of s' = Some d ∧ loading s' = false ∧ error s' = error s ∧
  selectedDate s' = selectedDate s ∧ activeTab s' = activeTab s ∧
  searchTerm s' = searchTerm s.
Proof. intros Hd. subst s'. rewrite exec_compliance_load, Hd. by destruct d. Qed.

(** C5: a load that fails at any point, a fetch or an aggregation,
    stores the message of the exception and nothing else: the results on
    display stay those of the load before. *)
Theorem compliance_load_atomic date a b e s
    (s' := exec (loadData parse date a b) s) :
  load_result date a b = Throw e →
  error s' = Some (error_message e) ∧ loading s' = false ∧
  activityData s' = activityData s ∧ attendanceData s' = attendanceData s ∧
  guardStats s' = guardStats s ∧ complianceMetrics s' = complianceMetrics s.
Proof. intros He. subst s'. by rewrite exec_compliance_load, He. Qed.

(** The status of a response is not read: a response that is not
    [ok] is decoded like any other. *)
Theorem compliance_status_ignored date ok status text ok' status' text' s :
  exec (loadData parse date (Responded ok status text)
                 (Responded ok' status' text')) s =
  exec (loadData parse date (Responded true 200 text)
                 (Responded true 200 text')) s.
Proof. by rewrite !exec_compliance_load. Qed.

Lemma on_date_none col date rows :
  (∀ r, r ∈ rows → cell r col = None) → on_date col date rows = [].
Proof.
  intros Hnone. unfold on_date. induction rows as [|r rows IH]; [done|].
  rewrite filter_cons_False by (by rewrite (Hnone r) by left).
  apply IH. intros r' Hr'. apply Hnone. by right.
Qed.

(** C22: Two error pages in place of the files, decoded to rows
    without the date columns, give the dashboard of a day without rows,
    whose overall compliance is [NaN]. *)
Theorem compliance_error_pages date status text status' text' s :
  (∀ r, r ∈ parse text → cell r Col.DateTime = None) →
  (∀ r, r ∈ parse text' → cell r Col.LoginDate = None) →
  exec (loadData parse date (Responded false status text)
                 (Responded false status' text')) s = stored empty_day s.
Proof.
  intros Ha Hb. rewrite exec_compliance_load. unfold load_result, loaded. simpl.
  by rewrite (on_date_none _ _ _ Ha), (on_date_none _ _ _ Hb).
Qed.

(** C23: the error is never cleared: once a load has failed, every
    later load, successful or not, ends on the error screen. *)
Theorem compliance_error_kept date a b m s :
  error s = Some m → m ≠ "" → (∀ e, load_result date a b = Throw e →
                                error_message e ≠ "") →
  ∃ t, screen (exec (loadData parse date a b) s) = ErrorScreen t.
Proof.
  intros Hm Hne Hmsg. rewrite exec_compliance_load.
  destruct (load_result date a b) as [d|e] eqn:Hr; unfold screen; simpl.
  - rewrite Hm. apply String.eqb_neq in Hne. rewrite Hne. by eexists.
  - specialize (Hmsg e eq_refl). apply String.eqb_neq in Hmsg.
    rewrite Hmsg. by eexists.
Qed.

(** What holds of the state between two events. *)
Definition settled (s : State.t) : Prop :=
  loading s = false ∧
  (error s = None →
   ∃ act att d, loaded (selectedDate s) act att = Ok d ∧ data_of s = Some d).

Lemma load_settles date a b s :
  selectedDate s = date → settled (exec (loadData parse date a b) s).
Proof.
  intros Hdate. rewrite exec_compliance_load. unfold load_result.
  destruct (fetch_text a) as [atext|e]; [|by split].
  destruct (fetch_text b) as [btext|e]; [|by split]. simpl.
  destruct (loaded date (parse atext) (parse btext)) as [d|e] eqn:Hd; [|by split].
  split; [done|]. intros _. exists (parse atext), (parse btext), d.
  simpl. rewrite Hdate. split; [done|]. by destruct d.
Qed.

Lemma step_settles s ev : settled s → settled (step parse s ev).
Proof.
  intros Hs. destruct ev as [a b|date a b|id|value]; simpl;
    [by apply load_settles| |done..].
  destruct (String.eqb date (selectedDate s)); [done|by apply load_settles].
Qed.

(** C17: between two events [loading] is false, and when no load has
    failed the four results on display are those of one pair of files,
    restricted to the selected date. *)
Theorem compliance_reachable_settled s : reachable parse s → settled s.
Proof.
  induction 1 as [a b|s ev _ IH _]; [by apply load_settles|by apply step_settles].
Qed.

(** ** Well-formed data *)

Lemma compliance_initial_well_formed : well_formed initial.
Proof. split; simpl; by repeat constructor. Qed.

(** What a [try] block that reaches its end has stored is well formed,
    whatever was there before. *)
Lemma stored_well_formed date act att d s :
  loaded date act att = Ok d → well_formed (stored d s).
Proof.
  unfold loaded. intros Hd.
  destruct (processLocationCoverage _) as [ls|] eqn:Hls; [|done].
  destruct (processGuardData _ _) as [gs|] eqn:Hgs; [|done].
  simpl in Hd. injection Hd as <-. split; simpl.
  - apply processActivityData_counts_bounded.
  - apply count_if_negb.
  - by eapply processLocationCoverage_entries_ok.
  - by eapply processLocationCoverage_names.
  - by eapply processGuardData_entries_ok.
  - by eapply processGuardData_ids.
  - done.
Qed.

Lemma compliance_load_well_formed date a b s :
  well_formed s → well_formed (exec (loadData parse date a b) s).
Proof.
  intros Hs. rewrite exec_compliance_load. unfold load_result.
  destruct (fetch_text a) as [atext|e]; [|by destruct Hs].
  destruct (fetch_text b) as [btext|e]; [|by destruct Hs]. simpl.
  destruct (loaded date _ _) as [d|e] eqn:Hd; [|by destruct Hs].
  by eapply stored_well_formed.
Qed.

Lemma compliance_step_well_formed s ev :
  well_formed s → well_formed (step parse s ev).
Proof.
  intros Hs. destruct ev as [a b|date a b|id|value]; simpl;
    [by apply compliance_load_well_formed| |by destruct Hs..].
  destruct (String.eqb date (selectedDate s)); [done|].
  apply compliance_load_well_formed. by destruct Hs.
Qed.

Lemma compliance_reachable_well_formed s : reachable parse s → well_formed s.
Proof.
  induction 1 as [a b|s ev _ IH _]; [|by apply compliance_step_well_formed].
  apply compliance_step_well_formed, compliance_initial_well_formed.
Qed.

(** C11: The data of the component is well formed from the first render on,
    and every event keeps it so: a load that succeeds replaces all four
    cells, a load that fails touches none of them, and the controls touch
    none. *)
Theorem compliance_well_formed :
  well_formed initial ∧
  (∀ s ev, well_formed s → well_formed (step parse s ev)) ∧
  (∀ s, reachable parse s → well_formed s).
Proof.
  split_and!; [apply compliance_initial_well_formed| |apply compliance_reachable_well_formed].
  intros s ev. apply compliance_step_well_formed.
Qed.

(** ** Loads suspended at their [await]s *)

(** A load is its two parts, one after the other. *)
Lemma compliance_load_split date a b s :
  exec (loadData parse date a b) s = exec (resume parse date a b) (exec start s).
Proof. reflexivity. Qed.

Lemma loading_screen s : loading s = true → screen s = LoadingScreen.
Proof. intros Hl. unfold screen. by rewrite Hl. Qed.

(** The [finally] block ends every load with the loading flag down. *)
Lemma compliance_resume_done date a b s :
  loading (exec (resume parse date a b) s) = false.
Proof.
  unfold exec, resume. rewrite try_catch_finally_modify. by repeat case_match.
Qed.

Lemma step_date_changed s date a b :
  step parse s (DateChanged date a b) =
  if String.eqb date (selectedDate s) then s
  else exec (resume parse date a b) (exec start (setSelectedDate date s)).
Proof. reflexivity. Qed.

(** The compliance dashboard as a dashboard of [Async]. *)
#[local] Instance compliance_dashboard : Async.Dashboard State.t := {|
  Async.initial := initial;
  Async.is_loading := loading;
  Async.shown := screen;
  Async.selected := selectedDate;
  Async.select := setSelectedDate;
  Async.start := exec start;
  Async.resume := λ date a b, exec (resume parse date a b);
  Async.step := step parse;
  Async.shown_loading := loading_screen;
  Async.start_loading := λ _, eq_refl;
  Async.resume_done := compliance_resume_done;
  Async.step_mount := λ _ _ _, eq_refl;
  Async.step_date := step_date_changed
|}.

Lemma async_settles s : Async.reachable s → settled s.
Proof.
  induction 1 as [a b|s ev _ IH _ _];
    [by apply load_settles|by apply step_settles].
Qed.

(** C18: with loads suspended at their [await]s, at most one load of
    the compliance dashboard is in flight, and while it is the loading
    screen is shown: the date cannot change under a load in flight. *)
Theorem compliance_loads_never_overlap c :
  Async.areachable c →
  length (Async.pending c) ≤ 1 ∧
  (Async.pending c ≠ [] → screen (Async.now c) = LoadingScreen).
Proof.
  intros Hc. split; [by apply Async.pending_at_most_one|].
  exact (Async.pending_loading c Hc).
Qed.

(** With loads suspended at their [await]s, whenever no load is
    in flight and none has failed, the four results on display are those of
    one pair of files restricted to the date that is selected. *)
Theorem compliance_async_settled c :
  Async.areachable c → Async.pending c = [] → settled (Async.now c).
Proof.
  intros Hc Hq. by apply async_settles, Async.quiescent_reachable.
Qed.

(** C16: With loads suspended at their [await]s, a load in flight always
    ends: the component can resume it, no control can come before, and
    whatever step is taken leaves no load in flight, the loading flag down
    and a settled state. *)
Theorem compliance_load_completes c :
  Async.areachable c → Async.pending c ≠ [] →
  (∃ c', Async.aresume c c') ∧
  ∀ c', Async.astep c c' →
        Async.pending c' = [] ∧ loading (Async.now c') = false ∧
        settled (Async.now c').
Proof.
  intros Hc Hp. destruct (Async.load_completes c Hc Hp) as [Hcan Hall].
  split; [done|]. intros c' Hstep. destruct (Hall c' Hstep) as (Hq & Hl & Hr).
  split_and!; [done..|]. by apply async_settles.
Qed.

End LoaderProps.

(** With the empty string for selected date the filter keeps
    every row that has the date column. *)
Theorem on_date_empty col rows :
  on_date col "" rows =
  filter (λ r, is_Some (cell r col)) rows.
Proof.
  unfold on_date. apply list_filter_iff. intros r. unfold Str.opt_includes.
  destruct (cell r col) as [v|]; split; try done;
    first [intros _; by destruct v|by intros []].
Qed.

(** ** The theorems at work on a small export *)

(** The one row a decoder with headers makes of a two-line error page. *)
Definition error_page : list row := [ mk_row [("<!DOCTYPE html>", "<html>")] ].

(** A decoder for the examples: it knows four texts. *)
Definition sample_parse (text : string) : list row :=
  if String.eqb text "activity" then sample_day
  else if String.eqb text "attendance" then sample_attendance
  else if String.eqb text "poisoned" then poisoned_attendance
  else if String.eqb text "page" then error_page
  else [].

Definition sample_loaded : Loaded.t :=
  Eval vm_compute in
    match loaded "2024-10-19" sample_day sample_attendance with
    | Ok d => d
    | Throw _ => empty_day
    end.

Lemma sample_day_loaded :
  load_result sample_parse "2024-10-19" (Responded true 200 "activity")
              (Responded true 200 "attendance") = Ok sample_loaded.
Proof. vm_compute. reflexivity. Qed.

Lemma sample_poisoned :
  load_result sample_parse "2024-10-19" (Responded true 200 "activity")
              (Responded true 200 "poisoned") = Throw (TypeError "total").
Proof. vm_compute. reflexivity. Qed.

Lemma error_page_no_column col r :
  col ≠ "<!DOCTYPE html>" → r ∈ sample_parse "page" → cell r col = None.
Proof.
  intros Hcol Hr. change (sample_parse "page") with error_page in Hr.
  apply list_elem_of_singleton in Hr as ->. unfold cell, mk_row. simpl.
  rewrite lookup_insert_ne by done. apply lookup_empty.
Qed.

Lemma compliance_load_stores_witness :
  let s' := exec (loadData sample_parse "2024-10-19" (Responded true 200 "activity")
                           (Responded true 200 "attendance")) initial in
  data_of s' = Some sample_loaded ∧ loading s' = false ∧
  error s' = error initial ∧ selectedDate s' = selectedDate initial ∧
  activeTab s' = activeTab initial ∧ searchTerm s' = searchTerm initial.
Proof. apply compliance_load_stores, sample_day_loaded. Defined.

Lemma compliance_load_atomic_witness :
  let s' := exec (loadData sample_parse "2024-10-19" (Responded true 200 "activity")
                           (Responded true 200 "poisoned")) initial in
  error s' = Some (error_message (TypeError "total")) ∧ loading s' = false ∧
  activityData s' = activityData initial ∧
  attendanceData s' = attendanceData initial ∧
  guardStats s' = guardStats initial ∧
  complianceMetrics s' = complianceMetrics initial.
Proof. apply compliance_load_atomic, sample_poisoned. Defined.

Lemma compliance_error_pages_witness :
  exec (loadData sample_parse "2024-10-19" (Responded false 404 "page")
                 (Responded false 404 "page")) initial =
  stored empty_day initial.
Proof.
  apply compliance_error_pages; intros r; by apply error_page_no_column.
Defined.

Lemma compliance_error_kept_witness :
  ∃ t, screen (exec (loadData sample_parse "2024-10-19"
                              (Responded true 200 "activity")
                              (Responded true 200 "attendance"))
                    (failed (FetchError "Failed to fetch") initial))
       = ErrorScreen t.
Proof.
  apply (compliance_error_kept sample_parse _ _ _ "Failed to fetch");
    [reflexivity|done|].
  intros e He. rewrite sample_day_loaded in He. discriminate He.
Defined.

(** The first load of the examples, in flight. *)
Definition sample_mounted : @Async.config State.t :=
  @Async.mounted State.t (compliance_dashboard sample_parse)
    (Responded true 200 "activity") (Responded true 200 "attendance").

(** The same load, resumed. *)
Definition sample_resumed : @Async.config State.t :=
  Async.Config
    (exec (resume sample_parse "2024-10-19" (Responded true 200 "activity")
                  (Responded true 200 "attendance")) (exec start initial)) [].

Lemma sample_mounted_resumes :
  @Async.areachable State.t (compliance_dashboard sample_parse) sample_resumed.
Proof.
  apply (Async.areachable_step sample_mounted); [constructor|].
  exact (@Async.astep_resume State.t (compliance_dashboard sample_parse)
           (exec start initial) [] (selectedDate initial)
           (Responded true 200 "activity") (Responded true 200 "attendance") []).
Qed.

Lemma compliance_loads_never_overlap_witness :
  length (Async.pending sample_mounted) ≤ 1 ∧
  (Async.pending sample_mounted ≠ [] →
   screen (Async.now sample_mounted) = LoadingScreen).
Proof. apply (compliance_loads_never_overlap sample_parse). constructor. Defined.

Lemma compliance_load_completes_witness :
  (∃ c', @Async.aresume State.t (compliance_dashboard sample_parse) sample_mounted c') ∧
  ∀ c', @Async.astep State.t (compliance_dashboard sample_parse) sample_mounted c' →
        Async.pending c' = [] ∧ loading (Async.now c') = false ∧
        settled (Async.now c').
Proof. apply (compliance_load_completes sample_parse); [constructor|done]. Defined.

Lemma compliance_async_settled_witness : settled (Async.now sample_resumed).
Proof.
  apply (compliance_async_settled sample_parse);
    [apply sample_mounted_resumes|reflexivity].
Defined.

Lemma compliance_reachable_settled_witness :
  settled (step sample_parse initial
             (Mounted (Responded true 200 "activity")
                      (Responded true 200 "attendance"))).
Proof. apply (compliance_reachable_settled sample_parse), reachable_mount. Defined.

End ComplianceApp.
