(* ===== verification/SpecProperties.v ===== *)
(** * SpecProperties: the testable properties of the specification

    The specification closes with a list of properties of the compliance
    dashboard ([src/unnamed/part_001]).  This file states them of one
    day's computation, [ComplianceApp.loaded]: the date filter followed by
    the four aggregations, as [loadData] runs them.

    - Every rate is an integer from 0 to 100, and 0 when its denominator
      is 0 ([day_rates_in_range]).  The compliance rate of an hourly
      bucket is one of 0, 50 and 100; the overall compliance is in range
      when there is a profile at all.
    - The guards are in descending order of their score, the locations in
      descending order of their coverage rate, and the buckets in strictly
      ascending order of the hour when every date parses ([day_ordered]).
    - The worked examples that the code can run
      ([specification_examples]).

    The properties the code does not have are theorems of the files of
    their components: a date that does not parse makes a bucket
    ([Hourly]), the overall compliance of an empty day is [NaN]
    ([ComplianceApp]), and ties among guards are not in encounter order
    when service numbers are integers ([Guards]). *)

From stdpp Require Import base list strings sorting.
From S2P Require Import Prelude JSNumber Binary64 JSString JSObject JSArray JSDate.
From S2P Require Import Upsert Effects Row Hourly Guards Locations Compliance.
From S2P Require Import ComplianceApp.
Import ComplianceApp.

(** ** What is asked of the rates *)

Definition guard_rates_ok (p : GuardProfile.t) : Prop :=
  let m := GuardProfile.metrics p in
  percentage (GuardMetrics.attendanceRate m) ∧
  percentage (GuardMetrics.activityComplianceRate m) ∧
  percentage (GuardMetrics.performanceScore m) ∧
  (Activities.total (GuardProfile.activities p) = 0 →
   GuardMetrics.activityComplianceRate m = Num.of_nat 0).

Definition location_rates_ok (p : LocProfile.t) : Prop :=
  let m := LocProfile.metrics p in
  percentage (LocMetrics.coverageRate m) ∧
  percentage (LocMetrics.punctualityRate m) ∧
  1 ≤ LocShifts.total (LocProfile.shifts p) ∧
  (LocShifts.covered (LocProfile.shifts p) = 0 →
   LocMetrics.punctualityRate m = Num.of_nat 0).

(** ** The inputs of the examples *)

(** Two shifts of one guard at two posts, one on time. *)
Definition example_shifts : list row :=
  [ attendance_row "2024-10-19" "G One" "G1" "Gate A" "On-time" "";
    attendance_row "2024-10-19" "G One" "G1" "Gate B" "Late" "" ].

Definition example_guard : Guard.t :=
  Eval vm_compute in
    default (new_guard "" "") (Obj.get_own (guards_of [] example_shifts) "G1").

(** Two shifts at one post, one of them without a guard. *)
Definition example_posts : list row :=
  [ attendance_row "2024-10-19" "G One" "G1" "Gate A" "On-time" "";
    mk_row [(Col.LoginDate, "2024-10-19"); (Col.PostName, "Gate A")] ].

(** ** Rates *)

(** The filter keeps at most the rows it is given. *)
Lemma on_date_size col date (rows : list row) :
  array_size rows → array_size (on_date col date rows).
Proof.
  unfold array_size, on_date. pose proof (length_filter (λ record,
    Str.opt_includes (cell record col) date = true) rows). lia.
Qed.

Lemma guard_rates act att gs :
  array_size act → array_size att → processGuardData act att = Ok gs →
  Forall guard_rates_ok gs.
Proof.
  intros Hd Ha Hgs. apply Forall_forall. intros p Hp.
  destruct (processGuardData_percentages act att gs p Hd Ha Hgs Hp) as (H1 & H2 & H3).
  split_and!; try done.
  destruct (processGuardData_elem act att gs p Hgs Hp) as (g & _ & ->).
  simpl. by intros ->.
Qed.

Lemma location_rates data ls :
  array_size data → processLocationCoverage data = Ok ls →
  Forall location_rates_ok ls.
Proof.
  intros Hd Hls. apply Forall_forall. intros p Hp.
  destruct (processLocationCoverage_percentages data ls p Hd Hls Hp) as (H1 & H2).
  destruct (processLocationCoverage_elem data ls p Hls Hp) as (m & Hm & ->).
  assert (location_ok m) as (_ & _ & H3 & _)
    by (eapply all_get_own, Hm; apply locations_of_ok).
  split_and!; try done. simpl. unfold punctualityRate. by intros ->.
Qed.

Section Day.
Context `{DateLib}.

(** C7: Every rate of a day is in range: the three rates of each guard and
    the two of each location are integers from 0 to 100, and 0 when
    their denominator is 0; the rate of a bucket is 0, 50 or 100; a
    compliance score is 0, 33, 67 or 100; and the overall compliance is
    an integer from 0 to 100 when the day has a profile. *)
Theorem day_rates_in_range date act att d (r := Loaded.compliance d) :
  array_size act → array_size att → loaded date act att = Ok d →
  Forall guard_rates_ok (Loaded.guards d) ∧
  Forall location_rates_ok (Summary.locationCoverage (Loaded.attendance d)) ∧
  Forall (λ b, Bucket.complianceRate b ∈ row_rates) (Loaded.activity d) ∧
  Forall (λ c, LocCompliance.complianceScore c ∈ check_scores)
         (ComplianceResult.byLocation r) ∧
  Forall (λ c, GuardCompliance.complianceScore c ∈ check_scores)
         (ComplianceResult.byGuard r) ∧
  (0 < length (Loaded.guards d) +
       length (Summary.locationCoverage (Loaded.attendance d)) →
   percentage (ComplianceResult.overall r)).
Proof.
  intros Ha%(on_date_size Col.DateTime date) Hb%(on_date_size Col.LoginDate date).
  subst r. unfold loaded. intros Hd.
  destruct (processLocationCoverage _) as [ls|] eqn:Hls; [|done].
  destruct (processGuardData _ _) as [gs|] eqn:Hgs; [|done].
  injection Hd as <-. cbn [Loaded.guards Loaded.attendance Loaded.activity
    Loaded.compliance Summary.locationCoverage].
  destruct (calculateComplianceMetrics_scores
              (processActivityData (on_date Col.DateTime date act)) ls gs) as [Hl Hg].
  split_and!; [apply (guard_rates _ _ _ Ha Hb Hgs)|apply (location_rates _ _ Hb Hls)
              |apply processActivityData_rate_of_first_row|done..|].
  pose proof (processLocationCoverage_length _ _ Hls).
  pose proof (processGuardData_length _ _ _ Hgs).
  intros Hpos. unfold array_size in *.
  apply calculateComplianceMetrics_overall_percentage; unfold array_size; lia.
Qed.

(** ** Orders *)

(** C8: The guards of a day are in descending order of the performance
    score and the locations in descending order of the coverage rate;
    when every date of the day parses, the buckets are for hours from 0 to
    23, in strictly ascending order. *)
Theorem day_ordered date act att d :
  array_size act → array_size att → loaded date act att = Ok d →
  StronglySorted (key_le score_key) (Loaded.guards d) ∧
  StronglySorted (key_le coverage_key)
                 (Summary.locationCoverage (Loaded.attendance d)) ∧
  (Forall parseable (on_date Col.DateTime date act) →
   Forall hour_ok (Loaded.activity d) ∧
   StronglySorted (λ a b, (hour_key a < hour_key b)%Z) (Loaded.activity d)).
Proof.
  intros Ha%(on_date_size Col.DateTime date) Hb%(on_date_size Col.LoginDate date).
  unfold loaded. intros Hd.
  destruct (processLocationCoverage _) as [ls|] eqn:Hls; [|done].
  destruct (processGuardData _ _) as [gs|] eqn:Hgs; [|done].
  injection Hd as <-. cbn [Loaded.guards Loaded.attendance Loaded.activity
    Summary.locationCoverage].
  split_and!; [apply (processGuardData_sorted _ _ _ Ha Hb Hgs)
              |apply (processLocationCoverage_sorted _ _ Hb Hls)
              |apply processActivityData_ascending].
Qed.

End Day.

(** ** The worked examples *)

(** The first two examples of the specification.  Two shifts of G1 at two
    posts, one on time, and no activity: shifts 2, 1 and 1, both posts
    covered, scores 15, 0 and 20, performance score 35.  Two shifts at
    Gate A, one without a guard: total 2, covered 1, on time 1, coverage
    rate 50, punctuality rate 100.  The third example, a location that
    passes its three checks, has no run of the code: no location that
    [processLocationCoverage] returns passes the staffing check
    ([staffing_never_passes]). *)
Example specification_examples :
  (processGuardData [] example_shifts = Ok [guard_profile example_guard] ∧
   Guard.id example_guard = "G1" ∧
   Guard.shifts example_guard = Shifts.mk 2 1 1 ∧
   Guard.coverage example_guard = [Some "Gate A"; Some "Gate B"] ∧
   attendanceScore example_guard = Num.of_nat 15 ∧
   activityScore example_guard = Num.of_nat 0 ∧
   coverageScore example_guard = Num.of_nat 20 ∧
   performanceScore example_guard = Num.of_nat 35) ∧
  (∃ p, processLocationCoverage example_posts = Ok [p] ∧
        LocProfile.location p = "Gate A" ∧
        LocProfile.shifts p = LocShifts.mk 2 1 1 ∧
        LocMetrics.coverageRate (LocProfile.metrics p) = Num.of_nat 50 ∧
        LocMetrics.punctualityRate (LocProfile.metrics p) = Num.of_nat 100).
Proof. split_and!; [by vm_compute..|eexists; by vm_compute]. Qed.

(** ** The theorems at the sample day *)

Lemma sample_loaded_day :
  loaded "2024-10-19" sample_day sample_attendance = Ok sample_loaded.
Proof. vm_compute. reflexivity. Qed.

Lemma day_rates_in_range_witness :
  let r := Loaded.compliance sample_loaded in
  Forall guard_rates_ok (Loaded.guards sample_loaded) ∧
  Forall location_rates_ok
         (Summary.locationCoverage (Loaded.attendance sample_loaded)) ∧
  Forall (λ b, Bucket.complianceRate b ∈ row_rates) (Loaded.activity sample_loaded) ∧
  Forall (λ c, LocCompliance.complianceScore c ∈ check_scores)
         (ComplianceResult.byLocation r) ∧
  Forall (λ c, GuardCompliance.complianceScore c ∈ check_scores)
         (ComplianceResult.byGuard r) ∧
  (0 < length (Loaded.guards sample_loaded) +
       length (Summary.locationCoverage (Loaded.attendance sample_loaded)) →
   percentage (ComplianceResult.overall r)).
Proof.
  apply (day_rates_in_range "2024-10-19" sample_day sample_attendance);
    [apply sample_sizes..|apply sample_loaded_day].
Defined.

Lemma day_ordered_witness :
  StronglySorted (key_le score_key) (Loaded.guards sample_loaded) ∧
  StronglySorted (key_le coverage_key)
                 (Summary.locationCoverage (Loaded.attendance sample_loaded)) ∧
  (Forall parseable (on_date Col.DateTime "2024-10-19" sample_day) →
   Forall hour_ok (Loaded.activity sample_loaded) ∧
   StronglySorted (λ a b, (hour_key a < hour_key b)%Z)
                  (Loaded.activity sample_loaded)).
Proof.
  apply (day_ordered "2024-10-19" sample_day sample_attendance);
    [apply sample_sizes..|apply sample_loaded_day].
Defined.
