(* ===== verification/AlertView.v ===== *)
(** * AlertView: what the alert dashboard puts on the page

    The second half of the component [App] of [src/src/App.js]: the three
    components it defines for itself ([AlertStatusCard], [PerformanceChart],
    [SearchBar]), the two early returns for the loading and the error
    screen, the guard filter and the JSX of the dashboard with its three
    tab panels.  Every element of the source is an [El] of [VDom] with the
    attributes and children in source order; an expression in braces is
    the model's translation of that expression on the state of [AlertApp].
    The callbacks of the [map] calls are definitions of their own
    ([tab_button], [guard_row], [location_row]), as are the three panels.

    [render] is the function [App] from its first [if] on.  It returns a
    tree or the exception the guard filter throws; nothing else in it can
    throw.  The theorems relate what is on the page to the aggregates of
    [Alerts] and the controls of the page to the events of [AlertApp], and
    show that the arrays of a page have well-chosen keys
    ([visited_well_keyed]). *)

From stdpp Require Import base list strings.
From S2P Require Import Prelude JSNumber Binary64 Rates JSString JSObject JSArray JSDate.
From S2P Require Import Upsert Effects Async Row Guards Alerts ExactRates AlertApp VDom.

#[local] Set Warnings "-clear-no-such-hyp,-unused-intro-pattern".

Module AlertView.
Import App AlertApp AlertApp.State.

(** ** Constants and rows of the charts *)

Definition COLORS : list string := ["#3B82F6"; "#10B981"; "#F59E0B"; "#EF4444"].

Module Tab.
Record t : Type := mk { id : string; label : string; icon : string }.
End Tab.

Definition TABS : list Tab.t :=
  [ Tab.mk "overview" "Overview" "Activity";
    Tab.mk "guards" "Guards" "Shield";
    Tab.mk "locations" "Locations" "MapPin" ].

(** What the charts receive in [data]: an element of [pieData], of
    [activityData], or of the array the coverage chart builds. *)
Inductive datum : Type :=
| Slice (name : string) (value : nat)
| Hour (bucket : HourBucket.t)
| Post (location : string) (coverage : number) (alerts : nat).

(** The text of [guard.status]. *)
Definition status_text (st : status) : string :=
  match st with warning => "warning" | normal => "normal" end.

Definition is_warning (st : status) : bool :=
  match st with warning => true | normal => false end.

(** ** The components the file defines *)

Definition AlertStatusCard (s : State.t) : node datum :=
  El "div" [("className", AStr "bg-white p-4 rounded-lg shadow")]
    [ El "div" [("className", AStr "flex items-center justify-between mb-4")]
        [ El "h3" [("className", AStr "text-lg font-semibold")] [Txt "Alert Status"];
          El "AlertTriangle" [("className", AStr "text-yellow-500")] [] ];
      El "div" [("className", AStr "grid grid-cols-2 gap-4")]
        [ El "div" []
            [ El "div" [("className", AStr "text-2xl font-bold text-gray-900")]
                [ Hole (Lit (Count (Performance.totalAlerts (performanceMetrics s)))) ];
              El "div" [("className", AStr "text-sm text-gray-500")]
                [ Txt "Total Alerts" ] ];
          El "div" []
            [ El "div" [("className", AStr "text-2xl font-bold text-red-600")]
                [ Hole (Lit (Count (Performance.criticalAlerts (performanceMetrics s)))) ];
              El "div" [("className", AStr "text-sm text-gray-500")]
                [ Txt "Critical Alerts" ] ] ] ].

Definition pieData (s : State.t) : list datum :=
  [ Slice "On Time" (Attendance.onTime (attendanceData s));
    Slice "Late" (Attendance.late (attendanceData s)) ].

Definition PerformanceChart (s : State.t) : node datum :=
  El "div" [("className", AStr "bg-white p-4 rounded-lg shadow")]
    [ El "h3" [("className", AStr "text-lg font-semibold mb-4")]
        [ Txt "Attendance Distribution" ];
      El "ResponsiveContainer"
        [ ("width", AStr "100%");
          ("height", AVal (Lit (Count 200))) ]
        [ El "PieChart" []
            [ El "Pie"
                [ ("data", AData (pieData s));
                  ("cx", AStr "50%");
                  ("cy", AStr "50%");
                  ("innerRadius", AVal (Lit (Count 60)));
                  ("outerRadius", AVal (Lit (Count 80)));
                  ("fill", AStr "#8884d8");
                  ("dataKey", AStr "value");
                  ("label", AVal (Lit (Bool true))) ]
                [ Arr (imap (λ index entry,
                     El "Cell"
                       [ ("key", AVal (Tpl [Str "cell-"; Count index]));
                         ("fill", AVal (Lit (opt_str (COLORS !! (index mod length COLORS))))) ] []) (pieData s)) ];
              El "Tooltip" [] [];
              El "Legend" [] [] ] ] ].

Definition SearchBar (s : State.t) : node datum :=
  El "div" [("className", AStr "relative")]
    [ El "input"
        [ ("type", AStr "text");
          ("placeholder", AStr "Search guards, locations...");
          ("value", AVal (Lit (Str (searchTerm s))));
          ("onChange", AOnChange SetSearchTerm);
          ("className", AStr "w-full px-4 py-2 border rounded-lg pl-10") ] [];
      El "Search" [("className", AStr "absolute left-3 top-2.5 h-5 w-5 text-gray-400")] [] ].

(** ** The two early returns *)

Definition loading_screen : node datum :=
  El "div" [("className", AStr "flex items-center justify-center h-screen")]
    [ El "div" [("className", AStr "text-xl font-semibold")]
        [ Txt "Loading dashboard data..." ] ].

Definition error_screen (s : State.t) : node datum :=
  El "div"
    [ ("className", AStr "flex items-center justify-center h-screen text-red-600") ]
    [ El "div" []
        [ Txt "Error loading dashboard: ";
          Hole (Lit (opt_str (error s))) ] ].

(** ** The dashboard *)

(** The callback of [TABS.map]. *)
Definition tab_button (s : State.t) (tab : Tab.t) : node datum :=
  El "button"
    [ ("key", AVal (Lit (Str (Tab.id tab))));
      ("className",
       AVal (Tpl [Str "flex items-center px-4 py-2 rounded-lg transition-colors ";
                  Str (if String.eqb (activeTab s) (Tab.id tab)
                       then "bg-blue-500 text-white shadow-sm"
                       else "bg-gray-50 text-gray-700 hover:bg-gray-100")]));
      ("onClick", AOnClick (SetActiveTab (Tab.id tab))) ]
    [ El (Tab.icon tab) [("className", AStr "w-4 h-4 mr-2")] [];
      Hole (Lit (Str (Tab.label tab))) ].

(** The rows of the coverage chart:
    [Object.entries(attendanceData.locationCoverage).map(...)]. *)
Definition coverage_bars (s : State.t) : list datum :=
  (λ '(location, data),
     Post location (percent (Coverage.covered data) (Coverage.total data))
          (Coverage.alerts data))
  <$> Obj.entries (Attendance.locationCoverage (attendanceData s)).

Definition overview_panel (s : State.t) : node datum :=
  El "div" [("className", AStr "space-y-6")]
    [ El "div" [("className", AStr "grid grid-cols-1 md:grid-cols-4 gap-4")]
        [ El "div" [("className", AStr "bg-white p-4 rounded-lg shadow")]
            [ El "div" [("className", AStr "flex items-center justify-between mb-2")]
                [ El "div" [("className", AStr "text-2xl font-bold")]
                    [ Hole (Lit (Count (Attendance.totalShifts (attendanceData s)))) ];
                  El "Clock" [("className", AStr "h-6 w-6 text-blue-500")] [] ];
              El "div" [("className", AStr "text-sm text-gray-500")]
                [ Txt "Total Shifts" ] ];
          El "div" [("className", AStr "bg-white p-4 rounded-lg shadow")]
            [ El "div" [("className", AStr "flex items-center justify-between mb-2")]
                [ El "div" [("className", AStr "text-2xl font-bold")]
                    [ Hole (Lit (Number (percent (Attendance.onTime (attendanceData s))
                                                 (Attendance.totalShifts (attendanceData s)))));
                      Txt "%" ];
                  El "CheckCircle" [("className", AStr "h-6 w-6 text-green-500")] [] ];
              El "div" [("className", AStr "text-sm text-gray-500")]
                [ Txt "On-Time Rate" ] ];
          AlertStatusCard s;
          PerformanceChart s ];
      El "div" [("className", AStr "bg-white p-4 rounded-lg shadow")]
        [ El "h2" [("className", AStr "text-xl font-bold mb-4")]
            [ Txt "Activity Timeline" ];
          El "div" [("className", AStr "h-96")]
            [ El "ResponsiveContainer" [("width", AStr "100%"); ("height", AStr "100%")]
                [ El "LineChart"
                    [ ("data", AData (Hour <$> activityData s));
                      ("margin",
                       AObj [("top", Lit (Count 5));
                             ("right", Lit (Count 30));
                             ("left", Lit (Count 20));
                             ("bottom", Lit (Count 5))]) ]
                    [ El "CartesianGrid" [("strokeDasharray", AStr "3 3")] [];
                      El "XAxis"
                        [ ("dataKey", AStr "hour");
                          ("tickFormatter", AFormat (λ hour, Tpl [hour; Str ":00"])) ] [];
                      El "YAxis" [] [];
                      El "Tooltip" [] [];
                      El "Legend" [] [];
                      El "Line"
                        [ ("type", AStr "monotone");
                          ("dataKey", AStr "count");
                          ("stroke", AStr "#3B82F6");
                          ("name", AStr "Activities");
                          ("strokeWidth", AVal (Lit (Count 2))) ] [];
                      El "Line"
                        [ ("type", AStr "monotone");
                          ("dataKey", AStr "alerts");
                          ("stroke", AStr "#EF4444");
                          ("name", AStr "Alerts");
                          ("strokeWidth", AVal (Lit (Count 2))) ] [] ] ] ] ];
      El "div" [("className", AStr "bg-white p-4 rounded-lg shadow")]
        [ El "h2" [("className", AStr "text-xl font-bold mb-4")]
            [ Txt "Location Coverage Overview" ];
          El "div" [("className", AStr "h-64")]
            [ El "ResponsiveContainer" [("width", AStr "100%"); ("height", AStr "100%")]
                [ El "BarChart"
                    [ ("data", AData (coverage_bars s));
                      ("margin",
                       AObj [("top", Lit (Count 5));
                             ("right", Lit (Count 30));
                             ("left", Lit (Count 20));
                             ("bottom", Lit (Count 5))]) ]
                    [ El "CartesianGrid" [("strokeDasharray", AStr "3 3")] [];
                      El "XAxis" [("dataKey", AStr "location")] [];
                      El "YAxis" [] [];
                      El "Tooltip" [] [];
                      El "Legend" [] [];
                      El "Bar"
                        [ ("dataKey", AStr "coverage");
                          ("fill", AStr "#3B82F6");
                          ("name", AStr "Coverage %") ] [];
                      El "Bar"
                        [ ("dataKey", AStr "alerts");
                          ("fill", AStr "#EF4444");
                          ("name", AStr "Alerts") ] [] ] ] ] ] ].

(** The callback of [filteredGuards.map]. *)
Definition guard_row (guard : GuardStat.t) : node datum :=
  El "tr" [("key", AVal (Lit (Str (GuardStat.id guard))))]
    [ El "td" [("className", AStr "px-6 py-4 whitespace-nowrap")]
        [ El "div" [("className", AStr "flex items-center")]
            [ El "div" [("className", AStr "flex-shrink-0 h-10 w-10")]
                [ El "div"
                    [ ("className", AStr "h-10 w-10 rounded-full bg-gray-200 flex items-center justify-center") ]
                    [ El "Users" [("className", AStr "h-6 w-6 text-gray-500")] [] ] ];
              El "div" [("className", AStr "ml-4")]
                [ El "div" [("className", AStr "text-sm font-medium text-gray-900")]
                    [ Hole (Lit (opt_str (GuardStat.name guard))) ];
                  El "div" [("className", AStr "text-sm text-gray-500")]
                    [ Txt "ID: ";
                      Hole (Lit (Str (GuardStat.id guard))) ] ] ] ];
      El "td"
        [ ("className",
           AVal (Tpl [Str "px-6 py-4 whitespace-nowrap text-sm ";
                      Str (if Num.geb (GuardStat.punctualityRate guard) (Num.of_nat 90) then "text-green-600"
                           else if Num.geb (GuardStat.punctualityRate guard) (Num.of_nat 75)
                           then "text-yellow-600"
                           else "text-red-600")])) ]
        [ Hole (Lit (Number (GuardStat.punctualityRate guard)));
          Txt "%" ];
      El "td" [("className", AStr "px-6 py-4 whitespace-nowrap text-sm text-gray-500")]
        [ Hole (Lit (Count (GuardStat.totalActivities guard))) ];
      El "td" [("className", AStr "px-6 py-4 whitespace-nowrap text-sm text-gray-500")]
        [ Hole (Lit (Number (GuardStat.alertRate guard)));
          Txt "%" ];
      El "td" [("className", AStr "px-6 py-4 whitespace-nowrap text-sm text-gray-500")]
        [ Hole (Lit (Number (GuardStat.avgLocationAccuracy guard)));
          Txt "m" ];
      El "td" [("className", AStr "px-6 py-4 whitespace-nowrap text-sm text-gray-500")]
        [ Hole (Lit (Str (Arr.join ", " (GuardStat.posts guard)))) ];
      El "td" [("className", AStr "px-6 py-4 whitespace-nowrap")]
        [ El "span"
            [ ("className",
               AVal (Tpl [Str "px-2 inline-flex text-xs leading-5 font-semibold rounded-full ";
                          Str (if is_warning (GuardStat.status guard)
                               then "bg-red-100 text-red-800"
                               else "bg-green-100 text-green-800")])) ]
            [ Hole (Lit (Str (status_text (GuardStat.status guard)))) ] ] ].

Definition guards_panel (filteredGuards : list GuardStat.t) : node datum :=
  El "div" [("className", AStr "space-y-6")]
    [ El "div" [("className", AStr "bg-white p-4 rounded-lg shadow")]
        [ El "h2" [("className", AStr "text-xl font-bold mb-4")]
            [ Txt "Guard Performance Analysis" ];
          El "div" [("className", AStr "overflow-x-auto")]
            [ El "table" [("className", AStr "min-w-full divide-y divide-gray-200")]
                [ El "thead" [("className", AStr "bg-gray-50")]
                    [ El "tr" []
                        [ El "th"
                            [ ("className", AStr "px-6 py-3 text-left text-xs font-medium text-gray-500 uppercase tracking-wider") ]
                            [ Txt "Guard Name" ];
                          El "th"
                            [ ("className", AStr "px-6 py-3 text-left text-xs font-medium text-gray-500 uppercase tracking-wider") ]
                            [ Txt "Punctuality Rate" ];
                          El "th"
                            [ ("className", AStr "px-6 py-3 text-left text-xs font-medium text-gray-500 uppercase tracking-wider") ]
                            [ Txt "Activities" ];
                          El "th"
                            [ ("className", AStr "px-6 py-3 text-left text-xs font-medium text-gray-500 uppercase tracking-wider") ]
                            [ Txt "Alert Rate" ];
                          El "th"
                            [ ("className", AStr "px-6 py-3 text-left text-xs font-medium text-gray-500 uppercase tracking-wider") ]
                            [ Txt "Location Accuracy" ];
                          El "th"
                            [ ("className", AStr "px-6 py-3 text-left text-xs font-medium text-gray-500 uppercase tracking-wider") ]
                            [ Txt "Posts" ];
                          El "th"
                            [ ("className", AStr "px-6 py-3 text-left text-xs font-medium text-gray-500 uppercase tracking-wider") ]
                            [ Txt "Status" ] ] ];
                  El "tbody" [("className", AStr "bg-white divide-y divide-gray-200")]
                    [ Arr (guard_row <$> filteredGuards) ] ] ] ] ].

(** [(data.covered / data.total) * 100], not rounded. *)
Definition coverage_ratio (data : Coverage.t) : number :=
  Num.mul (Num.div (Num.of_nat (Coverage.covered data))
                   (Num.of_nat (Coverage.total data)))
          (Num.of_nat 100).

(** The entries of [attendanceData.locationCoverage] the search term lets
    through. *)
Definition shown_locations (s : State.t) : list (string * Coverage.t) :=
  filter (λ entry, Str.includes (Str.toLowerCase entry.1)
                                (Str.toLowerCase (searchTerm s)) = true)
         (Obj.entries (Attendance.locationCoverage (attendanceData s))).

(** The callback of the [map] over the entries. *)
Definition location_row (entry : string * Coverage.t) : node datum :=
  let '(location, data) := entry in
  El "tr" [("key", AVal (Lit (Str location)))]
    [ El "td"
        [ ("className", AStr "px-6 py-4 whitespace-nowrap text-sm font-medium text-gray-900") ]
        [ Hole (Lit (Str location)) ];
      El "td"
        [ ("className",
           AVal (Tpl [Str "px-6 py-4 whitespace-nowrap text-sm ";
                      Str (if Num.geb (coverage_ratio data) (Num.of_nat 90) then "text-green-600"
                           else if Num.geb (coverage_ratio data) (Num.of_nat 75)
                           then "text-yellow-600"
                           else "text-red-600")])) ]
        [ Hole (Lit (Number (percent (Coverage.covered data) (Coverage.total data))));
          Txt "%" ];
      El "td" [("className", AStr "px-6 py-4 whitespace-nowrap text-sm text-gray-500")]
        [ Hole (Lit (Count (Coverage.total data))) ];
      El "td" [("className", AStr "px-6 py-4 whitespace-nowrap text-sm text-gray-500")]
        [ Hole (Lit (Count (Coverage.alerts data))) ];
      El "td" [("className", AStr "px-6 py-4 whitespace-nowrap text-sm text-gray-500")]
        [ Hole (Lit (Count (JSSet.size (Coverage.guards data)))) ] ].

Definition locations_panel (s : State.t) : node datum :=
  El "div" [("className", AStr "space-y-6")]
    [ El "div" [("className", AStr "bg-white p-4 rounded-lg shadow")]
        [ El "h2" [("className", AStr "text-xl font-bold mb-4")]
            [ Txt "Location Coverage Details" ];
          El "div" [("className", AStr "overflow-x-auto")]
            [ El "table" [("className", AStr "min-w-full divide-y divide-gray-200")]
                [ El "thead" [("className", AStr "bg-gray-50")]
                    [ El "tr" []
                        [ El "th"
                            [ ("className", AStr "px-6 py-3 text-left text-xs font-medium text-gray-500 uppercase") ]
                            [ Txt "Location" ];
                          El "th"
                            [ ("className", AStr "px-6 py-3 text-left text-xs font-medium text-gray-500 uppercase") ]
                            [ Txt "Coverage Rate" ];
                          El "th"
                            [ ("className", AStr "px-6 py-3 text-left text-xs font-medium text-gray-500 uppercase") ]
                            [ Txt "Total Shifts" ];
                          El "th"
                            [ ("className", AStr "px-6 py-3 text-left text-xs font-medium text-gray-500 uppercase") ]
                            [ Txt "Alerts" ];
                          El "th"
                            [ ("className", AStr "px-6 py-3 text-left text-xs font-medium text-gray-500 uppercase") ]
                            [ Txt "Active Guards" ] ] ];
                  El "tbody" [("className", AStr "divide-y divide-gray-200")]
                    [ Arr (location_row <$> shown_locations s) ] ] ] ] ].

Definition dashboard (s : State.t) (filteredGuards : list GuardStat.t)
  : node datum :=
  El "div" [("className", AStr "min-h-screen bg-gray-100")]
    [ El "nav" [("className", AStr "bg-white shadow-lg")]
        [ El "div" [("className", AStr "container mx-auto px-4 py-3")]
            [ El "div" [("className", AStr "flex items-center justify-between")]
                [ El "div" [("className", AStr "flex items-center")]
                    [ El "Shield" [("className", AStr "h-8 w-8 text-blue-600")] [];
                      El "span" [("className", AStr "ml-2 text-xl font-bold")]
                        [ Txt "Security Guard MIS" ] ];
                  El "div" [("className", AStr "flex items-center space-x-4")]
                    [ El "Calendar" [("className", AStr "h-5 w-5 text-gray-500")] [];
                      El "input"
                        [ ("type", AStr "date");
                          ("value", AVal (Lit (Str (selectedDate s))));
                          ("onChange", AOnChange SetSelectedDate);
                          ("className", AStr "px-3 py-2 border rounded-md text-sm") ] [] ] ] ] ];
      El "div" [("className", AStr "container mx-auto p-4")]
        [ El "div"
            [ ("className", AStr "flex space-x-4 mb-6 bg-white p-2 rounded-lg shadow") ]
            [ Arr (tab_button s <$> TABS) ];
          El "div" [("className", AStr "mb-6")]
            [ SearchBar s ];
          VDom.guarded (String.eqb (activeTab s) "overview") (overview_panel s);
          VDom.guarded (String.eqb (activeTab s) "guards") (guards_panel filteredGuards);
          VDom.guarded (String.eqb (activeTab s) "locations") (locations_panel s) ] ].

(** [App] from its first [if] on: the screen for the state [s], or the
    exception of the guard filter. *)
Definition render (s : State.t) : res (node datum) :=
  if loading s then Ok loading_screen
  else if Str.truthy (error s) then Ok (error_screen s)
  else
    filtered ← filteredGuards (guardStats s) (searchTerm s);
    Ok (dashboard s filtered).

(** ** The rows behind the page *)

(** The call a control makes, as the event of [AlertApp]. *)
Definition event_of (a : action) (activity attendance : fetched) : event :=
  match a with
  | SetSelectedDate v => DateChanged v activity attendance
  | SetActiveTab id => TabClicked id
  | SetSearchTerm v => SearchTyped v
  end.

(** The handlers of the dashboard, in document order. *)
Definition controls : list handler :=
  [ OnChange SetSelectedDate;
    OnClick (SetActiveTab "overview");
    OnClick (SetActiveTab "guards");
    OnClick (SetActiveTab "locations");
    OnChange SetSearchTerm ].

(** The calls the controls of the dashboard can make. *)
Definition allowed (a : action) : Prop :=
  match a with
  | SetActiveTab id => id ∈ Tab.id <$> TABS
  | SetSelectedDate _ | SetSearchTerm _ => True
  end.

(** The class of a coverage cell, from the two counters: green from 90
    per cent, yellow from 75. *)
Definition coverage_colour (covered total : nat) : string :=
  if 90 * total <=? 100 * covered then "text-green-600"
  else if 75 * total <=? 100 * covered then "text-yellow-600"
  else "text-red-600".

(** A guard with a name and with posts that all have one. *)
Definition named (g : GuardStat.t) : Prop :=
  is_Some (GuardStat.name g) ∧ Forall is_Some (GuardStat.posts g).

(** The same of an entry while the pass runs. *)
Definition stats_named (g : Stats.t) : Prop :=
  is_Some (Stats.name g) ∧ Forall is_Some (Stats.posts g).

(** An activity row that is counted carries the name of the guard and of
    the post. *)
Definition labelled (record : row) : Prop :=
  is_Some (stats_key record) →
  is_Some (cell record Col.UserName) ∧ is_Some (cell record Col.PostName).

Section Interaction.
Context `{DateLib} (parse : string → list row).

(** The states the user can bring the page to: after the mount, each next
    state comes from a control that is on the page. *)
Inductive visited : State.t → Prop :=
| visited_mount activity attendance :
    visited (step parse initial (Mounted activity attendance))
| visited_next s t a activity attendance :
    visited s → render s = Ok t → offers t a →
    visited (step parse s (event_of a activity attendance)).

End Interaction.

(** ** The parts of the page *)

Lemma handlers_guard_row g : handlers (guard_row g) = [].
Proof. reflexivity. Qed.

Lemma handlers_location_row e : handlers (location_row e) = [].
Proof. by destruct e. Qed.

Lemma handlers_overview_panel s : handlers (overview_panel s) = [].
Proof. reflexivity. Qed.

Lemma handlers_guards_panel gs : handlers (guards_panel gs) = [].
Proof. unfold guards_panel. vdom. by rewrite bind_nil by apply handlers_guard_row. Qed.

Lemma handlers_locations_panel s : handlers (locations_panel s) = [].
Proof.
  unfold locations_panel. vdom. by rewrite bind_nil by apply handlers_location_row.
Qed.

Lemma rows_guard_row g : select (by_tag "tr") (guard_row g) = [guard_row g].
Proof. reflexivity. Qed.

Lemma rows_location_row e : select (by_tag "tr") (location_row e) = [location_row e].
Proof. by destruct e. Qed.

Lemma panel_guard_row g : select (by_class "space-y-6") (guard_row g) = [].
Proof. reflexivity. Qed.

Lemma panel_location_row e : select (by_class "space-y-6") (location_row e) = [].
Proof. by destruct e. Qed.

(** The root of a panel has the class [space-y-6], and nothing below it
    has. *)
Lemma panel_overview s :
  select (by_class "space-y-6") (overview_panel s) = [overview_panel s].
Proof. reflexivity. Qed.

Lemma panel_guards gs :
  select (by_class "space-y-6") (guards_panel gs) = [guards_panel gs].
Proof.
  unfold guards_panel at 1. vdom. by rewrite bind_nil by apply panel_guard_row.
Qed.

Lemma panel_locations s :
  select (by_class "space-y-6") (locations_panel s) = [locations_panel s].
Proof.
  unfold locations_panel at 1. vdom.
  by rewrite bind_nil by apply panel_location_row.
Qed.

(** The rows of a table: the row of the headings and one row per item. *)
Lemma rows_guards_panel gs :
  ∃ header, select (by_tag "tr") (guards_panel gs) = header :: (guard_row <$> gs).
Proof.
  eexists. unfold guards_panel. vdom.
  rewrite (bind_singleton _ guard_row) by apply rows_guard_row.
  by rewrite !app_nil_r.
Qed.

Lemma rows_locations_panel s :
  ∃ header,
    select (by_tag "tr") (locations_panel s) =
    header :: (location_row <$> shown_locations s).
Proof.
  eexists. unfold locations_panel. vdom.
  rewrite (bind_singleton _ location_row) by apply rows_location_row.
  by rewrite !app_nil_r.
Qed.

Lemma rows_overview_panel s : select (by_tag "tr") (overview_panel s) = [].
Proof. reflexivity. Qed.

(** The texts of the overview, in the order of the page. *)
Lemma texts_overview s :
  texts (overview_panel s) =
  [ Count (Attendance.totalShifts (attendanceData s)); Str "Total Shifts";
    Number (percent (Attendance.onTime (attendanceData s))
                    (Attendance.totalShifts (attendanceData s)));
    Str "%"; Str "On-Time Rate";
    Str "Alert Status";
    Count (Performance.totalAlerts (performanceMetrics s)); Str "Total Alerts";
    Count (Performance.criticalAlerts (performanceMetrics s)); Str "Critical Alerts";
    Str "Attendance Distribution"; Str "Activity Timeline";
    Str "Location Coverage Overview" ].
Proof. reflexivity. Qed.

(** The keys of the arrays of each panel. *)
Lemma keys_overview_panel s : well_keyed (overview_panel s).
Proof.
  apply Forall_singleton, (keys_ok_cells _ cell_key); [done|apply _].
Qed.

Lemma keys_guards_panel gs :
  NoDup (GuardStat.id <$> gs) → well_keyed (guards_panel gs).
Proof.
  intros Hnd. unfold well_keyed, guards_panel. vdom.
  rewrite !bind_nil by done. rewrite !app_nil_r, <- !list_fmap_compose.
  apply Forall_singleton.
  by apply (keys_ok_fmap (Lit ∘ Str ∘ GuardStat.id) GuardStat.id);
    [intros x y [= ->]|].
Qed.

Lemma shown_locations_keys s :
  NoDup (Obj.keys (Attendance.locationCoverage (attendanceData s))) →
  NoDup (fst <$> shown_locations s).
Proof. intros Hnd. apply NoDup_fmap_filter. by rewrite entries_perm. Qed.

Lemma keys_locations_panel s :
  NoDup (Obj.keys (Attendance.locationCoverage (attendanceData s))) →
  well_keyed (locations_panel s).
Proof.
  intros Hnd%shown_locations_keys. unfold well_keyed, locations_panel. vdom.
  rewrite !bind_nil by (by intros []). rewrite !app_nil_r, <- !list_fmap_compose.
  apply Forall_singleton.
  rewrite (list_fmap_ext (key_of ∘ location_row) (Some ∘ (Lit ∘ Str ∘ fst)))
    by (by intros i []).
  by apply (keys_ok_fmap (Lit ∘ Str ∘ fst) fst); [intros x y [= ->]|].
Qed.

#[local] Opaque overview_panel guards_panel locations_panel.

Lemma handlers_dashboard s gs : handlers (dashboard s gs) = controls.
Proof.
  unfold dashboard. vdom.
  rewrite handlers_overview_panel, handlers_guards_panel, handlers_locations_panel.
  by repeat case_match.
Qed.

Lemma panels_dashboard s gs :
  select (by_class "space-y-6") (dashboard s gs) =
  (if String.eqb (activeTab s) "overview" then [overview_panel s] else []) ++
  (if String.eqb (activeTab s) "guards" then [guards_panel gs] else []) ++
  (if String.eqb (activeTab s) "locations" then [locations_panel s] else []).
Proof.
  unfold dashboard. vdom. rewrite panel_overview, panel_guards, panel_locations.
  by repeat case_match.
Qed.

Lemma rows_dashboard s gs :
  select (by_tag "tr") (dashboard s gs) =
  (if String.eqb (activeTab s) "guards"
   then select (by_tag "tr") (guards_panel gs) else []) ++
  (if String.eqb (activeTab s) "locations"
   then select (by_tag "tr") (locations_panel s) else []).
Proof.
  unfold dashboard. vdom. rewrite rows_overview_panel, !app_nil_r.
  by repeat case_match.
Qed.

(** ** The controls of the page *)

Lemma offers_controls (t : node datum) a :
  handlers t = controls → offers t a ↔ allowed a.
Proof.
  intros Ht. unfold offers. rewrite Ht. unfold controls. split.
  - intros (h & Hh & Hf). set_unfold in Hh.
    destruct Hh as [->|[->|[->|[->|[->|[]]]]]]; simpl in Hf;
      try (destruct Hf as [v <-]); try subst a; simpl; set_solver.
  - destruct a as [v|id|v]; simpl.
    + intros _. exists (OnChange SetSelectedDate). split; [set_solver|by exists v].
    + intros Hid. exists (OnClick (SetActiveTab id)). split; [|done]. set_solver.
    + intros _. exists (OnChange SetSearchTerm). split; [set_solver|by exists v].
Qed.

(** The screen the early returns choose. *)
Lemma screen_cases s :
  screen s =
  if loading s then LoadingScreen
  else if Str.truthy (error s)
       then ErrorScreen ("Error loading dashboard: " +:+ default "" (error s))
       else DashboardScreen.
Proof.
  unfold screen, screen_of, Str.truthy. destruct (loading s); [done|].
  destruct (error s) as [e|]; [|done]. simpl. by destruct (String.eqb e "").
Qed.

Lemma render_cases s :
  render s =
  match screen s with
  | LoadingScreen => Ok loading_screen
  | ErrorScreen _ => Ok (error_screen s)
  | DashboardScreen => dashboard s <$> filteredGuards (guardStats s) (searchTerm s)
  end.
Proof.
  rewrite screen_cases. unfold render.
  destruct (loading s); [done|]. destruct (Str.truthy (error s)); [done|].
  by destruct (filteredGuards _ _).
Qed.

(** The handlers of the page: those of the dashboard, and none on the two
    other screens. *)
Lemma render_handlers s t :
  render s = Ok t →
  handlers t = if bool_decide (screen s = DashboardScreen) then controls else [].
Proof.
  rewrite render_cases. destruct (screen s) eqn:Hs; try by intros [= <-].
  destruct (filteredGuards _ _) as [gs|e]; [|done]. intros [= <-].
  apply handlers_dashboard.
Qed.

(** C33: The page offers a call exactly when it is the dashboard and the call
    is one of a date, of one of the three tabs, or of a search term: the
    loading screen and the error screen have no control at all. *)
Theorem render_offers s t a :
  render s = Ok t →
  offers t a ↔ screen s = DashboardScreen ∧ allowed a.
Proof.
  intros Ht%render_handlers. case_bool_decide as Hs.
  - rewrite (offers_controls t a Ht). naive_solver.
  - split; [by intros ?%offers_no_handlers|by intros [? _]].
Qed.

(** ** The keys of the arrays *)

Lemma key_lists_dashboard s gs :
  key_lists (dashboard s gs) =
  (Some ∘ (Lit ∘ Str ∘ Tab.id) <$> TABS) ::
  (if String.eqb (activeTab s) "overview"
   then key_lists (overview_panel s) else []) ++
  (if String.eqb (activeTab s) "guards"
   then key_lists (guards_panel gs) else []) ++
  (if String.eqb (activeTab s) "locations"
   then key_lists (locations_panel s) else []).
Proof. unfold dashboard. vdom. by rewrite !app_nil_r. Qed.

Lemma tab_keys : keys_ok (Some ∘ (Lit ∘ Str ∘ Tab.id) <$> TABS).
Proof.
  apply (keys_ok_fmap (Lit ∘ Str ∘ Tab.id) Tab.id); [by intros x y [= ->]|].
  by apply (bool_decide_unpack _); vm_compute.
Qed.

(** The arrays of the dashboard have well-chosen keys when no two guards
    it shows have the same service number and no two posts the same
    name. *)
Lemma keys_dashboard s gs :
  NoDup (GuardStat.id <$> gs) →
  NoDup (Obj.keys (Attendance.locationCoverage (attendanceData s))) →
  well_keyed (dashboard s gs).
Proof.
  intros Hgs Hlc. unfold well_keyed. rewrite key_lists_dashboard.
  apply Forall_cons_2; [apply tab_keys|].
  rewrite !Forall_app. split_and!; case_match;
    [apply keys_overview_panel|apply Forall_nil_2
    |by apply keys_guards_panel|apply Forall_nil_2
    |by apply keys_locations_panel|apply Forall_nil_2].
Qed.

Lemma render_well_keyed s t :
  well_formed s → render s = Ok t → well_keyed t.
Proof.
  intros Hs. rewrite render_cases.
  destruct (screen s); [intros [= <-]; apply Forall_nil_2..|].
  destruct (filteredGuards _ _) as [gs|] eqn:Hgs; [|done]. intros [= <-].
  apply filteredGuards_ok in Hgs as ->.
  apply keys_dashboard; [apply NoDup_fmap_filter|]; by destruct Hs.
Qed.

(** ** From the page to the events *)

Section Visited.
Context `{DateLib} (parse : string → list row).

(** A load leaves the three cells of the controls alone. *)
Lemma loadData_frame a b s (s' := exec (loadData parse a b) s) :
  selectedDate s' = selectedDate s ∧ activeTab s' = activeTab s ∧
  searchTerm s' = searchTerm s.
Proof.
  subst s'. rewrite exec_loadData.
  destruct (fetch_text "Activity" a); [|done].
  destruct (fetch_text "Attendance" b); [|done].
  rewrite run_processData. cbv zeta.
  destruct (processAttendanceData _); [|done].
  by destruct (processGuardStatistics _ _).
Qed.

(** What the page offers is on the dashboard, and allowed. *)
Lemma offered s t a :
  render s = Ok t → offers t a → screen s = DashboardScreen ∧ allowed a.
Proof.
  intros Ht%render_handlers Ha. case_bool_decide as Hs.
  - split; [done|]. by apply (offers_controls t a Ht).
  - by apply offers_no_handlers in Ha.
Qed.

Lemma step_activeTab s a activity attendance :
  allowed a →
  activeTab s ∈ Tab.id <$> TABS →
  activeTab (step parse s (event_of a activity attendance)) ∈ Tab.id <$> TABS.
Proof.
  destruct a as [v|id|v]; simpl; try done.
  intros _ Hs. case_match; [done|].
  by rewrite (proj1 (proj2 (loadData_frame _ _ _))).
Qed.

Lemma visited_steps s : visited parse s → reachable parse s.
Proof.
  induction 1 as [a b|s t a x y _ IH Ht Ha]; [constructor|].
  apply reachable_step; [done|].
  destruct (offered s t a Ht Ha) as [Hs _]. destruct a; simpl; by rewrite Hs.
Qed.

Lemma visited_tab s : visited parse s → activeTab s ∈ Tab.id <$> TABS.
Proof.
  induction 1 as [a b|s t a x y _ IH Ht Ha].
  - simpl. rewrite (proj1 (proj2 (loadData_frame _ _ _))). set_solver.
  - apply step_activeTab; [|done]. by destruct (offered s t a Ht Ha).
Qed.

(** C34: The states the user brings the page to are states of the component
    as [AlertApp] lets it run: every call the page offers is an event that
    is enabled there. *)
Theorem visited_reachable s t a activity attendance :
  visited parse s → render s = Ok t → offers t a →
  reachable parse s ∧ enabled s (event_of a activity attendance) = true ∧
  reachable parse (step parse s (event_of a activity attendance)).
Proof.
  intros Hs%visited_steps Ht Ha. destruct (offered s t a Ht Ha) as [Hd _].
  assert (enabled s (event_of a activity attendance) = true) as He
    by (destruct a; simpl; by rewrite Hd).
  split_and!; [done..|]. by apply reachable_step.
Qed.

(** C37: On the dashboard the user has brought the page to, one panel is on
    the page: the active tab is always one of the three. *)
Theorem visited_one_panel s t :
  visited parse s → render s = Ok t → screen s = DashboardScreen →
  activeTab s ∈ Tab.id <$> TABS ∧
  ∃ panel, select (by_class "space-y-6") t = [panel].
Proof.
  intros Htab%visited_tab. rewrite render_cases. intros Ht Hs.
  split; [done|]. rewrite Hs in Ht.
  destruct (filteredGuards _ _) as [gs|]; [|done].
  injection Ht as <-. rewrite panels_dashboard.
  change (Tab.id <$> TABS) with ["overview"; "guards"; "locations"] in Htab.
  set_unfold in Htab. destruct Htab as [->|[->|[->|[]]]]; simpl; eauto.
Qed.

(** Every page the user brings the dashboard to gives each item of each
    array a key, and no two items of an array the same key: the tabs, the
    cells of the chart, the rows of the guards the filter lets through and
    the rows of the posts. *)
Theorem visited_well_keyed s t :
  visited parse s → render s = Ok t → well_keyed t.
Proof.
  intros Hs%visited_steps%alert_reachable_well_formed. by apply render_well_keyed.
Qed.

End Visited.

(** ** The tables *)

(** With the guards tab open, the rows of the table are the row of the
    headings and one row for each guard the filter accepts, in the order
    of [guardStats]. *)
Theorem guards_table s t :
  render s = Ok t → screen s = DashboardScreen → activeTab s = "guards" →
  ∃ header,
    select (by_tag "tr") t =
    header :: (guard_row <$> filter (λ g, guard_matches (searchTerm s) g = Ok true)
                                    (guardStats s)).
Proof.
  rewrite render_cases. intros Ht Hs Htab. rewrite Hs in Ht.
  destruct (filteredGuards _ _) as [gs|] eqn:Hgs; [|done]. injection Ht as <-.
  destruct (rows_guards_panel gs) as [header Hrows].
  exists header. rewrite rows_dashboard, Htab. simpl. rewrite Hrows, app_nil_r.
  by rewrite (filterM_ok _ _ _ Hgs).
Qed.

(** With the locations tab open, the rows are the row of the headings and
    one row for each post whose name contains the search term, whatever
    the case of the letters. *)
Theorem locations_table s t :
  render s = Ok t → screen s = DashboardScreen → activeTab s = "locations" →
  ∃ header,
    select (by_tag "tr") t = header :: (location_row <$> shown_locations s).
Proof.
  rewrite render_cases. intros Ht Hs Htab. rewrite Hs in Ht.
  destruct (filteredGuards _ _) as [gs|] eqn:Hgs; [|done]. injection Ht as <-.
  destruct (rows_locations_panel s) as [header Hrows].
  exists header. rewrite rows_dashboard, Htab. simpl. by rewrite Hrows.
Qed.

(** ** When the page cannot be built *)

Lemma filterM_throws {A} (p : A → res bool) l x e :
  x ∈ l → p x = Throw e → ∃ e', filterM p l = Throw e'.
Proof.
  intros Hx Hp. induction Hx as [x l|x y l _ IH]; simpl.
  - rewrite Hp. by eexists.
  - destruct (p y); [|by eexists]. simpl. destruct (IH Hp) as [e' ->]. by eexists.
Qed.

Lemma filterM_returns {A} (p : A → res bool) l :
  Forall (λ x, is_ok (p x) = true) l → ∃ r, filterM p l = Ok r.
Proof.
  induction 1 as [|x l Hx _ [r IH]]; simpl; [by eexists|].
  destruct (p x); [|done]. simpl. rewrite IH. by eexists.
Qed.

Lemma someM_returns {A} (p : A → res bool) l :
  Forall (λ x, is_ok (p x) = true) l → is_ok (someM p l) = true.
Proof.
  induction 1 as [|x l Hx _ IH]; simpl; [done|].
  destruct (p x) as [[]|]; done.
Qed.

Lemma guard_matches_named term g : named g → is_ok (guard_matches term g) = true.
Proof.
  intros [[name Hn] Hposts]. unfold guard_matches. rewrite Hn. simpl.
  case_match; [done|]. apply someM_returns.
  eapply Forall_impl; [exact Hposts|]. by intros post [? ->].
Qed.

(** When every guard has a name and named posts the page is built, whatever
    the search term. *)
Lemma render_named s : Forall named (guardStats s) → ∃ t, render s = Ok t.
Proof.
  intros Hall. rewrite render_cases. destruct (screen s); [by eexists..|].
  destruct (filterM_returns (guard_matches (searchTerm s)) (guardStats s)) as [r Hr].
  { eapply Forall_impl; [exact Hall|]. intros g. apply guard_matches_named. }
  unfold filteredGuards. rewrite Hr. by eexists.
Qed.

(** C35: One guard without a name is enough for the dashboard not to be
    built, whatever the tab and the search term: [guard.name.toLowerCase()]
    throws before the term is looked at. *)
Theorem render_unnamed s g :
  screen s = DashboardScreen → g ∈ guardStats s → GuardStat.name g = None →
  ∃ e, render s = Throw e.
Proof.
  intros Hs Hg Hname. rewrite render_cases, Hs.
  destruct (filterM_throws (guard_matches (searchTerm s)) (guardStats s) g
              (TypeError "toLowerCase") Hg) as [e He].
  { unfold guard_matches. by rewrite Hname. }
  unfold filteredGuards. rewrite He. by eexists.
Qed.

Lemma stats_of_named act : Forall labelled act → all stats_named (stats_of act).
Proof.
  intros Hact.
  apply (fold_upsert_all_on _ _ _ (λ r, is_Some (cell r Col.UserName) ∧
                                        is_Some (cell r Col.PostName)));
    [| |exact Hact|constructor].
  - intros r g [_ Hpost] [Hname Hposts]. split; [done|]. simpl.
    unfold JSSet.add. case_bool_decide; [done|].
    apply Forall_app. split; [done|]. by constructor.
  - intros r [Hname Hpost]. split; [done|]. simpl. by constructor.
Qed.

Lemma guard_statistics_named act att gs :
  Forall labelled act → processGuardStatistics act att = Ok gs → Forall named gs.
Proof.
  intros Hact Hgs. apply Forall_forall. intros p Hp.
  destruct (guard_statistics_elem act att gs p Hgs Hp) as (g & Hg & ->).
  exact (all_get_own _ _ _ _ (stats_of_named act Hact) Hg).
Qed.

(** C36: When every counted row of the activity export names its guard and its
    post, the page of a state that holds the results of a load is built,
    for every tab and every search term. *)
Theorem labelled_rows_render act att d s :
  Forall labelled act → loaded act att = Ok d → data_of s = d →
  ∃ t, render s = Ok t.
Proof.
  intros Hact Hd <-. apply render_named. unfold loaded in Hd.
  destruct (processAttendanceData att); [|done]. simpl in Hd.
  destruct (processGuardStatistics act att) as [gs|] eqn:Hgs; [|done].
  injection Hd as _ _ <- _. by apply (guard_statistics_named act att).
Qed.

(** ** The cards *)

(** The rate on the second card of the overview is [NaN] when the
    attendance export has no row, and otherwise one of the integers from 0
    to 100. *)
Theorem on_time_rate_shown data a s :
  processAttendanceData data = Ok a → attendanceData s = a → array_size data →
  ∃ x, texts (overview_panel s) !! 2 = Some (Number x) ∧
       (data = [] → x = Num.NaN) ∧
       (data ≠ [] → ∃ k, k ≤ 100 ∧ x = Num.of_nat k).
Proof.
  intros Ha Hs Hn. destruct (attendance_summary data a Ha) as (Ht & Ho & Hsum & _).
  eexists. split; [by rewrite texts_overview|]. rewrite Hs, Ht. split.
  - intros ->. by rewrite Ho.
  - intros Hne. apply percent_round.
    + lia.
    + destruct data; [done|simpl; lia].
    + unfold array_size in Hn. unfold small. lia.
    + apply small_100.
Qed.

(** C38: The coverage cell of a post shows the percentage of its covered
    shifts, rounded as [rounded_percent] says, in the colour the exact
    percentage selects: the two roundings of [(covered / total) * 100]
    never move it across 90 or 75. *)
Theorem coverage_cell data a location c
    (covered := Coverage.covered c) (total := Coverage.total c) :
  array_size data → processAttendanceData data = Ok a →
  (location, c) ∈ Obj.entries (Attendance.locationCoverage a) →
  texts (location_row (location, c)) !! 1 =
    Some (Number (Num.of_nat (rounded_percent covered total))) ∧
  class_names (location_row (location, c)) !! 1 =
    Some (Tpl [Str "px-6 py-4 whitespace-nowrap text-sm ";
               Str (coverage_colour covered total)]).
Proof.
  unfold array_size. intros Hn Ha Hin.
  destruct (coverage_entry data a location c Ha Hin) as [(H1 & _ & H3 & _) Hle].
  subst covered total.
  assert (Z.of_nat (Coverage.total c) < 2 ^ 42)%Z as Hsize by lia.
  cbn -[percent]. rewrite percent_exact by done.
  change (coverage_ratio c)
    with (scaled (Coverage.covered c) (Coverage.total c) 100).
  by rewrite !percent_geb by (done || lia).
Qed.

(** A post with 179 of its 200 shifts covered is shown with the text
    [90%] in yellow: the text is the rounded rate, the colour compares
    the rate itself with 90. *)
Example ninety_percent_yellow :
  let row := location_row ("Gate A", Coverage.mk 200 179 0 []) in
  texts row !! 1 = Some (Number (Num.of_nat 90)) ∧
  class_names row !! 1 =
    Some (Tpl [Str "px-6 py-4 whitespace-nowrap text-sm "; Str "text-yellow-600"]).
Proof. vm_compute. done. Qed.

(** ** The theorems at work on a small export *)

(** The page of a state, when it can be built. *)
Definition page_of (s : State.t) : node datum :=
  match render s with Ok t => t | Throw _ => Txt "" end.

(** The state after the first load of the examples, and after a click on
    each of the two other tabs. *)
Definition sample_state : State.t :=
  Eval vm_compute in
    step sample_parse initial
      (Mounted (Responded true 200 "activity") (Responded true 200 "attendance")).

Definition sample_guards_tab : State.t :=
  Eval vm_compute in step sample_parse sample_state (TabClicked "guards").

Definition sample_locations_tab : State.t :=
  Eval vm_compute in step sample_parse sample_state (TabClicked "locations").

Definition sample_page : node datum := Eval vm_compute in page_of sample_state.

Definition sample_guards_page : node datum :=
  Eval vm_compute in page_of sample_guards_tab.

Definition sample_locations_page : node datum :=
  Eval vm_compute in page_of sample_locations_tab.

(** An export whose one row has no [User Name] cell. *)
Definition unnamed_activity : list row :=
  [ mk_row [(Col.DateTime, "2024-10-19 08:15:00"); (Col.TimeAccuracy, "On Time");
            (Col.ServiceNumber, "G-7"); (Col.PostName, "Gate A")] ].

Definition unnamed_parse (text : string) : list row :=
  if String.eqb text "activity" then unnamed_activity else sample_attendance.

Definition unnamed_state : State.t :=
  Eval vm_compute in
    step unnamed_parse initial
      (Mounted (Responded true 200 "activity") (Responded true 200 "attendance")).

Definition unnamed_stat : GuardStat.t :=
  Eval vm_compute in
    nth 0 (guardStats unnamed_state) (guard_stat (new_stats "" (mk_row []))).

Lemma sample_page_ok : render sample_state = Ok sample_page.
Proof. vm_compute. reflexivity. Qed.

Lemma sample_visited : visited sample_parse sample_state.
Proof.
  exact (visited_mount sample_parse (Responded true 200 "activity")
           (Responded true 200 "attendance")).
Qed.

Lemma sample_offers : offers sample_page (SetActiveTab "guards").
Proof.
  exists (OnClick (SetActiveTab "guards")). split; [|done].
  vm_compute. do 2 right. left.
Qed.

Lemma sample_labelled : Forall labelled sample_activity.
Proof.
  unfold sample_activity.
  repeat (apply Forall_cons_2; [intros _; split; vm_compute; by eexists|]).
  apply Forall_nil_2.
Qed.

Lemma render_offers_witness :
  offers sample_page (SetActiveTab "guards") ↔
  screen sample_state = DashboardScreen ∧ allowed (SetActiveTab "guards").
Proof. apply (render_offers sample_state), sample_page_ok. Defined.

Lemma visited_reachable_witness :
  let e := event_of (SetActiveTab "guards") (Responded true 200 "activity")
                    (Responded true 200 "attendance") in
  reachable sample_parse sample_state ∧ enabled sample_state e = true ∧
  reachable sample_parse (step sample_parse sample_state e).
Proof.
  apply (visited_reachable sample_parse sample_state sample_page);
    [apply sample_visited|apply sample_page_ok|apply sample_offers].
Defined.

Lemma visited_one_panel_witness :
  activeTab sample_state ∈ Tab.id <$> TABS ∧
  ∃ panel, select (by_class "space-y-6") sample_page = [panel].
Proof.
  apply (visited_one_panel sample_parse sample_state);
    [apply sample_visited|apply sample_page_ok|reflexivity].
Defined.

Lemma guards_table_witness :
  ∃ header,
    select (by_tag "tr") sample_guards_page =
    header :: (guard_row <$> filter (λ g, guard_matches "" g = Ok true)
                                    (guardStats sample_guards_tab)).
Proof.
  apply (guards_table sample_guards_tab); [vm_compute|..]; reflexivity.
Defined.

Lemma locations_table_witness :
  ∃ header,
    select (by_tag "tr") sample_locations_page =
    header :: (location_row <$> shown_locations sample_locations_tab).
Proof.
  apply (locations_table sample_locations_tab); [vm_compute|..]; reflexivity.
Defined.

Lemma render_unnamed_witness : ∃ e, render unnamed_state = Throw e.
Proof.
  apply (render_unnamed unnamed_state unnamed_stat);
    [reflexivity|vm_compute; left|reflexivity].
Defined.

Lemma labelled_rows_render_witness : ∃ t, render sample_state = Ok t.
Proof.
  apply (labelled_rows_render sample_activity sample_attendance sample_loaded);
    [apply sample_labelled|apply sample_loaded_ok|reflexivity].
Defined.

Lemma coverage_cell_witness :
  texts (location_row ("Gate A", sample_post)) !! 1 =
    Some (Number (Num.of_nat (rounded_percent (Coverage.covered sample_post)
                                              (Coverage.total sample_post)))) ∧
  class_names (location_row ("Gate A", sample_post)) !! 1 =
    Some (Tpl [Str "px-6 py-4 whitespace-nowrap text-sm ";
               Str (coverage_colour (Coverage.covered sample_post)
                                    (Coverage.total sample_post))]).
Proof.
  apply (coverage_cell sample_attendance sample_summary);
    [unfold array_size; simpl; lia|vm_compute; reflexivity|vm_compute; left].
Defined.

Lemma on_time_rate_shown_witness :
  ∃ x, texts (overview_panel sample_state) !! 2 = Some (Number x) ∧
       (sample_attendance = [] → x = Num.NaN) ∧
       (sample_attendance ≠ [] → ∃ k, k ≤ 100 ∧ x = Num.of_nat k).
Proof.
  apply (on_time_rate_shown sample_attendance sample_summary);
    [vm_compute; reflexivity|reflexivity|unfold array_size; simpl; lia].
Defined.

Lemma visited_well_keyed_witness : well_keyed sample_page.
Proof.
  apply (visited_well_keyed sample_parse sample_state);
    [apply sample_visited|apply sample_page_ok].
Defined.

End AlertView.
