(* ===== verification/ComplianceView.v ===== *)
(** * ComplianceView: what the compliance dashboard puts on the page

    The second half of the component [App] of [src/unnamed/part_001]: the
    two early returns for the loading and the error screen, the component
    [KPICard] and the JSX of the dashboard with its four tab panels.
    Every element of the source is an [El] of [VDom] with the attributes
    and children in source order; an expression in braces is the model's
    translation of that expression on the state of [ComplianceApp].  The
    callbacks of the [map] calls are definitions of their own
    ([tab_button], [guard_row], [location_row], [compliance_row],
    [location_option]), as are the four panels.

    [render] is the function [App] from its first [if] on.  The compliance
    panel reads [complianceMetrics.byGuard], which the object of the
    [useState] call does not have: [render] returns a tree or that
    exception.  The theorems relate what is on the page to the aggregates
    of [Guards], [Locations] and [Compliance], and the controls of the page
    to the events of [ComplianceApp], and show that the arrays of a page
    have well-chosen keys ([compliance_visited_well_keyed]). *)

From stdpp Require Import base list strings sorting.
From S2P Require Import Prelude JSNumber Binary64 JSString JSObject JSArray JSDate.
From S2P Require Import Upsert Effects Async Row Hourly Guards Locations Compliance.
From S2P Require Import ComplianceApp VDom.

#[local] Set Warnings "-clear-no-such-hyp,-unused-intro-pattern".

Module ComplianceView.
Import ComplianceApp ComplianceApp.State.

(** ** Constants and rows of the charts *)

Module Tab.
Record t : Type := mk { id : string; label : string; icon : string }.
End Tab.

Definition TABS : list Tab.t :=
  [ Tab.mk "overview" "Overview" "Activity";
    Tab.mk "guards" "Personnel Analytics" "Shield";
    Tab.mk "locations" "Coverage Analysis" "MapPin";
    Tab.mk "compliance" "Compliance" "Clipboard" ].

(** What the charts receive in [data]: an element of [activityData], of
    [complianceMetrics.byLocation], of [guardStats] or of
    [attendanceData.locationCoverage]. *)
Inductive datum : Type :=
| Hour (bucket : Bucket.t)
| LocScore (entry : LocCompliance.t)
| GuardBar (guard : GuardProfile.t)
| LocBar (location : LocProfile.t).

(** ** The cell [complianceMetrics] *)

(** The three properties the JSX reads.  The object of the [useState] call
    is [{overall: 0, byLocation: [], byShift: []}]. *)
Definition overall (m : metrics) : number :=
  match m with
  | NotComputed => Num.zero
  | Computed c => ComplianceResult.overall c
  end.

Definition byLocation (m : metrics) : list LocCompliance.t :=
  match m with
  | NotComputed => []
  | Computed c => ComplianceResult.byLocation c
  end.

Definition byGuard (m : metrics) : option (list GuardCompliance.t) :=
  match m with
  | NotComputed => None
  | Computed c => Some (ComplianceResult.byGuard c)
  end.

(** A compliance flag [1] or [0] used as a condition. *)
Definition flag (c : nat) : bool := negb (c =? 0).

(** [Math.round((attendanceData.onTime / attendanceData.totalShifts) * 100)] *)
Definition on_time_rate (a : Summary.t) : number :=
  Num.round (Num.mul (Num.div (Num.of_nat (Summary.onTime a))
                              (Num.of_nat (Summary.totalShifts a)))
                     (Num.of_nat 100)).

(** ** The two early returns *)

Definition loading_screen : node datum :=
  El "div" [("className", AStr "flex items-center justify-center h-screen")]
    [ El "div" [("className", AStr "text-xl font-semibold")]
        [ Txt "Loading dashboard data..." ] ].

Definition error_screen (s : State.t) : node datum :=
  El "div"
    [ ("className", AStr "flex items-center justify-center h-screen text-red-600") ]
    [ El "div" []
        [ Txt "Error loading dashboard: ";
          Hole (Lit (opt_str (error s))) ] ].

(** ** [KPICard] *)

(** The properties are [title], [value], [subValue], [icon], [trend] and
    [color]; [trend] and [color] may be absent, and [color] is then
    ['blue']. *)
Definition KPICard (title : string) (value subValue : value) (icon : string)
    (trend : option number) (color : option string) : node datum :=
  El "div" [("className", AStr "bg-white p-4 rounded-lg shadow")]
    [ El "div" [("className", AStr "flex items-center justify-between mb-2")]
        [ El "div" []
            [ El "div" [("className", AStr "text-2xl font-bold")]
                [ Hole value ];
              El "div" [("className", AStr "text-sm text-gray-500")]
                [ Hole (Lit (Str title)) ] ];
          El icon
            [ ("className",
               AVal (Tpl [Str "h-6 w-6 text-";
                          Str (default "blue" color);
                          Str "-500"])) ] [] ];
      and_then subValue
        (El "div" [("className", AStr "text-sm text-gray-600 mt-2 flex items-center")]
           [ Hole subValue;
             and_then (Lit (opt_number trend))
               (El "span"
                  [ ("className",
                     AVal (Tpl [Str "ml-2 ";
                                Str (if Num.geb (default Num.NaN trend) Num.zero
                                     then "text-green-500"
                                     else "text-red-500")])) ]
                  [ Hole (Lit (Str (if Num.geb (default Num.NaN trend) Num.zero then "↑" else "↓")));
                    Txt " ";
                    Hole (Lit (Number (Num.abs (default Num.NaN trend))));
                    Txt "%" ]) ]) ].

(** ** The dashboard *)

(** The callback of [TABS.map]. *)
Definition tab_button (s : State.t) (tab : Tab.t) : node datum :=
  El "button"
    [ ("key", AVal (Lit (Str (Tab.id tab))));
      ("className",
       AVal (Tpl [Str "flex items-center px-4 py-2 rounded-lg transition-colors ";
                  Str (if String.eqb (activeTab s) (Tab.id tab)
                       then "bg-blue-500 text-white shadow-sm"
                       else "bg-gray-50 text-gray-700 hover:bg-gray-100")]));
      ("onClick", AOnClick (SetActiveTab (Tab.id tab))) ]
    [ El (Tab.icon tab) [("className", AStr "w-4 h-4 mr-2")] [];
      Hole (Lit (Str (Tab.label tab))) ].

Definition overview_panel (s : State.t) : node datum :=
  El "div" [("className", AStr "space-y-6")]
    [ El "div" [("className", AStr "grid grid-cols-1 md:grid-cols-4 gap-4")]
        [ KPICard "Overall Compliance"
            (Tpl [Number (overall (complianceMetrics s)); Str "%"])
            (Lit (Str "Based on all metrics"))
            "CheckCircle" None (Some "green");
          KPICard "On-Time Rate"
            (Tpl [Number (on_time_rate (attendanceData s)); Str "%"])
            (Tpl [Count (Summary.late (attendanceData s));
                  Str " late arrivals"])
            "Clock" None (Some "blue");
          KPICard "Active Guards"
            (Lit (Count (length (guardStats s))))
            (Tpl [Count (count_if (λ g, Num.geb (GuardMetrics.performanceScore (GuardProfile.metrics g)) (Num.of_nat 80))
                                  (guardStats s));
                  Str " high performers"])
            "Users" None (Some "yellow");
          KPICard "Location Coverage"
            (Tpl [Count (length (Summary.locationCoverage (attendanceData s)))])
            (Tpl [Count (count_if (λ l, Num.geb (LocMetrics.coverageRate (LocProfile.metrics l)) (Num.of_nat 90))
                                  (Summary.locationCoverage (attendanceData s)));
                  Str " fully covered"])
            "MapPin" None (Some "indigo") ];
      El "div" [("className", AStr "bg-white p-4 rounded-lg shadow")]
        [ El "h2" [("className", AStr "text-xl font-bold mb-4")]
            [ Txt "Activity Distribution" ];
          El "div" [("className", AStr "h-80")]
            [ El "ResponsiveContainer" [("width", AStr "100%"); ("height", AStr "100%")]
                [ El "LineChart" [("data", AData (Hour <$> activityData s))]
                    [ El "CartesianGrid" [("strokeDasharray", AStr "3 3")] [];
                      El "XAxis"
                        [ ("dataKey", AStr "hour");
                          ("tickFormatter", AFormat (λ hour, Tpl [hour; Str ":00"])) ] [];
                      El "YAxis" [] [];
                      El "Tooltip" [] [];
                      El "Legend" [] [];
                      El "Line"
                        [ ("type", AStr "monotone");
                          ("dataKey", AStr "total");
                          ("stroke", AStr "#3B82F6");
                          ("name", AStr "Total Activities");
                          ("strokeWidth", AVal (Lit (Count 2))) ] [];
                      El "Line"
                        [ ("type", AStr "monotone");
                          ("dataKey", AStr "onTime");
                          ("stroke", AStr "#10B981");
                          ("name", AStr "On-Time Activities");
                          ("strokeWidth", AVal (Lit (Count 2))) ] [];
                      El "Line"
                        [ ("type", AStr "monotone");
                          ("dataKey", AStr "delayed");
                          ("stroke", AStr "#EF4444");
                          ("name", AStr "Delayed Activities");
                          ("strokeWidth", AVal (Lit (Count 2))) ] [] ] ] ] ];
      El "div" [("className", AStr "grid grid-cols-1 md:grid-cols-2 gap-6")]
        [ El "div" [("className", AStr "bg-white p-4 rounded-lg shadow")]
            [ El "h2" [("className", AStr "text-xl font-bold mb-4")]
                [ Txt "Location Compliance" ];
              El "div" [("className", AStr "h-80")]
                [ El "ResponsiveContainer"
                    [ ("width", AStr "100%");
                      ("height", AStr "100%") ]
                    [ El "BarChart"
                        [ ("data", AData (LocScore <$> byLocation (complianceMetrics s))) ]
                        [ El "CartesianGrid" [("strokeDasharray", AStr "3 3")] [];
                          El "XAxis" [("dataKey", AStr "location")] [];
                          El "YAxis" [] [];
                          El "Tooltip" [] [];
                          El "Legend" [] [];
                          El "Bar"
                            [ ("dataKey", AStr "complianceScore");
                              ("fill", AStr "#3B82F6");
                              ("name", AStr "Compliance Score") ]
                            [ Arr (imap (λ index entry,
                                 El "Cell"
                                   [ ("key", AVal (Tpl [Str "cell-"; Count index]));
                                     ("fill",
                                      AVal (Lit (Str (if Num.geb (LocCompliance.complianceScore entry) (Num.of_nat 90) then "#10B981"
                                                      else if Num.geb (LocCompliance.complianceScore entry) (Num.of_nat 70)
                                                      then "#F59E0B"
                                                      else "#EF4444")))) ] []) (byLocation (complianceMetrics s))) ] ] ] ] ];
          El "div" [("className", AStr "bg-white p-4 rounded-lg shadow")]
            [ El "h2" [("className", AStr "text-xl font-bold mb-4")]
                [ Txt "Guard Performance Distribution" ];
              El "div" [("className", AStr "h-80")]
                [ El "ResponsiveContainer"
                    [ ("width", AStr "100%");
                      ("height", AStr "100%") ]
                    [ El "BarChart"
                        [ ("data", AData (GuardBar <$> Arr.slice0 10 (guardStats s))) ]
                        [ El "CartesianGrid" [("strokeDasharray", AStr "3 3")] [];
                          El "XAxis" [("dataKey", AStr "name")] [];
                          El "YAxis" [] [];
                          El "Tooltip" [] [];
                          El "Legend" [] [];
                          El "Bar"
                            [ ("dataKey", AStr "metrics.performanceScore");
                              ("fill", AStr "#3B82F6");
                              ("name", AStr "Performance Score") ]
                            [ Arr (imap (λ index entry,
                                 El "Cell"
                                   [ ("key", AVal (Tpl [Str "cell-"; Count index]));
                                     ("fill",
                                      AVal (Lit (Str (if Num.geb (GuardMetrics.performanceScore (GuardProfile.metrics entry)) (Num.of_nat 80) then "#10B981"
                                                      else if Num.geb (GuardMetrics.performanceScore (GuardProfile.metrics entry)) (Num.of_nat 60)
                                                      then "#F59E0B"
                                                      else "#EF4444")))) ] []) (Arr.slice0 10 (guardStats s))) ] ] ] ] ] ] ].

(** The callback of the [map] that fills the location filter. *)
Definition location_option (loc : LocProfile.t) : node datum :=
  El "option"
    [ ("key", AVal (Lit (Str (LocProfile.location loc))));
      ("value", AVal (Lit (Str (LocProfile.location loc)))) ]
    [ Hole (Lit (Str (LocProfile.location loc))) ].

(** The guards the search term lets through. *)
Definition shown_guards (s : State.t) : list GuardProfile.t :=
  filter (λ guard, Str.includes (Str.toLowerCase (GuardProfile.name guard))
                                (Str.toLowerCase (searchTerm s)) = true)
         (guardStats s).

(** The callback of the [map] over the guards shown. *)
Definition guard_row (guard : GuardProfile.t) : node datum :=
  El "tr"
    [ ("key", AVal (Lit (Str (GuardProfile.id guard))));
      ("className", AStr "hover:bg-gray-50") ]
    [ El "td" [("className", AStr "px-6 py-4 whitespace-nowrap")]
        [ El "div" [("className", AStr "flex items-center")]
            [ El "div" [("className", AStr "flex-shrink-0 h-10 w-10")]
                [ El "div"
                    [ ("className", AStr "h-10 w-10 rounded-full bg-blue-100 flex items-center justify-center") ]
                    [ El "Users" [("className", AStr "h-6 w-6 text-blue-600")] [] ] ];
              El "div" [("className", AStr "ml-4")]
                [ El "div" [("className", AStr "text-sm font-medium text-gray-900")]
                    [ Hole (Lit (Str (GuardProfile.name guard))) ];
                  El "div" [("className", AStr "text-sm text-gray-500")]
                    [ Txt "ID: ";
                      Hole (Lit (Str (GuardProfile.id guard))) ] ] ] ];
      El "td" [("className", AStr "px-6 py-4 whitespace-nowrap")]
        [ El "div" [("className", AStr "flex items-center")]
            [ El "div" [("className", AStr "flex-1 h-2 bg-gray-200 rounded-full")]
                [ El "div"
                    [ ("className",
                       AVal (Tpl [Str "h-full rounded-full ";
                                  Str (if Num.geb (GuardMetrics.performanceScore (GuardProfile.metrics guard)) (Num.of_nat 80) then "bg-green-500"
                                       else if Num.geb (GuardMetrics.performanceScore (GuardProfile.metrics guard)) (Num.of_nat 60)
                                       then "bg-yellow-500"
                                       else "bg-red-500")]));
                      ("style",
                       AObj [("width", Tpl [Number (GuardMetrics.performanceScore (GuardProfile.metrics guard));
                            Str "%"])]) ] [] ];
              El "span" [("className", AStr "ml-2 text-sm font-medium text-gray-900")]
                [ Hole (Lit (Number (GuardMetrics.performanceScore (GuardProfile.metrics guard))));
                  Txt "%" ] ] ];
      El "td" [("className", AStr "px-6 py-4 whitespace-nowrap")]
        [ El "div" [("className", AStr "text-sm text-gray-900")]
            [ Hole (Lit (Count (Shifts.onTime (GuardProfile.shifts guard))));
              Txt "/";
              Hole (Lit (Count (Shifts.total (GuardProfile.shifts guard))));
              Txt " shifts on time" ];
          El "div" [("className", AStr "text-sm text-gray-500")]
            [ Hole (Lit (Number (GuardMetrics.attendanceRate (GuardProfile.metrics guard))));
              Txt "% attendance rate" ] ];
      El "td" [("className", AStr "px-6 py-4 whitespace-nowrap")]
        [ El "div" [("className", AStr "text-sm text-gray-900")]
            [ Hole (Lit (Count (Activities.onTime (GuardProfile.activities guard))));
              Txt "/";
              Hole (Lit (Count (Activities.total (GuardProfile.activities guard))));
              Txt " compliant activities" ];
          El "div" [("className", AStr "text-sm text-gray-500")]
            [ Hole (Lit (Number (GuardMetrics.activityComplianceRate (GuardProfile.metrics guard))));
              Txt "% compliance rate" ] ];
      El "td" [("className", AStr "px-6 py-4 whitespace-nowrap")]
        [ El "div" [("className", AStr "text-sm text-gray-900")]
            [ Hole (Lit (Count (length (GuardProfile.coverage guard))));
              Txt " locations covered" ];
          El "div" [("className", AStr "text-sm text-gray-500")]
            [ Hole (Lit (Str (Arr.join ", " (GuardProfile.coverage guard)))) ] ] ].

Definition guards_panel (s : State.t) : node datum :=
  El "div" [("className", AStr "space-y-6")]
    [ El "div"
        [ ("className", AStr "flex flex-col md:flex-row justify-between items-center gap-4") ]
        [ El "div" [("className", AStr "relative w-full md:w-96")]
            [ El "input"
                [ ("type", AStr "text");
                  ("placeholder", AStr "Search guards...");
                  ("value", AVal (Lit (Str (searchTerm s))));
                  ("onChange", AOnChange SetSearchTerm);
                  ("className", AStr "w-full px-4 py-2 border rounded-lg pl-10") ] [];
              El "Search"
                [ ("className", AStr "absolute left-3 top-2.5 h-5 w-5 text-gray-400") ] [] ];
          El "div" [("className", AStr "flex gap-4")]
            [ El "select" [("className", AStr "px-3 py-2 border rounded-md text-sm")]
                [ El "option" [("value", AStr "all")] [Txt "All Locations"];
                  Arr (location_option <$> Summary.locationCoverage (attendanceData s)) ];
              El "select" [("className", AStr "px-3 py-2 border rounded-md text-sm")]
                [ El "option" [("value", AStr "all")] [Txt "All Shifts"];
                  El "option" [("value", AStr "morning")] [Txt "Morning"];
                  El "option" [("value", AStr "afternoon")] [Txt "Afternoon"];
                  El "option" [("value", AStr "night")] [Txt "Night"] ] ] ];
      El "div" [("className", AStr "bg-white rounded-lg shadow overflow-hidden")]
        [ El "div" [("className", AStr "overflow-x-auto")]
            [ El "table" [("className", AStr "min-w-full divide-y divide-gray-200")]
                [ El "thead" [("className", AStr "bg-gray-50")]
                    [ El "tr" []
                        [ El "th"
                            [ ("className", AStr "px-6 py-3 text-left text-xs font-medium text-gray-500 uppercase tracking-wider") ]
                            [ Txt "Guard Details" ];
                          El "th"
                            [ ("className", AStr "px-6 py-3 text-left text-xs font-medium text-gray-500 uppercase tracking-wider") ]
                            [ Txt "Performance" ];
                          El "th"
                            [ ("className", AStr "px-6 py-3 text-left text-xs font-medium text-gray-500 uppercase tracking-wider") ]
                            [ Txt "Attendance" ];
                          El "th"
                            [ ("className", AStr "px-6 py-3 text-left text-xs font-medium text-gray-500 uppercase tracking-wider") ]
                            [ Txt "Activity Compliance" ];
                          El "th"
                            [ ("className", AStr "px-6 py-3 text-left text-xs font-medium text-gray-500 uppercase tracking-wider") ]
                            [ Txt "Coverage" ] ] ];
                  El "tbody" [("className", AStr "bg-white divide-y divide-gray-200")]
                    [ Arr (guard_row <$> shown_guards s) ] ] ] ] ].

(** The callback of [attendanceData.locationCoverage.map]. *)
Definition location_row (location : LocProfile.t) : node datum :=
  El "tr"
    [ ("key", AVal (Lit (Str (LocProfile.location location))));
      ("className", AStr "hover:bg-gray-50") ]
    [ El "td" [("className", AStr "px-6 py-4 whitespace-nowrap")]
        [ El "div" [("className", AStr "flex items-center")]
            [ El "MapPin" [("className", AStr "h-5 w-5 text-gray-400 mr-2")] [];
              El "div" [("className", AStr "text-sm font-medium text-gray-900")]
                [ Hole (Lit (Str (LocProfile.location location))) ] ] ];
      El "td" [("className", AStr "px-6 py-4 whitespace-nowrap")]
        [ El "div" [("className", AStr "text-sm text-gray-900")]
            [ Hole (Lit (Count (LocShifts.covered (LocProfile.shifts location))));
              Txt "/";
              Hole (Lit (Count (LocShifts.total (LocProfile.shifts location))));
              Txt " shifts covered" ];
          El "div" [("className", AStr "text-sm text-gray-500")]
            [ Hole (Lit (Number (LocMetrics.coverageRate (LocProfile.metrics location))));
              Txt "% coverage rate" ] ];
      El "td" [("className", AStr "px-6 py-4 whitespace-nowrap")]
        [ El "div" [("className", AStr "text-sm text-gray-900")]
            [ Hole (Lit (opt_count (LocMetrics.guardCount (LocProfile.metrics location))));
              Txt " guards assigned" ];
          El "div" [("className", AStr "text-sm text-gray-500")]
            [ Hole (Lit (Number (LocMetrics.averageShiftHours (LocProfile.metrics location))));
              Txt " avg. hours/shift" ] ];
      El "td" [("className", AStr "px-6 py-4 whitespace-nowrap")]
        [ El "div" [("className", AStr "flex items-center")]
            [ El "div" [("className", AStr "flex-1 h-2 bg-gray-200 rounded-full")]
                [ El "div"
                    [ ("className",
                       AVal (Tpl [Str "h-full rounded-full ";
                                  Str (if Num.geb (LocMetrics.coverageRate (LocProfile.metrics location)) (Num.of_nat 90) then "bg-green-500"
                                       else if Num.geb (LocMetrics.coverageRate (LocProfile.metrics location)) (Num.of_nat 70)
                                       then "bg-yellow-500"
                                       else "bg-red-500")]));
                      ("style",
                       AObj [("width", Tpl [Number (LocMetrics.coverageRate (LocProfile.metrics location));
                            Str "%"])]) ] [] ];
              El "span" [("className", AStr "ml-2 text-sm font-medium text-gray-900")]
                [ Hole (Lit (Number (LocMetrics.coverageRate (LocProfile.metrics location))));
                  Txt "%" ] ] ];
      El "td" [("className", AStr "px-6 py-4 whitespace-nowrap")]
        [ El "span"
            [ ("className",
               AVal (Tpl [Str "px-2 inline-flex text-xs leading-5 font-semibold rounded-full ";
                          Str (if Num.geb (LocMetrics.coverageRate (LocProfile.metrics location)) (Num.of_nat 90) then "bg-green-100 text-green-800"
                               else if Num.geb (LocMetrics.coverageRate (LocProfile.metrics location)) (Num.of_nat 70)
                               then "bg-yellow-100 text-yellow-800"
                               else "bg-red-100 text-red-800")])) ]
            [ Hole (Lit (Str (if Num.geb (LocMetrics.coverageRate (LocProfile.metrics location)) (Num.of_nat 90) then "Optimal"
                              else if Num.geb (LocMetrics.coverageRate (LocProfile.metrics location)) (Num.of_nat 70)
                              then "Adequate"
                              else "Needs Attention"))) ] ] ].

Definition locations_panel (s : State.t) : node datum :=
  El "div" [("className", AStr "space-y-6")]
    [ El "div" [("className", AStr "grid grid-cols-1 md:grid-cols-2 gap-6 mb-6")]
        [ El "div" [("className", AStr "bg-white p-4 rounded-lg shadow")]
            [ El "h2" [("className", AStr "text-xl font-bold mb-4")]
                [ Txt "Coverage Performance" ];
              El "div" [("className", AStr "h-80")]
                [ El "ResponsiveContainer"
                    [ ("width", AStr "100%");
                      ("height", AStr "100%") ]
                    [ El "BarChart"
                        [ ("data", AData (LocBar <$> Summary.locationCoverage (attendanceData s))) ]
                        [ El "CartesianGrid" [("strokeDasharray", AStr "3 3")] [];
                          El "XAxis" [("dataKey", AStr "location")] [];
                          El "YAxis" [] [];
                          El "Tooltip" [] [];
                          El "Legend" [] [];
                          El "Bar"
                            [ ("dataKey", AStr "metrics.coverageRate");
                              ("fill", AStr "#3B82F6");
                              ("name", AStr "Coverage Rate") ] [];
                          El "Bar"
                            [ ("dataKey", AStr "metrics.punctualityRate");
                              ("fill", AStr "#10B981");
                              ("name", AStr "Punctuality Rate") ] [] ] ] ] ];
          El "div" [("className", AStr "bg-white p-4 rounded-lg shadow")]
            [ El "h2" [("className", AStr "text-xl font-bold mb-4")]
                [ Txt "Staffing Distribution" ];
              El "div" [("className", AStr "h-80")]
                [ El "ResponsiveContainer"
                    [ ("width", AStr "100%");
                      ("height", AStr "100%") ]
                    [ El "BarChart"
                        [ ("data", AData (LocBar <$> Summary.locationCoverage (attendanceData s))) ]
                        [ El "CartesianGrid" [("strokeDasharray", AStr "3 3")] [];
                          El "XAxis" [("dataKey", AStr "location")] [];
                          El "YAxis" [] [];
                          El "Tooltip" [] [];
                          El "Legend" [] [];
                          El "Bar"
                            [ ("dataKey", AStr "metrics.guardCount");
                              ("fill", AStr "#3B82F6");
                              ("name", AStr "Assigned Guards") ] [];
                          El "Bar"
                            [ ("dataKey", AStr "metrics.averageShiftHours");
                              ("fill", AStr "#10B981");
                              ("name", AStr "Avg. Shift Hours") ] [] ] ] ] ] ];
      El "div" [("className", AStr "bg-white rounded-lg shadow overflow-hidden")]
        [ El "div" [("className", AStr "overflow-x-auto")]
            [ El "table" [("className", AStr "min-w-full divide-y divide-gray-200")]
                [ El "thead" [("className", AStr "bg-gray-50")]
                    [ El "tr" []
                        [ El "th"
                            [ ("className", AStr "px-6 py-3 text-left text-xs font-medium text-gray-500 uppercase tracking-wider") ]
                            [ Txt "Location" ];
                          El "th"
                            [ ("className", AStr "px-6 py-3 text-left text-xs font-medium text-gray-500 uppercase tracking-wider") ]
                            [ Txt "Coverage" ];
                          El "th"
                            [ ("className", AStr "px-6 py-3 text-left text-xs font-medium text-gray-500 uppercase tracking-wider") ]
                            [ Txt "Staffing" ];
                          El "th"
                            [ ("className", AStr "px-6 py-3 text-left text-xs font-medium text-gray-500 uppercase tracking-wider") ]
                            [ Txt "Performance" ];
                          El "th"
                            [ ("className", AStr "px-6 py-3 text-left text-xs font-medium text-gray-500 uppercase tracking-wider") ]
                            [ Txt "Status" ] ] ];
                  El "tbody" [("className", AStr "bg-white divide-y divide-gray-200")]
                    [ Arr (location_row <$> Summary.locationCoverage (attendanceData s)) ] ] ] ] ].

(** The callback of [complianceMetrics.byLocation.map]. *)
Definition compliance_row (location : LocCompliance.t) : node datum :=
  El "tr"
    [ ("key", AVal (Lit (Str (LocCompliance.location location))));
      ("className", AStr "hover:bg-gray-50") ]
    [ El "td" [("className", AStr "px-6 py-4 whitespace-nowrap")]
        [ El "div" [("className", AStr "flex items-center")]
            [ El "MapPin" [("className", AStr "h-5 w-5 text-gray-400 mr-2")] [];
              El "div" [("className", AStr "text-sm font-medium text-gray-900")]
                [ Hole (Lit (Str (LocCompliance.location location))) ] ] ];
      El "td" [("className", AStr "px-6 py-4 whitespace-nowrap")]
        [ El "span"
            [ ("className",
               AVal (Tpl [Str "px-2 inline-flex text-xs leading-5 font-semibold rounded-full ";
                          Str (if flag (LocCompliance.coverageCompliance location)
                               then "bg-green-100 text-green-800"
                               else "bg-red-100 text-red-800")])) ]
            [ Hole (Lit (Str (if flag (LocCompliance.coverageCompliance location)
                              then "Compliant"
                              else "Non-Compliant"))) ] ];
      El "td" [("className", AStr "px-6 py-4 whitespace-nowrap")]
        [ El "span"
            [ ("className",
               AVal (Tpl [Str "px-2 inline-flex text-xs leading-5 font-semibold rounded-full ";
                          Str (if flag (LocCompliance.punctualityCompliance location)
                               then "bg-green-100 text-green-800"
                               else "bg-red-100 text-red-800")])) ]
            [ Hole (Lit (Str (if flag (LocCompliance.punctualityCompliance location)
                              then "Compliant"
                              else "Non-Compliant"))) ] ];
      El "td" [("className", AStr "px-6 py-4 whitespace-nowrap")]
        [ El "span"
            [ ("className",
               AVal (Tpl [Str "px-2 inline-flex text-xs leading-5 font-semibold rounded-full ";
                          Str (if flag (LocCompliance.staffingCompliance location)
                               then "bg-green-100 text-green-800"
                               else "bg-red-100 text-red-800")])) ]
            [ Hole (Lit (Str (if flag (LocCompliance.staffingCompliance location)
                              then "Compliant"
                              else "Non-Compliant"))) ] ];
      El "td" [("className", AStr "px-6 py-4 whitespace-nowrap")]
        [ El "div" [("className", AStr "flex items-center")]
            [ El "div" [("className", AStr "flex-1 h-2 bg-gray-200 rounded-full")]
                [ El "div"
                    [ ("className",
                       AVal (Tpl [Str "h-full rounded-full ";
                                  Str (if Num.geb (LocCompliance.complianceScore location) (Num.of_nat 90) then "bg-green-500"
                                       else if Num.geb (LocCompliance.complianceScore location) (Num.of_nat 70)
                                       then "bg-yellow-500"
                                       else "bg-red-500")]));
                      ("style",
                       AObj [("width", Tpl [Number (LocCompliance.complianceScore location);
                            Str "%"])]) ] [] ];
              El "span" [("className", AStr "ml-2 text-sm font-medium text-gray-900")]
                [ Hole (Lit (Number (LocCompliance.complianceScore location)));
                  Txt "%" ] ] ] ].

(** The panel, given the array [complianceMetrics.byGuard]. *)
Definition compliance_panel_of (s : State.t) (byGuard : list GuardCompliance.t)
  : node datum :=
  El "div" [("className", AStr "space-y-6")]
    [ El "div" [("className", AStr "grid grid-cols-1 md:grid-cols-3 gap-4")]
        [ El "div" [("className", AStr "bg-white p-4 rounded-lg shadow")]
            [ El "div" [("className", AStr "flex items-center justify-between mb-2")]
                [ El "div" [("className", AStr "text-2xl font-bold")]
                    [ Hole (Lit (Number (overall (complianceMetrics s))));
                      Txt "%" ];
                  El "CheckCircle" [("className", AStr "h-6 w-6 text-green-500")] [] ];
              El "div" [("className", AStr "text-sm text-gray-500")]
                [ Txt "Overall Compliance Rate" ] ];
          El "div" [("className", AStr "bg-white p-4 rounded-lg shadow")]
            [ El "div" [("className", AStr "flex items-center justify-between mb-2")]
                [ El "div" [("className", AStr "text-2xl font-bold")]
                    [ Hole (Lit (Count (count_if (λ l, Num.geb (LocCompliance.complianceScore l) (Num.of_nat 90))
                                                 (byLocation (complianceMetrics s))))) ];
                  El "MapPin" [("className", AStr "h-6 w-6 text-blue-500")] [] ];
              El "div" [("className", AStr "text-sm text-gray-500")]
                [ Txt "Compliant Locations" ] ];
          El "div" [("className", AStr "bg-white p-4 rounded-lg shadow")]
            [ El "div" [("className", AStr "flex items-center justify-between mb-2")]
                [ El "div" [("className", AStr "text-2xl font-bold")]
                    [ Hole (Lit (Count (count_if (λ g, Num.geb (GuardCompliance.complianceScore g) (Num.of_nat 90)) byGuard))) ];
                  El "Users" [("className", AStr "h-6 w-6 text-yellow-500")] [] ];
              El "div" [("className", AStr "text-sm text-gray-500")]
                [ Txt "Compliant Guards" ] ] ];
      El "div" [("className", AStr "bg-white p-4 rounded-lg shadow")]
        [ El "h2" [("className", AStr "text-xl font-bold mb-4")]
            [ Txt "Location Compliance Analysis" ];
          El "div" [("className", AStr "overflow-x-auto")]
            [ El "table" [("className", AStr "min-w-full divide-y divide-gray-200")]
                [ El "thead" [("className", AStr "bg-gray-50")]
                    [ El "tr" []
                        [ El "th"
                            [ ("className", AStr "px-6 py-3 text-left text-xs font-medium text-gray-500 uppercase tracking-wider") ]
                            [ Txt "Location" ];
                          El "th"
                            [ ("className", AStr "px-6 py-3 text-left text-xs font-medium text-gray-500 uppercase tracking-wider") ]
                            [ Txt "Coverage" ];
                          El "th"
                            [ ("className", AStr "px-6 py-3 text-left text-xs font-medium text-gray-500 uppercase tracking-wider") ]
                            [ Txt "Punctuality" ];
                          El "th"
                            [ ("className", AStr "px-6 py-3 text-left text-xs font-medium text-gray-500 uppercase tracking-wider") ]
                            [ Txt "Staffing" ];
                          El "th"
                            [ ("className", AStr "px-6 py-3 text-left text-xs font-medium text-gray-500 uppercase tracking-wider") ]
                            [ Txt "Overall Score" ] ] ];
                  El "tbody" [("className", AStr "bg-white divide-y divide-gray-200")]
                    [ Arr (compliance_row <$> byLocation (complianceMetrics s)) ] ] ] ];
      El "div" [("className", AStr "bg-white p-4 rounded-lg shadow")]
        [ El "h2" [("className", AStr "text-xl font-bold mb-4")]
            [ Txt "Compliance Distribution" ];
          El "div" [("className", AStr "h-80")]
            [ El "ResponsiveContainer" [("width", AStr "100%"); ("height", AStr "100%")]
                [ El "BarChart"
                    [ ("data", AData (LocScore <$> byLocation (complianceMetrics s))) ]
                    [ El "CartesianGrid" [("strokeDasharray", AStr "3 3")] [];
                      El "XAxis" [("dataKey", AStr "location")] [];
                      El "YAxis" [] [];
                      El "Tooltip" [] [];
                      El "Legend" [] [];
                      El "Bar"
                        [ ("dataKey", AStr "complianceScore");
                          ("fill", AStr "#3B82F6");
                          ("name", AStr "Compliance Score") ]
                        [ Arr (imap (λ index entry,
                             El "Cell"
                               [ ("key", AVal (Tpl [Str "cell-"; Count index]));
                                 ("fill",
                                  AVal (Lit (Str (if Num.geb (LocCompliance.complianceScore entry) (Num.of_nat 90) then "#10B981"
                                                  else if Num.geb (LocCompliance.complianceScore entry) (Num.of_nat 70)
                                                  then "#F59E0B"
                                                  else "#EF4444")))) ] []) (byLocation (complianceMetrics s))) ] ] ] ] ] ].

(** The panel: the call [complianceMetrics.byGuard.filter] throws when the
    property is [undefined]. *)
Definition compliance_panel (s : State.t) : res (node datum) :=
  match byGuard (complianceMetrics s) with
  | Some l => Ok (compliance_panel_of s l)
  | None => Throw (TypeError "filter")
  end.

(** The element [App] returns, given its last child. *)
Definition dashboard (s : State.t) (compliance : node datum) : node datum :=
  El "div" [("className", AStr "min-h-screen bg-gray-100")]
    [ El "nav" [("className", AStr "bg-white shadow-lg")]
        [ El "div" [("className", AStr "container mx-auto px-4 py-3")]
            [ El "div" [("className", AStr "flex items-center justify-between")]
                [ El "div" [("className", AStr "flex items-center")]
                    [ El "Shield" [("className", AStr "h-8 w-8 text-blue-600")] [];
                      El "span" [("className", AStr "ml-2 text-xl font-bold")]
                        [ Txt "Security Guard MIS" ] ];
                  El "div" [("className", AStr "flex items-center space-x-4")]
                    [ El "Calendar" [("className", AStr "h-5 w-5 text-gray-500")] [];
                      El "input"
                        [ ("type", AStr "date");
                          ("value", AVal (Lit (Str (selectedDate s))));
                          ("onChange", AOnChange SetSelectedDate);
                          ("className", AStr "px-3 py-2 border rounded-md text-sm") ] [] ] ] ] ];
      El "div" [("className", AStr "container mx-auto p-4")]
        [ El "div"
            [ ("className", AStr "flex space-x-4 mb-6 bg-white p-2 rounded-lg shadow") ]
            [ Arr (tab_button s <$> TABS) ];
          VDom.guarded (String.eqb (activeTab s) "overview") (overview_panel s);
          VDom.guarded (String.eqb (activeTab s) "guards") (guards_panel s);
          VDom.guarded (String.eqb (activeTab s) "locations") (locations_panel s);
          compliance ] ].

(** [App] from its first [if] on: the screen for the state [s], or the
    exception of the compliance panel. *)
Definition render (s : State.t) : res (node datum) :=
  if loading s then Ok loading_screen
  else if Str.truthy (error s) then Ok (error_screen s)
  else
    compliance ← guarded_res (String.eqb (activeTab s) "compliance")
                             (compliance_panel s);
    Ok (dashboard s compliance).

(** ** The page and the events *)

(** The call a control makes, as the event of [ComplianceApp]. *)
Definition event_of (a : action) (activity attendance : fetched) : event :=
  match a with
  | SetSelectedDate v => DateChanged v activity attendance
  | SetActiveTab id => TabClicked id
  | SetSearchTerm v => SearchTyped v
  end.

(** The handlers of the header and of the tab bar, in document order. *)
Definition controls : list handler :=
  [ OnChange SetSelectedDate;
    OnClick (SetActiveTab "overview");
    OnClick (SetActiveTab "guards");
    OnClick (SetActiveTab "locations");
    OnClick (SetActiveTab "compliance") ].

(** The calls the controls of the dashboard can make: the search box is
    on the guards tab only. *)
Definition allowed (s : State.t) (a : action) : Prop :=
  match a with
  | SetActiveTab id => id ∈ Tab.id <$> TABS
  | SetSelectedDate _ => True
  | SetSearchTerm _ => activeTab s = "guards"
  end.

Section Interaction.
Context `{DateLib} (parse : string → list row).

(** The states the user can bring the page to: after the mount, each next
    state comes from a control that is on the page. *)
Inductive visited : State.t → Prop :=
| visited_mount activity attendance :
    visited (step parse initial (Mounted activity attendance))
| visited_next s t a activity attendance :
    visited s → render s = Ok t → offers t a →
    visited (step parse s (event_of a activity attendance)).

End Interaction.

(** ** The parts of the page *)

Lemma no_handlers_KPICard title value subValue icon trend color :
  handlers (KPICard title value subValue icon trend color) = [].
Proof. unfold KPICard, and_then. by repeat case_match. Qed.

Lemma no_handlers_overview s : handlers (overview_panel s) = [].
Proof. unfold overview_panel. vdom. by rewrite !bind_imap_nil. Qed.

Lemma no_handlers_location_option loc : handlers (location_option loc) = [].
Proof. reflexivity. Qed.

Lemma no_handlers_guard_row g : handlers (guard_row g) = [].
Proof. reflexivity. Qed.

Lemma no_handlers_location_row l : handlers (location_row l) = [].
Proof. reflexivity. Qed.

Lemma no_handlers_compliance_row c : handlers (compliance_row c) = [].
Proof. reflexivity. Qed.

(** The search box is the one control of the guards panel: its two
    [select] elements have no handler. *)
Lemma search_of_guards_panel s :
  handlers (guards_panel s) = [OnChange SetSearchTerm].
Proof.
  unfold guards_panel. vdom.
  by rewrite !bind_nil
    by (intros; first [apply no_handlers_location_option|apply no_handlers_guard_row]).
Qed.

Lemma no_handlers_locations s : handlers (locations_panel s) = [].
Proof.
  unfold locations_panel. vdom.
  by rewrite !bind_nil by (intros; apply no_handlers_location_row).
Qed.

Lemma no_handlers_compliance s gs : handlers (compliance_panel_of s gs) = [].
Proof.
  unfold compliance_panel_of. vdom.
  rewrite !bind_nil by (intros; apply no_handlers_compliance_row).
  by rewrite !bind_imap_nil.
Qed.

Lemma no_handlers_compliance_child s c :
  guarded_res (String.eqb (activeTab s) "compliance") (compliance_panel s) = Ok c →
  handlers c = [].
Proof.
  unfold guarded_res, compliance_panel. case_match; [|by intros [= <-]].
  destruct (byGuard _); [|done]. intros [= <-]. apply no_handlers_compliance.
Qed.

(** The data of the three charts of the overview. *)
Lemma datasets_overview s :
  datasets (overview_panel s) =
  [ Hour <$> activityData s;
    LocScore <$> ComplianceView.byLocation (complianceMetrics s);
    GuardBar <$> Arr.slice0 10 (guardStats s) ].
Proof. unfold overview_panel. vdom. by rewrite !bind_imap_nil. Qed.

(** The keys of the arrays of each panel. *)
Lemma compliance_keys_overview s : well_keyed (overview_panel s).
Proof.
  unfold well_keyed, overview_panel. vdom. rewrite !bind_imap_nil by done.
  rewrite !app_nil_r.
  repeat apply Forall_cons_2; [..|apply Forall_nil_2].
  all: apply (keys_ok_cells _ cell_key); [done|apply _].
Qed.

Lemma compliance_keys_guards s :
  NoDup (LocProfile.location <$> Summary.locationCoverage (attendanceData s)) →
  NoDup (GuardProfile.id <$> guardStats s) →
  well_keyed (guards_panel s).
Proof.
  intros Hl Hg. unfold well_keyed, guards_panel. vdom.
  rewrite !bind_nil by done. rewrite !app_nil_r, <- !list_fmap_compose.
  repeat apply Forall_cons_2; [..|apply Forall_nil_2].
  - by apply (keys_ok_fmap (Lit ∘ Str ∘ LocProfile.location) LocProfile.location);
      [intros x y [= ->]|].
  - apply (keys_ok_fmap (Lit ∘ Str ∘ GuardProfile.id) GuardProfile.id);
      [by intros x y [= ->]|by apply NoDup_fmap_filter].
Qed.

Lemma compliance_keys_locations s :
  NoDup (LocProfile.location <$> Summary.locationCoverage (attendanceData s)) →
  well_keyed (locations_panel s).
Proof.
  intros Hl. unfold well_keyed, locations_panel. vdom.
  rewrite !bind_nil by done. rewrite !app_nil_r, <- !list_fmap_compose.
  apply Forall_singleton.
  by apply (keys_ok_fmap (Lit ∘ Str ∘ LocProfile.location) LocProfile.location);
    [intros x y [= ->]|].
Qed.

Lemma compliance_keys_panel s gs :
  NoDup (LocCompliance.location <$> byLocation (complianceMetrics s)) →
  well_keyed (compliance_panel_of s gs).
Proof.
  intros Hl. unfold well_keyed, compliance_panel_of. vdom.
  rewrite !bind_nil by done. rewrite !bind_imap_nil by done.
  rewrite !app_nil_r, <- !list_fmap_compose.
  repeat apply Forall_cons_2; [..|apply Forall_nil_2].
  - by apply (keys_ok_fmap (Lit ∘ Str ∘ LocCompliance.location)
                           LocCompliance.location); [intros x y [= ->]|].
  - apply (keys_ok_cells _ cell_key); [done|apply _].
Qed.

#[local] Opaque overview_panel guards_panel locations_panel.

Lemma handlers_of_dashboard s c :
  handlers (dashboard s c) =
  controls ++
  (if String.eqb (activeTab s) "guards" then [OnChange SetSearchTerm] else []) ++
  handlers c.
Proof.
  unfold dashboard. vdom.
  rewrite no_handlers_overview, search_of_guards_panel, no_handlers_locations.
  repeat case_match; by rewrite ?app_nil_r.
Qed.

Lemma offers_dashboard s c a :
  handlers c = [] → offers (dashboard s c) a ↔ allowed s a.
Proof.
  intros Hc. unfold offers. rewrite handlers_of_dashboard, Hc, app_nil_r.
  unfold controls. split.
  - intros (h & Hh & Hf). destruct (String.eqb_spec (activeTab s) "guards");
      set_unfold in Hh; destruct_or!; subst h; simpl in Hf;
      try (destruct Hf as [v <-]); try subst a; simpl; set_solver.
  - destruct a as [v|id|v]; simpl.
    + intros _. exists (OnChange SetSelectedDate). split; [set_solver|by exists v].
    + intros Hid. exists (OnClick (SetActiveTab id)). split; [|done]. set_solver.
    + intros ->. exists (OnChange SetSearchTerm). split; [set_solver|by exists v].
Qed.

(** The screen the early returns choose. *)
Lemma compliance_screen_cases s :
  screen s =
  if loading s then LoadingScreen
  else if Str.truthy (error s)
       then ErrorScreen ("Error loading dashboard: " +:+ default "" (error s))
       else DashboardScreen.
Proof.
  unfold screen, screen_of, Str.truthy. destruct (loading s); [done|].
  destruct (error s) as [e|]; [|done]. simpl. by destruct (String.eqb e "").
Qed.

Lemma compliance_render_cases s :
  render s =
  match screen s with
  | LoadingScreen => Ok loading_screen
  | ErrorScreen _ => Ok (error_screen s)
  | DashboardScreen =>
      dashboard s <$> guarded_res (String.eqb (activeTab s) "compliance")
                                  (compliance_panel s)
  end.
Proof.
  rewrite compliance_screen_cases. unfold render.
  destruct (loading s); [done|]. destruct (Str.truthy (error s)); [done|].
  by destruct (guarded_res _ _).
Qed.

(** What the page offers, on each screen. *)
Lemma offers_cases s t a :
  render s = Ok t →
  offers t a ↔ screen s = DashboardScreen ∧ allowed s a.
Proof.
  rewrite compliance_render_cases. destruct (screen s) eqn:Hs.
  - intros [= <-]. split; [|by intros [? _]]. by intros ?%offers_no_handlers.
  - intros [= <-]. split; [|by intros [? _]]. by intros ?%offers_no_handlers.
  - destruct (guarded_res _ _) as [c|e] eqn:Hc; [|done]. intros [= <-].
    rewrite (offers_dashboard s c a (no_handlers_compliance_child s c Hc)).
    naive_solver.
Qed.

(** The page cannot be built exactly when the compliance tab is open on
    the dashboard and no load has stored its metrics. *)
Lemma render_throws_cases s e :
  render s = Throw e ↔
  screen s = DashboardScreen ∧ activeTab s = "compliance" ∧
  complianceMetrics s = NotComputed ∧ e = TypeError "filter".
Proof.
  rewrite compliance_render_cases. unfold guarded_res, compliance_panel, byGuard.
  destruct (screen s); [naive_solver..|].
  destruct (String.eqb_spec (activeTab s) "compliance") as [->|Hne];
    [|naive_solver].
  destruct (complianceMetrics s); naive_solver.
Qed.

(** C13: The compliance dashboard offers a call exactly when it shows the
    dashboard and the call is one of a date, of one of the four tabs, or,
    with the guards tab open, of a search term. *)
Theorem compliance_render_offers s t a :
  render s = Ok t →
  offers t a ↔ screen s = DashboardScreen ∧ allowed s a.
Proof. apply offers_cases. Qed.

(** ** The keys of the arrays *)

Lemma compliance_key_lists_dashboard s c :
  key_lists (dashboard s c) =
  (Some ∘ (Lit ∘ Str ∘ Tab.id) <$> TABS) ::
  (if String.eqb (activeTab s) "overview"
   then key_lists (overview_panel s) else []) ++
  (if String.eqb (activeTab s) "guards"
   then key_lists (guards_panel s) else []) ++
  (if String.eqb (activeTab s) "locations"
   then key_lists (locations_panel s) else []) ++
  key_lists c.
Proof. unfold dashboard. vdom. by rewrite !app_nil_r. Qed.

Lemma compliance_tab_keys : keys_ok (Some ∘ (Lit ∘ Str ∘ Tab.id) <$> TABS).
Proof.
  apply (keys_ok_fmap (Lit ∘ Str ∘ Tab.id) Tab.id); [by intros x y [= ->]|].
  by apply (bool_decide_unpack _); vm_compute.
Qed.

Lemma compliance_keys_dashboard s c :
  well_formed s → well_keyed c → well_keyed (dashboard s c).
Proof.
  intros Hs Hc. unfold well_keyed. rewrite compliance_key_lists_dashboard.
  apply Forall_cons_2; [apply compliance_tab_keys|].
  rewrite !Forall_app. split_and!; [case_match..|done];
    [apply compliance_keys_overview|apply Forall_nil_2
    |apply compliance_keys_guards; by destruct Hs|apply Forall_nil_2
    |apply compliance_keys_locations; by destruct Hs|apply Forall_nil_2].
Qed.

(** The compliance panel takes its rows from [byLocation], which has the
    names of the locations on display. *)
Lemma compliance_keys_child s c :
  well_formed s →
  guarded_res (String.eqb (activeTab s) "compliance") (compliance_panel s) = Ok c →
  well_keyed c.
Proof.
  intros Hs. unfold guarded_res, compliance_panel.
  case_match; [|intros [= <-]; apply Forall_nil_2].
  destruct (byGuard _) as [gs|]; [|done]. intros [= <-].
  apply compliance_keys_panel. destruct Hs as [_ _ _ Hl _ _ Hm].
  destruct (complianceMetrics s) as [|r]; simpl; [constructor|].
  by rewrite Hm, byLocation_names.
Qed.

Lemma compliance_render_well_keyed s t :
  well_formed s → render s = Ok t → well_keyed t.
Proof.
  intros Hs. rewrite compliance_render_cases.
  destruct (screen s); [intros [= <-]; apply Forall_nil_2..|].
  destruct (guarded_res _ _) as [c|] eqn:Hc; [|done]. intros [= <-].
  apply compliance_keys_dashboard; [done|by apply (compliance_keys_child s)].
Qed.

(** ** From the page to the events *)

Section Visited.
Context `{DateLib} (parse : string → list row).

Lemma compliance_visited_steps s : visited parse s → reachable parse s.
Proof.
  induction 1 as [a b|s t a x y _ IH Ht Ha]; [constructor|].
  apply reachable_step; [done|].
  destruct (proj1 (offers_cases s t a Ht) Ha) as [Hs _].
  destruct a; simpl; by rewrite Hs.
Qed.

Lemma visited_settled s : visited parse s → settled s.
Proof.
  induction 1 as [a b|s t a x y _ IH Ht Ha].
  - by apply load_settles.
  - by apply step_settles.
Qed.

(** C15: The states the user brings the compliance dashboard to are states of
    the component as [ComplianceApp] lets it run, and every call the page
    offers is an event that is enabled there. *)
Theorem compliance_visited_reachable s t a activity attendance :
  visited parse s → render s = Ok t → offers t a →
  reachable parse s ∧ enabled s (event_of a activity attendance) = true ∧
  reachable parse (step parse s (event_of a activity attendance)).
Proof.
  intros Hs%compliance_visited_steps Ht Ha.
  destruct (proj1 (offers_cases s t a Ht) Ha) as [Hd _].
  assert (enabled s (event_of a activity attendance) = true) as He
    by (destruct a; simpl; by rewrite Hd).
  split_and!; [done..|]. by apply reachable_step.
Qed.

(** C14: When the page of a state the user has reached cannot be built, the
    compliance tab is open after every load so far has failed, the last
    one with an exception whose message is empty; the exception is the
    [TypeError] of [complianceMetrics.byGuard.filter]. *)
Theorem visited_render_throws s e :
  visited parse s → render s = Throw e →
  error s = Some "" ∧ activeTab s = "compliance" ∧
  complianceMetrics s = NotComputed ∧ e = TypeError "filter".
Proof.
  intros [_ Hdata]%visited_settled (Hs & Htab & Hm & ->)%render_throws_cases.
  split_and!; try done. rewrite compliance_screen_cases in Hs.
  destruct (loading s); [done|]. unfold Str.truthy in Hs.
  destruct (error s) as [msg|] eqn:He.
  - simpl in Hs. by destruct (String.eqb_spec msg ""); subst.
  - destruct (Hdata eq_refl) as (act & att & d & _ & Hd).
    unfold data_of in Hd. by rewrite Hm in Hd.
Qed.

(** C19: Every page the user brings the dashboard to gives each item of each
    array a key, and no two items of an array the same key: the tabs, the
    cells of the charts, the options of the location filter, and the rows
    of the guards, of the locations and of the compliance table. *)
Theorem compliance_visited_well_keyed s t :
  visited parse s → render s = Ok t → well_keyed t.
Proof.
  intros Hs%compliance_visited_steps%compliance_reachable_well_formed.
  by apply compliance_render_well_keyed.
Qed.

End Visited.

(** ** What the compliance tab shows of the locations *)

Lemma low_score_red x :
  x ∈ [Num.of_nat 0; Num.of_nat 33; Num.of_nat 67] →
  Num.geb x (Num.of_nat 90) = false ∧ Num.geb x (Num.of_nat 70) = false.
Proof. intros Hx. set_unfold in Hx. by destruct_or!; subst x. Qed.

Lemma count_if_none {A} (p : A → bool) (l : list A) :
  Forall (λ x, p x = false) l → count_if p l = 0.
Proof.
  induction 1 as [|x l Hx _ IH]; [done|]. by rewrite count_if_cons, Hx, IH.
Qed.

(** C24: No location of the table is shown as staffed or as compliant: the
    staffing cell reads "Non-Compliant", the bar of the score is red,
    and the card counts no compliant location. *)
Theorem locations_shown_red activities data ls gs s byGuard c :
  processLocationCoverage data = Ok ls →
  complianceMetrics s = Computed (calculateComplianceMetrics activities ls gs) →
  c ∈ ComplianceView.byLocation (complianceMetrics s) →
  texts (compliance_row c) !! 3 = Some (Str "Non-Compliant") ∧
  class_names (compliance_row c) !! 14 =
    Some (Tpl [Str "h-full rounded-full "; Str "bg-red-500"]) ∧
  texts (compliance_panel_of s byGuard) !! 3 = Some (Count 0) ∧
  texts (compliance_panel_of s byGuard) !! 4 = Some (Str "Compliant Locations").
Proof.
  intros Hls Hm Hc. rewrite Hm in Hc. simpl in Hc.
  pose proof (staffing_never_passes activities data ls gs Hls) as Hall.
  rewrite Forall_forall in Hall.
  destruct (Hall c Hc) as [Hstaff Hscore].
  destruct (low_score_red _ Hscore) as [H90 H70].
  split_and!.
  - cbn. by rewrite Hstaff.
  - cbn. by rewrite H90, H70.
  - unfold compliance_panel_of. cbn -[compliance_row]. rewrite Hm. simpl.
    do 2 f_equal. apply count_if_none.
    apply Forall_forall. intros c' Hc'. destruct (Hall c' Hc') as [_ Hlow].
    by destruct (low_score_red _ Hlow) as [-> _].
  - reflexivity.
Qed.

(** ** The chart of the guards *)

(** The chart of the overview receives the first ten guards, and no guard
    it leaves out has a higher score than one it shows. *)
Theorem top_performers_chart act att gs s :
  array_size act → array_size att →
  processGuardData act att = Ok gs → guardStats s = gs →
  datasets (overview_panel s) !! 2 = Some (GuardBar <$> take 10 gs) ∧
  ∀ g g', g ∈ take 10 gs → g' ∈ drop 10 gs →
          (score_key g ≤ score_key g')%Z.
Proof.
  intros Hact Hatt Hgs Hs. split; [by rewrite datasets_overview, Hs|].
  pose proof (processGuardData_sorted act att gs Hact Hatt Hgs) as Hsorted.
  rewrite <- (take_drop 10 gs) in Hsorted. intros g g'.
  exact (StronglySorted_app_1_elem_of _ _ _ g g' Hsorted).
Qed.

(** ** The theorems at work on a small export *)

(** The page of a state, when it can be built. *)
Definition page_of (s : State.t) : node datum :=
  match render s with Ok t => t | Throw _ => Txt "" end.

(** The state after the first load of the examples. *)
Definition sample_state : State.t :=
  Eval vm_compute in
    step sample_parse initial
      (Mounted (Responded true 200 "activity") (Responded true 200 "attendance")).

Definition sample_page : node datum := Eval vm_compute in page_of sample_state.

(** The state after a first load that was rejected without a message,
    and after a click on the compliance tab there. *)
Definition silent_failure : State.t :=
  Eval vm_compute in
    step sample_parse initial (Mounted (Rejected "") (Rejected "")).

Definition silent_page : node datum := Eval vm_compute in page_of silent_failure.

Definition silent_compliance : State.t :=
  Eval vm_compute in step sample_parse silent_failure (TabClicked "compliance").

Definition sample_row : LocCompliance.t :=
  Eval vm_compute in
    nth 0 (ComplianceView.byLocation (complianceMetrics sample_state))
          (LocCompliance.mk "" 0 0 0 Num.zero).

Lemma compliance_sample_page_ok : render sample_state = Ok sample_page.
Proof. vm_compute. reflexivity. Qed.

Lemma compliance_sample_visited : visited sample_parse sample_state.
Proof.
  exact (visited_mount sample_parse (Responded true 200 "activity")
           (Responded true 200 "attendance")).
Qed.

Lemma compliance_sample_offers : offers sample_page (SetActiveTab "compliance").
Proof.
  exists (OnClick (SetActiveTab "compliance")). split; [|done].
  vm_compute. do 4 right. left.
Qed.

Lemma silent_compliance_visited : visited sample_parse silent_compliance.
Proof.
  apply (visited_next sample_parse silent_failure silent_page
           (SetActiveTab "compliance") (Rejected "") (Rejected ""));
    [exact (visited_mount sample_parse (Rejected "") (Rejected ""))
    |vm_compute; reflexivity|].
  exists (OnClick (SetActiveTab "compliance")). split; [|done].
  vm_compute. do 4 right. left.
Qed.

Lemma compliance_render_offers_witness :
  offers sample_page (SetSearchTerm "asha") ↔
  screen sample_state = DashboardScreen ∧ allowed sample_state (SetSearchTerm "asha").
Proof. apply (compliance_render_offers sample_state), compliance_sample_page_ok. Defined.

Lemma compliance_visited_reachable_witness :
  let e := event_of (SetActiveTab "compliance") (Responded true 200 "activity")
                    (Responded true 200 "attendance") in
  reachable sample_parse sample_state ∧ enabled sample_state e = true ∧
  reachable sample_parse (step sample_parse sample_state e).
Proof.
  apply (compliance_visited_reachable sample_parse sample_state sample_page);
    [apply compliance_sample_visited|apply compliance_sample_page_ok
    |apply compliance_sample_offers].
Defined.

Lemma visited_render_throws_witness :
  error silent_compliance = Some "" ∧ activeTab silent_compliance = "compliance" ∧
  complianceMetrics silent_compliance = NotComputed ∧
  TypeError "filter" = TypeError "filter".
Proof.
  apply (visited_render_throws sample_parse silent_compliance);
    [apply silent_compliance_visited|vm_compute; reflexivity].
Defined.

Lemma locations_shown_red_witness :
  texts (compliance_row sample_row) !! 3 = Some (Str "Non-Compliant") ∧
  class_names (compliance_row sample_row) !! 14 =
    Some (Tpl [Str "h-full rounded-full "; Str "bg-red-500"]) ∧
  texts (compliance_panel_of sample_state []) !! 3 = Some (Count 0) ∧
  texts (compliance_panel_of sample_state []) !! 4 = Some (Str "Compliant Locations").
Proof.
  apply (locations_shown_red (activityData sample_state) sample_attendance
           (Summary.locationCoverage (attendanceData sample_state))
           (guardStats sample_state));
    [vm_compute; reflexivity|vm_compute; reflexivity|vm_compute; left].
Defined.

Lemma top_performers_chart_witness :
  datasets (overview_panel sample_state) !! 2 =
    Some (GuardBar <$> take 10 sample_profiles) ∧
  ∀ g g', g ∈ take 10 sample_profiles → g' ∈ drop 10 sample_profiles →
          (score_key g ≤ score_key g')%Z.
Proof.
  apply (top_performers_chart sample_day sample_attendance);
    [apply sample_sizes..|apply sample_ok|reflexivity].
Defined.

Lemma compliance_visited_well_keyed_witness : well_keyed sample_page.
Proof.
  apply (compliance_visited_well_keyed sample_parse sample_state);
    [apply compliance_sample_visited|apply compliance_sample_page_ok].
Defined.

End ComplianceView.
